(** * Packet DMA ring engine of the MediaTek Ethernet driver

    A shallow embedding of the transmit/receive ring code, the NAPI poll
    routines, the XDP hook and the DMA hang detector of
    [drivers/net/ethernet/mediatek/mtk_eth_soc.c], with the properties the
    ring-engine specification states about them (C1 to C10), and of the
    interrupt handlers, the hardware LRO address table and the device
    configuration entry points, with further properties read off the
    code (X1 to X26).

    Conventions.
    - A [u32] is a [Z]; where the C arithmetic can wrap the reduction
      modulo 2^32 is written out ([u32], and [s32] and [ulong] for the
      [int] and [unsigned long] sizes of the device configuration).
    - A pointer into a descriptor ring is the index of the slot it points
      to; the bus address stored in [txd2] is kept as the code writes it
      and turned back into a slot by [mtk_qdma_phys_to_virt].
    - Everything the driver obtains from its environment (register reads,
      DMA mapping results, allocator results, the verdict of the attached
      program) is an explicit input of the function that consumes it.
    - Constants and macros of [mtk_eth_soc.h] are Section variables: the
      header is not part of the sources under study, and no theorem below
      depends on their numeric value unless it says so. *)

From Stdlib Require Import ZArith List Bool Lia.
From stdpp Require Import base tactics option list numbers gmultiset.

Local Open Scope Z_scope.

(** ** Kernel-wide bit helpers ([linux/bits.h], [linux/bitfield.h]) *)

Definition u32 (x : Z) : Z := x mod 2 ^ 32.

Definition BIT (n : Z) : Z := Z.shiftl 1 n.

Definition GENMASK (h l : Z) : Z := Z.shiftl (Z.ones (h - l + 1)) l.

(** [__bf_shf]: position of the lowest set bit of a mask. *)
Definition bf_shf (mask : Z) : Z := Z.log2 (Z.land mask (- mask)).

Definition FIELD_GET (mask v : Z) : Z := Z.shiftr (Z.land v mask) (bf_shf mask).

Definition FIELD_PREP (mask v : Z) : Z := Z.land (Z.shiftl v (bf_shf mask)) mask.

(** A C scalar used as a truth value. *)
Definition nonzero (x : Z) : bool := negb (x =? 0).

(** ** Hang detector: [mtk_hw_check_dma_hang] *)

Module Hang.

(** [eth->reset]: the last WDMA index seen and the three streak counters. *)
Record reset_state := {
  wdidx : Z;
  wdma_hang_count : Z;
  qdma_hang_count : Z;
  adma_hang_count : Z
}.

(** The registers one check reads, named after the expression that reads
    them.  One check sees one snapshot of the register file. *)
Record hang_regs := {
  r_wdma_idx : Z;        (* wdma_base[0] + 0xc *)
  r_wdma_glo : Z;        (* wdma_base[0] + 0x204 *)
  r_wdma_fifo : Z;       (* wdma_base[0] + 0x230 *)
  r_pse_oq_sta : Z;      (* pse_oq_sta *)
  r_pse_oq_sta4 : Z;     (* pse_oq_sta + 0x4 *)
  r_pse_oq_sta10 : Z;    (* pse_oq_sta + 0x10 *)
  r_qtx_234 : Z;         (* qdma.qtx_cfg + 0x234 *)
  r_qtx_308 : Z;         (* qdma.qtx_cfg + 0x308 *)
  r_gdm1_fsm : Z;        (* MTK_FE_GDM1_FSM *)
  r_gdm2_fsm : Z;        (* MTK_FE_GDM2_FSM *)
  r_mac_fsm0 : Z;        (* MTK_MAC_FSM(0) *)
  r_mac_fsm1 : Z;        (* MTK_MAC_FSM(1) *)
  r_gdm1_fc : Z;         (* gdm1_cnt + 0x24 *)
  r_gdm2_fc : Z;         (* gdm1_cnt + 0x64 *)
  r_cdm1_fsm : Z;        (* MTK_FE_CDM1_FSM *)
  r_adma_rx_dbg0 : Z     (* pdma.adma_rx_dbg0 *)
}.

Definition fresh : reset_state :=
  {| wdidx := 0; wdma_hang_count := 0; qdma_hang_count := 0;
     adma_hang_count := 0 |}.

(** The three stall signatures. *)
Inductive signature := WDMA | QDMA | ADMA.

#[global] Instance signature_eq_dec : EqDecision signature.
Proof. solve_decision. Defined.

Section WithHeader.

(** Field masks of [mtk_eth_soc.h]. *)
Variable MTK_TX_DMA_BUSY : Z.
Variable MTK_CDM_TXFIFO_RDY : Z.

(** WDMA sanity checks. *)
Definition wdma_cond (st : reset_state) (r : hang_regs) : bool :=
  let wtx_busy := nonzero (FIELD_GET MTK_TX_DMA_BUSY (r_wdma_glo r)) in
  let cdm_full := negb (nonzero (FIELD_GET MTK_CDM_TXFIFO_RDY (r_wdma_fifo r))) in
  let oq_free :=
    negb (nonzero (Z.land (r_pse_oq_sta r) (GENMASK 24 16))) &&
    negb (nonzero (Z.land (r_pse_oq_sta4 r) (GENMASK 8 0))) &&
    negb (nonzero (Z.land (r_pse_oq_sta10 r) (GENMASK 24 16))) in
  (r_wdma_idx r =? wdidx st) && wtx_busy && cdm_full && oq_free.

(** QDMA sanity checks. *)
Definition qdma_cond (r : hang_regs) : bool :=
  let qfsm_hang := nonzero (r_qtx_234 r) in
  let qfwd_hang := negb (nonzero (r_qtx_308 r)) in
  let gdm1_tx := 0 <? FIELD_GET (GENMASK 31 16) (r_gdm1_fsm r) in
  let gdm2_tx := 0 <? FIELD_GET (GENMASK 31 16) (r_gdm2_fsm r) in
  let gmac1_tx := negb (FIELD_GET (GENMASK 31 24) (r_mac_fsm0 r) =? 1) in
  let gmac2_tx := negb (FIELD_GET (GENMASK 31 24) (r_mac_fsm1 r) =? 1) in
  let gdm1_fc := r_gdm1_fc r in
  let gdm2_fc := r_gdm2_fc r in
  qfsm_hang && qfwd_hang &&
  ((gdm1_tx && gmac1_tx && (gdm1_fc <? 1)) ||
   (gdm2_tx && gmac2_tx && (gdm2_fc <? 1))).

(** ADMA sanity checks. *)
Definition adma_cond (r : hang_regs) : bool :=
  let oq_hang := nonzero (Z.land (r_pse_oq_sta r) (GENMASK 8 0)) in
  let cdm1_busy := nonzero (Z.land (r_cdm1_fsm r) (GENMASK 31 16)) in
  let adma_busy :=
    negb (nonzero (Z.land (r_adma_rx_dbg0 r) (GENMASK 4 0))) &&
    negb (nonzero (Z.land (r_adma_rx_dbg0 r) (BIT 6))) in
  oq_hang && cdm1_busy && adma_busy.

(** [mtk_hw_check_dma_hang]: the verdict and the updated [eth->reset].
    [mt7628] is [MTK_HAS_CAPS(eth->soc->caps, MTK_SOC_MT7628)]. *)
Definition mtk_hw_check_dma_hang (mt7628 : bool) (st : reset_state)
    (r : hang_regs) : bool * reset_state :=
  if mt7628 then (false, st)
  else
    let wdidx' := r_wdma_idx r in
    if wdma_cond st r then
      let c := wdma_hang_count st + 1 in
      if 2 <? c
      then (true, {| wdidx := wdidx'; wdma_hang_count := 0;
                     qdma_hang_count := qdma_hang_count st;
                     adma_hang_count := adma_hang_count st |})
      else (false, {| wdidx := wdidx'; wdma_hang_count := c;
                      qdma_hang_count := qdma_hang_count st;
                      adma_hang_count := adma_hang_count st |})
    else if qdma_cond r then
      let c := qdma_hang_count st + 1 in
      if 2 <? c
      then (true, {| wdidx := wdidx'; wdma_hang_count := wdma_hang_count st;
                     qdma_hang_count := 0;
                     adma_hang_count := adma_hang_count st |})
      else (false, {| wdidx := wdidx'; wdma_hang_count := wdma_hang_count st;
                      qdma_hang_count := c;
                      adma_hang_count := adma_hang_count st |})
    else if adma_cond r then
      let c := adma_hang_count st + 1 in
      if 2 <? c
      then (true, {| wdidx := wdidx'; wdma_hang_count := wdma_hang_count st;
                     qdma_hang_count := qdma_hang_count st;
                     adma_hang_count := 0 |})
      else (false, {| wdidx := wdidx'; wdma_hang_count := wdma_hang_count st;
                      qdma_hang_count := qdma_hang_count st;
                      adma_hang_count := c |})
    else
      (false, {| wdidx := wdidx'; wdma_hang_count := 0;
                 qdma_hang_count := 0; adma_hang_count := 0 |}).

(** The signature a check is charged to: the first one, in the order the
    code tests them, whose condition holds. *)
Definition charged (st : reset_state) (r : hang_regs) : option signature :=
  if wdma_cond st r then Some WDMA
  else if qdma_cond r then Some QDMA
  else if adma_cond r then Some ADMA
  else None.

Definition counter (s : signature) (st : reset_state) : Z :=
  match s with
  | WDMA => wdma_hang_count st
  | QDMA => qdma_hang_count st
  | ADMA => adma_hang_count st
  end.

Definition holds (s : signature) (st : reset_state) (r : hang_regs) : bool :=
  match s with
  | WDMA => wdma_cond st r
  | QDMA => qdma_cond r
  | ADMA => adma_cond r
  end.

(** One run of the check as the monitor sees it. *)
Record check_event := {
  ev_before : reset_state;
  ev_regs : hang_regs;
  ev_ret : bool;
  ev_after : reset_state
}.

(** The periodic monitor ([mtk_hw_reset_monitor_work] outside a reset): one
    check per snapshot, each starting from the state the previous one left. *)
Fixpoint monitor (st : reset_state) (obs : list hang_regs) : list check_event :=
  match obs with
  | [] => []
  | r :: obs' =>
      let res := mtk_hw_check_dma_hang false st r in
      {| ev_before := st; ev_regs := r; ev_ret := res.1; ev_after := res.2 |}
        :: monitor res.2 obs'
  end.

Definition ev_charged (e : check_event) : option signature :=
  charged (ev_before e) (ev_regs e).

(** Number of checks of a run charged to signature [s]. *)
Definition hits (s : signature) (tr : list check_event) : nat :=
  length (filter (fun e => ev_charged e = Some s) tr).

Definition declared (tr : list check_event) : bool := existsb ev_ret tr.

(** The streak rule in the specification's words: a counter is zero after
    any check in which its own condition was false ... *)
Definition reset_when_false (tr : list check_event) : Prop :=
  forall (k : nat) e s,
    tr !! k = Some e ->
    holds s (ev_before e) (ev_regs e) = false ->
    counter s (ev_after e) = 0.

(** ... and a hang is declared only at the third of three consecutive
    checks in which one and the same signature's condition held. *)
Definition three_consecutive (tr : list check_event) : Prop :=
  forall (k : nat) e,
    tr !! k = Some e ->
    ev_ret e = true ->
    (2 <= k)%nat /\
    exists s, forall j : nat, (j <= 2)%nat ->
      exists e', tr !! (k - j)%nat = Some e' /\
                 holds s (ev_before e') (ev_regs e') = true.

(** What one check does to the counters. *)
Definition check_effect (e : check_event) : Prop :=
  wdidx (ev_after e) = r_wdma_idx (ev_regs e) /\
  match ev_charged e with
  | None =>
      ev_ret e = false /\ forall s, counter s (ev_after e) = 0
  | Some s =>
      let c := counter s (ev_before e) + 1 in
      ev_ret e = (2 <? c) /\
      counter s (ev_after e) = (if 2 <? c then 0 else c) /\
      forall s', s' <> s -> counter s' (ev_after e) = counter s' (ev_before e)
  end.

End WithHeader.

(** Snapshots used in the examples: one in which only the WDMA signature
    holds, one in which only the QDMA signature holds. *)
Definition quiet_regs : hang_regs :=
  {| r_wdma_idx := 0; r_wdma_glo := 0; r_wdma_fifo := 0; r_pse_oq_sta := 0;
     r_pse_oq_sta4 := 0; r_pse_oq_sta10 := 0; r_qtx_234 := 0; r_qtx_308 := 0;
     r_gdm1_fsm := 0; r_gdm2_fsm := 0; r_mac_fsm0 := 0; r_mac_fsm1 := 0;
     r_gdm1_fc := 0; r_gdm2_fc := 0; r_cdm1_fsm := 0; r_adma_rx_dbg0 := 0 |}.

Definition wdma_regs : hang_regs :=
  {| r_wdma_idx := 0; r_wdma_glo := 1; r_wdma_fifo := 0; r_pse_oq_sta := 0;
     r_pse_oq_sta4 := 0; r_pse_oq_sta10 := 0; r_qtx_234 := 0; r_qtx_308 := 0;
     r_gdm1_fsm := 0; r_gdm2_fsm := 0; r_mac_fsm0 := 0; r_mac_fsm1 := 0;
     r_gdm1_fc := 0; r_gdm2_fc := 0; r_cdm1_fsm := 0; r_adma_rx_dbg0 := 0 |}.

Definition qdma_regs : hang_regs :=
  {| r_wdma_idx := 0; r_wdma_glo := 0; r_wdma_fifo := 0; r_pse_oq_sta := 0;
     r_pse_oq_sta4 := 0; r_pse_oq_sta10 := 0; r_qtx_234 := 1; r_qtx_308 := 0;
     r_gdm1_fsm := 0x10000; r_gdm2_fsm := 0; r_mac_fsm0 := 0; r_mac_fsm1 := 0;
     r_gdm1_fc := 0; r_gdm2_fc := 0; r_cdm1_fsm := 0; r_adma_rx_dbg0 := 0 |}.

(** The header's values of the two WDMA masks in the examples (bit 0 and
    bit 7). *)
Definition busy_mask : Z := BIT 0.
Definition fifo_rdy_mask : Z := BIT 7.

(** *** Properties *)

Lemma check_effect_step busy rdy st r :
  check_effect busy rdy
    {| ev_before := st; ev_regs := r;
       ev_ret := (mtk_hw_check_dma_hang busy rdy false st r).1;
       ev_after := (mtk_hw_check_dma_hang busy rdy false st r).2 |}.
Proof.
  unfold check_effect, ev_charged, charged, mtk_hw_check_dma_hang; simpl.
  destruct (wdma_cond busy rdy st r); [|destruct (qdma_cond r); [|destruct (adma_cond r)]];
    cbn [counter].
  - destruct (2 <? wdma_hang_count st + 1); cbn;
      (split; [reflexivity|split; [reflexivity|split; [reflexivity|]]]);
      intros [] ?; cbn; congruence.
  - destruct (2 <? qdma_hang_count st + 1); cbn;
      (split; [reflexivity|split; [reflexivity|split; [reflexivity|]]]);
      intros [] ?; cbn; congruence.
  - destruct (2 <? adma_hang_count st + 1); cbn;
      (split; [reflexivity|split; [reflexivity|split; [reflexivity|]]]);
      intros [] ?; cbn; congruence.
  - cbn. split; [reflexivity|split; [reflexivity|]]. intros []; reflexivity.
Qed.

Lemma monitor_effect busy rdy obs : forall st e,
  e ∈ monitor busy rdy st obs -> check_effect busy rdy e.
Proof.
  induction obs as [|r obs IH]; intros st e He; simpl in He.
  - inversion He.
  - apply elem_of_cons in He as [->|He].
    + apply check_effect_step.
    + eapply IH; eassumption.
Qed.

Lemma hits_cons busy rdy s e tr :
  hits busy rdy s (e :: tr) =
  ((if bool_decide (ev_charged busy rdy e = Some s) then 1 else 0)
   + hits busy rdy s tr)%nat.
Proof.
  unfold hits. rewrite filter_cons.
  destruct (decide (ev_charged busy rdy e = Some s)) as [E|E].
  - rewrite bool_decide_eq_true_2 by exact E. reflexivity.
  - rewrite bool_decide_eq_false_2 by exact E. reflexivity.
Qed.

(** A run in which the counters plus the charges still to come stay at two
    or below never declares a hang. *)
Lemma monitor_quiet busy rdy obs : forall st,
  (forall s, 0 <= counter s st /\
             counter s st + Z.of_nat (hits busy rdy s (monitor busy rdy st obs)) <= 2) ->
  declared (monitor busy rdy st obs) = false.
Proof.
  induction obs as [|r obs IH]; intros st Hinv; [reflexivity|].
  cbn [monitor declared existsb ev_ret].
  pose proof (check_effect_step busy rdy st r) as [_ Heff].
  set (res := mtk_hw_check_dma_hang busy rdy false st r) in *.
  assert (Hh : forall s,
    hits busy rdy s (monitor busy rdy st (r :: obs)) =
    ((if bool_decide (charged busy rdy st r = Some s) then 1 else 0)
     + hits busy rdy s (monitor busy rdy res.2 obs))%nat).
  { intros s. cbn [monitor]. rewrite hits_cons. reflexivity. }
  unfold ev_charged in Heff; cbn [ev_before ev_regs ev_ret ev_after] in Heff.
  destruct (charged busy rdy st r) as [s0|] eqn:Ec.
  - destruct Heff as (Hret & Hc & Hother).
    pose proof (Hinv s0) as [H0 H2]. rewrite Hh in H2.
    rewrite bool_decide_eq_true_2 in H2 by reflexivity.
    assert (Hlt : (2 <? counter s0 st + 1) = false) by (apply Z.ltb_ge; lia).
    rewrite Hret, Hlt. cbn [orb].
    apply IH. intros s. destruct (decide (s = s0)) as [->|Hne].
    + rewrite Hc, Hlt. lia.
    + rewrite (Hother s Hne). pose proof (Hinv s) as [? Hs]. rewrite Hh in Hs.
      rewrite bool_decide_eq_false_2 in Hs by congruence. lia.
  - destruct Heff as (Hret & Hz). rewrite Hret. cbn [orb].
    apply IH. intros s. rewrite Hz. pose proof (Hinv s) as [? Hs].
    rewrite Hh in Hs. rewrite bool_decide_eq_false_2 in Hs by congruence. lia.
Qed.

(** C2 (as amended): the streak counters of one check and of a run.  All
    three counters are zeroed by a check in which no signature holds; a
    check in which some signature holds advances only the counter of the
    first holding one (order WDMA, QDMA, ADMA) and leaves the other two as
    they are; the hang is declared exactly when that counter reaches three,
    and the counter then restarts from zero.  From zeroed counters, a run
    that charges no signature more than twice declares no hang. *)
Theorem hang_streak_counters busy rdy (obs : list hang_regs) :
  (forall e, e ∈ monitor busy rdy fresh obs -> check_effect busy rdy e) /\
  ((forall s, (hits busy rdy s (monitor busy rdy fresh obs) <= 2)%nat) ->
   declared (monitor busy rdy fresh obs) = false).
Proof.
  split.
  - intros e He. eapply monitor_effect; eassumption.
  - intros Hh. apply monitor_quiet. intros s. specialize (Hh s).
    destruct s; simpl; lia.
Qed.

(** Two signatures, each seen twice and never twice in a row: no hang. *)
Lemma hang_streak_counters_witness :
  declared (monitor busy_mask fifo_rdy_mask fresh
              [wdma_regs; qdma_regs; wdma_regs; qdma_regs]) = false.
Proof.
  apply (hang_streak_counters busy_mask fifo_rdy_mask
           [wdma_regs; qdma_regs; wdma_regs; qdma_regs]).
  intros []; vm_compute; lia.
Defined.

(** C2 (as stated) fails on the run WDMA, QDMA, WDMA, QDMA, WDMA: the WDMA
    counter keeps its value through the checks in which the WDMA condition
    is false, and the fifth check declares a hang although the WDMA
    condition did not hold at the fourth. *)
Lemma hang_streak_counterexample :
  let tr := monitor busy_mask fifo_rdy_mask fresh
              [wdma_regs; qdma_regs; wdma_regs; qdma_regs; wdma_regs] in
  ~ reset_when_false busy_mask fifo_rdy_mask tr /\
  ~ three_consecutive busy_mask fifo_rdy_mask tr.
Proof.
  intros tr.
  assert (E : tr = ltac:(let v := eval vm_compute in tr in exact v))
    by (vm_compute; reflexivity).
  rewrite E; clear E tr.
  split.
  - intros H.
    specialize (H 1%nat _ WDMA eq_refl (eq_refl false)).
    vm_compute in H. discriminate.
  - intros H.
    destruct (H 4%nat _ eq_refl eq_refl) as (_ & s & Hs).
    destruct s.
    + destruct (Hs 1%nat ltac:(lia)) as (e' & He' & Hc).
      injection He' as <-. vm_compute in Hc. discriminate.
    + destruct (Hs 0%nat ltac:(lia)) as (e' & He' & Hc).
      injection He' as <-. vm_compute in Hc. discriminate.
    + destruct (Hs 0%nat ltac:(lia)) as (e' & He' & Hc).
      injection He' as <-. vm_compute in Hc. discriminate.
Qed.

(** *** How often a hang is declared *)

(** The hangs a run declares on signature [s]. *)
Definition hangs (busy rdy : Z) (s : signature) (tr : list check_event) : nat :=
  length (filter (fun e => ev_ret e = true /\ ev_charged busy rdy e = Some s) tr).

(** The state a run of the monitor leaves. *)
Fixpoint monitor_end (busy rdy : Z) (st : reset_state) (obs : list hang_regs) : reset_state :=
  match obs with
  | [] => st
  | r :: obs' => monitor_end busy rdy (mtk_hw_check_dma_hang busy rdy false st r).2 obs'
  end.

Lemma hangs_cons busy rdy s e tr :
  hangs busy rdy s (e :: tr) =
  ((if ev_ret e && bool_decide (ev_charged busy rdy e = Some s) then 1 else 0)
   + hangs busy rdy s tr)%nat.
Proof.
  unfold hangs. rewrite filter_cons.
  destruct (decide (ev_ret e = true /\ ev_charged busy rdy e = Some s)) as [[E1 E2]|E].
  - rewrite E1, bool_decide_eq_true_2 by exact E2. reflexivity.
  - destruct (ev_ret e); [|reflexivity].
    rewrite bool_decide_eq_false_2; [reflexivity|].
    intros E2. apply E. split; [reflexivity|exact E2].
Qed.

(** Between two all-clear checks every counter is the number of charges
    of its signature modulo three, and every third charge declares a
    hang. *)
Lemma monitor_every_third busy rdy obs : forall st,
  (forall s, 0 <= counter s st <= 2) ->
  (forall e, e ∈ monitor busy rdy st obs -> ev_charged busy rdy e <> None) ->
  forall s,
    counter s st + Z.of_nat (hits busy rdy s (monitor busy rdy st obs)) =
      3 * Z.of_nat (hangs busy rdy s (monitor busy rdy st obs)) +
      counter s (monitor_end busy rdy st obs) /\
    0 <= counter s (monitor_end busy rdy st obs) <= 2.
Proof.
  induction obs as [|r obs IH]; intros st Hst Hch s.
  - cbn. specialize (Hst s). lia.
  - cbn [monitor monitor_end]. rewrite hits_cons, hangs_cons.
    cbn [ev_ret]. unfold ev_charged. cbn [ev_before ev_regs].
    pose proof (check_effect_step busy rdy st r) as [_ Heff].
    unfold ev_charged in Heff; cbn [ev_before ev_regs ev_ret ev_after] in Heff.
    assert (Hnone : charged busy rdy st r <> None).
    { apply (Hch {| ev_before := st; ev_regs := r;
                    ev_ret := (mtk_hw_check_dma_hang busy rdy false st r).1;
                    ev_after := (mtk_hw_check_dma_hang busy rdy false st r).2 |}).
      cbn [monitor]. apply elem_of_cons. left. reflexivity. }
    set (res := mtk_hw_check_dma_hang busy rdy false st r) in *.
    destruct (charged busy rdy st r) as [s0|] eqn:Ec; [|contradiction].
    destruct Heff as (Hret & Hc & Hother).
    assert (Hst' : forall s', 0 <= counter s' res.2 <= 2).
    { intros s'. destruct (decide (s' = s0)) as [->|Hne].
      - rewrite Hc. specialize (Hst s0).
        destruct (Z.ltb_spec 2 (counter s0 st + 1)); lia.
      - rewrite (Hother s' Hne). apply Hst. }
    destruct (IH res.2 Hst') with (s := s) as [Hsum Hb].
    { intros e He. apply Hch. cbn [monitor]. apply elem_of_cons. right. exact He. }
    split; [|exact Hb].
    destruct (decide (s0 = s)) as [->|Hne].
    + rewrite bool_decide_eq_true_2 by reflexivity. rewrite andb_true_r, Hret.
      rewrite Hc in Hsum. specialize (Hst s).
      destruct (Z.ltb_spec 2 (counter s st + 1)); lia.
    + rewrite bool_decide_eq_false_2 by congruence. rewrite andb_false_r.
      rewrite (Hother s) in Hsum by congruence. lia.
Qed.

(** X9: in a run of the monitor from zeroed counters in which every
    check finds some stall signature, a hang is declared at every third
    check charged to the same signature, consecutive or not: for each
    signature the number of checks charged to it is three times the
    number of hangs declared on it plus its counter at the end, which is
    at most two. *)
Theorem hang_every_third_charge busy rdy (obs : list hang_regs) (s : signature) :
  (forall e, e ∈ monitor busy rdy fresh obs -> ev_charged busy rdy e <> None) ->
  Z.of_nat (hits busy rdy s (monitor busy rdy fresh obs)) =
    3 * Z.of_nat (hangs busy rdy s (monitor busy rdy fresh obs)) +
    counter s (monitor_end busy rdy fresh obs) /\
  0 <= counter s (monitor_end busy rdy fresh obs) <= 2.
Proof.
  intros Hch.
  destruct (monitor_every_third busy rdy obs fresh) with (s := s) as [Hsum Hb].
  - intros []; cbn; lia.
  - exact Hch.
  - split; [|exact Hb].
    assert (H0 : counter s fresh = 0) by (destruct s; reflexivity).
    rewrite H0 in Hsum. lia.
Qed.

(** Seven checks, alternating between two signatures: the bridging
    signature is charged four times and declares one hang, at its third
    charge. *)
Lemma hang_every_third_charge_witness :
  hits busy_mask fifo_rdy_mask WDMA
    (monitor busy_mask fifo_rdy_mask fresh
       [wdma_regs; qdma_regs; wdma_regs; qdma_regs; wdma_regs; qdma_regs; wdma_regs]) = 4%nat /\
  Z.of_nat (hangs busy_mask fifo_rdy_mask WDMA
    (monitor busy_mask fifo_rdy_mask fresh
       [wdma_regs; qdma_regs; wdma_regs; qdma_regs; wdma_regs; qdma_regs; wdma_regs])) = 1.
Proof.
  destruct (hang_every_third_charge busy_mask fifo_rdy_mask
              [wdma_regs; qdma_regs; wdma_regs; qdma_regs; wdma_regs; qdma_regs; wdma_regs]
              WDMA) as [Hsum Hb].
  - intros e He.
    repeat (apply elem_of_cons in He as [->|He]; [vm_compute; discriminate|]).
    inversion He.
  - assert (Hh : hits busy_mask fifo_rdy_mask WDMA
                   (monitor busy_mask fifo_rdy_mask fresh
                      [wdma_regs; qdma_regs; wdma_regs; qdma_regs; wdma_regs; qdma_regs;
                       wdma_regs]) = 4%nat) by (vm_compute; reflexivity).
    split; [exact Hh|]. rewrite Hh in Hsum. lia.
Defined.

End Hang.
(** ** Transmit ring *)

Module Tx.

(** *** Constants and macros of [mtk_eth_soc.h] and of the kernel
    configuration the ring code uses.  [TX_DMA_PLEN0], [TX_DMA_PLEN1] and
    [TX_DMA_PREP_ADDR64] are the header's macros, which read
    [eth->soc->tx]; [NEXT_DESP_IDX x y] is the header's ring-index
    successor. *)
Record header := {
  TX_DMA_OWNER_CPU : Z;
  TX_DMA_LS0 : Z;
  TX_DMA_LS1 : Z;
  TX_DMA_SWC : Z;
  TX_DMA_PQID : Z;
  TX_DMA_FPORT_SHIFT : Z;
  TX_DMA_TSO : Z;
  TX_DMA_CHKSUM : Z;
  TX_DMA_INS_VLAN : Z;
  TX_DMA_DESP2_DEF : Z;
  TX_DMA_FPORT_SHIFT_V2 : Z;
  TX_DMA_SWC_V2 : Z;
  TX_DMA_TSO_V2 : Z;
  TX_DMA_CHKSUM_V2 : Z;
  TX_DMA_SPTAG_V3 : Z;
  TX_DMA_INS_VLAN_V2 : Z;
  PSE_GDM1_PORT : Z;
  PSE_GDM2_PORT : Z;
  PSE_GDM3_PORT : Z;
  QID_BITS_V2 : Z -> Z;
  TX_DMA_PLEN0 : Z -> Z -> Z -> Z;     (* dma_max_len, dma_len_offset, x *)
  TX_DMA_PLEN1 : Z -> Z -> Z -> Z;
  TX_DMA_PREP_ADDR64 : Z -> Z;
  MTK_TX_FLAGS_SINGLE0 : Z;
  MTK_TX_FLAGS_PAGE0 : Z;
  MTK_QDMA_RING_SIZE : Z;
  MAX_SKB_FRAGS : Z;
  NEXT_DESP_IDX : Z -> Z -> Z;
  sizeof_xdp_frame : Z
}.

(** [errno] values and [netdev_tx_t]. *)
Definition ENOMEM : Z := 12.
Definition EBUSY : Z := 16.

Inductive netdev_tx_t := NETDEV_TX_OK | NETDEV_TX_BUSY.

(** MAC identifiers ([MTK_GMAC1_ID] ...). *)
Definition MTK_GMAC1_ID : Z := 0.
Definition MTK_GMAC2_ID : Z := 1.
Definition MTK_GMAC3_ID : Z := 2.

(** *** [struct mtk_soc_data]: the capabilities and the [tx] block *)
Record mtk_soc_data := {
  caps_qdma : bool;        (* MTK_HAS_CAPS(caps, MTK_QDMA) *)
  caps_36bit_dma : bool;   (* MTK_HAS_CAPS(caps, MTK_36BIT_DMA) *)
  version : Z;
  tx_desc_size : Z;
  tx_dma_max_len : Z;
  tx_dma_len_offset : Z;
  tx_dma_size : Z
}.

Definition mtk_is_netsys_v2_or_greater (soc : mtk_soc_data) : bool :=
  1 <? version soc.

Definition mtk_is_netsys_v3_or_greater (soc : mtk_soc_data) : bool :=
  2 <? version soc.

(** *** Descriptors and per-slot bookkeeping *)

(** [struct mtk_tx_dma_v2]; [struct mtk_tx_dma] is its first four words. *)
Record mtk_tx_dma := {
  txd1 : Z; txd2 : Z; txd3 : Z; txd4 : Z;
  txd5 : Z; txd6 : Z; txd7 : Z; txd8 : Z
}.

Definition zero_desc : mtk_tx_dma :=
  {| txd1 := 0; txd2 := 0; txd3 := 0; txd4 := 0;
     txd5 := 0; txd6 := 0; txd7 := 0; txd8 := 0 |}.

#[global] Instance mtk_tx_dma_inhabited : Inhabited mtk_tx_dma :=
  populate zero_desc.

Inductive mtk_tx_buf_type := MTK_TYPE_SKB | MTK_TYPE_XDP_TX | MTK_TYPE_XDP_NDO.

#[global] Instance mtk_tx_buf_type_eq_dec : EqDecision mtk_tx_buf_type.
Proof. solve_decision. Defined.

(** What the completion path reads of the packet or frame a head slot
    points to. *)
Record tx_object := {
  obj_id : Z;
  obj_len : Z;             (* skb->len *)
  obj_queue : Z            (* skb_get_queue_mapping(skb) *)
}.

(** [tx_buf->data]: NULL, the [MTK_DMA_DUMMY_DESC] sentinel, or a pointer
    to a packet or frame. *)
Inductive data_ptr :=
| NullPtr
| DummyDesc
| ObjPtr (o : tx_object).

Record mtk_tx_buf := {
  type : mtk_tx_buf_type;
  data : data_ptr;
  mac_id : Z;
  flags : Z;
  dma_addr0 : Z;
  dma_len0 : Z;
  dma_addr1 : Z;
  dma_len1 : Z
}.

(** A [tx_buf] cleared by [memset] to all zero bytes. *)
Definition zero_buf : mtk_tx_buf :=
  {| type := MTK_TYPE_SKB; data := NullPtr; mac_id := 0; flags := 0;
     dma_addr0 := 0; dma_len0 := 0; dma_addr1 := 0; dma_len1 := 0 |}.

#[global] Instance mtk_tx_buf_inhabited : Inhabited mtk_tx_buf :=
  populate zero_buf.

(** [struct mtk_tx_ring].  [next_free] and [last_free] point into [dma]
    and are kept as slot indices. *)
Record mtk_tx_ring := {
  dma : list mtk_tx_dma;
  dma_pdma : list mtk_tx_dma;
  phys : Z;
  phys_pdma : Z;
  buf : list mtk_tx_buf;
  next_free : nat;
  last_free : nat;
  last_free_ptr : Z;
  thresh : Z;
  free_count : Z;
  dma_size : Z;
  cpu_idx : Z
}.

(** The registers the transmit path writes or reads. *)
Record tx_regs := {
  qdma_ctx_ptr : Z;
  qdma_dtx_ptr : Z;
  qdma_crx_ptr : Z;
  qdma_drx_ptr : Z;
  MT7628_TX_CTX_IDX0 : Z;
  MT7628_TX_DTX_IDX0 : Z
}.

(** How a packet or frame left the driver. *)
Inductive release_event :=
| napi_consume_skb (o : tx_object)
| dev_kfree_skb_any (o : tx_object)
| xdp_return_frame_rx_napi (o : tx_object)
| xdp_return_frame_bulk (o : tx_object)
| xdp_return_frame (o : tx_object).

(** [struct net_device], as far as the ring code touches it. *)
Record net_device := {
  tx_dropped : Z;
  rx_dropped : Z;
  queues_stopped : bool;   (* netif_tx_stop_all_queues / wake *)
  uses_dsa : bool
}.

(** BQL notifications: [netdev_tx_sent_queue] and
    [netdev_tx_completed_queue] with device, queue, packets and bytes. *)
Inductive bql_event :=
| tx_sent (dev queue bytes : Z)
| tx_completed (dev queue pkts bytes : Z).

(** [struct mtk_eth] together with the state of its collaborators: the
    DMA API (the active mappings and the number of mapping requests so
    far), the packets and frames released, the BQL notifications. *)
Record mtk_eth := {
  soc : mtk_soc_data;
  resetting : bool;          (* test_bit(MTK_RESETTING, &eth->state) *)
  tx_ring : mtk_tx_ring;
  regs : tx_regs;
  netdev : list (option net_device);
  tx_packets : Z;
  tx_bytes : Z;
  dma_mapped : list (Z * Z);
  dma_calls : nat;
  released : list release_event;
  bql : list bql_event
}.

(** The environment of one submission: the outcome of each bus-address
    mapping request, numbered over the life of the device ([None] is
    [DMA_MAPPING_ERROR]), whether [skb_cow_head] fails, and whether the
    doorbell is rung ([netif_xmit_stopped(txq) || !netdev_xmit_more()]). *)
Record tx_env := {
  map_result : nat -> option Z;
  cow_head_fails : bool;
  ring_doorbell : bool
}.

(** *** Field updates *)

Definition set_tx_ring (f : mtk_tx_ring -> mtk_tx_ring) (eth : mtk_eth) : mtk_eth :=
  {| soc := soc eth; resetting := resetting eth; tx_ring := f (tx_ring eth);
     regs := regs eth; netdev := netdev eth; tx_packets := tx_packets eth;
     tx_bytes := tx_bytes eth; dma_mapped := dma_mapped eth;
     dma_calls := dma_calls eth; released := released eth; bql := bql eth |}.

Definition set_regs (f : tx_regs -> tx_regs) (eth : mtk_eth) : mtk_eth :=
  {| soc := soc eth; resetting := resetting eth; tx_ring := tx_ring eth;
     regs := f (regs eth); netdev := netdev eth; tx_packets := tx_packets eth;
     tx_bytes := tx_bytes eth; dma_mapped := dma_mapped eth;
     dma_calls := dma_calls eth; released := released eth; bql := bql eth |}.

Definition set_netdev (f : list (option net_device) -> list (option net_device))
    (eth : mtk_eth) : mtk_eth :=
  {| soc := soc eth; resetting := resetting eth; tx_ring := tx_ring eth;
     regs := regs eth; netdev := f (netdev eth); tx_packets := tx_packets eth;
     tx_bytes := tx_bytes eth; dma_mapped := dma_mapped eth;
     dma_calls := dma_calls eth; released := released eth; bql := bql eth |}.

Definition set_dma_mapped (f : list (Z * Z) -> list (Z * Z)) (eth : mtk_eth) : mtk_eth :=
  {| soc := soc eth; resetting := resetting eth; tx_ring := tx_ring eth;
     regs := regs eth; netdev := netdev eth; tx_packets := tx_packets eth;
     tx_bytes := tx_bytes eth; dma_mapped := f (dma_mapped eth);
     dma_calls := dma_calls eth; released := released eth; bql := bql eth |}.

Definition set_dma_calls (f : nat -> nat) (eth : mtk_eth) : mtk_eth :=
  {| soc := soc eth; resetting := resetting eth; tx_ring := tx_ring eth;
     regs := regs eth; netdev := netdev eth; tx_packets := tx_packets eth;
     tx_bytes := tx_bytes eth; dma_mapped := dma_mapped eth;
     dma_calls := f (dma_calls eth); released := released eth; bql := bql eth |}.

Definition add_released (e : release_event) (eth : mtk_eth) : mtk_eth :=
  {| soc := soc eth; resetting := resetting eth; tx_ring := tx_ring eth;
     regs := regs eth; netdev := netdev eth; tx_packets := tx_packets eth;
     tx_bytes := tx_bytes eth; dma_mapped := dma_mapped eth;
     dma_calls := dma_calls eth; released := released eth ++ [e];
     bql := bql eth |}.

Definition add_bql (e : bql_event) (eth : mtk_eth) : mtk_eth :=
  {| soc := soc eth; resetting := resetting eth; tx_ring := tx_ring eth;
     regs := regs eth; netdev := netdev eth; tx_packets := tx_packets eth;
     tx_bytes := tx_bytes eth; dma_mapped := dma_mapped eth;
     dma_calls := dma_calls eth; released := released eth;
     bql := bql eth ++ [e] |}.

Definition add_tx_stats (pkts bytes : Z) (eth : mtk_eth) : mtk_eth :=
  {| soc := soc eth; resetting := resetting eth; tx_ring := tx_ring eth;
     regs := regs eth; netdev := netdev eth;
     tx_packets := tx_packets eth + pkts; tx_bytes := tx_bytes eth + bytes;
     dma_mapped := dma_mapped eth; dma_calls := dma_calls eth;
     released := released eth; bql := bql eth |}.

Definition set_dma (f : list mtk_tx_dma -> list mtk_tx_dma) (r : mtk_tx_ring) : mtk_tx_ring :=
  {| dma := f (dma r); dma_pdma := dma_pdma r; phys := phys r;
     phys_pdma := phys_pdma r; buf := buf r; next_free := next_free r;
     last_free := last_free r; last_free_ptr := last_free_ptr r;
     thresh := thresh r; free_count := free_count r; dma_size := dma_size r;
     cpu_idx := cpu_idx r |}.

Definition set_dma_pdma (f : list mtk_tx_dma -> list mtk_tx_dma) (r : mtk_tx_ring) : mtk_tx_ring :=
  {| dma := dma r; dma_pdma := f (dma_pdma r); phys := phys r;
     phys_pdma := phys_pdma r; buf := buf r; next_free := next_free r;
     last_free := last_free r; last_free_ptr := last_free_ptr r;
     thresh := thresh r; free_count := free_count r; dma_size := dma_size r;
     cpu_idx := cpu_idx r |}.

Definition set_buf (f : list mtk_tx_buf -> list mtk_tx_buf) (r : mtk_tx_ring) : mtk_tx_ring :=
  {| dma := dma r; dma_pdma := dma_pdma r; phys := phys r;
     phys_pdma := phys_pdma r; buf := f (buf r); next_free := next_free r;
     last_free := last_free r; last_free_ptr := last_free_ptr r;
     thresh := thresh r; free_count := free_count r; dma_size := dma_size r;
     cpu_idx := cpu_idx r |}.

Definition set_next_free (n : nat) (r : mtk_tx_ring) : mtk_tx_ring :=
  {| dma := dma r; dma_pdma := dma_pdma r; phys := phys r;
     phys_pdma := phys_pdma r; buf := buf r; next_free := n;
     last_free := last_free r; last_free_ptr := last_free_ptr r;
     thresh := thresh r; free_count := free_count r; dma_size := dma_size r;
     cpu_idx := cpu_idx r |}.

Definition set_last_free (n : nat) (r : mtk_tx_ring) : mtk_tx_ring :=
  {| dma := dma r; dma_pdma := dma_pdma r; phys := phys r;
     phys_pdma := phys_pdma r; buf := buf r; next_free := next_free r;
     last_free := n; last_free_ptr := last_free_ptr r;
     thresh := thresh r; free_count := free_count r; dma_size := dma_size r;
     cpu_idx := cpu_idx r |}.

Definition set_last_free_ptr (p : Z) (r : mtk_tx_ring) : mtk_tx_ring :=
  {| dma := dma r; dma_pdma := dma_pdma r; phys := phys r;
     phys_pdma := phys_pdma r; buf := buf r; next_free := next_free r;
     last_free := last_free r; last_free_ptr := p;
     thresh := thresh r; free_count := free_count r; dma_size := dma_size r;
     cpu_idx := cpu_idx r |}.

Definition set_cpu_idx (p : Z) (r : mtk_tx_ring) : mtk_tx_ring :=
  {| dma := dma r; dma_pdma := dma_pdma r; phys := phys r;
     phys_pdma := phys_pdma r; buf := buf r; next_free := next_free r;
     last_free := last_free r; last_free_ptr := last_free_ptr r;
     thresh := thresh r; free_count := free_count r; dma_size := dma_size r;
     cpu_idx := p |}.

(** [atomic_sub], [atomic_inc] on [ring->free_count]. *)
Definition add_free_count (d : Z) (r : mtk_tx_ring) : mtk_tx_ring :=
  {| dma := dma r; dma_pdma := dma_pdma r; phys := phys r;
     phys_pdma := phys_pdma r; buf := buf r; next_free := next_free r;
     last_free := last_free r; last_free_ptr := last_free_ptr r;
     thresh := thresh r; free_count := free_count r + d;
     dma_size := dma_size r; cpu_idx := cpu_idx r |}.

(** *** Packets and frames handed to the ring *)

(** [struct sk_buff] as the submission path reads it.  [frags] lists
    [skb_frag_size] of [skb_shinfo(skb)->frags]; the driver does not
    advertise fragment lists, so [skb->data_len] is their sum. *)
Record sk_buff := {
  skb_obj : tx_object;
  headlen : Z;
  frags : list Z;
  is_gso : bool;             (* skb_is_gso(skb) *)
  gso_tcp : bool;            (* gso_type & (SKB_GSO_TCPV4 | SKB_GSO_TCPV6) *)
  ip_summed_partial : bool;  (* ip_summed == CHECKSUM_PARTIAL *)
  vlan_tag_present : bool;
  vlan_tag : Z
}.

Definition data_len (skb : sk_buff) : Z := foldr Z.add 0 (frags skb).

Definition skb_is_nonlinear (skb : sk_buff) : bool := nonzero (data_len skb).

(** One buffer of an XDP frame: its length and the bus address of the
    page-pool page that holds it. *)
Record xdp_seg := {
  seg_len : Z;
  seg_page_dma : Z
}.

(** [struct xdp_frame]; the frame has fragments when [xdp_frags] is not
    empty. *)
Record xdp_frame := {
  xdpf_obj : tx_object;
  xdpf_head : xdp_seg;
  xdpf_headroom : Z;
  xdp_frags : list xdp_seg
}.

Definition xdp_frame_has_frags (xdpf : xdp_frame) : bool :=
  match xdp_frags xdpf with [] => false | _ => true end.

(** [struct mtk_tx_dma_desc_info]. *)
Record mtk_tx_dma_desc_info := {
  i_size : Z;
  i_addr : Z;
  i_vlan_tci : Z;
  i_qid : Z;
  i_vlan : bool;
  i_csum : bool;
  i_gso : bool;
  i_first : bool;
  i_last : bool
}.

(** [struct mtk_poll_state]; a send queue is named by its device and its
    index. *)
Record mtk_poll_state := {
  txq : option (Z * Z);
  total : Z;
  done : Z;
  bytes : Z
}.

Section WithHeader.

Variable H : header.

(** *** The DMA API *)

(** [dma_map_single] / [skb_frag_dma_map]: the next outcome of the
    environment; a successful mapping becomes active. *)
Definition dma_map (env : tx_env) (size : Z) (eth : mtk_eth) : option Z * mtk_eth :=
  let eth' := set_dma_calls S eth in
  match map_result env (dma_calls eth) with
  | Some a => (Some a, set_dma_mapped (cons (a, size)) eth')
  | None => (None, eth')
  end.

Fixpoint unmap_one (m : Z * Z) (l : list (Z * Z)) : list (Z * Z) :=
  match l with
  | [] => []
  | x :: l' => if decide (x = m) then l' else x :: unmap_one m l'
  end.

(** [dma_unmap_single] / [dma_unmap_page] remove one active mapping
    ([unmap_one]). *)

(** *** Ring pointers *)

(** The slot a bus address of the ring designates ([ring->dma + (desc -
    ring->phys)], then the division of [mtk_desc_to_tx_buf]). *)
Definition mtk_qdma_phys_to_virt (soc : mtk_soc_data) (ring : mtk_tx_ring)
    (desc : Z) : nat :=
  Z.to_nat ((desc - phys ring) / tx_desc_size soc).

Definition desc_at (ring : mtk_tx_ring) (idx : nat) : mtk_tx_dma := dma ring !!! idx.

Definition pdma_at (ring : mtk_tx_ring) (idx : nat) : mtk_tx_dma := dma_pdma ring !!! idx.

(** [mtk_desc_to_tx_buf]. *)
Definition mtk_desc_to_tx_buf (ring : mtk_tx_ring) (idx : nat) : mtk_tx_buf :=
  buf ring !!! idx.

(** The slot after [idx], read from its [txd2]. *)
Definition next_desc (eth : mtk_eth) (idx : nat) : nat :=
  mtk_qdma_phys_to_virt (soc eth) (tx_ring eth) (txd2 (desc_at (tx_ring eth) idx)).

Definition update_desc (idx : nat) (f : mtk_tx_dma -> mtk_tx_dma) (eth : mtk_eth) : mtk_eth :=
  set_tx_ring (set_dma (fun l => <[idx := f (l !!! idx)]> l)) eth.

Definition update_pdma (idx : nat) (f : mtk_tx_dma -> mtk_tx_dma) (eth : mtk_eth) : mtk_eth :=
  set_tx_ring (set_dma_pdma (fun l => <[idx := f (l !!! idx)]> l)) eth.

Definition update_buf (idx : nat) (f : mtk_tx_buf -> mtk_tx_buf) (eth : mtk_eth) : mtk_eth :=
  set_tx_ring (set_buf (fun l => <[idx := f (l !!! idx)]> l)) eth.

Definition with_txd1 (v : Z) (d : mtk_tx_dma) : mtk_tx_dma :=
  {| txd1 := v; txd2 := txd2 d; txd3 := txd3 d; txd4 := txd4 d;
     txd5 := txd5 d; txd6 := txd6 d; txd7 := txd7 d; txd8 := txd8 d |}.

Definition with_txd2 (v : Z) (d : mtk_tx_dma) : mtk_tx_dma :=
  {| txd1 := txd1 d; txd2 := v; txd3 := txd3 d; txd4 := txd4 d;
     txd5 := txd5 d; txd6 := txd6 d; txd7 := txd7 d; txd8 := txd8 d |}.

Definition with_txd3 (v : Z) (d : mtk_tx_dma) : mtk_tx_dma :=
  {| txd1 := txd1 d; txd2 := txd2 d; txd3 := v; txd4 := txd4 d;
     txd5 := txd5 d; txd6 := txd6 d; txd7 := txd7 d; txd8 := txd8 d |}.

Definition with_txd4 (v : Z) (d : mtk_tx_dma) : mtk_tx_dma :=
  {| txd1 := txd1 d; txd2 := txd2 d; txd3 := txd3 d; txd4 := v;
     txd5 := txd5 d; txd6 := txd6 d; txd7 := txd7 d; txd8 := txd8 d |}.

Definition with_txd5678 (v5 v6 v7 v8 : Z) (d : mtk_tx_dma) : mtk_tx_dma :=
  {| txd1 := txd1 d; txd2 := txd2 d; txd3 := txd3 d; txd4 := txd4 d;
     txd5 := v5; txd6 := v6; txd7 := v7; txd8 := v8 |}.

Definition with_data (p : data_ptr) (b : mtk_tx_buf) : mtk_tx_buf :=
  {| type := type b; data := p; mac_id := mac_id b; flags := flags b;
     dma_addr0 := dma_addr0 b; dma_len0 := dma_len0 b;
     dma_addr1 := dma_addr1 b; dma_len1 := dma_len1 b |}.

Definition with_type (t : mtk_tx_buf_type) (b : mtk_tx_buf) : mtk_tx_buf :=
  {| type := t; data := data b; mac_id := mac_id b; flags := flags b;
     dma_addr0 := dma_addr0 b; dma_len0 := dma_len0 b;
     dma_addr1 := dma_addr1 b; dma_len1 := dma_len1 b |}.

Definition with_mac_id (m : Z) (b : mtk_tx_buf) : mtk_tx_buf :=
  {| type := type b; data := data b; mac_id := m; flags := flags b;
     dma_addr0 := dma_addr0 b; dma_len0 := dma_len0 b;
     dma_addr1 := dma_addr1 b; dma_len1 := dma_len1 b |}.

Definition with_flags (f : Z) (b : mtk_tx_buf) : mtk_tx_buf :=
  {| type := type b; data := data b; mac_id := mac_id b; flags := f;
     dma_addr0 := dma_addr0 b; dma_len0 := dma_len0 b;
     dma_addr1 := dma_addr1 b; dma_len1 := dma_len1 b |}.

Definition with_dma0 (a l : Z) (b : mtk_tx_buf) : mtk_tx_buf :=
  {| type := type b; data := data b; mac_id := mac_id b; flags := flags b;
     dma_addr0 := a; dma_len0 := l;
     dma_addr1 := dma_addr1 b; dma_len1 := dma_len1 b |}.

Definition with_dma1 (a l : Z) (b : mtk_tx_buf) : mtk_tx_buf :=
  {| type := type b; data := data b; mac_id := mac_id b; flags := flags b;
     dma_addr0 := dma_addr0 b; dma_len0 := dma_len0 b;
     dma_addr1 := a; dma_len1 := l |}.

(** *** [mtk_tx_unmap]

    [idx] is the slot of [tx_buf]; [bq] tells whether a bulk queue was
    passed.  The first statement selects the mappings [dma_unmap_single]
    and [dma_unmap_page] are called on. *)
Definition mtk_tx_unmap (idx : nat) (bq napi : bool) (eth : mtk_eth) : mtk_eth :=
  let tx_buf := mtk_desc_to_tx_buf (tx_ring eth) idx in
  let eth1 :=
    set_dma_mapped (fun m =>
      if caps_qdma (soc eth) then
        if nonzero (Z.land (flags tx_buf) (MTK_TX_FLAGS_SINGLE0 H)) then
          unmap_one (dma_addr0 tx_buf, dma_len0 tx_buf) m
        else if nonzero (Z.land (flags tx_buf) (MTK_TX_FLAGS_PAGE0 H)) then
          unmap_one (dma_addr0 tx_buf, dma_len0 tx_buf) m
        else m
      else
        let m0 :=
          if nonzero (dma_len0 tx_buf)
          then unmap_one (dma_addr0 tx_buf, dma_len0 tx_buf) m else m in
        if nonzero (dma_len1 tx_buf)
        then unmap_one (dma_addr1 tx_buf, dma_len1 tx_buf) m0 else m0) eth in
  let eth2 :=
    match data tx_buf with
    | ObjPtr o =>
        match type tx_buf with
        | MTK_TYPE_SKB =>
            add_released (if napi then napi_consume_skb o
                          else dev_kfree_skb_any o) eth1
        | MTK_TYPE_XDP_TX =>
            add_released (if napi then xdp_return_frame_rx_napi o
                          else if bq then xdp_return_frame_bulk o
                          else xdp_return_frame o) eth1
        | MTK_TYPE_XDP_NDO =>
            add_released (if bq then xdp_return_frame_bulk o
                          else xdp_return_frame o) eth1
        end
    | _ => eth1
    end in
  update_buf idx (fun b => with_data NullPtr (with_flags 0 b)) eth2.

(** *** [setup_tx_buf]

    [idx] is the slot of both [tx_buf] and the PDMA descriptor [txd];
    [k] is the running buffer index of the submission. *)
Definition setup_tx_buf (idx : nat) (mapped_addr size k : Z) (eth : mtk_eth) : mtk_eth :=
  let soc := soc eth in
  if caps_qdma soc then
    update_buf idx (with_dma0 mapped_addr size) eth
  else if Z.odd k then
    let eth1 :=
      update_pdma idx (fun d =>
        with_txd2 (Z.lor (txd2 (with_txd3 mapped_addr d))
                     (TX_DMA_PLEN1 H (tx_dma_max_len soc) (tx_dma_len_offset soc) size))
                  (with_txd3 mapped_addr d)) eth in
    update_buf idx (with_dma1 mapped_addr size) eth1
  else
    let eth1 := update_buf idx (with_data DummyDesc) eth in
    let eth2 :=
      update_pdma idx (fun d =>
        with_txd2 (TX_DMA_PLEN0 H (tx_dma_max_len soc) (tx_dma_len_offset soc) size)
                  (with_txd1 mapped_addr d)) eth1 in
    update_buf idx (with_dma0 mapped_addr size) eth2.

(** *** Descriptor encoding *)

Definition netdev_uses_dsa (eth : mtk_eth) (mac : Z) : bool :=
  match netdev eth !! Z.to_nat mac with
  | Some (Some dev) => uses_dsa dev
  | _ => false
  end.

Definition or_if (c : bool) (bits data : Z) : Z :=
  if c then Z.lor data bits else data.

(** [mtk_tx_set_dma_desc_v1]: the words written to the descriptor. *)
Definition mtk_tx_set_dma_desc_v1 (soc : mtk_soc_data) (mac : Z)
    (info : mtk_tx_dma_desc_info) (desc : mtk_tx_dma) : mtk_tx_dma :=
  let d1 := with_txd1 (u32 (i_addr info)) desc in
  let data :=
    Z.lor (Z.lor (TX_DMA_SWC H)
                 (TX_DMA_PLEN0 H (tx_dma_max_len soc) (tx_dma_len_offset soc) (i_size info)))
          (FIELD_PREP (TX_DMA_PQID H) (i_qid info)) in
  let data := or_if (i_last info) (TX_DMA_LS0 H) data in
  let d3 := with_txd3 data d1 in
  let data := Z.shiftl (mac + 1) (TX_DMA_FPORT_SHIFT H) in
  let data :=
    if i_first info then
      let data := or_if (i_gso info) (TX_DMA_TSO H) data in
      let data := or_if (i_csum info) (TX_DMA_CHKSUM H) data in
      or_if (i_vlan info) (Z.lor (TX_DMA_INS_VLAN H) (i_vlan_tci info)) data
    else data in
  with_txd4 data d3.

(** [mtk_tx_set_dma_desc_v2]. *)
Definition mtk_tx_set_dma_desc_v2 (soc : mtk_soc_data) (dsa : bool) (mac : Z)
    (info : mtk_tx_dma_desc_info) (desc : mtk_tx_dma) : mtk_tx_dma :=
  let d1 := with_txd1 (u32 (i_addr info)) desc in
  let data := TX_DMA_PLEN0 H (tx_dma_max_len soc) (tx_dma_len_offset soc) (i_size info) in
  let data := or_if (i_last info) (TX_DMA_LS0 H) data in
  let data := or_if (caps_36bit_dma soc) (TX_DMA_PREP_ADDR64 H (i_addr info)) data in
  let d3 := with_txd3 data d1 in
  (* set forward port; [data] keeps its value for any other [mac->id] *)
  let data :=
    if mac =? MTK_GMAC1_ID then Z.shiftl (PSE_GDM1_PORT H) (TX_DMA_FPORT_SHIFT_V2 H)
    else if mac =? MTK_GMAC2_ID then Z.shiftl (PSE_GDM2_PORT H) (TX_DMA_FPORT_SHIFT_V2 H)
    else if mac =? MTK_GMAC3_ID then Z.shiftl (PSE_GDM3_PORT H) (TX_DMA_FPORT_SHIFT_V2 H)
    else data in
  let data := Z.lor data (Z.lor (TX_DMA_SWC_V2 H) (QID_BITS_V2 H (i_qid info))) in
  let d4 := with_txd4 data d3 in
  let data5 :=
    if i_first info then
      let data := or_if (i_gso info) (TX_DMA_TSO_V2 H) 0 in
      let data := or_if (i_csum info) (TX_DMA_CHKSUM_V2 H) data in
      or_if (mtk_is_netsys_v3_or_greater soc && dsa) (TX_DMA_SPTAG_V3 H) data
    else 0 in
  let data6 :=
    or_if (i_first info && i_vlan info)
          (Z.lor (TX_DMA_INS_VLAN_V2 H) (i_vlan_tci info)) 0 in
  with_txd5678 data5 data6 0 0 d4.

(** [mtk_tx_set_dma_desc] on the descriptor in slot [idx]. *)
Definition mtk_tx_set_dma_desc (mac : Z) (idx : nat)
    (info : mtk_tx_dma_desc_info) (eth : mtk_eth) : mtk_eth :=
  if mtk_is_netsys_v2_or_greater (soc eth)
  then update_desc idx
         (mtk_tx_set_dma_desc_v2 (soc eth) (netdev_uses_dsa eth mac) mac info) eth
  else update_desc idx (mtk_tx_set_dma_desc_v1 (soc eth) mac info) eth.

(** *** [mtk_tx_map] *)

(** The locals of [mtk_tx_map] that the fragment loop changes. *)
Record map_st := {
  m_eth : mtk_eth;
  m_txd : nat;
  m_n_desc : Z;
  m_k : Z
}.

(** How the fragment loop ends: it falls through, it jumps to [err_dma],
    or it does not end. *)
Inductive map_res :=
| MapOk (s : map_st)
| MapErr (s : map_st)
| MapDiverge.

(** One pass through the body of [while (frag_size)] for fragment [i]:
    the length mapped and the new locals, or the locals at [goto
    err_dma]. *)
Definition tx_map_chunk (env : tx_env) (mac queue i nr_frags frag_size : Z)
    (s : map_st) : (Z * map_st) + map_st :=
  let eth := m_eth s in
  let soc := soc eth in
  let advance := caps_qdma soc || Z.odd i in
  let txd := if advance then next_desc eth (m_txd s) else m_txd s in
  if advance && bool_decide (txd = last_free (tx_ring eth)) then
    inr {| m_eth := eth; m_txd := txd; m_n_desc := m_n_desc s; m_k := m_k s |}
  else
    let n_desc := if advance then m_n_desc s + 1 else m_n_desc s in
    let size := Z.min frag_size (tx_dma_max_len soc) in
    let last := (i =? nr_frags - 1) && (frag_size - size =? 0) in
    match dma_map env size eth with
    | (None, eth1) =>
        inr {| m_eth := eth1; m_txd := txd; m_n_desc := n_desc; m_k := m_k s |}
    | (Some addr, eth1) =>
        let info :=
          {| i_size := size; i_addr := addr; i_vlan_tci := 0; i_qid := queue;
             i_vlan := false; i_csum := false; i_gso := false;
             i_first := false; i_last := last |} in
        let eth2 := mtk_tx_set_dma_desc mac txd info eth1 in
        let eth3 := if advance then update_buf txd (fun _ => zero_buf) eth2 else eth2 in
        let eth4 :=
          update_buf txd (fun b =>
            with_mac_id mac
              (with_flags (Z.lor (flags (with_data DummyDesc b)) (MTK_TX_FLAGS_PAGE0 H))
                 (with_data DummyDesc b))) eth3 in
        let eth5 := setup_tx_buf txd addr size (m_k s) eth4 in
        inl (size, {| m_eth := eth5; m_txd := txd; m_n_desc := n_desc;
                      m_k := m_k s + 1 |})
    end.

(** [while (frag_size)]. *)
Fixpoint tx_map_frag (fuel : nat) (env : tx_env) (mac queue i nr_frags frag_size : Z)
    (s : map_st) : map_res :=
  if frag_size =? 0 then MapOk s
  else
    match fuel with
    | O => MapDiverge
    | S fuel' =>
        match tx_map_chunk env mac queue i nr_frags frag_size s with
        | inl (size, s') =>
            tx_map_frag fuel' env mac queue i nr_frags (frag_size - size) s'
        | inr s' => MapErr s'
        end
    end.

(** [for (i = 0; i < nr_frags; i++)], from fragment [i] on. *)
Fixpoint tx_map_frags (env : tx_env) (mac queue nr_frags i : Z) (fs : list Z)
    (s : map_st) : map_res :=
  match fs with
  | [] => MapOk s
  | f :: fs' =>
      match tx_map_frag (Z.to_nat f) env mac queue i nr_frags f s with
      | MapOk s' => tx_map_frags env mac queue nr_frags (i + 1) fs' s'
      | r => r
      end
  end.

(** The body of the [err_dma] loop for slot [itxd]. *)
Definition tx_map_unwind_slot (itxd : nat) (eth : mtk_eth) : mtk_eth :=
  let eth1 := mtk_tx_unmap itxd false false eth in
  let eth2 :=
    update_desc itxd (with_txd3 (Z.lor (TX_DMA_LS0 H) (TX_DMA_OWNER_CPU H))) eth1 in
  if caps_qdma (soc eth) then eth2
  else update_pdma itxd (with_txd2 (TX_DMA_DESP2_DEF H)) eth2.

(** [do { ... } while (itxd != txd)]. *)
Fixpoint tx_map_unwind (fuel : nat) (itxd txd : nat) (eth : mtk_eth) : option mtk_eth :=
  match fuel with
  | O => None
  | S fuel' =>
      let eth1 := tx_map_unwind_slot itxd eth in
      let itxd' := next_desc eth1 itxd in
      if bool_decide (itxd' = txd) then Some eth1
      else tx_map_unwind fuel' itxd' txd eth1
  end.

(** The part of [mtk_tx_map] after the fragment loop: the packet is
    stored in the head slot [itxd], the producer state is advanced and the
    doorbell is rung. *)
Definition tx_map_commit (env : tx_env) (skb : sk_buff) (mac : Z) (itxd : nat)
    (s : map_st) : mtk_eth :=
  let soc := soc (m_eth s) in
  let queue := obj_queue (skb_obj skb) in
  let txd := m_txd s in
  (* store skb to cleanup *)
  let eth6 :=
    update_buf itxd (fun b =>
      with_data (ObjPtr (skb_obj skb)) (with_type MTK_TYPE_SKB b)) (m_eth s) in
  let eth7 :=
    if caps_qdma soc then eth6
    else if Z.odd (m_k s)
    then update_pdma txd (fun d => with_txd2 (Z.lor (txd2 d) (TX_DMA_LS0 H)) d) eth6
    else update_pdma txd (fun d => with_txd2 (Z.lor (txd2 d) (TX_DMA_LS1 H)) d) eth6 in
  let eth8 := add_bql (tx_sent mac queue (obj_len (skb_obj skb))) eth7 in
  let eth9 :=
    set_tx_ring (fun r =>
      add_free_count (- m_n_desc s) (set_next_free (next_desc eth8 txd) r)) eth8 in
  if caps_qdma soc then
    if ring_doorbell env
    then set_regs (fun r =>
           {| qdma_ctx_ptr := txd2 (desc_at (tx_ring eth9) txd);
              qdma_dtx_ptr := qdma_dtx_ptr r;
              qdma_crx_ptr := qdma_crx_ptr r;
              qdma_drx_ptr := qdma_drx_ptr r;
              MT7628_TX_CTX_IDX0 := MT7628_TX_CTX_IDX0 r;
              MT7628_TX_DTX_IDX0 := MT7628_TX_DTX_IDX0 r |}) eth9
    else eth9
  else
    set_regs (fun r =>
      {| qdma_ctx_ptr := qdma_ctx_ptr r;
         qdma_dtx_ptr := qdma_dtx_ptr r;
         qdma_crx_ptr := qdma_crx_ptr r;
         qdma_drx_ptr := qdma_drx_ptr r;
         MT7628_TX_CTX_IDX0 :=
           NEXT_DESP_IDX H (Z.of_nat txd) (dma_size (tx_ring eth9));
         MT7628_TX_DTX_IDX0 := MT7628_TX_DTX_IDX0 r |}) eth9.

(** [mtk_tx_map(skb, dev, tx_num, ring, gso)]: the return value and the
    state, or [None] when the function does not return.  [mac] is
    [mac->id] of [dev]. *)
Definition mtk_tx_map (env : tx_env) (skb : sk_buff) (mac : Z) (gso : bool)
    (eth : mtk_eth) : option (Z * mtk_eth) :=
  let soc := soc eth in
  let queue := obj_queue (skb_obj skb) in
  let itxd := next_free (tx_ring eth) in
  if bool_decide (itxd = last_free (tx_ring eth)) then Some (- ENOMEM, eth)
  else
    let eth1 := update_buf itxd (fun _ => zero_buf) eth in
    match dma_map env (headlen skb) eth1 with
    | (None, eth2) => Some (- ENOMEM, eth2)
    | (Some addr, eth2) =>
        let info :=
          {| i_size := headlen skb; i_addr := addr;
             i_vlan_tci := vlan_tag skb; i_qid := queue;
             i_vlan := vlan_tag_present skb; i_csum := ip_summed_partial skb;
             i_gso := gso; i_first := true;
             i_last := negb (skb_is_nonlinear skb) |} in
        let eth3 := mtk_tx_set_dma_desc mac itxd info eth2 in
        let eth4 :=
          update_buf itxd (fun b =>
            with_mac_id mac
              (with_flags (Z.lor (flags b) (MTK_TX_FLAGS_SINGLE0 H)) b)) eth3 in
        let eth5 := setup_tx_buf itxd addr (headlen skb) 0 eth4 in
        match tx_map_frags env mac queue (Z.of_nat (length (frags skb))) 0 (frags skb)
                {| m_eth := eth5; m_txd := itxd; m_n_desc := 1; m_k := 1 |} with
        | MapDiverge => None
        | MapErr s =>
            match tx_map_unwind (length (dma (tx_ring (m_eth s)))) itxd (m_txd s)
                    (m_eth s) with
            | Some eth' => Some (- ENOMEM, eth')
            | None => None
            end
        | MapOk s => Some (0, tx_map_commit env skb mac itxd s)
        end
    end.

(** *** [mtk_cal_txd_req] *)

(** [DIV_ROUND_UP] on [unsigned int] operands. *)
Definition DIV_ROUND_UP (n d : Z) : Z := u32 (n + d - 1) / d.

Definition mtk_cal_txd_req (soc : mtk_soc_data) (skb : sk_buff) : Z :=
  if is_gso skb
  then foldl (fun nfrags frag => nfrags + DIV_ROUND_UP frag (tx_dma_max_len soc))
             1 (frags skb)
  else 1 + Z.of_nat (length (frags skb)).

(** *** [mtk_start_xmit] *)

Definition netif_tx_stop_all_queues (mac : Z) (eth : mtk_eth) : mtk_eth :=
  set_netdev (fun l =>
    match l !! Z.to_nat mac with
    | Some (Some dev) =>
        <[Z.to_nat mac := Some {| tx_dropped := tx_dropped dev;
                                  rx_dropped := rx_dropped dev;
                                  queues_stopped := true;
                                  uses_dsa := uses_dsa dev |}]> l
    | _ => l
    end) eth.

Definition inc_tx_dropped (mac : Z) (eth : mtk_eth) : mtk_eth :=
  set_netdev (fun l =>
    match l !! Z.to_nat mac with
    | Some (Some dev) =>
        <[Z.to_nat mac := Some {| tx_dropped := tx_dropped dev + 1;
                                  rx_dropped := rx_dropped dev;
                                  queues_stopped := queues_stopped dev;
                                  uses_dsa := uses_dsa dev |}]> l
    | _ => l
    end) eth.

(** The [drop] label. *)
Definition xmit_drop (skb : sk_buff) (mac : Z) (eth : mtk_eth) : netdev_tx_t * mtk_eth :=
  (NETDEV_TX_OK, add_released (dev_kfree_skb_any (skb_obj skb)) (inc_tx_dropped mac eth)).

(** [mtk_start_xmit(skb, dev)]; the TCP checksum field rewritten for TSO
    is packet payload and is not part of the state. *)
Definition mtk_start_xmit (env : tx_env) (skb : sk_buff) (mac : Z)
    (eth : mtk_eth) : option (netdev_tx_t * mtk_eth) :=
  if resetting eth then Some (xmit_drop skb mac eth)
  else
    let tx_num := mtk_cal_txd_req (soc eth) skb in
    if free_count (tx_ring eth) <=? tx_num then
      Some (NETDEV_TX_BUSY, netif_tx_stop_all_queues mac eth)
    else if is_gso skb && cow_head_fails env then Some (xmit_drop skb mac eth)
    else
      let gso := is_gso skb && gso_tcp skb in
      match mtk_tx_map env skb mac gso eth with
      | None => None
      | Some (ret, eth1) =>
          if ret <? 0 then Some (xmit_drop skb mac eth1)
          else
            let eth2 :=
              if free_count (tx_ring eth1) <=? thresh (tx_ring eth1)
              then netif_tx_stop_all_queues mac eth1 else eth1 in
            Some (NETDEV_TX_OK, eth2)
      end.
(** *** [mtk_xdp_frame_map] and [mtk_xdp_submit_frame] *)

(** [mtk_xdp_frame_map] for the buffer [seg] in slot [idx]: the error
    code, the address written to [txd_info] and the state. *)
Definition mtk_xdp_frame_map (env : tx_env) (mac : Z) (info : mtk_tx_dma_desc_info)
    (idx : nat) (seg : xdp_seg) (headroom index : Z) (do_map : bool)
    (eth : mtk_eth) : Z * mtk_tx_dma_desc_info * mtk_eth :=
  let mapped :=
    if do_map then
      match dma_map env (i_size info) eth with
      | (None, eth1) => (None, eth1)
      | (Some a, eth1) =>
          (Some a,
           update_buf idx (fun b =>
             with_flags (Z.lor (flags b) (MTK_TX_FLAGS_SINGLE0 H)) b) eth1)
      end
    else (Some (seg_page_dma seg + sizeof_xdp_frame H + headroom), eth) in
  match mapped with
  | (None, eth1) => (- ENOMEM, info, eth1)
  | (Some a, eth1) =>
      let info' :=
        {| i_size := i_size info; i_addr := a; i_vlan_tci := i_vlan_tci info;
           i_qid := i_qid info; i_vlan := i_vlan info; i_csum := i_csum info;
           i_gso := i_gso info; i_first := i_first info;
           i_last := i_last info |} in
      let eth2 := mtk_tx_set_dma_desc mac idx info' eth1 in
      let eth3 :=
        update_buf idx (fun b =>
          with_data DummyDesc
            (with_type (if do_map then MTK_TYPE_XDP_NDO else MTK_TYPE_XDP_TX)
               (with_mac_id mac b))) eth2 in
      (0, info', setup_tx_buf idx a (i_size info') index eth3)
  end.

(** How the [for (;;)] loop of [mtk_xdp_submit_frame] ends. *)
Inductive xdp_loop_res :=
| XdpDone (txd : nat) (n_desc index : Z) (eth : mtk_eth)
| XdpUnmap (err : Z) (txd : nat) (eth : mtk_eth).

(** The loop, entered with [txd_info] describing buffer [seg]; [rest] are
    the fragments not yet reached. *)
Fixpoint xdp_submit_loop (env : tx_env) (mac : Z) (do_map : bool) (headroom nr_frags : Z)
    (rest : list xdp_seg) (info : mtk_tx_dma_desc_info) (seg : xdp_seg)
    (txd : nat) (n_desc index : Z) (eth : mtk_eth) : xdp_loop_res :=
  let '(err, info1, eth1) :=
    mtk_xdp_frame_map env mac info txd seg headroom index do_map eth in
  if err <? 0 then XdpUnmap err txd eth1
  else if i_last info1 then XdpDone txd n_desc index eth1
  else
    match rest with
    | [] =>
        (* the frame announces fragments it does not have *)
        XdpUnmap err txd eth1
    | frag :: rest' =>
        let advance := caps_qdma (soc eth1) || Z.odd index in
        let txd' := if advance then next_desc eth1 txd else txd in
        if advance && bool_decide (txd' = last_free (tx_ring eth1))
        then XdpUnmap err txd' eth1
        else
          let eth2 := if advance then update_buf txd' (fun _ => zero_buf) eth1 else eth1 in
          let n_desc' := if advance then n_desc + 1 else n_desc in
          let info' :=
            {| i_size := seg_len frag; i_addr := 0; i_vlan_tci := 0; i_qid := mac;
               i_vlan := false; i_csum := false; i_gso := false;
               i_first := false; i_last := (index + 1 =? nr_frags) |} in
          xdp_submit_loop env mac do_map headroom nr_frags rest' info' frag
            txd' n_desc' (index + 1) eth2
    end.

(** [while (htxd != txd)] at the [unmap] label. *)
Fixpoint xdp_unwind (fuel : nat) (htxd txd : nat) (eth : mtk_eth) : option mtk_eth :=
  if bool_decide (htxd = txd) then Some eth
  else
    match fuel with
    | O => None
    | S fuel' =>
        let eth1 := mtk_tx_unmap htxd false false eth in
        let eth2 :=
          update_desc htxd (with_txd3 (Z.lor (TX_DMA_LS0 H) (TX_DMA_OWNER_CPU H))) eth1 in
        let eth3 :=
          if caps_qdma (soc eth) then eth2
          else update_pdma htxd (with_txd2 (TX_DMA_DESP2_DEF H)) eth2 in
        xdp_unwind fuel' (next_desc eth3 htxd) txd eth3
    end.

(** [mtk_xdp_submit_frame(eth, xdpf, dev, dma_map)]. *)
Definition mtk_xdp_submit_frame (env : tx_env) (xdpf : xdp_frame) (mac : Z)
    (do_map : bool) (eth : mtk_eth) : option (Z * mtk_eth) :=
  let info :=
    {| i_size := seg_len (xdpf_head xdpf); i_addr := 0; i_vlan_tci := 0;
       i_qid := mac; i_vlan := false; i_csum := false; i_gso := false;
       i_first := true; i_last := negb (xdp_frame_has_frags xdpf) |} in
  if resetting eth then Some (- EBUSY, eth)
  else
    let nr_frags := Z.of_nat (length (xdp_frags xdpf)) in
    if free_count (tx_ring eth) <=? 1 + nr_frags then Some (- EBUSY, eth)
    else
      let txd := next_free (tx_ring eth) in
      if bool_decide (txd = last_free (tx_ring eth)) then Some (- ENOMEM, eth)
      else
        let htxd := txd in
        let eth1 := update_buf txd (fun _ => zero_buf) eth in
        match xdp_submit_loop env mac do_map (xdpf_headroom xdpf) nr_frags
                (xdp_frags xdpf) info (xdpf_head xdpf) txd 1 0 eth1 with
        | XdpUnmap err txd' eth2 =>
            match xdp_unwind (length (dma (tx_ring eth2))) htxd txd' eth2 with
            | Some eth3 => Some (err, eth3)
            | None => None
            end
        | XdpDone txd' n_desc index eth2 =>
            (* store xdpf for cleanup *)
            let eth3 := update_buf htxd (with_data (ObjPtr (xdpf_obj xdpf))) eth2 in
            let eth4 :=
              if caps_qdma (soc eth) then eth3
              else if Z.odd index
              then update_pdma txd' (fun d => with_txd2 (Z.lor (txd2 d) (TX_DMA_LS0 H)) d) eth3
              else update_pdma txd' (fun d => with_txd2 (Z.lor (txd2 d) (TX_DMA_LS1 H)) d) eth3 in
            let eth5 :=
              set_tx_ring (fun r =>
                add_free_count (- n_desc) (set_next_free (next_desc eth4 txd') r)) eth4 in
            let eth6 :=
              set_regs (fun r =>
                if caps_qdma (soc eth) then
                  {| qdma_ctx_ptr := txd2 (desc_at (tx_ring eth5) txd');
                     qdma_dtx_ptr := qdma_dtx_ptr r;
                     qdma_crx_ptr := qdma_crx_ptr r;
                     qdma_drx_ptr := qdma_drx_ptr r;
                     MT7628_TX_CTX_IDX0 := MT7628_TX_CTX_IDX0 r;
                     MT7628_TX_DTX_IDX0 := MT7628_TX_DTX_IDX0 r |}
                else
                  {| qdma_ctx_ptr := qdma_ctx_ptr r;
                     qdma_dtx_ptr := qdma_dtx_ptr r;
                     qdma_crx_ptr := qdma_crx_ptr r;
                     qdma_drx_ptr := qdma_drx_ptr r;
                     MT7628_TX_CTX_IDX0 :=
                       NEXT_DESP_IDX H (Z.of_nat txd') (dma_size (tx_ring eth5));
                     MT7628_TX_DTX_IDX0 := MT7628_TX_DTX_IDX0 r |}) eth5 in
            Some (0, eth6)
        end.

(** *** Reclaim: [mtk_poll_tx_done], [mtk_poll_tx_qdma], [mtk_poll_tx_pdma],
    [mtk_poll_tx] *)

Definition netdev_present (eth : mtk_eth) (mac : Z) : bool :=
  match netdev eth !! Z.to_nat mac with
  | Some (Some _) => true
  | _ => false
  end.

Definition mtk_poll_tx_done (state : mtk_poll_state) (mac : Z) (skb : tx_object)
    (eth : mtk_eth) : mtk_poll_state * mtk_eth :=
  let nbytes := obj_len skb in
  let state1 :=
    {| txq := txq state; total := total state + 1; done := done state;
       bytes := bytes state |} in
  let eth1 := add_tx_stats 1 nbytes eth in
  if negb (netdev_present eth mac) then (state1, eth1)
  else
    let q := (mac, obj_queue skb) in
    if bool_decide (txq state1 = Some q) then
      ({| txq := txq state1; total := total state1; done := done state1 + 1;
          bytes := bytes state1 + nbytes |}, eth1)
    else
      let eth2 :=
        match txq state1 with
        | Some (d, qi) => add_bql (tx_completed d qi (done state1) (bytes state1)) eth1
        | None => eth1
        end in
      ({| txq := Some q; total := total state1; done := 1; bytes := nbytes |}, eth2).

(** What one pass through the body of a reclaim loop does with the slot
    [idx] once its buffer is known to be in use: account a head slot,
    release the buffer, return the slot. *)
Definition poll_tx_reclaim (pdma : bool) (idx : nat) (budget : Z)
    (state : mtk_poll_state) (eth : mtk_eth) : Z * mtk_poll_state * mtk_eth :=
  let tx_buf := mtk_desc_to_tx_buf (tx_ring eth) idx in
  let '(budget1, state1, eth1) :=
    match data tx_buf with
    | ObjPtr o =>
        let '(st, e) :=
          match type tx_buf with
          | MTK_TYPE_SKB =>
              mtk_poll_tx_done state (if pdma then 0 else mac_id tx_buf) o eth
          | _ => (state, eth)
          end in
        (budget - 1, st, e)
    | _ => (budget, state, eth)
    end in
  let eth2 := mtk_tx_unmap idx true true eth1 in
  let eth3 := set_tx_ring (fun r => add_free_count 1 (set_last_free idx r)) eth2 in
  (budget1, state1, eth3).

(** The [while ((cpu != dma) && budget)] loop of [mtk_poll_tx_qdma];
    [desc] is the slot [cpu] designates. *)
Fixpoint poll_tx_qdma_loop (fuel : nat) (cpu dma_ptr : Z) (desc : nat) (budget : Z)
    (state : mtk_poll_state) (eth : mtk_eth)
  : option (Z * Z * mtk_poll_state * mtk_eth) :=
  if (cpu =? dma_ptr) || (budget =? 0) then Some (cpu, budget, state, eth)
  else
    match fuel with
    | O => None
    | S fuel' =>
        let next_cpu := txd2 (desc_at (tx_ring eth) desc) in
        let desc' := next_desc eth desc in
        if Z.land (txd3 (desc_at (tx_ring eth) desc')) (TX_DMA_OWNER_CPU H) =? 0
        then Some (cpu, budget, state, eth)
        else
          match data (mtk_desc_to_tx_buf (tx_ring eth) desc') with
          | NullPtr => Some (cpu, budget, state, eth)
          | _ =>
              let '(budget1, state1, eth1) :=
                poll_tx_reclaim false desc' budget state eth in
              poll_tx_qdma_loop fuel' next_cpu dma_ptr desc' budget1 state1 eth1
          end
    end.

(** [mtk_poll_tx_qdma]: the budget left, the poll state and the device. *)
Definition mtk_poll_tx_qdma (budget : Z) (state : mtk_poll_state) (eth : mtk_eth)
  : option (Z * mtk_poll_state * mtk_eth) :=
  let ring := tx_ring eth in
  let cpu := last_free_ptr ring in
  let dma_ptr := qdma_drx_ptr (regs eth) in
  let desc := mtk_qdma_phys_to_virt (soc eth) ring cpu in
  match poll_tx_qdma_loop (S (length (buf ring))) cpu dma_ptr desc budget state eth with
  | None => None
  | Some (cpu', budget', state', eth1) =>
      let eth2 := set_tx_ring (set_last_free_ptr cpu') eth1 in
      let eth3 :=
        set_regs (fun r =>
          {| qdma_ctx_ptr := qdma_ctx_ptr r; qdma_dtx_ptr := qdma_dtx_ptr r;
             qdma_crx_ptr := cpu'; qdma_drx_ptr := qdma_drx_ptr r;
             MT7628_TX_CTX_IDX0 := MT7628_TX_CTX_IDX0 r;
             MT7628_TX_DTX_IDX0 := MT7628_TX_DTX_IDX0 r |}) eth2 in
      Some (budget', state', eth3)
  end.

(** The loop of [mtk_poll_tx_pdma]. *)
Fixpoint poll_tx_pdma_loop (fuel : nat) (cpu dma_idx : Z) (budget : Z)
    (state : mtk_poll_state) (eth : mtk_eth)
  : option (Z * Z * mtk_poll_state * mtk_eth) :=
  if (cpu =? dma_idx) || (budget =? 0) then Some (cpu, budget, state, eth)
  else
    match fuel with
    | O => None
    | S fuel' =>
        match data (mtk_desc_to_tx_buf (tx_ring eth) (Z.to_nat cpu)) with
        | NullPtr => Some (cpu, budget, state, eth)
        | _ =>
            let '(budget1, state1, eth1) :=
              poll_tx_reclaim true (Z.to_nat cpu) budget state eth in
            poll_tx_pdma_loop fuel' (NEXT_DESP_IDX H cpu (dma_size (tx_ring eth1)))
              dma_idx budget1 state1 eth1
        end
    end.

Definition mtk_poll_tx_pdma (budget : Z) (state : mtk_poll_state) (eth : mtk_eth)
  : option (Z * mtk_poll_state * mtk_eth) :=
  let ring := tx_ring eth in
  let cpu := cpu_idx ring in
  let dma_idx := MT7628_TX_DTX_IDX0 (regs eth) in
  match poll_tx_pdma_loop (S (length (buf ring))) cpu dma_idx budget state eth with
  | None => None
  | Some (cpu', budget', state', eth1) =>
      Some (budget', state', set_tx_ring (set_cpu_idx cpu') eth1)
  end.

Definition mtk_queue_stopped (eth : mtk_eth) : bool :=
  existsb (fun d => match d with Some dev => queues_stopped dev | None => false end)
          (netdev eth).

Definition mtk_wake_queue (eth : mtk_eth) : mtk_eth :=
  set_netdev (map (fun d =>
    match d with
    | Some dev => Some {| tx_dropped := tx_dropped dev; rx_dropped := rx_dropped dev;
                          queues_stopped := false; uses_dsa := uses_dsa dev |}
    | None => None
    end)) eth.

(** [mtk_poll_tx]: [state.total] and the device.  The interrupt
    moderation sample it feeds is not part of the state. *)
Definition mtk_poll_tx (budget : Z) (eth : mtk_eth) : option (Z * mtk_eth) :=
  let state := {| txq := None; total := 0; done := 0; bytes := 0 |} in
  match (if caps_qdma (soc eth) then mtk_poll_tx_qdma budget state eth
         else mtk_poll_tx_pdma budget state eth) with
  | None => None
  | Some (_, state', eth1) =>
      let eth2 :=
        match txq state' with
        | Some (d, qi) => add_bql (tx_completed d qi (done state') (bytes state')) eth1
        | None => eth1
        end in
      let eth3 :=
        if mtk_queue_stopped eth2 && (thresh (tx_ring eth2) <? free_count (tx_ring eth2))
        then mtk_wake_queue eth2 else eth2 in
      Some (total state', eth3)
  end.

(** *** [mtk_tx_alloc] *)

(** What the allocators return: whether [kcalloc] succeeds and the bus
    addresses of the ring and of its PDMA shadow ([None]: allocation
    failure). *)
Record alloc_env := {
  buf_alloc_ok : bool;
  ring_alloc : option Z;
  pdma_alloc : option Z
}.

Definition tx_ring_size (soc : mtk_soc_data) : Z :=
  if caps_qdma soc then MTK_QDMA_RING_SIZE H else tx_dma_size soc.

Definition empty_ring : mtk_tx_ring :=
  {| dma := []; dma_pdma := []; phys := 0; phys_pdma := 0; buf := [];
     next_free := 0%nat; last_free := 0%nat; last_free_ptr := 0; thresh := 0;
     free_count := 0; dma_size := 0; cpu_idx := 0 |}.

(** The descriptor slot [i] of a ring of [n] slots of [sz] bytes at bus
    address [phys], as the initialisation loop leaves it. *)
Definition init_desc (phys sz : Z) (n i : nat) : mtk_tx_dma :=
  let next := ((i + 1) mod n)%nat in
  {| txd1 := 0; txd2 := u32 (phys + Z.of_nat next * sz);
     txd3 := Z.lor (TX_DMA_LS0 H) (TX_DMA_OWNER_CPU H); txd4 := 0;
     txd5 := 0; txd6 := 0; txd7 := 0; txd8 := 0 |}.

Definition init_pdma_desc : mtk_tx_dma :=
  {| txd1 := 0; txd2 := TX_DMA_DESP2_DEF H; txd3 := 0; txd4 := 0;
     txd5 := 0; txd6 := 0; txd7 := 0; txd8 := 0 |}.

(** [mtk_tx_alloc(eth)] on a device whose ring is still unallocated: the
    return value and the device.  Only the pointer registers of the ring
    are kept; the scheduler configuration written after them is not. *)
Definition mtk_tx_alloc (a : alloc_env) (eth : mtk_eth) : Z * mtk_eth :=
  let soc := soc eth in
  let sz := tx_desc_size soc in
  let ring_size := tx_ring_size soc in
  let n := Z.to_nat ring_size in
  if negb (buf_alloc_ok a) then (- ENOMEM, eth)
  else
    let eth1 := set_tx_ring (set_buf (fun _ => replicate n zero_buf)) eth in
    match ring_alloc a with
    | None => (- ENOMEM, eth1)
    | Some phys =>
        let with_ring (r : mtk_tx_ring) : mtk_tx_ring :=
          {| dma := map (init_desc phys sz n) (seq 0 n); dma_pdma := dma_pdma r;
             phys := phys; phys_pdma := phys_pdma r; buf := buf r;
             next_free := next_free r; last_free := last_free r;
             last_free_ptr := last_free_ptr r; thresh := thresh r;
             free_count := free_count r; dma_size := dma_size r;
             cpu_idx := cpu_idx r |} in
        let eth2 := set_tx_ring with_ring eth1 in
        let finish (r : mtk_tx_ring) : mtk_tx_ring :=
          {| dma := dma r; dma_pdma := dma_pdma r; phys := Tx.phys r;
             phys_pdma := phys_pdma r; buf := buf r;
             next_free := 0%nat; last_free := (n - 1)%nat;
             last_free_ptr := u32 (phys + (ring_size - 1) * sz);
             thresh := MAX_SKB_FRAGS H; free_count := ring_size - 2;
             dma_size := ring_size; cpu_idx := cpu_idx r |} in
        if caps_qdma soc then
          let eth3 := set_tx_ring finish eth2 in
          (0, set_regs (fun r =>
                {| qdma_ctx_ptr := phys; qdma_dtx_ptr := phys;
                   qdma_crx_ptr := phys + (ring_size - 1) * sz;
                   qdma_drx_ptr := last_free_ptr (tx_ring eth3);
                   MT7628_TX_CTX_IDX0 := MT7628_TX_CTX_IDX0 r;
                   MT7628_TX_DTX_IDX0 := MT7628_TX_DTX_IDX0 r |}) eth3)
        else
          match pdma_alloc a with
          | None => (- ENOMEM, eth2)
          | Some pphys =>
              let with_pdma (r : mtk_tx_ring) : mtk_tx_ring :=
                {| dma := dma r; dma_pdma := replicate n init_pdma_desc;
                   phys := Tx.phys r; phys_pdma := pphys; buf := buf r;
                   next_free := next_free r; last_free := last_free r;
                   last_free_ptr := last_free_ptr r; thresh := thresh r;
                   free_count := free_count r; dma_size := dma_size r;
                   cpu_idx := cpu_idx r |} in
              let eth3 := set_tx_ring (fun r => finish (with_pdma r)) eth2 in
              (0, set_regs (fun r =>
                    {| qdma_ctx_ptr := qdma_ctx_ptr r;
                       qdma_dtx_ptr := qdma_dtx_ptr r;
                       qdma_crx_ptr := qdma_crx_ptr r;
                       qdma_drx_ptr := qdma_drx_ptr r;
                       MT7628_TX_CTX_IDX0 := 0;
                       MT7628_TX_DTX_IDX0 := 0 |}) eth3)
          end
    end.

(** *** Properties of the submission entry points *)

(** The lengths [while (frag_size)] cuts a fragment into. *)
Fixpoint frag_chunks (fuel : nat) (max_len frag_size : Z) : list Z :=
  if frag_size =? 0 then []
  else
    match fuel with
    | O => []
    | S fuel' =>
        let size := Z.min frag_size max_len in
        size :: frag_chunks fuel' max_len (frag_size - size)
    end.

Lemma DIV_ROUND_UP_small n d :
  0 < d -> 0 <= n -> n + d <= 2 ^ 32 -> DIV_ROUND_UP n d = (n + d - 1) / d.
Proof.
  intros Hd Hn Hb. unfold DIV_ROUND_UP, u32. rewrite Z.mod_small by lia. reflexivity.
Qed.

Lemma frag_chunks_length max_len : forall fuel frag_size,
  0 < max_len -> 0 <= frag_size -> (Z.to_nat frag_size <= fuel)%nat ->
  frag_size + max_len <= 2 ^ 32 ->
  Z.of_nat (length (frag_chunks fuel max_len frag_size)) = DIV_ROUND_UP frag_size max_len.
Proof.
  induction fuel as [|fuel IH]; intros f Hm Hf Hfuel Hb.
  - assert (f = 0) by lia. subst f. simpl.
    rewrite DIV_ROUND_UP_small by lia. symmetry. apply Z.div_small. lia.
  - simpl. destruct (f =? 0) eqn:E.
    + apply Z.eqb_eq in E. subst f. simpl.
      rewrite DIV_ROUND_UP_small by lia. symmetry. apply Z.div_small. lia.
    + apply Z.eqb_neq in E. cbn [length]. rewrite Nat2Z.inj_succ.
      rewrite IH by lia. rewrite !DIV_ROUND_UP_small by lia.
      destruct (Z.le_gt_cases f max_len) as [Hle|Hgt].
      * rewrite Z.min_l by lia. replace (f - f + max_len - 1) with (max_len - 1) by lia.
        rewrite (Z.div_small (max_len - 1)) by lia.
        replace (f + max_len - 1) with ((f - 1) + 1 * max_len) by lia.
        rewrite Z.div_add by lia. rewrite Z.div_small by lia. reflexivity.
      * rewrite Z.min_r by lia.
        replace (f + max_len - 1) with ((f - max_len + max_len - 1) + 1 * max_len) by lia.
        rewrite Z.div_add by lia. reflexivity.
Qed.

Lemma cal_txd_req_foldl max_len : forall (fs : list Z) acc,
  0 < max_len ->
  Forall (fun f => 0 <= f /\ f + max_len <= 2 ^ 32) fs ->
  foldl (fun nfrags frag => nfrags + DIV_ROUND_UP frag max_len) acc fs =
  acc + Z.of_nat (length (concat (map (fun f => frag_chunks (Z.to_nat f) max_len f) fs))).
Proof.
  induction fs as [|f fs IH]; intros acc Hm Hall; simpl.
  - lia.
  - inversion Hall as [|? ? [Hf Hb] Hall']; subst.
    rewrite IH by assumption. rewrite length_app, Nat2Z.inj_add.
    rewrite frag_chunks_length by lia. lia.
Qed.

(** The ring-full refusal as the specification words it: whenever the
    free-slot count is not strictly greater than the requirement, the
    submission answers Busy and leaves the ring as it was. *)
Definition full_ring_refused (env : tx_env) (skb : sk_buff) (mac : Z) (eth : mtk_eth) : Prop :=
  free_count (tx_ring eth) <= mtk_cal_txd_req (soc eth) skb ->
  exists eth',
    mtk_start_xmit env skb mac eth = Some (NETDEV_TX_BUSY, eth') /\
    tx_ring eth' = tx_ring eth.

(** C3 (as amended): the descriptor requirement and the ring-full
    refusal.  [mtk_cal_txd_req] computes the requirement: 1 plus the
    number of fragments, or, for a segmentation-offload packet, 1 plus
    the number of pieces of at most [dma_max_len] bytes each fragment is
    cut into.  Whenever the free-slot count is not strictly greater than
    it, [mtk_start_xmit] outside a reset returns [NETDEV_TX_BUSY] and
    leaves ring, registers and mappings as they were (only the send
    queues of the device are stopped).  While [MTK_RESETTING] is set the
    test is not reached, however full the ring is: the packet is freed
    and counted as dropped, the ring is left as it was and
    [NETDEV_TX_OK] is returned. *)
Theorem start_xmit_descriptor_requirement env skb mac eth :
  let req := mtk_cal_txd_req (soc eth) skb in
  let max_len := tx_dma_max_len (soc eth) in
  (is_gso skb = false -> req = 1 + Z.of_nat (length (frags skb))) /\
  (is_gso skb = true -> 0 < max_len ->
   Forall (fun f => 0 <= f /\ f + max_len <= 2 ^ 32) (frags skb) ->
   req = 1 + Z.of_nat (length (concat
           (map (fun f => frag_chunks (Z.to_nat f) max_len f) (frags skb))))) /\
  (free_count (tx_ring eth) <= req ->
   exists r eth',
     mtk_start_xmit env skb mac eth = Some (r, eth') /\
     tx_ring eth' = tx_ring eth /\ regs eth' = regs eth /\
     dma_mapped eth' = dma_mapped eth /\ dma_calls eth' = dma_calls eth /\
     bql eth' = bql eth /\
     if resetting eth
     then r = NETDEV_TX_OK /\
          eth' = add_released (dev_kfree_skb_any (skb_obj skb)) (inc_tx_dropped mac eth)
     else r = NETDEV_TX_BUSY /\ released eth' = released eth /\
          eth' = netif_tx_stop_all_queues mac eth).
Proof.
  intros req max_len. repeat split.
  - intros Hg. unfold req, mtk_cal_txd_req. rewrite Hg. reflexivity.
  - intros Hg Hm Hall. unfold req, mtk_cal_txd_req. rewrite Hg.
    apply cal_txd_req_foldl; assumption.
  - intros Hfull. unfold mtk_start_xmit. destruct (resetting eth) eqn:Hr.
    + do 2 eexists. unfold xmit_drop. repeat (split; [reflexivity|]).
      split; reflexivity.
    + fold req. rewrite (proj2 (Z.leb_le _ _) Hfull).
      do 2 eexists. repeat (split; [reflexivity|]). repeat split; reflexivity.
Qed.

(** The claim about the reset window as the specification words it: both
    entry points answer Busy and leave the device as it was. *)
Definition reset_rejects_with_busy (env : tx_env) (skb : sk_buff) (xdpf : xdp_frame)
    (mac : Z) (do_map : bool) (eth : mtk_eth) : Prop :=
  resetting eth = true ->
  mtk_start_xmit env skb mac eth = Some (NETDEV_TX_BUSY, eth) /\
  mtk_xdp_submit_frame env xdpf mac do_map eth = Some (- EBUSY, eth).

(** C5 (as amended): while [MTK_RESETTING] is set, both entry points test
    the flag before anything else.  [mtk_xdp_submit_frame] returns
    [-EBUSY] and leaves the device untouched.  [mtk_start_xmit] drops the
    packet: it returns [NETDEV_TX_OK], frees the packet and counts it in
    the device's [tx_dropped], and leaves ring, registers and mappings
    untouched. *)
Theorem reset_window_submissions env skb xdpf mac do_map eth :
  resetting eth = true ->
  mtk_xdp_submit_frame env xdpf mac do_map eth = Some (- EBUSY, eth) /\
  exists eth',
    mtk_start_xmit env skb mac eth = Some (NETDEV_TX_OK, eth') /\
    eth' = add_released (dev_kfree_skb_any (skb_obj skb)) (inc_tx_dropped mac eth) /\
    tx_ring eth' = tx_ring eth /\ regs eth' = regs eth /\
    dma_mapped eth' = dma_mapped eth /\ dma_calls eth' = dma_calls eth /\
    bql eth' = bql eth /\
    released eth' = released eth ++ [dev_kfree_skb_any (skb_obj skb)] /\
    (forall dev, netdev eth !! Z.to_nat mac = Some (Some dev) ->
       exists dev', netdev eth' !! Z.to_nat mac = Some (Some dev') /\
                    tx_dropped dev' = tx_dropped dev + 1).
Proof.
  intros Hr. split.
  - unfold mtk_xdp_submit_frame. rewrite Hr. reflexivity.
  - eexists. unfold mtk_start_xmit. rewrite Hr. unfold xmit_drop.
    repeat (split; [reflexivity|]).
    intros dev Hdev. cbn. rewrite Hdev.
    eexists. split.
    + apply list_lookup_insert_eq. eapply lookup_lt_Some; eassumption.
    + reflexivity.
Qed.

(** Normalisation of nested field updates: the updates and the
    projections are unfolded innermost first. *)
Ltac tx_norm :=
  cbv [set_tx_ring set_regs set_netdev set_dma_mapped set_dma_calls add_released
       add_bql add_tx_stats set_dma set_dma_pdma set_buf set_next_free
       set_last_free set_last_free_ptr set_cpu_idx add_free_count
       update_desc update_pdma update_buf
       soc resetting tx_ring regs netdev tx_packets tx_bytes dma_mapped
       dma_calls released bql
       dma dma_pdma phys phys_pdma buf next_free last_free last_free_ptr
       thresh free_count dma_size cpu_idx] in *.

(** Reading a field through nested updates. *)
Ltac tx_proj :=
  cbn [set_tx_ring set_regs set_netdev set_dma_mapped set_dma_calls add_released
       add_bql add_tx_stats set_dma set_dma_pdma set_buf set_next_free
       set_last_free set_last_free_ptr set_cpu_idx add_free_count
       update_desc update_pdma update_buf
       soc resetting tx_ring regs netdev tx_packets tx_bytes dma_mapped
       dma_calls released bql
       dma dma_pdma phys phys_pdma buf next_free last_free last_free_ptr
       thresh free_count dma_size cpu_idx
       qdma_ctx_ptr qdma_dtx_ptr qdma_crx_ptr qdma_drx_ptr
       MT7628_TX_CTX_IDX0 MT7628_TX_DTX_IDX0].

Ltac destruct_eth e :=
  destruct e as [? ? [? ? ? ? ? ? ? ? ? ? ? ?] ? ? ? ? ? ? ? ?].

(** *** Well-formed rings *)

(** The descriptor ring is linked the way [mtk_tx_alloc] links it, and
    the parallel arrays have its length. *)
Definition ring_ok (eth : mtk_eth) : Prop :=
  let r := tx_ring eth in
  0 < tx_desc_size (soc eth) /\
  length (buf r) = length (dma r) /\
  (caps_qdma (soc eth) = false -> length (dma_pdma r) = length (dma r)) /\
  forall i : nat, (i < length (dma r))%nat ->
    txd2 (dma r !!! i) =
    phys r + Z.of_nat ((i + 1) mod length (dma r)) * tx_desc_size (soc eth).

Definition ring_len (eth : mtk_eth) : nat := length (dma (tx_ring eth)).

(** The slot after [i] on a ring of [n] slots. *)
Definition slot_succ (n i : nat) : nat := ((i + 1) mod n)%nat.

Lemma next_desc_succ eth i :
  ring_ok eth -> (i < ring_len eth)%nat ->
  next_desc eth i = slot_succ (ring_len eth) i.
Proof.
  intros (Hsz & _ & _ & Hl) Hi.
  unfold next_desc, mtk_qdma_phys_to_virt, desc_at. rewrite (Hl i Hi).
  replace (phys (tx_ring eth) +
           Z.of_nat ((i + 1) mod length (dma (tx_ring eth))) * tx_desc_size (soc eth) -
           phys (tx_ring eth))
    with (Z.of_nat ((i + 1) mod length (dma (tx_ring eth))) * tx_desc_size (soc eth))
    by lia.
  rewrite Z.div_mul by lia. rewrite Nat2Z.id. reflexivity.
Qed.

Lemma slot_succ_lt n i : (0 < n)%nat -> (slot_succ n i < n)%nat.
Proof. intros Hn. unfold slot_succ. apply Nat.mod_upper_bound. lia. Qed.

Lemma slot_succ_ne n i : (2 <= n)%nat -> (i < n)%nat -> slot_succ n i <> i.
Proof.
  intros Hn Hi. unfold slot_succ.
  destruct (decide (i + 1 = n)%nat) as [E|E].
  - rewrite E, Nat.Div0.mod_same. lia.
  - rewrite Nat.mod_small by lia. lia.
Qed.

Lemma slot_succ2_ne n i :
  (3 <= n)%nat -> (i < n)%nat -> slot_succ n (slot_succ n i) <> i.
Proof.
  intros Hn Hi. unfold slot_succ.
  destruct (decide (i + 1 = n)%nat) as [E|E].
  - rewrite E, Nat.Div0.mod_same. rewrite Nat.mod_small by lia. lia.
  - rewrite (Nat.mod_small (i + 1)) by lia.
    destruct (decide (i + 1 + 1 = n)%nat) as [E2|E2].
    + rewrite E2, Nat.Div0.mod_same. lia.
    + rewrite Nat.mod_small by lia. lia.
Qed.

(** *** The encoding chosen by [mtk_tx_set_dma_desc] *)

Definition encode (eth : mtk_eth) (mac : Z) (info : mtk_tx_dma_desc_info)
    (desc : mtk_tx_dma) : mtk_tx_dma :=
  if mtk_is_netsys_v2_or_greater (soc eth)
  then mtk_tx_set_dma_desc_v2 (soc eth) (netdev_uses_dsa eth mac) mac info desc
  else mtk_tx_set_dma_desc_v1 (soc eth) mac info desc.

Lemma mtk_tx_set_dma_desc_encode mac idx info eth :
  mtk_tx_set_dma_desc mac idx info eth = update_desc idx (encode eth mac info) eth.
Proof.
  unfold mtk_tx_set_dma_desc, encode.
  destruct (mtk_is_netsys_v2_or_greater (soc eth)); reflexivity.
Qed.

Lemma encode_txd2 eth mac info d : txd2 (encode eth mac info d) = txd2 d.
Proof.
  unfold encode, mtk_tx_set_dma_desc_v2, mtk_tx_set_dma_desc_v1.
  destruct (mtk_is_netsys_v2_or_greater (soc eth)); reflexivity.
Qed.

(** [encode] reads the device only through [soc] and [netdev]. *)
Lemma encode_ext eth eth' mac info :
  soc eth' = soc eth -> netdev eth' = netdev eth ->
  encode eth' mac info = encode eth mac info.
Proof.
  intros Hs Hn. unfold encode, netdev_uses_dsa. rewrite Hs, Hn. reflexivity.
Qed.

(** *** One slot filled on the queue-aware ring

    The state after a buffer of [m.2] bytes was mapped at [m.1] and
    written to slot [idx]: descriptor encoded from [info], bookkeeping
    record [b]. *)
Definition slot_written (idx : nat) (enc : mtk_tx_dma -> mtk_tx_dma)
    (b : mtk_tx_buf) (m : Z * Z) (eth : mtk_eth) : mtk_eth :=
  {| soc := soc eth; resetting := resetting eth;
     tx_ring :=
       set_buf (fun l => <[idx := b]> l)
         (set_dma (fun l => <[idx := enc (l !!! idx)]> l) (tx_ring eth));
     regs := regs eth; netdev := netdev eth; tx_packets := tx_packets eth;
     tx_bytes := tx_bytes eth; dma_mapped := m :: dma_mapped eth;
     dma_calls := S (dma_calls eth); released := released eth;
     bql := bql eth |}.

(** The bookkeeping record of a head slot and of a fragment slot. *)
Definition head_buf (mac addr size : Z) : mtk_tx_buf :=
  {| type := MTK_TYPE_SKB; data := NullPtr; mac_id := mac;
     flags := Z.lor 0 (MTK_TX_FLAGS_SINGLE0 H);
     dma_addr0 := addr; dma_len0 := size; dma_addr1 := 0; dma_len1 := 0 |}.

Definition frag_buf (mac addr size : Z) : mtk_tx_buf :=
  {| type := MTK_TYPE_SKB; data := DummyDesc; mac_id := mac;
     flags := Z.lor 0 (MTK_TX_FLAGS_PAGE0 H);
     dma_addr0 := addr; dma_len0 := size; dma_addr1 := 0; dma_len1 := 0 |}.

Definition frag_info (queue size addr : Z) (last : bool) : mtk_tx_dma_desc_info :=
  {| i_size := size; i_addr := addr; i_vlan_tci := 0; i_qid := queue;
     i_vlan := false; i_csum := false; i_gso := false;
     i_first := false; i_last := last |}.

Definition head_info (skb : sk_buff) (gso : bool) (addr : Z) : mtk_tx_dma_desc_info :=
  {| i_size := headlen skb; i_addr := addr;
     i_vlan_tci := vlan_tag skb; i_qid := obj_queue (skb_obj skb);
     i_vlan := vlan_tag_present skb; i_csum := ip_summed_partial skb;
     i_gso := gso; i_first := true;
     i_last := negb (skb_is_nonlinear skb) |}.

Lemma slot_written_ring_ok idx enc b m eth :
  (forall d, txd2 (enc d) = txd2 d) ->
  ring_ok eth -> ring_ok (slot_written idx enc b m eth).
Proof.
  intros Henc (Hsz & Hb & Hp & Hl). unfold ring_ok. cbn.
  rewrite !length_insert. repeat split; try assumption.
  intros i Hi. destruct (decide (idx = i)) as [->|Hne].
  - rewrite list_lookup_total_insert_eq by assumption. rewrite Henc. apply Hl, Hi.
  - rewrite list_lookup_total_insert_ne by assumption. apply Hl, Hi.
Qed.

Lemma slot_written_len idx enc b m eth :
  ring_len (slot_written idx enc b m eth) = ring_len eth.
Proof. unfold ring_len. cbn. apply length_insert. Qed.

(** One pass of the fragment loop on the queue-aware ring, when the next
    slot is free and the mapping succeeds. *)
Lemma tx_map_chunk_qdma env mac queue i nr_frags frag_size s addr :
  caps_qdma (soc (m_eth s)) = true ->
  ring_ok (m_eth s) -> (m_txd s < ring_len (m_eth s))%nat ->
  slot_succ (ring_len (m_eth s)) (m_txd s) <> last_free (tx_ring (m_eth s)) ->
  map_result env (dma_calls (m_eth s)) = Some addr ->
  let size := Z.min frag_size (tx_dma_max_len (soc (m_eth s))) in
  let last := (i =? nr_frags - 1) && (frag_size - size =? 0) in
  let txd := slot_succ (ring_len (m_eth s)) (m_txd s) in
  tx_map_chunk env mac queue i nr_frags frag_size s =
  inl (size,
       {| m_eth := slot_written txd (encode (m_eth s) mac (frag_info queue size addr last))
                     (frag_buf mac addr size) (addr, size) (m_eth s);
          m_txd := txd; m_n_desc := m_n_desc s + 1; m_k := m_k s + 1 |}).
Proof.
  intros Hq Hok Ht Hnl Hmap size last txd.
  unfold tx_map_chunk. rewrite Hq. cbn [orb andb].
  rewrite (next_desc_succ _ _ Hok Ht). fold txd.
  rewrite bool_decide_eq_false_2 by exact Hnl.
  fold size. fold last. unfold dma_map. rewrite Hmap.
  rewrite mtk_tx_set_dma_desc_encode.
  rewrite (encode_ext (m_eth s)) by reflexivity.
  unfold setup_tx_buf.
  cbn [soc set_dma_mapped set_dma_calls update_desc update_buf set_tx_ring].
  rewrite Hq.
  assert (Hlt : (txd < length (buf (tx_ring (m_eth s))))%nat).
  { destruct Hok as (_ & Hb & _). rewrite Hb. apply slot_succ_lt. unfold ring_len in Ht. lia. }
  f_equal. f_equal. f_equal.
  fold (frag_info queue size addr last).
  generalize (encode (m_eth s) mac (frag_info queue size addr last)).
  clear Hok Ht Hnl Hmap. clearbody size last txd.
  destruct s as [e t nd k]. cbn [m_eth] in *.
  intros enc. unfold slot_written. destruct_eth e. tx_norm.
  rewrite !list_lookup_total_insert_eq by (rewrite ?length_insert; exact Hlt).
  rewrite !list_insert_insert_eq.
  reflexivity.
Qed.
(** Reading a device after one slot was filled. *)
Lemma slot_written_frame idx enc b m eth :
  soc (slot_written idx enc b m eth) = soc eth /\
  resetting (slot_written idx enc b m eth) = resetting eth /\
  netdev (slot_written idx enc b m eth) = netdev eth /\
  regs (slot_written idx enc b m eth) = regs eth /\
  released (slot_written idx enc b m eth) = released eth /\
  bql (slot_written idx enc b m eth) = bql eth /\
  dma_mapped (slot_written idx enc b m eth) = m :: dma_mapped eth /\
  dma_calls (slot_written idx enc b m eth) = S (dma_calls eth) /\
  free_count (tx_ring (slot_written idx enc b m eth)) = free_count (tx_ring eth) /\
  next_free (tx_ring (slot_written idx enc b m eth)) = next_free (tx_ring eth) /\
  last_free (tx_ring (slot_written idx enc b m eth)) = last_free (tx_ring eth) /\
  thresh (tx_ring (slot_written idx enc b m eth)) = thresh (tx_ring eth) /\
  phys (tx_ring (slot_written idx enc b m eth)) = phys (tx_ring eth) /\
  last_free_ptr (tx_ring (slot_written idx enc b m eth)) = last_free_ptr (tx_ring eth) /\
  dma_size (tx_ring (slot_written idx enc b m eth)) = dma_size (tx_ring eth) /\
  cpu_idx (tx_ring (slot_written idx enc b m eth)) = cpu_idx (tx_ring eth).
Proof. repeat split; reflexivity. Qed.

Lemma slot_written_desc idx enc b m eth j :
  (idx < ring_len eth)%nat ->
  desc_at (tx_ring (slot_written idx enc b m eth)) j =
  if decide (j = idx) then enc (desc_at (tx_ring eth) idx)
  else desc_at (tx_ring eth) j.
Proof.
  intros Hi. unfold desc_at, slot_written, ring_len in *. destruct_eth eth. tx_norm.
  destruct (decide (j = idx)) as [->|Hne].
  - apply list_lookup_total_insert_eq. exact Hi.
  - apply list_lookup_total_insert_ne. congruence.
Qed.

Lemma slot_written_buf idx enc b m eth j :
  ring_ok eth -> (idx < ring_len eth)%nat ->
  mtk_desc_to_tx_buf (tx_ring (slot_written idx enc b m eth)) j =
  if decide (j = idx) then b else mtk_desc_to_tx_buf (tx_ring eth) j.
Proof.
  intros (_ & Hb & _) Hi.
  unfold mtk_desc_to_tx_buf, slot_written, ring_len in *. destruct_eth eth. tx_norm.
  destruct (decide (j = idx)) as [->|Hne].
  - apply list_lookup_total_insert_eq. lia.
  - apply list_lookup_total_insert_ne. congruence.
Qed.

(** Reading a device after the commit of a submission on the queue-aware
    ring. *)
Lemma tx_map_commit_qdma env skb mac itxd s :
  caps_qdma (soc (m_eth s)) = true ->
  let eth' := tx_map_commit env skb mac itxd s in
  free_count (tx_ring eth') = free_count (tx_ring (m_eth s)) - m_n_desc s /\
  next_free (tx_ring eth') = next_desc (m_eth s) (m_txd s) /\
  last_free (tx_ring eth') = last_free (tx_ring (m_eth s)) /\
  thresh (tx_ring eth') = thresh (tx_ring (m_eth s)) /\
  dma (tx_ring eth') = dma (tx_ring (m_eth s)) /\
  buf (tx_ring eth') =
    <[itxd := with_data (ObjPtr (skb_obj skb))
                (with_type MTK_TYPE_SKB (buf (tx_ring (m_eth s)) !!! itxd))]>
      (buf (tx_ring (m_eth s))) /\
  dma_mapped eth' = dma_mapped (m_eth s) /\
  dma_calls eth' = dma_calls (m_eth s) /\
  soc eth' = soc (m_eth s) /\ resetting eth' = resetting (m_eth s) /\
  netdev eth' = netdev (m_eth s) /\ released eth' = released (m_eth s) /\
  bql eth' = bql (m_eth s) ++
             [tx_sent mac (obj_queue (skb_obj skb)) (obj_len (skb_obj skb))] /\
  phys (tx_ring eth') = phys (tx_ring (m_eth s)) /\
  last_free_ptr (tx_ring eth') = last_free_ptr (tx_ring (m_eth s)) /\
  qdma_drx_ptr (regs eth') = qdma_drx_ptr (regs (m_eth s)).
Proof.
  intros Hq eth'. unfold eth', tx_map_commit. rewrite Hq.
  destruct s as [e t nd k]. cbn [m_eth m_txd m_n_desc m_k] in *.
  unfold next_desc, desc_at.
  destruct (ring_doorbell env); destruct_eth e; tx_norm;
    repeat split; try reflexivity; lia.
Qed.

(** The head of a submission on the queue-aware ring, when the producer
    slot is free and the linear part maps. *)
Lemma mtk_tx_map_head_qdma env skb mac gso eth addr :
  caps_qdma (soc eth) = true ->
  ring_ok eth -> (next_free (tx_ring eth) < ring_len eth)%nat ->
  next_free (tx_ring eth) <> last_free (tx_ring eth) ->
  map_result env (dma_calls eth) = Some addr ->
  let itxd := next_free (tx_ring eth) in
  let s0 :=
    {| m_eth := slot_written itxd (encode eth mac (head_info skb gso addr))
                  (head_buf mac addr (headlen skb)) (addr, headlen skb) eth;
       m_txd := itxd; m_n_desc := 1; m_k := 1 |} in
  mtk_tx_map env skb mac gso eth =
  match tx_map_frags env mac (obj_queue (skb_obj skb))
          (Z.of_nat (length (frags skb))) 0 (frags skb) s0 with
  | MapDiverge => None
  | MapErr s =>
      match tx_map_unwind (length (dma (tx_ring (m_eth s)))) itxd (m_txd s) (m_eth s) with
      | Some eth' => Some (- ENOMEM, eth')
      | None => None
      end
  | MapOk s => Some (0, tx_map_commit env skb mac itxd s)
  end.
Proof.
  intros Hq Hok Hlt Hne Hmap itxd s0.
  unfold mtk_tx_map. fold itxd.
  rewrite bool_decide_eq_false_2 by exact Hne.
  unfold dma_map.
  cbn [dma_calls update_buf set_tx_ring]. rewrite Hmap.
  rewrite mtk_tx_set_dma_desc_encode.
  rewrite (encode_ext eth) by reflexivity.
  fold (head_info skb gso addr).
  unfold setup_tx_buf.
  cbn [soc set_dma_mapped set_dma_calls update_desc update_buf set_tx_ring].
  rewrite Hq.
  assert (Hl : (itxd < length (buf (tx_ring eth)))%nat).
  { destruct Hok as (_ & Hb & _). rewrite Hb. exact Hlt. }
  match goal with
  | |- match tx_map_frags _ _ _ _ _ _ ?a with _ => _ end =
       match tx_map_frags _ _ _ _ _ _ ?b with _ => _ end =>
      replace a with b; [reflexivity|]
  end.
  unfold s0. f_equal.
  generalize (encode eth mac (head_info skb gso addr)). intros enc.
  clear Hok Hlt Hne Hmap s0. clearbody itxd.
  unfold slot_written. destruct_eth eth. tx_norm.
  rewrite !list_lookup_total_insert_eq by (rewrite ?length_insert; exact Hl).
  rewrite !list_insert_insert_eq.
  reflexivity.
Qed.

Lemma tx_map_frag_done fuel env mac queue i nr_frags s :
  tx_map_frag fuel env mac queue i nr_frags 0 s = MapOk s.
Proof. destruct fuel; reflexivity. Qed.


(** *** The freshly allocated ring *)

Lemma init_desc_lookup phys sz (n i : nat) :
  (i < n)%nat ->
  map (init_desc phys sz n) (seq 0 n) !!! i = init_desc phys sz n i.
Proof.
  intros Hi. apply list_lookup_total_correct.
  rewrite list_lookup_fmap, lookup_seq_lt by exact Hi. reflexivity.
Qed.

(** What [mtk_tx_alloc] leaves behind when every allocation succeeds and
    the ring lies below 4 GiB. *)
Lemma mtk_tx_alloc_fresh a eth p pp :
  let sz := tx_desc_size (soc eth) in
  let ring_size := tx_ring_size (soc eth) in
  let n := Z.to_nat ring_size in
  let eth1 := (mtk_tx_alloc a eth).2 in
  buf_alloc_ok a = true -> ring_alloc a = Some p -> pdma_alloc a = Some pp ->
  0 < sz -> 0 < ring_size -> 0 <= p -> p + ring_size * sz <= 2 ^ 32 ->
  (mtk_tx_alloc a eth).1 = 0 /\
  ring_ok eth1 /\ ring_len eth1 = n /\
  soc eth1 = soc eth /\ resetting eth1 = resetting eth /\
  netdev eth1 = netdev eth /\ dma_mapped eth1 = dma_mapped eth /\
  dma_calls eth1 = dma_calls eth /\
  phys (tx_ring eth1) = p /\
  dma (tx_ring eth1) = map (init_desc p sz n) (seq 0 n) /\
  buf (tx_ring eth1) = replicate n zero_buf /\
  next_free (tx_ring eth1) = 0%nat /\ last_free (tx_ring eth1) = (n - 1)%nat /\
  last_free_ptr (tx_ring eth1) = p + (ring_size - 1) * sz /\
  free_count (tx_ring eth1) = ring_size - 2 /\
  dma_size (tx_ring eth1) = ring_size /\
  cpu_idx (tx_ring eth1) = cpu_idx (tx_ring eth) /\
  (caps_qdma (soc eth) = true -> qdma_drx_ptr (regs eth1) = p + (ring_size - 1) * sz) /\
  (caps_qdma (soc eth) = false ->
     MT7628_TX_DTX_IDX0 (regs eth1) = 0 /\ MT7628_TX_CTX_IDX0 (regs eth1) = 0).
Proof.
  intros sz ring_size n eth1 Hb Hr Hp Hsz Hn H0 Hlim.
  assert (Hu : u32 (p + (ring_size - 1) * sz) = p + (ring_size - 1) * sz).
  { unfold u32. apply Z.mod_small. nia. }
  assert (Hok :
    forall i : nat, (i < n)%nat ->
      txd2 (map (init_desc p sz n) (seq 0 n) !!! i) =
      p + Z.of_nat ((i + 1) mod n) * sz).
  { intros i Hi. rewrite init_desc_lookup by exact Hi. cbn [init_desc txd2].
    unfold u32. apply Z.mod_small.
    assert ((i + 1) mod n < n)%nat by (apply Nat.mod_upper_bound; lia).
    assert (Z.of_nat ((i + 1) mod n) < ring_size) by lia.
    nia. }
  unfold eth1, mtk_tx_alloc. fold sz ring_size n. rewrite Hb, Hr, Hp. cbn [negb].
  destruct (caps_qdma (soc eth)) eqn:Hq; cbn.
  all: rewrite ?Hu.
  all: unfold ring_ok, ring_len; cbn.
  all: rewrite ?length_map, ?length_seq, ?length_replicate.
  all: repeat split; try reflexivity; try assumption; try discriminate.
  all: try lia.
  congruence.
Qed.
(** *** Reclaim *)

Definition is_head (b : mtk_tx_buf) : bool :=
  match data b with ObjPtr _ => true | _ => false end.

Definition in_use (b : mtk_tx_buf) : bool :=
  match data b with NullPtr => false | _ => true end.

(** The mappings left after [mtk_tx_unmap] released those of [b]. *)
Definition unmapped_of (qdma : bool) (b : mtk_tx_buf) (m : list (Z * Z)) : list (Z * Z) :=
  if qdma then
    if nonzero (Z.land (flags b) (MTK_TX_FLAGS_SINGLE0 H)) ||
       nonzero (Z.land (flags b) (MTK_TX_FLAGS_PAGE0 H))
    then unmap_one (dma_addr0 b, dma_len0 b) m else m
  else
    let m0 := if nonzero (dma_len0 b) then unmap_one (dma_addr0 b, dma_len0 b) m else m in
    if nonzero (dma_len1 b) then unmap_one (dma_addr1 b, dma_len1 b) m0 else m0.

(** The release [mtk_tx_unmap] performs for the buffer record [b]. *)
Definition release_of (bq napi : bool) (b : mtk_tx_buf) : list release_event :=
  match data b with
  | ObjPtr o =>
      match type b with
      | MTK_TYPE_SKB => [if napi then napi_consume_skb o else dev_kfree_skb_any o]
      | MTK_TYPE_XDP_TX =>
          [if napi then xdp_return_frame_rx_napi o
           else if bq then xdp_return_frame_bulk o else xdp_return_frame o]
      | MTK_TYPE_XDP_NDO =>
          [if bq then xdp_return_frame_bulk o else xdp_return_frame o]
      end
  | _ => []
  end.

Lemma mtk_tx_unmap_effect idx bq napi eth :
  let eth' := mtk_tx_unmap idx bq napi eth in
  let b := mtk_desc_to_tx_buf (tx_ring eth) idx in
  soc eth' = soc eth /\ regs eth' = regs eth /\ netdev eth' = netdev eth /\
  resetting eth' = resetting eth /\ dma_calls eth' = dma_calls eth /\
  bql eth' = bql eth /\ tx_packets eth' = tx_packets eth /\
  tx_bytes eth' = tx_bytes eth /\
  tx_ring eth' = set_buf (fun l => <[idx := with_data NullPtr (with_flags 0 b)]> l)
                   (tx_ring eth) /\
  dma_mapped eth' = unmapped_of (caps_qdma (soc eth)) b (dma_mapped eth) /\
  released eth' = released eth ++ release_of bq napi b.
Proof.
  intros eth' b. unfold eth', mtk_tx_unmap, unmapped_of, release_of.
  fold b. clear eth'.
  assert (Hb : b = mtk_desc_to_tx_buf (tx_ring eth) idx) by reflexivity.
  unfold mtk_desc_to_tx_buf in Hb. clearbody b.
  destruct (data b); [| |destruct (type b)].
  all: destruct_eth eth; tx_norm; subst b.
  all: repeat split; try reflexivity.
  all: try (symmetry; apply app_nil_r).
  all: repeat match goal with
       | |- context [nonzero ?x] => destruct (nonzero x)
       | |- context [caps_qdma ?x] => destruct (caps_qdma x)
       end; cbn [orb]; reflexivity.
Qed.

Lemma mtk_poll_tx_done_effect state mac skb eth :
  let r := mtk_poll_tx_done state mac skb eth in
  total r.1 = total state + 1 /\
  tx_ring r.2 = tx_ring eth /\ soc r.2 = soc eth /\ regs r.2 = regs eth /\
  netdev r.2 = netdev eth /\ resetting r.2 = resetting eth /\
  dma_mapped r.2 = dma_mapped eth /\ dma_calls r.2 = dma_calls eth /\
  released r.2 = released eth.
Proof.
  unfold mtk_poll_tx_done.
  destruct (netdev_present eth mac); cbn [negb].
  2: { repeat split; reflexivity. }
  cbn [txq total done bytes].
  destruct (bool_decide (txq state = Some (mac, obj_queue skb))).
  { repeat split; reflexivity. }
  destruct (txq state) as [[d qi]|]; repeat split; reflexivity.
Qed.

(** The buffer record of a slot once it is returned to the ring. *)
Definition cleared (b : mtk_tx_buf) : mtk_tx_buf := with_data NullPtr (with_flags 0 b).

Lemma poll_tx_reclaim_effect pdma idx budget state eth :
  let b := mtk_desc_to_tx_buf (tx_ring eth) idx in
  let r := poll_tx_reclaim pdma idx budget state eth in
  r.1.1 = (if is_head b then budget - 1 else budget) /\
  total r.1.2 =
    total state +
    (if is_head b && bool_decide (type b = MTK_TYPE_SKB) then 1 else 0) /\
  tx_ring r.2 =
    add_free_count 1
      (set_last_free idx (set_buf (fun l => <[idx := cleared b]> l) (tx_ring eth))) /\
  soc r.2 = soc eth /\ regs r.2 = regs eth /\ resetting r.2 = resetting eth /\
  dma_calls r.2 = dma_calls eth /\
  dma_mapped r.2 = unmapped_of (caps_qdma (soc eth)) b (dma_mapped eth) /\
  released r.2 = released eth ++ release_of true true b.
Proof.
  intros b r. unfold r, poll_tx_reclaim. fold b. unfold is_head.
  assert (Hb : b = mtk_desc_to_tx_buf (tx_ring eth) idx) by reflexivity.
  clearbody b. clear r.
  assert (Fin : forall (st : mtk_poll_state) (e : mtk_eth) (bud : Z),
    tx_ring e = tx_ring eth -> soc e = soc eth -> regs e = regs eth ->
    resetting e = resetting eth -> dma_mapped e = dma_mapped eth ->
    dma_calls e = dma_calls eth -> released e = released eth ->
    let r := (bud, st,
              set_tx_ring (fun r => add_free_count 1 (set_last_free idx r))
                (mtk_tx_unmap idx true true e)) in
    tx_ring r.2 =
      add_free_count 1
        (set_last_free idx (set_buf (fun l => <[idx := cleared b]> l) (tx_ring eth))) /\
    soc r.2 = soc eth /\ regs r.2 = regs eth /\ resetting r.2 = resetting eth /\
    dma_calls r.2 = dma_calls eth /\
    dma_mapped r.2 = unmapped_of (caps_qdma (soc eth)) b (dma_mapped eth) /\
    released r.2 = released eth ++ release_of true true b).
  { intros st e bud E1 E2 E3 E4 E5 E6 E7.
    pose proof (mtk_tx_unmap_effect idx true true e) as U. cbv zeta in U.
    rewrite E1, E2, E5, E7, <- Hb in U.
    destruct U as (U1 & U2 & U3 & U4 & U5 & U6 & U7 & U8 & U9 & U10 & U11).
    cbn [set_tx_ring tx_ring soc regs resetting dma_calls dma_mapped released fst snd].
    rewrite U9. unfold cleared. repeat split; congruence. }
  destruct (data b) as [| |o] eqn:Hd.
  1,2: cbn [fst snd andb]; split; [reflexivity|]; split; [lia|];
       apply (Fin state eth budget); reflexivity.
  destruct (type b) eqn:Ht.
  - pose proof (mtk_poll_tx_done_effect state (if pdma then 0 else mac_id b) o eth) as D.
    cbv zeta in D.
    destruct (mtk_poll_tx_done state (if pdma then 0 else mac_id b) o eth) as [st e] eqn:E.
    cbn [fst snd] in D.
    destruct D as (D1 & D2 & D3 & D4 & D5 & D6 & D7 & D8 & D9).
    rewrite bool_decide_eq_true_2 by reflexivity. cbn [andb].
    split; [reflexivity|]. split; [exact D1|].
    apply (Fin st e (budget - 1)); assumption.
  - rewrite bool_decide_eq_false_2 by discriminate. cbn [andb].
    split; [reflexivity|]. split; [cbn [fst snd]; lia|].
    apply (Fin state eth (budget - 1)); reflexivity.
  - rewrite bool_decide_eq_false_2 by discriminate. cbn [andb].
    split; [reflexivity|]. split; [cbn [fst snd]; lia|].
    apply (Fin state eth (budget - 1)); reflexivity.
Qed.

(** Counting the slots on which two snapshots of the bookkeeping array
    differ in the way [p] describes. *)
Fixpoint count2 (p : mtk_tx_buf -> mtk_tx_buf -> bool) (l l' : list mtk_tx_buf) : Z :=
  match l, l' with
  | x :: l, y :: l' => (if p x y then 1 else 0) + count2 p l l'
  | _, _ => 0
  end.

(** Slots in use before and free after; head slots among them. *)
Definition slots_reclaimed (eth eth' : mtk_eth) : Z :=
  count2 (fun b b' => in_use b && negb (in_use b'))
    (buf (tx_ring eth)) (buf (tx_ring eth')).

Definition heads_reclaimed (eth eth' : mtk_eth) : Z :=
  count2 (fun b b' => is_head b && negb (in_use b'))
    (buf (tx_ring eth)) (buf (tx_ring eth')).

Lemma is_head_in_use b : is_head b = true -> in_use b = true.
Proof. unfold is_head, in_use. destruct (data b); congruence. Qed.

Lemma in_use_lt (l : list mtk_tx_buf) i : in_use (l !!! i) = true -> (i < length l)%nat.
Proof.
  intros Hu. destruct (decide (i < length l)%nat) as [|Hge]; [assumption|].
  rewrite list_lookup_total_alt, lookup_ge_None_2 in Hu by lia. discriminate.
Qed.

Lemma count2_refl f l :
  (forall b, f b = true -> in_use b = true) ->
  count2 (fun b b' => f b && negb (in_use b')) l l = 0.
Proof.
  intros Hf. induction l as [|x l IH]; [reflexivity|]. cbn [count2]. rewrite IH.
  destruct (f x) eqn:E; [rewrite (Hf _ E)|]; reflexivity.
Qed.

Lemma count2_step f c : forall (l l' : list mtk_tx_buf) (j : nat),
  (j < length l)%nat -> length l' = length l ->
  f c = false -> in_use (l' !!! j) = false ->
  count2 (fun b b' => f b && negb (in_use b')) l l' =
  (if f (l !!! j) then 1 else 0) +
  count2 (fun b b' => f b && negb (in_use b')) (<[j := c]> l) l'.
Proof.
  induction l as [|x l IH]; intros l' j Hj Hlen Hc Hu; [cbn in Hj; lia|].
  destruct l' as [|y l']; [discriminate|]. destruct j as [|j].
  - change ((y :: l') !!! 0%nat) with y in Hu.
    change ((x :: l) !!! 0%nat) with x.
    change (<[0%nat:=c]> (x :: l)) with (c :: l). cbn [count2].
    rewrite Hc, Hu. cbn [negb andb]. rewrite andb_true_r. destruct (f x); lia.
  - change ((y :: l') !!! S j) with (l' !!! j) in Hu.
    cbn [length] in Hj, Hlen.
    change (<[S j:=c]> (x :: l)) with (x :: <[j:=c]> l). cbn [count2].
    rewrite (IH l' j) by (try lia; assumption).
    change ((x :: l) !!! S j) with (l !!! j). lia.
Qed.

(** The accounting of a reclaim from [eth] with budget [budget] to [eth']
    with budget [budget']. *)
Definition reclaim_account (budget : Z) (eth : mtk_eth) (budget' : Z) (eth' : mtk_eth) : Prop :=
  soc eth' = soc eth /\
  length (buf (tx_ring eth')) = length (buf (tx_ring eth)) /\
  (forall i : nat, in_use (buf (tx_ring eth) !!! i) = false ->
                   in_use (buf (tx_ring eth') !!! i) = false) /\
  free_count (tx_ring eth') = free_count (tx_ring eth) + slots_reclaimed eth eth' /\
  budget' = budget - heads_reclaimed eth eth'.

Lemma reclaim_account_refl budget eth : reclaim_account budget eth budget eth.
Proof.
  unfold reclaim_account, slots_reclaimed, heads_reclaimed.
  rewrite !count2_refl by (auto using is_head_in_use).
  repeat split; auto; lia.
Qed.

Lemma reclaim_account_step pdma idx budget state eth budget' eth' :
  in_use (mtk_desc_to_tx_buf (tx_ring eth) idx) = true ->
  let r := poll_tx_reclaim pdma idx budget state eth in
  reclaim_account r.1.1 r.2 budget' eth' ->
  reclaim_account budget eth budget' eth'.
Proof.
  intros Hu r (Hs & Hl & Hm & Hf & Hb).
  pose proof (poll_tx_reclaim_effect pdma idx budget state eth) as E. cbv zeta in E.
  fold r in E. destruct E as (E1 & _ & E3 & E4 & _).
  unfold mtk_desc_to_tx_buf in *.
  set (b := buf (tx_ring eth) !!! idx) in *.
  assert (Hidx : (idx < length (buf (tx_ring eth)))%nat) by (apply in_use_lt; exact Hu).
  assert (Hbuf : buf (tx_ring r.2) = <[idx := cleared b]> (buf (tx_ring eth)))
    by (rewrite E3; reflexivity).
  assert (Hfc : free_count (tx_ring r.2) = free_count (tx_ring eth) + 1)
    by (rewrite E3; reflexivity).
  assert (Hfin : in_use (buf (tx_ring eth') !!! idx) = false).
  { apply Hm. rewrite Hbuf, list_lookup_total_insert_eq by exact Hidx. reflexivity. }
  unfold reclaim_account, slots_reclaimed, heads_reclaimed in *.
  rewrite Hbuf in Hl, Hm, Hf, Hb. rewrite length_insert in Hl.
  split; [congruence|]. split; [exact Hl|]. split.
  { intros i Hi. apply Hm. destruct (decide (i = idx)) as [->|Hne].
    - fold b in Hi. congruence.
    - rewrite list_lookup_total_insert_ne by congruence. exact Hi. }
  rewrite (count2_step in_use (cleared b) _ _ idx) by (try assumption; reflexivity).
  rewrite (count2_step is_head (cleared b) _ _ idx) by (try assumption; reflexivity).
  fold b. rewrite Hu. rewrite Hf, Hfc, Hb, E1.
  destruct (is_head b); lia.
Qed.

(** Number of slots whose buffer is in use. *)
Definition count_in_use (l : list mtk_tx_buf) : nat := length (List.filter in_use l).

Lemma count_in_use_clear c : forall (l : list mtk_tx_buf) (j : nat),
  in_use (l !!! j) = true -> in_use c = false ->
  S (count_in_use (<[j := c]> l)) = count_in_use l.
Proof.
  unfold count_in_use.
  induction l as [|x l IH]; intros j Hu Hc; [discriminate|].
  destruct j as [|j].
  - cbn in Hu |- *. rewrite Hu, Hc. reflexivity.
  - change (<[S j:=c]> (x :: l)) with (x :: <[j:=c]> l).
    change ((x :: l) !!! S j) with (l !!! j) in Hu. cbn [List.filter].
    destruct (in_use x); cbn [length]; rewrite <- (IH j Hu Hc); reflexivity.
Qed.

Lemma count_in_use_le l : (count_in_use l <= length l)%nat.
Proof. apply List.filter_length_le. Qed.

Lemma poll_tx_reclaim_count pdma idx budget state eth :
  in_use (mtk_desc_to_tx_buf (tx_ring eth) idx) = true ->
  S (count_in_use (buf (tx_ring (poll_tx_reclaim pdma idx budget state eth).2))) =
  count_in_use (buf (tx_ring eth)).
Proof.
  intros Hu.
  pose proof (poll_tx_reclaim_effect pdma idx budget state eth) as E. cbv zeta in E.
  destruct E as (_ & _ & E3 & _). rewrite E3. cbn [buf set_buf set_last_free add_free_count].
  apply count_in_use_clear; [exact Hu|reflexivity].
Qed.

Lemma poll_tx_qdma_loop_spec : forall fuel cpu dma_ptr desc budget state eth,
  (count_in_use (buf (tx_ring eth)) < fuel)%nat ->
  exists cpu' budget' state' eth',
    poll_tx_qdma_loop fuel cpu dma_ptr desc budget state eth =
      Some (cpu', budget', state', eth') /\
    reclaim_account budget eth budget' eth'.
Proof.
  induction fuel as [|fuel IH]; intros cpu dma_ptr desc budget state eth Hfuel; [lia|].
  cbn [poll_tx_qdma_loop].
  destruct ((cpu =? dma_ptr) || (budget =? 0)).
  { do 4 eexists. split; [reflexivity|apply reclaim_account_refl]. }
  destruct (Z.land _ _ =? 0).
  { do 4 eexists. split; [reflexivity|apply reclaim_account_refl]. }
  set (idx := next_desc eth desc).
  destruct (in_use (mtk_desc_to_tx_buf (tx_ring eth) idx)) eqn:Hu.
  2: { unfold in_use in Hu.
       destruct (data (mtk_desc_to_tx_buf (tx_ring eth) idx)); try discriminate.
       do 4 eexists. split; [reflexivity|apply reclaim_account_refl]. }
  pose proof (poll_tx_reclaim_count false idx budget state eth Hu) as Hc.
  pose proof (reclaim_account_step false idx budget state eth) as Hstep.
  destruct (poll_tx_reclaim false idx budget state eth) as [[b1 s1] e1] eqn:E.
  cbn [fst snd] in Hc, Hstep.
  destruct (IH (txd2 (desc_at (tx_ring eth) desc)) dma_ptr idx b1 s1 e1)
    as (cpu' & budget' & state' & eth' & Hloop & Hacc); [lia|].
  exists cpu', budget', state', eth'. split.
  - unfold in_use in Hu.
    destruct (data (mtk_desc_to_tx_buf (tx_ring eth) idx)); [discriminate| |]; exact Hloop.
  - apply Hstep; assumption.
Qed.

Lemma poll_tx_pdma_loop_spec : forall fuel cpu dma_idx budget state eth,
  (count_in_use (buf (tx_ring eth)) < fuel)%nat ->
  exists cpu' budget' state' eth',
    poll_tx_pdma_loop fuel cpu dma_idx budget state eth =
      Some (cpu', budget', state', eth') /\
    reclaim_account budget eth budget' eth'.
Proof.
  induction fuel as [|fuel IH]; intros cpu dma_idx budget state eth Hfuel; [lia|].
  cbn [poll_tx_pdma_loop].
  destruct ((cpu =? dma_idx) || (budget =? 0)).
  { do 4 eexists. split; [reflexivity|apply reclaim_account_refl]. }
  set (idx := Z.to_nat cpu).
  destruct (in_use (mtk_desc_to_tx_buf (tx_ring eth) idx)) eqn:Hu.
  2: { unfold in_use in Hu.
       destruct (data (mtk_desc_to_tx_buf (tx_ring eth) idx)); try discriminate.
       do 4 eexists. split; [reflexivity|apply reclaim_account_refl]. }
  pose proof (poll_tx_reclaim_count true idx budget state eth Hu) as Hc.
  pose proof (reclaim_account_step true idx budget state eth) as Hstep.
  destruct (poll_tx_reclaim true idx budget state eth) as [[b1 s1] e1] eqn:E.
  cbn [fst snd] in Hc, Hstep.
  destruct (IH (NEXT_DESP_IDX H cpu (dma_size (tx_ring e1))) dma_idx b1 s1 e1)
    as (cpu' & budget' & state' & eth' & Hloop & Hacc); [lia|].
  exists cpu', budget', state', eth'. split.
  - unfold in_use in Hu.
    destruct (data (mtk_desc_to_tx_buf (tx_ring eth) idx)); [discriminate| |]; exact Hloop.
  - apply Hstep; assumption.
Qed.

(** *** The slots a reclaim returns *)

(** The passes of a reclaim loop over the slots [slots], in order. *)
Fixpoint reclaim_slots (pdma : bool) (slots : list nat) (budget : Z)
    (state : mtk_poll_state) (eth : mtk_eth) : Z * mtk_poll_state * mtk_eth :=
  match slots with
  | [] => (budget, state, eth)
  | idx :: rest =>
      let r := poll_tx_reclaim pdma idx budget state eth in
      reclaim_slots pdma rest r.1.1 r.1.2 r.2
  end.

(** The walk of [mtk_poll_tx_qdma] from the slot [desc], which the
    pointer [cpu] designates: the slots [slots] are reached one from the
    other through their link words, each while the pointer that
    designates its predecessor differs from the one the device reports,
    and each is owned by the CPU.  The walk ends at the slot [desc'],
    which the pointer [cpu'] designates. *)
Fixpoint qdma_path (eth : mtk_eth) (dma_ptr cpu : Z) (desc : nat) (slots : list nat)
    (cpu' : Z) (desc' : nat) : Prop :=
  match slots with
  | [] => cpu' = cpu /\ desc' = desc
  | s :: rest =>
      cpu <> dma_ptr /\ s = next_desc eth desc /\
      Z.land (txd3 (desc_at (tx_ring eth) s)) (TX_DMA_OWNER_CPU H) <> 0 /\
      qdma_path eth dma_ptr (txd2 (desc_at (tx_ring eth) desc)) s rest cpu' desc'
  end.

(** The walk of [mtk_poll_tx_pdma] from the index [cpu]: the slots
    [slots] are consecutive indices of a ring of [size] slots, each
    different from the index the device reports; [cpu'] is the index
    after the last. *)
Fixpoint pdma_path (size dma_idx cpu : Z) (slots : list nat) (cpu' : Z) : Prop :=
  match slots with
  | [] => cpu' = cpu
  | s :: rest =>
      cpu <> dma_idx /\ s = Z.to_nat cpu /\
      pdma_path size dma_idx (NEXT_DESP_IDX H cpu size) rest cpu'
  end.

(** A packet handed over as a socket buffer. *)
Definition is_skb_head (b : mtk_tx_buf) : bool :=
  is_head b && bool_decide (type b = MTK_TYPE_SKB).

(** The slots of [slots] whose buffer record in [l] satisfies [f]. *)
Definition among (f : mtk_tx_buf -> bool) (l : list mtk_tx_buf) (slots : list nat) : Z :=
  Z.of_nat (length (List.filter (fun s => f (l !!! s)) slots)).

(** What a reclaim of the slots [slots] with budget [budget] leaves, in
    terms of the device [eth] it started from: the slots are distinct
    and were in use; each has its record cleared, its mappings released
    and its packet or frame freed, in order, and no other slot is
    touched; the free-slot counter has grown by their number and the
    completion pointer is at the last of them; the budget has shrunk by
    the number of those that held a packet or frame pointer. *)
Definition returned (slots : list nat) (budget : Z) (eth : mtk_eth)
    (budget' : Z) (eth' : mtk_eth) : Prop :=
  let l := buf (tx_ring eth) in
  NoDup slots /\
  Forall (fun s => in_use (l !!! s) = true) slots /\
  budget' = budget - among is_head l slots /\
  free_count (tx_ring eth') = free_count (tx_ring eth) + Z.of_nat (length slots) /\
  last_free (tx_ring eth') = List.last slots (last_free (tx_ring eth)) /\
  length (buf (tx_ring eth')) = length l /\
  (forall j, buf (tx_ring eth') !!! j =
             if bool_decide (j ∈ slots) then cleared (l !!! j) else l !!! j) /\
  dma_mapped eth' =
    foldl (fun m s => unmapped_of (caps_qdma (soc eth)) (l !!! s) m) (dma_mapped eth) slots /\
  released eth' = released eth ++ flat_map (fun s => release_of true true (l !!! s)) slots.

Lemma foldl_ext_elem {A B} (f g : A -> B -> A) (l : list B) :
  (forall a x, x ∈ l -> f a x = g a x) -> forall a, foldl f a l = foldl g a l.
Proof.
  induction l as [|x l IH]; intros Hfg a; [reflexivity|]. cbn [foldl].
  rewrite (Hfg a x) by (apply elem_of_cons; left; reflexivity).
  apply IH. intros a' y Hy. apply Hfg. apply elem_of_cons. right. exact Hy.
Qed.

Lemma flat_map_ext_elem {A B} (f g : A -> list B) (l : list A) :
  (forall x, x ∈ l -> f x = g x) -> flat_map f l = flat_map g l.
Proof.
  induction l as [|x l IH]; intros Hfg; [reflexivity|]. cbn [flat_map].
  rewrite (Hfg x) by (apply elem_of_cons; left; reflexivity).
  rewrite IH; [reflexivity|]. intros y Hy. apply Hfg. apply elem_of_cons. right. exact Hy.
Qed.

Lemma filter_ext_elem {A} (f g : A -> bool) (l : list A) :
  (forall x, x ∈ l -> f x = g x) -> List.filter f l = List.filter g l.
Proof.
  induction l as [|x l IH]; intros Hfg; [reflexivity|]. cbn [List.filter].
  rewrite (Hfg x) by (apply elem_of_cons; left; reflexivity).
  rewrite IH; [reflexivity|]. intros y Hy. apply Hfg. apply elem_of_cons. right. exact Hy.
Qed.

Lemma among_cons f l s rest :
  among f l (s :: rest) = (if f (l !!! s) then 1 else 0) + among f l rest.
Proof.
  unfold among. cbn [List.filter]. destruct (f (l !!! s)); cbn [length]; lia.
Qed.

Lemma among_ext f l l' slots :
  (forall s, s ∈ slots -> l' !!! s = l !!! s) -> among f l' slots = among f l slots.
Proof.
  intros Hl. unfold among. f_equal. f_equal. apply filter_ext_elem.
  intros s Hs. rewrite (Hl s Hs). reflexivity.
Qed.

Lemma among_le f g l slots :
  (forall b, f b = true -> g b = true) -> among f l slots <= among g l slots.
Proof.
  intros Hfg. induction slots as [|s rest IH]; [reflexivity|].
  rewrite !among_cons. destruct (f (l !!! s)) eqn:E.
  - rewrite (Hfg _ E). lia.
  - destruct (g (l !!! s)); lia.
Qed.

Lemma among_bounds f l slots : 0 <= among f l slots <= Z.of_nat (length slots).
Proof.
  unfold among. pose proof (List.filter_length_le (fun s => f (l !!! s)) slots). lia.
Qed.

Lemma last_cons_default {A} (s d : A) (rest : list A) :
  List.last (s :: rest) d = List.last rest s.
Proof.
  revert s d. induction rest as [|x rest IH]; intros s d; [reflexivity|].
  change (List.last (s :: x :: rest) d) with (List.last (x :: rest) d).
  rewrite (IH x d), (IH x s). reflexivity.
Qed.

(** What one pass leaves of the things the walks read. *)
Lemma poll_tx_reclaim_frame pdma idx budget state eth :
  let r := poll_tx_reclaim pdma idx budget state eth in
  soc r.2 = soc eth /\ regs r.2 = regs eth /\
  dma (tx_ring r.2) = dma (tx_ring eth) /\ phys (tx_ring r.2) = phys (tx_ring eth) /\
  dma_size (tx_ring r.2) = dma_size (tx_ring eth) /\
  last_free_ptr (tx_ring r.2) = last_free_ptr (tx_ring eth) /\
  cpu_idx (tx_ring r.2) = cpu_idx (tx_ring eth) /\
  buf (tx_ring r.2) =
    <[idx := cleared (buf (tx_ring eth) !!! idx)]> (buf (tx_ring eth)).
Proof.
  intros r.
  pose proof (poll_tx_reclaim_effect pdma idx budget state eth) as E. cbv zeta in E.
  fold r in E. destruct E as (_ & _ & E3 & E4 & E5 & _).
  rewrite E3. repeat split; assumption.
Qed.

Lemma reclaim_slots_returned pdma : forall slots budget state eth,
  NoDup slots ->
  Forall (fun s => in_use (buf (tx_ring eth) !!! s) = true) slots ->
  let r := reclaim_slots pdma slots budget state eth in
  returned slots budget eth r.1.1 r.2 /\
  total r.1.2 = total state + among is_skb_head (buf (tx_ring eth)) slots /\
  soc r.2 = soc eth /\ regs r.2 = regs eth /\
  dma (tx_ring r.2) = dma (tx_ring eth) /\ phys (tx_ring r.2) = phys (tx_ring eth) /\
  dma_size (tx_ring r.2) = dma_size (tx_ring eth) /\
  last_free_ptr (tx_ring r.2) = last_free_ptr (tx_ring eth) /\
  cpu_idx (tx_ring r.2) = cpu_idx (tx_ring eth).
Proof.
  induction slots as [|s rest IH]; intros budget state eth Hnd Hin.
  - cbn [reclaim_slots fst snd]. unfold returned, among. cbn [List.filter length foldl flat_map List.last].
    split; [|repeat split; try reflexivity; lia].
    split; [exact Hnd|]. split; [exact Hin|]. split; [lia|]. split; [lia|].
    split; [reflexivity|]. split; [reflexivity|].
    split; [intros j; rewrite bool_decide_eq_false_2 by (apply not_elem_of_nil); reflexivity|].
    split; [reflexivity|]. symmetry. apply app_nil_r.
  - cbn [reclaim_slots]. cbv zeta.
    pose proof (poll_tx_reclaim_effect pdma s budget state eth) as E. cbv zeta in E.
    pose proof (poll_tx_reclaim_frame pdma s budget state eth) as F. cbv zeta in F.
    set (r1 := poll_tx_reclaim pdma s budget state eth) in *.
    destruct E as (E1 & E2 & E3 & _ & _ & _ & _ & E8 & E9).
    destruct F as (F1 & F2 & F3 & F4 & F5 & F6 & F7 & F8).
    unfold mtk_desc_to_tx_buf in E1, E2, E8, E9.
    set (l := buf (tx_ring eth)) in *.
    pose proof (NoDup_cons_1_1 _ _ Hnd) as Hs. apply NoDup_cons_1_2 in Hnd.
    apply Forall_cons_1 in Hin. destruct Hin as [Hus Hin].
    assert (Hsl : (s < length l)%nat) by (apply in_use_lt; exact Hus).
    assert (Hl1 : forall t, t ∈ rest -> buf (tx_ring r1.2) !!! t = l !!! t).
    { intros t Ht. rewrite F8. apply list_lookup_total_insert_ne.
      intros ->. exact (Hs Ht). }
    assert (Hin1 : Forall (fun t => in_use (buf (tx_ring r1.2) !!! t) = true) rest).
    { apply list.Forall_forall. intros t Ht. rewrite (Hl1 t Ht).
      rewrite list.Forall_forall in Hin. apply Hin, Ht. }
    specialize (IH r1.1.1 r1.1.2 r1.2 Hnd Hin1). cbv zeta in IH.
    set (r := reclaim_slots pdma rest r1.1.1 r1.1.2 r1.2) in *.
    destruct IH as ((_ & _ & R3 & R4 & R5 & R6 & R7 & R8 & R9) & T & S1 & S2 & S3 & S4 & S5 & S6 & S7).
    split; [|repeat split; try congruence].
    + unfold returned. fold l.
      split; [apply NoDup_cons_2; assumption|].
      split; [constructor; assumption|].
      split.
      { rewrite R3, E1, among_cons, (among_ext _ l _ rest Hl1).
        destruct (is_head (l !!! s)); lia. }
      split.
      { rewrite R4, E3. cbn [free_count add_free_count set_last_free set_buf length]. lia. }
      split.
      { rewrite R5, E3. cbn [last_free add_free_count set_last_free set_buf].
        symmetry. apply last_cons_default. }
      split.
      { rewrite R6, F8. apply length_insert. }
      split.
      { intros j. rewrite R7, F8. destruct (decide (j = s)) as [->|Hne].
        - rewrite (bool_decide_eq_false_2 (s ∈ rest)) by exact Hs.
          rewrite (bool_decide_eq_true_2 (s ∈ s :: rest))
            by (apply elem_of_cons; left; reflexivity).
          apply list_lookup_total_insert_eq. exact Hsl.
        - rewrite list_lookup_total_insert_ne by congruence.
          destruct (decide (j ∈ rest)) as [Hj|Hj].
          + rewrite (bool_decide_eq_true_2 _ Hj).
            rewrite (bool_decide_eq_true_2 (j ∈ s :: rest))
              by (apply elem_of_cons; right; exact Hj).
            reflexivity.
          + rewrite (bool_decide_eq_false_2 _ Hj).
            rewrite (bool_decide_eq_false_2 (j ∈ s :: rest)); [reflexivity|].
            intros Hc. apply elem_of_cons in Hc. destruct Hc as [Hc|Hc]; [congruence|exact (Hj Hc)]. }
      split.
      { rewrite R8, E8, F1. cbn [foldl]. apply foldl_ext_elem.
        intros m t Ht. rewrite (Hl1 t Ht). reflexivity. }
      rewrite R9, E9. cbn [flat_map]. rewrite <- app_assoc. f_equal. f_equal.
      apply flat_map_ext_elem. intros t Ht. rewrite (Hl1 t Ht). reflexivity.
    + rewrite T, E2, among_cons, (among_ext _ l _ rest Hl1). unfold is_skb_head.
      destruct (is_head (l !!! s) && bool_decide (type (l !!! s) = MTK_TYPE_SKB)); lia.
Qed.

Lemma qdma_path_ext eth eth' dma_ptr :
  soc eth' = soc eth -> phys (tx_ring eth') = phys (tx_ring eth) ->
  dma (tx_ring eth') = dma (tx_ring eth) ->
  forall slots cpu desc cpu' desc',
    qdma_path eth' dma_ptr cpu desc slots cpu' desc' ->
    qdma_path eth dma_ptr cpu desc slots cpu' desc'.
Proof.
  intros Es Ep Ed. induction slots as [|s rest IH]; intros cpu desc cpu' desc' Hp.
  - exact Hp.
  - cbn [qdma_path] in *. destruct Hp as (Hc & Hs & Ho & Hr).
    unfold next_desc, desc_at, mtk_qdma_phys_to_virt in *. rewrite Es, Ep, Ed in *.
    split; [exact Hc|]. split; [exact Hs|]. split; [exact Ho|]. apply IH, Hr.
Qed.

Lemma next_desc_ext eth eth' d :
  soc eth' = soc eth -> phys (tx_ring eth') = phys (tx_ring eth) ->
  dma (tx_ring eth') = dma (tx_ring eth) -> next_desc eth' d = next_desc eth d.
Proof.
  intros Es Ep Ed. unfold next_desc, desc_at, mtk_qdma_phys_to_virt.
  rewrite Es, Ep, Ed. reflexivity.
Qed.

(** A slot that is reclaimed after the slot [s] was in use before [s]
    was reclaimed, and is not [s]. *)
Lemma later_slots pdma s budget state eth slots :
  in_use (buf (tx_ring eth) !!! s) = true ->
  NoDup slots ->
  Forall (fun t => in_use (buf (tx_ring (poll_tx_reclaim pdma s budget state eth).2) !!! t) = true)
    slots ->
  NoDup (s :: slots) /\
  Forall (fun t => in_use (buf (tx_ring eth) !!! t) = true) (s :: slots).
Proof.
  intros Hu Hnd Hin.
  pose proof (poll_tx_reclaim_frame pdma s budget state eth) as F. cbv zeta in F.
  destruct F as (_ & _ & _ & _ & _ & _ & _ & F8). rewrite F8 in Hin.
  assert (Hsl : (s < length (buf (tx_ring eth)))%nat) by (apply in_use_lt; exact Hu).
  rewrite list.Forall_forall in Hin.
  assert (Hs : s ∉ slots).
  { intros Hs. specialize (Hin s Hs).
    rewrite list_lookup_total_insert_eq in Hin by exact Hsl. discriminate Hin. }
  split; [apply NoDup_cons_2; assumption|].
  constructor; [exact Hu|]. apply list.Forall_forall. intros t Ht.
  specialize (Hin t Ht). rewrite list_lookup_total_insert_ne in Hin; [exact Hin|].
  intros ->. exact (Hs Ht).
Qed.

Lemma poll_tx_qdma_loop_trace : forall fuel cpu dma_ptr desc budget state eth,
  (count_in_use (buf (tx_ring eth)) < fuel)%nat ->
  exists slots cpu' desc',
    let r := reclaim_slots false slots budget state eth in
    poll_tx_qdma_loop fuel cpu dma_ptr desc budget state eth =
      Some (cpu', r.1.1, r.1.2, r.2) /\
    qdma_path eth dma_ptr cpu desc slots cpu' desc' /\
    NoDup slots /\
    Forall (fun s => in_use (buf (tx_ring eth) !!! s) = true) slots /\
    (0 <= budget -> 0 <= r.1.1) /\
    (cpu' = dma_ptr \/ r.1.1 = 0 \/
     Z.land (txd3 (desc_at (tx_ring eth) (next_desc eth desc'))) (TX_DMA_OWNER_CPU H) = 0 \/
     in_use (buf (tx_ring r.2) !!! next_desc eth desc') = false).
Proof.
  induction fuel as [|fuel IH]; intros cpu dma_ptr desc budget state eth Hfuel; [lia|].
  cbn [poll_tx_qdma_loop].
  destruct ((cpu =? dma_ptr) || (budget =? 0)) eqn:Ec.
  { exists [], cpu, desc. cbn [reclaim_slots fst snd qdma_path].
    split; [reflexivity|]. split; [split; reflexivity|].
    split; [apply NoDup_nil_2|]. split; [constructor|]. split; [tauto|].
    apply orb_true_iff in Ec. destruct Ec as [Ec|Ec]; apply Z.eqb_eq in Ec; tauto. }
  apply orb_false_iff in Ec. destruct Ec as [Ec Eb].
  apply Z.eqb_neq in Ec. apply Z.eqb_neq in Eb.
  set (idx := next_desc eth desc).
  destruct (Z.land (txd3 (desc_at (tx_ring eth) idx)) (TX_DMA_OWNER_CPU H) =? 0) eqn:Eo.
  { exists [], cpu, desc. cbn [reclaim_slots fst snd qdma_path].
    split; [reflexivity|]. split; [split; reflexivity|].
    split; [apply NoDup_nil_2|]. split; [constructor|]. split; [tauto|].
    apply Z.eqb_eq in Eo. fold idx. tauto. }
  apply Z.eqb_neq in Eo.
  destruct (in_use (mtk_desc_to_tx_buf (tx_ring eth) idx)) eqn:Hu.
  2: { exists [], cpu, desc. cbn [reclaim_slots fst snd qdma_path].
       split.
       { unfold in_use in Hu.
         destruct (data (mtk_desc_to_tx_buf (tx_ring eth) idx)); try discriminate.
         reflexivity. }
       split; [split; reflexivity|].
       split; [apply NoDup_nil_2|]. split; [constructor|]. split; [tauto|].
       fold idx. unfold mtk_desc_to_tx_buf in Hu. tauto. }
  pose proof (poll_tx_reclaim_count false idx budget state eth Hu) as Hc.
  pose proof (poll_tx_reclaim_frame false idx budget state eth) as F. cbv zeta in F.
  pose proof (poll_tx_reclaim_effect false idx budget state eth) as E. cbv zeta in E.
  pose proof (later_slots false idx budget state eth) as Hlater.
  destruct E as (E1 & _).
  destruct F as (F1 & _ & F3 & F4 & _).
  destruct (IH (txd2 (desc_at (tx_ring eth) desc)) dma_ptr idx
              (poll_tx_reclaim false idx budget state eth).1.1
              (poll_tx_reclaim false idx budget state eth).1.2
              (poll_tx_reclaim false idx budget state eth).2)
    as (slots & cpu' & desc' & Hloop & Hpath & Hnd & Hin & Hb & Hstop); [lia|].
  cbv zeta in Hloop, Hb, Hstop.
  destruct (Hlater slots Hu Hnd Hin) as [Hnd' Hin'].
  exists (idx :: slots), cpu', desc'. cbn [reclaim_slots]. cbv zeta.
  split.
  { rewrite <- Hloop. unfold in_use in Hu.
    destruct (poll_tx_reclaim false idx budget state eth) as [[b1 s1] e1].
    cbn [fst snd].
    destruct (data (mtk_desc_to_tx_buf (tx_ring eth) idx)); [discriminate| |]; reflexivity. }
  split.
  { cbn [qdma_path]. split; [exact Ec|]. split; [reflexivity|]. split; [exact Eo|].
    apply (qdma_path_ext _ _ _ F1 F4 F3). exact Hpath. }
  split; [exact Hnd'|]. split; [exact Hin'|].
  split.
  { intros H0. apply Hb. rewrite E1. destruct (is_head _); lia. }
  rewrite (next_desc_ext _ _ _ F1 F4 F3) in Hstop.
  unfold desc_at in Hstop |- *. rewrite F3 in Hstop. exact Hstop.
Qed.

Lemma pdma_path_size size size' dma_idx :
  size' = size ->
  forall slots cpu cpu', pdma_path size' dma_idx cpu slots cpu' -> pdma_path size dma_idx cpu slots cpu'.
Proof. intros ->. auto. Qed.

Lemma poll_tx_pdma_loop_trace : forall fuel cpu dma_idx budget state eth,
  (count_in_use (buf (tx_ring eth)) < fuel)%nat ->
  exists slots cpu',
    let r := reclaim_slots true slots budget state eth in
    poll_tx_pdma_loop fuel cpu dma_idx budget state eth = Some (cpu', r.1.1, r.1.2, r.2) /\
    pdma_path (dma_size (tx_ring eth)) dma_idx cpu slots cpu' /\
    NoDup slots /\
    Forall (fun s => in_use (buf (tx_ring eth) !!! s) = true) slots /\
    (0 <= budget -> 0 <= r.1.1) /\
    (cpu' = dma_idx \/ r.1.1 = 0 \/
     in_use (buf (tx_ring r.2) !!! Z.to_nat cpu') = false).
Proof.
  induction fuel as [|fuel IH]; intros cpu dma_idx budget state eth Hfuel; [lia|].
  cbn [poll_tx_pdma_loop].
  destruct ((cpu =? dma_idx) || (budget =? 0)) eqn:Ec.
  { exists [], cpu. cbn [reclaim_slots fst snd pdma_path].
    split; [reflexivity|]. split; [reflexivity|].
    split; [apply NoDup_nil_2|]. split; [constructor|]. split; [tauto|].
    apply orb_true_iff in Ec. destruct Ec as [Ec|Ec]; apply Z.eqb_eq in Ec; tauto. }
  apply orb_false_iff in Ec. destruct Ec as [Ec Eb].
  apply Z.eqb_neq in Ec. apply Z.eqb_neq in Eb.
  set (idx := Z.to_nat cpu).
  destruct (in_use (mtk_desc_to_tx_buf (tx_ring eth) idx)) eqn:Hu.
  2: { exists [], cpu. cbn [reclaim_slots fst snd pdma_path].
       split.
       { unfold in_use in Hu.
         destruct (data (mtk_desc_to_tx_buf (tx_ring eth) idx)); try discriminate.
         reflexivity. }
       split; [reflexivity|].
       split; [apply NoDup_nil_2|]. split; [constructor|]. split; [tauto|].
       fold idx. unfold mtk_desc_to_tx_buf in Hu. tauto. }
  pose proof (poll_tx_reclaim_count true idx budget state eth Hu) as Hc.
  pose proof (poll_tx_reclaim_frame true idx budget state eth) as F. cbv zeta in F.
  pose proof (poll_tx_reclaim_effect true idx budget state eth) as E. cbv zeta in E.
  pose proof (later_slots true idx budget state eth) as Hlater.
  destruct E as (E1 & _).
  destruct F as (_ & _ & _ & _ & F5 & _).
  destruct (IH (NEXT_DESP_IDX H cpu (dma_size (tx_ring (poll_tx_reclaim true idx budget state eth).2)))
              dma_idx
              (poll_tx_reclaim true idx budget state eth).1.1
              (poll_tx_reclaim true idx budget state eth).1.2
              (poll_tx_reclaim true idx budget state eth).2)
    as (slots & cpu' & Hloop & Hpath & Hnd & Hin & Hb & Hstop); [lia|].
  cbv zeta in Hloop, Hb, Hstop.
  destruct (Hlater slots Hu Hnd Hin) as [Hnd' Hin'].
  exists (idx :: slots), cpu'. cbn [reclaim_slots]. cbv zeta.
  split.
  { rewrite <- Hloop. unfold in_use in Hu.
    destruct (poll_tx_reclaim true idx budget state eth) as [[b1 s1] e1].
    cbn [fst snd].
    destruct (data (mtk_desc_to_tx_buf (tx_ring eth) idx)); [discriminate| |]; reflexivity. }
  split.
  { cbn [pdma_path]. split; [exact Ec|]. split; [reflexivity|].
    rewrite F5 in Hpath. exact Hpath. }
  split; [exact Hnd'|]. split; [exact Hin'|].
  split.
  { intros H0. apply Hb. rewrite E1. destruct (is_head _); lia. }
  exact Hstop.
Qed.

Lemma returned_ext slots budget eth budget' eth1 eth' :
  returned slots budget eth budget' eth1 ->
  free_count (tx_ring eth') = free_count (tx_ring eth1) ->
  last_free (tx_ring eth') = last_free (tx_ring eth1) ->
  buf (tx_ring eth') = buf (tx_ring eth1) ->
  dma_mapped eth' = dma_mapped eth1 -> released eth' = released eth1 ->
  returned slots budget eth budget' eth'.
Proof.
  unfold returned. intros (R1 & R2 & R3 & R4 & R5 & R6 & R7 & R8 & R9) E1 E2 E3 E4 E5.
  rewrite E1, E2, E3, E4, E5. repeat split; assumption.
Qed.

(** C10: the budget of a reclaim counts head slots, not ring slots.
    One pass of a reclaim loop ([poll_tx_reclaim]) returns a slot to the
    ring: its mappings are released and its record cleared, the
    free-slot counter goes up by one and the completion pointer moves to
    it; the budget goes down by one only if the slot holds a packet or
    frame pointer, not for the dummy sentinel.  [mtk_poll_tx_qdma] and
    [mtk_poll_tx_pdma] return, and what they return is what these passes
    leave when run over the slots of their walk, in order, with the
    position of the walk stored ([last_free_ptr] and the release
    register, or [cpu_idx]).  The walk starts at the completion pointer
    and follows the links (the indices, on the legacy ring); its slots
    are distinct, were in use and, on the queue-aware ring, are owned by
    the CPU; it stops only where the code stops: at the position the
    device reports, with the budget used up, at a slot the device still
    owns, or at a slot without a buffer.  Over the whole call the
    free-slot counter grows by the number of slots walked, each of them
    is cleared, unmapped and its packet or frame freed, and the budget
    shrinks by the number of head slots among them, never below zero. *)
Theorem reclaim_budget_counts_heads budget state eth :
  (forall pdma idx,
     let b := mtk_desc_to_tx_buf (tx_ring eth) idx in
     let r := poll_tx_reclaim pdma idx budget state eth in
     r.1.1 = (if is_head b then budget - 1 else budget) /\
     free_count (tx_ring r.2) = free_count (tx_ring eth) + 1 /\
     last_free (tx_ring r.2) = idx /\
     buf (tx_ring r.2) = <[idx := cleared b]> (buf (tx_ring eth)) /\
     dma_mapped r.2 = unmapped_of (caps_qdma (soc eth)) b (dma_mapped eth) /\
     released r.2 = released eth ++ release_of true true b) /\
  (exists slots cpu' desc',
     let r := reclaim_slots false slots budget state eth in
     exists eth',
       mtk_poll_tx_qdma budget state eth = Some (r.1.1, r.1.2, eth') /\
       tx_ring eth' = set_last_free_ptr cpu' (tx_ring r.2) /\
       qdma_crx_ptr (regs eth') = cpu' /\
       qdma_path eth (qdma_drx_ptr (regs eth)) (last_free_ptr (tx_ring eth))
         (mtk_qdma_phys_to_virt (soc eth) (tx_ring eth) (last_free_ptr (tx_ring eth)))
         slots cpu' desc' /\
       returned slots budget eth r.1.1 eth' /\
       (0 <= budget -> 0 <= r.1.1) /\
       (cpu' = qdma_drx_ptr (regs eth) \/ r.1.1 = 0 \/
        Z.land (txd3 (desc_at (tx_ring eth) (next_desc eth desc'))) (TX_DMA_OWNER_CPU H) = 0 \/
        in_use (buf (tx_ring eth') !!! next_desc eth desc') = false)) /\
  (exists slots cpu',
     let r := reclaim_slots true slots budget state eth in
     exists eth',
       mtk_poll_tx_pdma budget state eth = Some (r.1.1, r.1.2, eth') /\
       tx_ring eth' = set_cpu_idx cpu' (tx_ring r.2) /\
       pdma_path (dma_size (tx_ring eth)) (MT7628_TX_DTX_IDX0 (regs eth))
         (cpu_idx (tx_ring eth)) slots cpu' /\
       returned slots budget eth r.1.1 eth' /\
       (0 <= budget -> 0 <= r.1.1) /\
       (cpu' = MT7628_TX_DTX_IDX0 (regs eth) \/ r.1.1 = 0 \/
        in_use (buf (tx_ring eth') !!! Z.to_nat cpu') = false)).
Proof.
  split; [|split].
  - intros pdma idx b r.
    pose proof (poll_tx_reclaim_effect pdma idx budget state eth) as E. cbv zeta in E.
    fold b r in E. destruct E as (E1 & _ & E3 & _ & _ & _ & _ & E8 & E9).
    rewrite E3. repeat split; assumption.
  - destruct (poll_tx_qdma_loop_trace (S (length (buf (tx_ring eth))))
                (last_free_ptr (tx_ring eth)) (qdma_drx_ptr (regs eth))
                (mtk_qdma_phys_to_virt (soc eth) (tx_ring eth) (last_free_ptr (tx_ring eth)))
                budget state eth)
      as (slots & cpu' & desc' & Hloop & Hpath & Hnd & Hin & Hb & Hstop).
    { pose proof (count_in_use_le (buf (tx_ring eth))). lia. }
    cbv zeta in Hloop, Hb, Hstop.
    destruct (reclaim_slots_returned false slots budget state eth Hnd Hin) as (Hret & _).
    exists slots, cpu', desc'. cbv zeta.
    set (r := reclaim_slots false slots budget state eth) in *.
    unfold mtk_poll_tx_qdma. rewrite Hloop.
    eexists. split; [reflexivity|]. split; [reflexivity|]. split; [reflexivity|].
    split; [exact Hpath|].
    split; [apply (returned_ext _ _ _ _ _ _ Hret); reflexivity|].
    split; [exact Hb|]. exact Hstop.
  - destruct (poll_tx_pdma_loop_trace (S (length (buf (tx_ring eth))))
                (cpu_idx (tx_ring eth)) (MT7628_TX_DTX_IDX0 (regs eth)) budget state eth)
      as (slots & cpu' & Hloop & Hpath & Hnd & Hin & Hb & Hstop).
    { pose proof (count_in_use_le (buf (tx_ring eth))). lia. }
    cbv zeta in Hloop, Hb, Hstop.
    destruct (reclaim_slots_returned true slots budget state eth Hnd Hin) as (Hret & _).
    exists slots, cpu'. cbv zeta.
    set (r := reclaim_slots true slots budget state eth) in *.
    unfold mtk_poll_tx_pdma. rewrite Hloop.
    eexists. split; [reflexivity|]. split; [reflexivity|].
    split; [exact Hpath|].
    split; [apply (returned_ext _ _ _ _ _ _ Hret); reflexivity|].
    split; [exact Hb|]. exact Hstop.
Qed.

(** *** What [mtk_poll_tx] reports *)

(** Socket buffers reclaimed: slots that held a packet handed over as a
    socket buffer before and are free after. *)
Definition skbs_reclaimed (eth eth' : mtk_eth) : Z :=
  count2 (fun b b' => is_skb_head b && negb (in_use b'))
    (buf (tx_ring eth)) (buf (tx_ring eth')).

Lemma is_skb_head_is_head b : is_skb_head b = true -> is_head b = true.
Proof. unfold is_skb_head. intros Hb. apply andb_true_iff in Hb. tauto. Qed.

Lemma list_eq_total (l l' : list mtk_tx_buf) :
  length l' = length l -> (forall j, l' !!! j = l !!! j) -> l' = l.
Proof.
  intros Hlen Hj. apply list_eq. intros i.
  destruct (decide (i < length l)%nat) as [Hi|Hi].
  - rewrite (list_lookup_lookup_total_lt l i Hi).
    rewrite (list_lookup_lookup_total_lt l' i) by lia. rewrite Hj. reflexivity.
  - rewrite !lookup_ge_None_2 by lia. reflexivity.
Qed.

(** Counting on the two snapshots what a reclaim of [slots] returned. *)
Lemma count2_returned f :
  (forall b, f b = true -> in_use b = true) ->
  forall slots (l l' : list mtk_tx_buf),
    NoDup slots -> Forall (fun s => in_use (l !!! s) = true) slots ->
    length l' = length l ->
    (forall j, l' !!! j = if bool_decide (j ∈ slots) then cleared (l !!! j) else l !!! j) ->
    count2 (fun b b' => f b && negb (in_use b')) l l' = among f l slots.
Proof.
  intros Hf. induction slots as [|s rest IH]; intros l l' Hnd Hin Hlen Hj.
  - assert (E : l' = l).
    { apply list_eq_total; [exact Hlen|]. intros j. rewrite Hj.
      rewrite bool_decide_eq_false_2 by (apply not_elem_of_nil). reflexivity. }
    rewrite E, count2_refl by exact Hf. reflexivity.
  - pose proof (NoDup_cons_1_1 _ _ Hnd) as Hs. apply NoDup_cons_1_2 in Hnd.
    apply Forall_cons_1 in Hin. destruct Hin as [Hus Hin].
    assert (Hsl : (s < length l)%nat) by (apply in_use_lt; exact Hus).
    set (c := cleared (l !!! s)).
    assert (Hc : f c = false).
    { destruct (f c) eqn:E; [|reflexivity]. apply Hf in E. discriminate E. }
    assert (Hs' : l' !!! s = c).
    { rewrite Hj, bool_decide_eq_true_2 by (apply elem_of_cons; left; reflexivity).
      reflexivity. }
    rewrite (count2_step f c l l' s Hsl Hlen Hc) by (rewrite Hs'; reflexivity).
    rewrite among_cons.
    assert (Hl1 : forall t, t ∈ rest -> <[s := c]> l !!! t = l !!! t).
    { intros t Ht. apply list_lookup_total_insert_ne. intros ->. exact (Hs Ht). }
    rewrite (IH (<[s := c]> l) l' Hnd).
    + rewrite (among_ext f l _ rest Hl1). reflexivity.
    + apply list.Forall_forall. intros t Ht. rewrite (Hl1 t Ht).
      rewrite list.Forall_forall in Hin. apply Hin, Ht.
    + rewrite length_insert. exact Hlen.
    + intros j. rewrite Hj. destruct (decide (j = s)) as [->|Hne].
      * rewrite (bool_decide_eq_false_2 (s ∈ rest)) by exact Hs.
        rewrite (bool_decide_eq_true_2 (s ∈ s :: rest))
          by (apply elem_of_cons; left; reflexivity).
        symmetry. apply list_lookup_total_insert_eq. exact Hsl.
      * rewrite list_lookup_total_insert_ne by congruence.
        destruct (decide (j ∈ rest)) as [Hjr|Hjr].
        -- rewrite (bool_decide_eq_true_2 _ Hjr).
           rewrite (bool_decide_eq_true_2 (j ∈ s :: rest))
             by (apply elem_of_cons; right; exact Hjr).
           reflexivity.
        -- rewrite (bool_decide_eq_false_2 _ Hjr).
           rewrite (bool_decide_eq_false_2 (j ∈ s :: rest)); [reflexivity|].
           intros Hc'. apply elem_of_cons in Hc'.
           destruct Hc' as [Hc'|Hc']; [congruence|exact (Hjr Hc')].
Qed.

(** [mtk_poll_tx] returns the number of socket buffers it reclaimed.
    Frames of the XDP path use up budget like packets do, but are not
    part of the number returned. *)
Lemma mtk_poll_tx_counts budget eth :
  exists n eth',
    mtk_poll_tx budget eth = Some (n, eth') /\
    n = skbs_reclaimed eth eth' /\
    0 <= skbs_reclaimed eth eth' <= heads_reclaimed eth eth' /\
    (0 <= budget -> heads_reclaimed eth eth' <= budget).
Proof.
  unfold mtk_poll_tx.
  set (state := {| txq := None; total := 0; done := 0; bytes := 0 |}).
  assert (Fin : forall slots pdma budget' state' eth1 eth2,
    NoDup slots -> Forall (fun s => in_use (buf (tx_ring eth) !!! s) = true) slots ->
    reclaim_slots pdma slots budget state eth = (budget', state', eth1) ->
    buf (tx_ring eth2) = buf (tx_ring eth1) ->
    (0 <= budget -> 0 <= budget') ->
    total state' = skbs_reclaimed eth eth2 /\
    0 <= skbs_reclaimed eth eth2 <= heads_reclaimed eth eth2 /\
    (0 <= budget -> heads_reclaimed eth eth2 <= budget)).
  { intros slots pdma budget' state' eth1 eth2 Hnd Hin Hr Hb Hbud.
    pose proof (reclaim_slots_returned pdma slots budget state eth Hnd Hin) as R.
    cbv zeta in R. rewrite Hr in R. cbn [fst snd] in R.
    destruct R as ((_ & _ & R3 & _ & _ & R6 & R7 & _) & T & _).
    unfold skbs_reclaimed, heads_reclaimed. rewrite Hb.
    rewrite (count2_returned is_skb_head
               (fun b Hb' => is_head_in_use b (is_skb_head_is_head b Hb'))
               slots _ _ Hnd Hin R6 R7).
    rewrite (count2_returned is_head is_head_in_use slots _ _ Hnd Hin R6 R7).
    pose proof (among_le is_skb_head is_head (buf (tx_ring eth)) slots is_skb_head_is_head)
      as Hle.
    pose proof (among_bounds is_skb_head (buf (tx_ring eth)) slots) as Hbd.
    split; [rewrite T; cbn [total state]; lia|]. split; [lia|].
    intros Hpos. specialize (Hbud Hpos). lia. }
  assert (Tail : forall st (e : mtk_eth),
    buf (tx_ring
      (let eth2 :=
         match txq st with
         | Some (d, qi) => add_bql (tx_completed d qi (done st) (bytes st)) e
         | None => e
         end in
       if mtk_queue_stopped eth2 && (thresh (tx_ring eth2) <? free_count (tx_ring eth2))
       then mtk_wake_queue eth2 else eth2)) = buf (tx_ring e)).
  { intros st e. cbv zeta. destruct (txq st) as [[d qi]|];
      match goal with |- context [if ?c then _ else _] => destruct c end; reflexivity. }
  destruct (caps_qdma (soc eth)).
  - unfold mtk_poll_tx_qdma.
    destruct (poll_tx_qdma_loop_trace (S (length (buf (tx_ring eth))))
                (last_free_ptr (tx_ring eth)) (qdma_drx_ptr (regs eth))
                (mtk_qdma_phys_to_virt (soc eth) (tx_ring eth) (last_free_ptr (tx_ring eth)))
                budget state eth)
      as (slots & cpu' & desc' & Hloop & _ & Hnd & Hin & Hb & _).
    { pose proof (count_in_use_le (buf (tx_ring eth))). lia. }
    cbv zeta in Hloop, Hb. rewrite Hloop.
    destruct (reclaim_slots false slots budget state eth) as [[b1 s1] e1] eqn:Er.
    cbn [fst snd] in Hb |- *.
    do 2 eexists. split; [reflexivity|].
    apply (Fin slots false b1 s1 e1 _ Hnd Hin Er); [|exact Hb].
    rewrite Tail. reflexivity.
  - unfold mtk_poll_tx_pdma.
    destruct (poll_tx_pdma_loop_trace (S (length (buf (tx_ring eth))))
                (cpu_idx (tx_ring eth)) (MT7628_TX_DTX_IDX0 (regs eth)) budget state eth)
      as (slots & cpu' & Hloop & _ & Hnd & Hin & Hb & _).
    { pose proof (count_in_use_le (buf (tx_ring eth))). lia. }
    cbv zeta in Hloop, Hb. rewrite Hloop.
    destruct (reclaim_slots true slots budget state eth) as [[b1 s1] e1] eqn:Er.
    cbn [fst snd] in Hb |- *.
    do 2 eexists. split; [reflexivity|].
    apply (Fin slots true b1 s1 e1 _ Hnd Hin Er); [|exact Hb].
    rewrite Tail. reflexivity.
Qed.
(** *** The legacy ring: head slot and commit *)

(** The state after a buffer was mapped and written to slot [idx] of the
    legacy ring: as [slot_written], and the hardware-visible descriptor
    changed by [pd]. *)
Definition slot_written_pdma (idx : nat) (enc pd : mtk_tx_dma -> mtk_tx_dma)
    (b : mtk_tx_buf) (m : Z * Z) (eth : mtk_eth) : mtk_eth :=
  {| soc := soc eth; resetting := resetting eth;
     tx_ring :=
       set_dma_pdma (fun l => <[idx := pd (l !!! idx)]> l)
         (set_buf (fun l => <[idx := b]> l)
            (set_dma (fun l => <[idx := enc (l !!! idx)]> l) (tx_ring eth)));
     regs := regs eth; netdev := netdev eth; tx_packets := tx_packets eth;
     tx_bytes := tx_bytes eth; dma_mapped := m :: dma_mapped eth;
     dma_calls := S (dma_calls eth); released := released eth;
     bql := bql eth |}.

Definition head_buf_pdma (mac addr size : Z) : mtk_tx_buf :=
  {| type := MTK_TYPE_SKB; data := DummyDesc; mac_id := mac;
     flags := Z.lor 0 (MTK_TX_FLAGS_SINGLE0 H);
     dma_addr0 := addr; dma_len0 := size; dma_addr1 := 0; dma_len1 := 0 |}.

Definition head_pdma_desc (soc : mtk_soc_data) (addr size : Z) (d : mtk_tx_dma) : mtk_tx_dma :=
  with_txd2 (TX_DMA_PLEN0 H (tx_dma_max_len soc) (tx_dma_len_offset soc) size)
    (with_txd1 addr d).

Lemma slot_written_pdma_ring_ok idx enc pd b m eth :
  (forall d, txd2 (enc d) = txd2 d) ->
  ring_ok eth -> ring_ok (slot_written_pdma idx enc pd b m eth).
Proof.
  intros Henc (Hsz & Hb & Hp & Hl). unfold ring_ok. cbn.
  rewrite !length_insert. repeat split; try assumption.
  intros i Hi. destruct (decide (idx = i)) as [->|Hne].
  - rewrite list_lookup_total_insert_eq by assumption. rewrite Henc. apply Hl, Hi.
  - rewrite list_lookup_total_insert_ne by assumption. apply Hl, Hi.
Qed.

Lemma mtk_tx_map_head_pdma env skb mac gso eth addr :
  caps_qdma (soc eth) = false ->
  ring_ok eth -> (next_free (tx_ring eth) < ring_len eth)%nat ->
  next_free (tx_ring eth) <> last_free (tx_ring eth) ->
  map_result env (dma_calls eth) = Some addr ->
  let itxd := next_free (tx_ring eth) in
  let s0 :=
    {| m_eth := slot_written_pdma itxd (encode eth mac (head_info skb gso addr))
                  (head_pdma_desc (soc eth) addr (headlen skb))
                  (head_buf_pdma mac addr (headlen skb)) (addr, headlen skb) eth;
       m_txd := itxd; m_n_desc := 1; m_k := 1 |} in
  mtk_tx_map env skb mac gso eth =
  match tx_map_frags env mac (obj_queue (skb_obj skb))
          (Z.of_nat (length (frags skb))) 0 (frags skb) s0 with
  | MapDiverge => None
  | MapErr s =>
      match tx_map_unwind (length (dma (tx_ring (m_eth s)))) itxd (m_txd s) (m_eth s) with
      | Some eth' => Some (- ENOMEM, eth')
      | None => None
      end
  | MapOk s => Some (0, tx_map_commit env skb mac itxd s)
  end.
Proof.
  intros Hq Hok Hlt Hne Hmap itxd s0.
  unfold mtk_tx_map. fold itxd.
  rewrite bool_decide_eq_false_2 by exact Hne.
  unfold dma_map.
  cbn [dma_calls update_buf set_tx_ring]. rewrite Hmap.
  rewrite mtk_tx_set_dma_desc_encode.
  rewrite (encode_ext eth) by reflexivity.
  fold (head_info skb gso addr).
  unfold setup_tx_buf.
  cbn [soc set_dma_mapped set_dma_calls update_desc update_buf set_tx_ring].
  rewrite Hq. change (Z.odd 0) with false. cbn iota.
  assert (Hl : (itxd < length (buf (tx_ring eth)))%nat).
  { destruct Hok as (_ & Hb & _). rewrite Hb. exact Hlt. }
  match goal with
  | |- match tx_map_frags _ _ _ _ _ _ ?a with _ => _ end =
       match tx_map_frags _ _ _ _ _ _ ?b with _ => _ end =>
      replace a with b; [reflexivity|]
  end.
  unfold s0. f_equal.
  generalize (encode eth mac (head_info skb gso addr)). intros enc.
  unfold head_pdma_desc.
  clear Hok Hlt Hne Hmap s0. clearbody itxd.
  unfold slot_written_pdma. destruct_eth eth. tx_norm.
  rewrite !list_lookup_total_insert_eq by (rewrite ?length_insert; exact Hl).
  rewrite !list_insert_insert_eq.
  reflexivity.
Qed.

(** Reading a device after the commit of a submission on the legacy
    ring. *)
Lemma tx_map_commit_pdma env skb mac itxd s :
  caps_qdma (soc (m_eth s)) = false ->
  let eth' := tx_map_commit env skb mac itxd s in
  free_count (tx_ring eth') = free_count (tx_ring (m_eth s)) - m_n_desc s /\
  next_free (tx_ring eth') = next_desc (m_eth s) (m_txd s) /\
  last_free (tx_ring eth') = last_free (tx_ring (m_eth s)) /\
  thresh (tx_ring eth') = thresh (tx_ring (m_eth s)) /\
  cpu_idx (tx_ring eth') = cpu_idx (tx_ring (m_eth s)) /\
  dma_size (tx_ring eth') = dma_size (tx_ring (m_eth s)) /\
  dma (tx_ring eth') = dma (tx_ring (m_eth s)) /\
  buf (tx_ring eth') =
    <[itxd := with_data (ObjPtr (skb_obj skb))
                (with_type MTK_TYPE_SKB (buf (tx_ring (m_eth s)) !!! itxd))]>
      (buf (tx_ring (m_eth s))) /\
  dma_mapped eth' = dma_mapped (m_eth s) /\
  soc eth' = soc (m_eth s) /\ resetting eth' = resetting (m_eth s) /\
  netdev eth' = netdev (m_eth s) /\ released eth' = released (m_eth s) /\
  MT7628_TX_DTX_IDX0 (regs eth') = MT7628_TX_DTX_IDX0 (regs (m_eth s)) /\
  MT7628_TX_CTX_IDX0 (regs eth') =
    NEXT_DESP_IDX H (Z.of_nat (m_txd s)) (dma_size (tx_ring (m_eth s))).
Proof.
  intros Hq eth'. unfold eth', tx_map_commit. rewrite Hq.
  destruct s as [e t nd k]. cbn [m_eth m_txd m_n_desc m_k] in *.
  unfold next_desc, desc_at.
  destruct (Z.odd k); destruct_eth e; tx_norm;
    repeat split; try reflexivity; lia.
Qed.

(** *** The device's side of a completion

    What the driver sees once the device has sent the descriptors handed
    to it, the last of them in slot [idx].  The queue-aware engine sets
    the owner bit of the descriptor and moves its release pointer to it;
    the legacy engine advances its index to the one the driver wrote. *)
Definition device_done (idx : nat) (eth : mtk_eth) : mtk_eth :=
  if caps_qdma (soc eth) then
    set_regs (fun r =>
      {| qdma_ctx_ptr := qdma_ctx_ptr r; qdma_dtx_ptr := qdma_dtx_ptr r;
         qdma_crx_ptr := qdma_crx_ptr r;
         qdma_drx_ptr := phys (tx_ring eth) + Z.of_nat idx * tx_desc_size (soc eth);
         MT7628_TX_CTX_IDX0 := MT7628_TX_CTX_IDX0 r;
         MT7628_TX_DTX_IDX0 := MT7628_TX_DTX_IDX0 r |})
      (update_desc idx (fun d => with_txd3 (Z.lor (txd3 d) (TX_DMA_OWNER_CPU H)) d) eth)
  else
    set_regs (fun r =>
      {| qdma_ctx_ptr := qdma_ctx_ptr r; qdma_dtx_ptr := qdma_dtx_ptr r;
         qdma_crx_ptr := qdma_crx_ptr r; qdma_drx_ptr := qdma_drx_ptr r;
         MT7628_TX_CTX_IDX0 := MT7628_TX_CTX_IDX0 r;
         MT7628_TX_DTX_IDX0 := MT7628_TX_CTX_IDX0 r |}) eth.

Lemma land_lor_absorb x c : Z.land (Z.lor x c) c = c.
Proof.
  apply Z.bits_inj'. intros n Hn.
  rewrite Z.land_spec, Z.lor_spec. destruct (Z.testbit x n), (Z.testbit c n); reflexivity.
Qed.

(** *** A reclaim that finds exactly one completed packet *)

Lemma poll_one_qdma eth budget o :
  let ring := tx_ring eth in
  let d0 := mtk_qdma_phys_to_virt (soc eth) ring (last_free_ptr ring) in
  let j := next_desc eth d0 in
  caps_qdma (soc eth) = true -> budget <> 0 ->
  last_free_ptr ring <> qdma_drx_ptr (regs eth) ->
  txd2 (desc_at ring d0) = qdma_drx_ptr (regs eth) ->
  Z.land (txd3 (desc_at ring j)) (TX_DMA_OWNER_CPU H) <> 0 ->
  data (mtk_desc_to_tx_buf ring j) = ObjPtr o ->
  type (mtk_desc_to_tx_buf ring j) = MTK_TYPE_SKB ->
  exists eth3,
    mtk_poll_tx budget eth = Some (1, eth3) /\
    free_count (tx_ring eth3) = free_count ring + 1.
Proof.
  intros ring d0 j Hq Hb Hne Hnext Hown Hdata Htype.
  unfold mtk_poll_tx, mtk_poll_tx_qdma. rewrite Hq. fold ring. fold d0.
  cbn [poll_tx_qdma_loop].
  rewrite (proj2 (Z.eqb_neq _ _) Hne), (proj2 (Z.eqb_neq _ _) Hb). cbn [orb].
  fold ring. fold j. rewrite (proj2 (Z.eqb_neq _ _) Hown). rewrite Hdata, Hnext.
  pose proof (poll_tx_reclaim_effect false j budget
                {| txq := None; total := 0; done := 0; bytes := 0 |} eth) as E.
  cbv zeta in E. fold ring in E.
  destruct (poll_tx_reclaim false j budget
              {| txq := None; total := 0; done := 0; bytes := 0 |} eth)
    as [[b1 s1] e1] eqn:Er.
  cbn [fst snd] in E. destruct E as (_ & E2 & E3 & E4 & E5 & _).
  unfold is_head in E2. rewrite Hdata, Htype in E2.
  rewrite bool_decide_eq_true_2 in E2 by reflexivity. cbn [total andb] in E2.
  assert (Hlen : length (buf (tx_ring e1)) = length (buf ring))
    by (rewrite E3; cbn; apply length_insert).
  destruct (length (buf ring)) as [|n] eqn:Hl.
  { cbn [poll_tx_qdma_loop]. rewrite Z.eqb_refl. cbn [orb].
    eexists. split; [f_equal; f_equal; exact E2|].
    destruct (txq s1) as [[d qi]|];
      match goal with
      | |- context [if ?c then _ else _] => destruct c
      end; unfold mtk_wake_queue; tx_proj; rewrite E3; reflexivity. }
  cbn [poll_tx_qdma_loop]. rewrite Z.eqb_refl. cbn [orb].
  eexists. split; [f_equal; f_equal; exact E2|].
  destruct (txq s1) as [[d qi]|];
    match goal with
    | |- context [if ?c then _ else _] => destruct c
    end; unfold mtk_wake_queue; tx_proj; rewrite E3; reflexivity.
Qed.

Lemma poll_one_pdma eth budget o :
  let ring := tx_ring eth in
  let j := Z.to_nat (cpu_idx ring) in
  caps_qdma (soc eth) = false -> budget <> 0 ->
  cpu_idx ring <> MT7628_TX_DTX_IDX0 (regs eth) ->
  NEXT_DESP_IDX H (cpu_idx ring) (dma_size ring) = MT7628_TX_DTX_IDX0 (regs eth) ->
  data (mtk_desc_to_tx_buf ring j) = ObjPtr o ->
  type (mtk_desc_to_tx_buf ring j) = MTK_TYPE_SKB ->
  exists eth3,
    mtk_poll_tx budget eth = Some (1, eth3) /\
    free_count (tx_ring eth3) = free_count ring + 1.
Proof.
  intros ring j Hq Hb Hne Hnext Hdata Htype.
  unfold mtk_poll_tx, mtk_poll_tx_pdma. rewrite Hq. fold ring.
  cbn [poll_tx_pdma_loop].
  rewrite (proj2 (Z.eqb_neq _ _) Hne), (proj2 (Z.eqb_neq _ _) Hb). cbn [orb].
  fold ring. fold j. rewrite Hdata.
  pose proof (poll_tx_reclaim_effect true j budget
                {| txq := None; total := 0; done := 0; bytes := 0 |} eth) as E.
  cbv zeta in E. fold ring in E.
  destruct (poll_tx_reclaim true j budget
              {| txq := None; total := 0; done := 0; bytes := 0 |} eth)
    as [[b1 s1] e1] eqn:Er.
  cbn [fst snd] in E. destruct E as (_ & E2 & E3 & E4 & E5 & _).
  unfold is_head in E2. rewrite Hdata, Htype in E2.
  rewrite bool_decide_eq_true_2 in E2 by reflexivity. cbn [total andb] in E2.
  assert (Hds : dma_size (tx_ring e1) = dma_size ring) by (rewrite E3; reflexivity).
  rewrite Hds, Hnext.
  destruct (length (buf ring)) as [|n] eqn:Hl.
  { cbn [poll_tx_pdma_loop]. rewrite Z.eqb_refl. cbn [orb].
    eexists. split; [f_equal; f_equal; exact E2|].
    destruct (txq s1) as [[d qi]|];
      match goal with
      | |- context [if ?c then _ else _] => destruct c
      end; unfold mtk_wake_queue; tx_proj; rewrite E3; reflexivity. }
  cbn [poll_tx_pdma_loop]. rewrite Z.eqb_refl. cbn [orb].
  eexists. split; [f_equal; f_equal; exact E2|].
  destruct (txq s1) as [[d qi]|];
    match goal with
    | |- context [if ?c then _ else _] => destruct c
    end; unfold mtk_wake_queue; tx_proj; rewrite E3; reflexivity.
Qed.

(** *** Scenario: one linear packet on a fresh ring of 256 slots *)

Lemma stop_queues_frame mac (c : bool) eth :
  let eth' := if c then netif_tx_stop_all_queues mac eth else eth in
  tx_ring eth' = tx_ring eth /\ regs eth' = regs eth /\ soc eth' = soc eth.
Proof. destruct c; repeat split; reflexivity. Qed.



(** *** Termination of the XDP submission

    What the ring walks depend on: the capabilities, the ring base, the
    links between slots and the sizes of the parallel arrays. *)
Definition links (eth : mtk_eth) : mtk_soc_data * Z * list Z * nat * nat :=
  (soc eth, phys (tx_ring eth), txd2 <$> dma (tx_ring eth),
   length (buf (tx_ring eth)), length (dma_pdma (tx_ring eth))).

Lemma links_ring_len eth eth' : links eth' = links eth -> ring_len eth' = ring_len eth.
Proof.
  unfold links, ring_len. intros E.
  assert (E' : length (txd2 <$> dma (tx_ring eth')) = length (txd2 <$> dma (tx_ring eth)))
    by congruence.
  rewrite !length_fmap in E'. exact E'.
Qed.

Lemma links_soc eth eth' : links eth' = links eth -> soc eth' = soc eth.
Proof. unfold links. congruence. Qed.

Lemma links_txd2 eth eth' i :
  links eth' = links eth -> (i < ring_len eth)%nat ->
  txd2 (dma (tx_ring eth') !!! i) = txd2 (dma (tx_ring eth) !!! i).
Proof.
  intros E Hi. pose proof (links_ring_len _ _ E) as El.
  assert (E' : txd2 <$> dma (tx_ring eth') = txd2 <$> dma (tx_ring eth))
    by (unfold links in E; congruence).
  unfold ring_len in *.
  destruct (lookup_lt_is_Some_2 (dma (tx_ring eth)) i Hi) as [d Hd].
  destruct (lookup_lt_is_Some_2 (dma (tx_ring eth')) i ltac:(lia)) as [d' Hd'].
  rewrite (list_lookup_total_correct _ _ _ Hd), (list_lookup_total_correct _ _ _ Hd').
  assert (L : (txd2 <$> dma (tx_ring eth')) !! i = (txd2 <$> dma (tx_ring eth)) !! i)
    by (rewrite E'; reflexivity).
  rewrite !list_lookup_fmap, Hd, Hd' in L. cbn in L. congruence.
Qed.

Lemma links_ring_ok eth eth' : links eth' = links eth -> ring_ok eth -> ring_ok eth'.
Proof.
  intros E (Hsz & Hb & Hp & Hl).
  pose proof (links_ring_len _ _ E) as El. unfold ring_len in El.
  pose proof (links_soc _ _ E) as Es.
  assert (Eb : length (buf (tx_ring eth')) = length (buf (tx_ring eth)))
    by (unfold links in E; congruence).
  assert (Ep : length (dma_pdma (tx_ring eth')) = length (dma_pdma (tx_ring eth)))
    by (unfold links in E; congruence).
  assert (Eph : phys (tx_ring eth') = phys (tx_ring eth))
    by (unfold links in E; congruence).
  unfold ring_ok. rewrite Es, El, Eb, Ep, Eph. repeat split; try assumption.
  intros i Hi. rewrite (links_txd2 _ _ i E Hi). apply Hl, Hi.
Qed.

Lemma links_next_desc eth eth' i :
  links eth' = links eth -> (i < ring_len eth)%nat -> next_desc eth' i = next_desc eth i.
Proof.
  intros E Hi. unfold next_desc, mtk_qdma_phys_to_virt, desc_at.
  rewrite (links_txd2 _ _ i E Hi), (links_soc _ _ E).
  replace (phys (tx_ring eth')) with (phys (tx_ring eth))
    by (unfold links in E; congruence).
  reflexivity.
Qed.

(** The links and the next free slot. *)
Definition shape (eth : mtk_eth) : (mtk_soc_data * Z * list Z * nat * nat) * nat :=
  (links eth, next_free (tx_ring eth)).

Lemma shape_links eth eth' : shape eth' = shape eth -> links eth' = links eth.
Proof. unfold shape. congruence. Qed.

Lemma shape_next_free eth eth' :
  shape eth' = shape eth -> next_free (tx_ring eth') = next_free (tx_ring eth).
Proof. unfold shape. congruence. Qed.

Lemma shape_update_buf idx f eth : shape (update_buf idx f eth) = shape eth.
Proof. unfold shape, links. tx_proj. rewrite length_insert. reflexivity. Qed.

Lemma shape_update_pdma idx f eth : shape (update_pdma idx f eth) = shape eth.
Proof. unfold shape, links. tx_proj. rewrite length_insert. reflexivity. Qed.

Lemma shape_update_desc idx f eth :
  (forall d, txd2 (f d) = txd2 d) -> shape (update_desc idx f eth) = shape eth.
Proof.
  intros Hf. unfold shape, links. tx_proj. rewrite list_fmap_insert, Hf.
  do 4 f_equal.
  apply list_eq. intros j. destruct (decide (idx = j)) as [->|Hne].
  - destruct (decide (j < length (dma (tx_ring eth)))%nat) as [Hj|Hj].
    + rewrite list_lookup_insert_eq by (rewrite length_fmap; exact Hj).
      rewrite list_lookup_fmap.
      destruct (lookup_lt_is_Some_2 _ _ Hj) as [d Hd].
      rewrite (list_lookup_total_correct _ _ _ Hd), Hd. reflexivity.
    + rewrite list_insert_ge by (rewrite length_fmap; lia). reflexivity.
  - rewrite list_lookup_insert_ne by assumption. reflexivity.
Qed.

Lemma shape_mtk_tx_unmap idx bq napi eth : shape (mtk_tx_unmap idx bq napi eth) = shape eth.
Proof.
  destruct (mtk_tx_unmap_effect idx bq napi eth) as (Es & _ & _ & _ & _ & _ & _ & _ & Er & _).
  unfold shape, links. rewrite Es, Er. cbn. rewrite length_insert. reflexivity.
Qed.

Lemma shape_dma_map env size eth : shape (dma_map env size eth).2 = shape eth.
Proof. unfold dma_map. destruct (map_result env (dma_calls eth)); reflexivity. Qed.

Lemma shape_setup_tx_buf idx a size k eth : shape (setup_tx_buf idx a size k eth) = shape eth.
Proof.
  unfold setup_tx_buf.
  destruct (caps_qdma (soc eth)); [apply shape_update_buf|].
  destruct (Z.odd k).
  - rewrite shape_update_buf. apply shape_update_pdma.
  - rewrite shape_update_buf, shape_update_pdma. apply shape_update_buf.
Qed.

Lemma shape_mtk_tx_set_dma_desc mac idx info eth :
  shape (mtk_tx_set_dma_desc mac idx info eth) = shape eth.
Proof.
  rewrite mtk_tx_set_dma_desc_encode. apply shape_update_desc.
  intros d. apply encode_txd2.
Qed.

Lemma shape_mtk_xdp_frame_map env mac info idx seg headroom index do_map eth :
  shape (mtk_xdp_frame_map env mac info idx seg headroom index do_map eth).2 = shape eth.
Proof.
  unfold mtk_xdp_frame_map. destruct do_map.
  - pose proof (shape_dma_map env (i_size info) eth) as Em.
    destruct (dma_map env (i_size info) eth) as [[a|] eth1]; cbn [snd] in *.
    + rewrite shape_setup_tx_buf, shape_update_buf, shape_mtk_tx_set_dma_desc,
        shape_update_buf. exact Em.
    + exact Em.
  - cbn [snd]. rewrite shape_setup_tx_buf, shape_update_buf, shape_mtk_tx_set_dma_desc.
    reflexivity.
Qed.

Lemma slot_iter n h k :
  (0 < n)%nat -> (h < n)%nat -> Nat.iter k (slot_succ n) h = ((h + k) mod n)%nat.
Proof.
  intros Hn Hh. induction k as [|k IH].
  - cbn. rewrite Nat.add_0_r. symmetry. apply Nat.mod_small, Hh.
  - rewrite Nat.iter_succ, IH. unfold slot_succ.
    rewrite Nat.Div0.add_mod_idemp_l. f_equal. lia.
Qed.

(** On a ring every slot is reached from every other. *)
Lemma slot_reach n h t :
  (h < n)%nat -> (t < n)%nat ->
  exists k, (k < n)%nat /\ Nat.iter k (slot_succ n) h = t.
Proof.
  intros Hh Ht. exists ((t + n - h) mod n)%nat. split.
  - apply Nat.mod_upper_bound. lia.
  - rewrite slot_iter by lia. rewrite Nat.Div0.add_mod_idemp_r.
    replace (h + (t + n - h))%nat with (t + 1 * n)%nat by lia.
    rewrite Nat.Div0.mod_add. apply Nat.mod_small, Ht.
Qed.

Lemma xdp_submit_loop_shape env mac do_map headroom nr_frags :
  forall rest info seg txd n_desc index eth,
    ring_ok eth -> (txd < ring_len eth)%nat ->
    match xdp_submit_loop env mac do_map headroom nr_frags rest info seg txd
            n_desc index eth with
    | XdpDone txd' _ _ eth' | XdpUnmap _ txd' eth' =>
        shape eth' = shape eth /\ (txd' < ring_len eth)%nat
    end.
Proof.
  induction rest as [|frag rest IH]; intros info seg txd n_desc index eth Hok Htxd.
  all: cbn [xdp_submit_loop].
  all: pose proof (shape_mtk_xdp_frame_map env mac info txd seg headroom index do_map eth)
         as Em.
  all: destruct (mtk_xdp_frame_map env mac info txd seg headroom index do_map eth)
         as [[err info1] eth1]; cbn [snd] in Em.
  all: destruct (err <? 0); [split; assumption|].
  all: destruct (i_last info1); [split; assumption|].
  - split; assumption.
  - pose proof (shape_links _ _ Em) as El.
    assert (Hnext : (next_desc eth1 txd < ring_len eth)%nat).
    { rewrite (links_next_desc _ _ txd El Htxd), (next_desc_succ _ _ Hok Htxd).
      apply slot_succ_lt. lia. }
    set (advance := caps_qdma (soc eth1) || Z.odd index) in *.
    destruct advance; cbn [andb].
    + destruct (bool_decide (next_desc eth1 txd = last_free (tx_ring eth1)));
        [split; assumption|].
      set (eth2 := update_buf (next_desc eth1 txd) (fun _ => zero_buf) eth1).
      assert (E2 : shape eth2 = shape eth)
        by (unfold eth2; rewrite shape_update_buf; exact Em).
      pose proof (links_ring_len _ _ (shape_links _ _ E2)) as Hl2.
      specialize (IH {| i_size := seg_len frag; i_addr := 0; i_vlan_tci := 0;
                        i_qid := mac; i_vlan := false; i_csum := false;
                        i_gso := false; i_first := false;
                        i_last := (index + 1 =? nr_frags) |}
                    frag (next_desc eth1 txd) (n_desc + 1) (index + 1) eth2
                    (links_ring_ok _ _ (shape_links _ _ E2) Hok)
                    ltac:(rewrite Hl2; exact Hnext)).
      clearbody eth2.
      destruct (xdp_submit_loop _ _ _ _ _ _ _ _ _ _ _ eth2);
        (destruct IH as [IH1 IH2]; split; [congruence | rewrite <- Hl2; exact IH2]).
    + pose proof (links_ring_len _ _ El) as Hl1.
      specialize (IH {| i_size := seg_len frag; i_addr := 0; i_vlan_tci := 0;
                        i_qid := mac; i_vlan := false; i_csum := false;
                        i_gso := false; i_first := false;
                        i_last := (index + 1 =? nr_frags) |}
                    frag txd n_desc (index + 1) eth1
                    (links_ring_ok _ _ El Hok)
                    ltac:(rewrite Hl1; exact Htxd)).
      destruct (xdp_submit_loop _ _ _ _ _ _ _ _ _ _ _ eth1);
        (destruct IH as [IH1 IH2]; split; [congruence | rewrite <- Hl1; exact IH2]).
Qed.

(** The walk from [htxd] to [txd] ends within one turn of the ring. *)
Lemma xdp_unwind_returns : forall k fuel htxd txd eth,
    ring_ok eth -> (htxd < ring_len eth)%nat ->
    Nat.iter k (slot_succ (ring_len eth)) htxd = txd -> (k <= fuel)%nat ->
    exists eth', xdp_unwind fuel htxd txd eth = Some eth' /\ shape eth' = shape eth.
Proof.
  induction k as [|k IH]; intros fuel htxd txd eth Hok Hh Hit Hk.
  - cbn in Hit. subst txd. destruct fuel; cbn [xdp_unwind];
      rewrite bool_decide_eq_true_2 by reflexivity; eauto.
  - destruct fuel as [|fuel]; [lia|]. cbn [xdp_unwind].
    destruct (bool_decide (htxd = txd)); [eauto|].
    set (eth3 := if caps_qdma (soc eth) then _ else _).
    assert (E3 : shape eth3 = shape eth).
    { unfold eth3. destruct (caps_qdma (soc eth)).
      - rewrite shape_update_desc by reflexivity. apply shape_mtk_tx_unmap.
      - rewrite shape_update_pdma, shape_update_desc by reflexivity.
        apply shape_mtk_tx_unmap. }
    clearbody eth3.
    pose proof (shape_links _ _ E3) as El.
    pose proof (links_ring_len _ _ El) as Hl.
    rewrite Nat.iter_succ_r in Hit.
    destruct (IH fuel (next_desc eth3 htxd) txd eth3) as (eth' & Hr & Hs).
    + apply (links_ring_ok _ _ El Hok).
    + rewrite (links_next_desc _ _ htxd El Hh), (next_desc_succ _ _ Hok Hh), Hl.
      apply slot_succ_lt. lia.
    + rewrite (links_next_desc _ _ htxd El Hh), (next_desc_succ _ _ Hok Hh), Hl.
      exact Hit.
    + lia.
    + exists eth'. split; [exact Hr | congruence].
Qed.

(** A device whose transmit ring is linked and whose next free slot is
    on the ring. *)
Definition tx_wf (eth : mtk_eth) : Prop :=
  ring_ok eth /\ (next_free (tx_ring eth) < ring_len eth)%nat.

(** [mtk_xdp_submit_frame] returns, and leaves the ring well formed. *)
Lemma mtk_xdp_submit_frame_returns env xdpf mac do_map eth :
  tx_wf eth ->
  exists err eth',
    mtk_xdp_submit_frame env xdpf mac do_map eth = Some (err, eth') /\ tx_wf eth'.
Proof.
  intros [Hok Hnf]. unfold mtk_xdp_submit_frame.
  destruct (resetting eth); [eexists _, _; split; [reflexivity | split; assumption]|].
  destruct (_ <=? _); [eexists _, _; split; [reflexivity | split; assumption]|].
  destruct (bool_decide _); [eexists _, _; split; [reflexivity | split; assumption]|].
  set (txd := next_free (tx_ring eth)) in *.
  set (eth1 := update_buf txd (fun _ => zero_buf) eth).
  assert (E1 : shape eth1 = shape eth) by apply shape_update_buf.
  clearbody eth1.
  pose proof (links_ring_len _ _ (shape_links _ _ E1)) as Hl1.
  pose proof (links_ring_ok _ _ (shape_links _ _ E1) Hok) as Hok1.
  match goal with
  | |- context [xdp_submit_loop ?a ?b ?c ?d ?e ?f ?g ?h ?i ?j ?k ?l] =>
      pose proof (xdp_submit_loop_shape a b c d e f g h i j k l Hok1
                    ltac:(rewrite Hl1; exact Hnf)) as Hloop;
      destruct (xdp_submit_loop a b c d e f g h i j k l) as [txd' n_desc index eth2|err txd' eth2]
  end.
  - destruct Hloop as [E2 Ht'].
    assert (E2' : shape eth2 = shape eth) by congruence. clear E2.
    pose proof (shape_links _ _ E2') as El2.
    rewrite Hl1 in Ht'.
    eexists _, _. split; [reflexivity|].
    set (eth3 := update_buf txd (with_data (ObjPtr (xdpf_obj xdpf))) eth2).
    assert (E3 : links eth3 = links eth)
      by (apply shape_links; unfold eth3; rewrite shape_update_buf; exact E2').
    clearbody eth3.
    set (eth4 := if caps_qdma (soc eth) then eth3 else _).
    assert (E4 : links eth4 = links eth).
    { unfold eth4. destruct (caps_qdma (soc eth)); [exact E3|].
      destruct (Z.odd index);
        (etransitivity; [apply shape_links, shape_update_pdma | exact E3]). }
    clearbody eth4.
    assert (Hn4 : (next_desc eth4 txd' < ring_len eth)%nat).
    { rewrite (links_next_desc _ _ txd' E4 Ht'), (next_desc_succ _ _ Hok Ht').
      apply slot_succ_lt. lia. }
    split.
    + apply (links_ring_ok eth); [|exact Hok].
      rewrite <- E4. reflexivity.
    + unfold ring_len in *. tx_proj.
      replace (length (dma (tx_ring eth4))) with (length (dma (tx_ring eth)))
        by (symmetry; apply (links_ring_len _ _ E4)).
      exact Hn4.
  - destruct Hloop as [E2 Ht'].
    assert (E2' : shape eth2 = shape eth) by congruence. clear E2.
    pose proof (shape_links _ _ E2') as El2.
    pose proof (links_ring_len _ _ El2) as Hl2.
    pose proof (links_ring_ok _ _ El2 Hok) as Hok2.
    rewrite Hl1 in Ht'.
    destruct (slot_reach (ring_len eth2) txd txd' ltac:(lia) ltac:(lia)) as (k & Hk & Hit).
    destruct (xdp_unwind_returns k (length (dma (tx_ring eth2))) txd txd' eth2 Hok2
                ltac:(lia) Hit ltac:(unfold ring_len in Hk; lia)) as (eth3 & Hr & E3).
    rewrite Hr. eexists _, _. split; [reflexivity|].
    assert (E3' : shape eth3 = shape eth) by congruence.
    split.
    + apply (links_ring_ok _ _ (shape_links _ _ E3') Hok).
    + rewrite (shape_next_free _ _ E3'), (links_ring_len _ _ (shape_links _ _ E3')).
      exact Hnf.
Qed.

(** [mtk_poll_tx] returns on every device. *)
Lemma mtk_poll_tx_returns budget eth :
  exists n eth', mtk_poll_tx budget eth = Some (n, eth').
Proof.
  unfold mtk_poll_tx.
  set (state := {| txq := None; total := 0; done := 0; bytes := 0 |}).
  destruct (caps_qdma (soc eth)).
  - unfold mtk_poll_tx_qdma.
    destruct (poll_tx_qdma_loop_spec (S (length (buf (tx_ring eth))))
                (last_free_ptr (tx_ring eth)) (qdma_drx_ptr (regs eth))
                (mtk_qdma_phys_to_virt (soc eth) (tx_ring eth) (last_free_ptr (tx_ring eth)))
                budget state eth)
      as (cpu' & budget' & state' & eth' & Hloop & _).
    { pose proof (count_in_use_le (buf (tx_ring eth))). lia. }
    rewrite Hloop. eauto.
  - unfold mtk_poll_tx_pdma.
    destruct (poll_tx_pdma_loop_spec (S (length (buf (tx_ring eth))))
                (cpu_idx (tx_ring eth)) (MT7628_TX_DTX_IDX0 (regs eth))
                budget state eth)
      as (cpu' & budget' & state' & eth' & Hloop & _).
    { pose proof (count_in_use_le (buf (tx_ring eth))). lia. }
    rewrite Hloop. eauto.
Qed.

(** *** The fragment loop of [mtk_tx_map] on any packet

    What a submission must leave alone until it commits: the links, the
    next free slot, the free-slot counter and the reclaim position. *)
Definition anchors (eth : mtk_eth) :=
  (shape eth, free_count (tx_ring eth), last_free (tx_ring eth),
   last_free_ptr (tx_ring eth)).

Lemma anchors_of_shape eth eth' :
  shape eth' = shape eth ->
  free_count (tx_ring eth') = free_count (tx_ring eth) ->
  last_free (tx_ring eth') = last_free (tx_ring eth) ->
  last_free_ptr (tx_ring eth') = last_free_ptr (tx_ring eth) ->
  anchors eth' = anchors eth.
Proof. unfold anchors. congruence. Qed.

Lemma anchors_shape eth eth' : anchors eth' = anchors eth -> shape eth' = shape eth.
Proof. unfold anchors. congruence. Qed.

Lemma anchors_free_count eth eth' :
  anchors eth' = anchors eth -> free_count (tx_ring eth') = free_count (tx_ring eth).
Proof. unfold anchors. congruence. Qed.

Lemma anchors_last_free eth eth' :
  anchors eth' = anchors eth -> last_free (tx_ring eth') = last_free (tx_ring eth).
Proof. unfold anchors. congruence. Qed.

Lemma anchors_last_free_ptr eth eth' :
  anchors eth' = anchors eth ->
  last_free_ptr (tx_ring eth') = last_free_ptr (tx_ring eth) /\
  phys (tx_ring eth') = phys (tx_ring eth).
Proof. unfold anchors, shape, links. intros E. split; congruence. Qed.

Lemma anchors_update_buf idx f eth : anchors (update_buf idx f eth) = anchors eth.
Proof. apply anchors_of_shape; [apply shape_update_buf|reflexivity|reflexivity|reflexivity]. Qed.

Lemma anchors_update_pdma idx f eth : anchors (update_pdma idx f eth) = anchors eth.
Proof. apply anchors_of_shape; [apply shape_update_pdma|reflexivity|reflexivity|reflexivity]. Qed.

Lemma anchors_update_desc idx f eth :
  (forall d, txd2 (f d) = txd2 d) -> anchors (update_desc idx f eth) = anchors eth.
Proof.
  intros Hf. apply anchors_of_shape; [apply shape_update_desc, Hf|reflexivity|reflexivity|reflexivity].
Qed.

Lemma anchors_mtk_tx_unmap idx bq napi eth : anchors (mtk_tx_unmap idx bq napi eth) = anchors eth.
Proof.
  destruct (mtk_tx_unmap_effect idx bq napi eth) as (_ & _ & _ & _ & _ & _ & _ & _ & Er & _).
  apply anchors_of_shape; [apply shape_mtk_tx_unmap| | |]; rewrite Er; reflexivity.
Qed.

Lemma anchors_dma_map env size eth : anchors (dma_map env size eth).2 = anchors eth.
Proof. unfold dma_map. destruct (map_result env (dma_calls eth)); reflexivity. Qed.

Lemma anchors_setup_tx_buf idx a size k eth : anchors (setup_tx_buf idx a size k eth) = anchors eth.
Proof.
  unfold setup_tx_buf.
  destruct (caps_qdma (soc eth)); [apply anchors_update_buf|].
  destruct (Z.odd k).
  - rewrite anchors_update_buf. apply anchors_update_pdma.
  - rewrite anchors_update_buf, anchors_update_pdma. apply anchors_update_buf.
Qed.

Lemma anchors_mtk_tx_set_dma_desc mac idx info eth :
  anchors (mtk_tx_set_dma_desc mac idx info eth) = anchors eth.
Proof.
  rewrite mtk_tx_set_dma_desc_encode. apply anchors_update_desc.
  intros d. apply encode_txd2.
Qed.

Lemma anchors_tx_map_unwind_slot itxd eth : anchors (tx_map_unwind_slot itxd eth) = anchors eth.
Proof.
  unfold tx_map_unwind_slot. destruct (caps_qdma (soc eth)).
  - rewrite anchors_update_desc by reflexivity. apply anchors_mtk_tx_unmap.
  - rewrite anchors_update_pdma, anchors_update_desc by reflexivity. apply anchors_mtk_tx_unmap.
Qed.

Lemma anchors_ring_ok eth eth' : anchors eth' = anchors eth -> ring_ok eth -> ring_ok eth'.
Proof. intros E. apply links_ring_ok, shape_links, anchors_shape, E. Qed.

Lemma anchors_ring_len eth eth' : anchors eth' = anchors eth -> ring_len eth' = ring_len eth.
Proof. intros E. apply links_ring_len, shape_links, anchors_shape, E. Qed.

Lemma anchors_soc eth eth' : anchors eth' = anchors eth -> soc eth' = soc eth.
Proof. intros E. apply links_soc, shape_links, anchors_shape, E. Qed.

Lemma anchors_next_desc eth eth' i :
  anchors eth' = anchors eth -> ring_ok eth -> (i < ring_len eth)%nat ->
  next_desc eth' i = slot_succ (ring_len eth) i.
Proof.
  intros E Hok Hi.
  rewrite (links_next_desc _ _ i (shape_links _ _ (anchors_shape _ _ E)) Hi).
  apply next_desc_succ; assumption.
Qed.

(** One pass of [while (frag_size)]: the slot used stays on the ring and
    nothing the commit depends on moves; on the queue-aware ring every
    buffer takes the slot after the one before it. *)
Lemma tx_map_chunk_anchors env mac queue i nr_frags frag_size s :
  ring_ok (m_eth s) -> (m_txd s < ring_len (m_eth s))%nat ->
  match tx_map_chunk env mac queue i nr_frags frag_size s with
  | inl (size, s') =>
      anchors (m_eth s') = anchors (m_eth s) /\ (m_txd s' < ring_len (m_eth s))%nat /\
      size = Z.min frag_size (tx_dma_max_len (soc (m_eth s))) /\
      (caps_qdma (soc (m_eth s)) = true ->
       m_n_desc s' = m_n_desc s + 1 /\
       m_txd s' = slot_succ (ring_len (m_eth s)) (m_txd s))
  | inr s' =>
      anchors (m_eth s') = anchors (m_eth s) /\ (m_txd s' < ring_len (m_eth s))%nat
  end.
Proof.
  intros Hok Htxd. unfold tx_map_chunk.
  set (eth := m_eth s) in *.
  assert (Hnext : next_desc eth (m_txd s) = slot_succ (ring_len eth) (m_txd s))
    by (apply next_desc_succ; assumption).
  assert (Hlt : (slot_succ (ring_len eth) (m_txd s) < ring_len eth)%nat)
    by (apply slot_succ_lt; lia).
  set (advance := caps_qdma (soc eth) || Z.odd i).
  assert (Hadv : caps_qdma (soc eth) = true -> advance = true)
    by (unfold advance; intros ->; reflexivity).
  set (txd := if advance then next_desc eth (m_txd s) else m_txd s).
  assert (Ht : (txd < ring_len eth)%nat)
    by (unfold txd; destruct advance; [rewrite Hnext; exact Hlt|exact Htxd]).
  destruct (advance && bool_decide (txd = last_free (tx_ring eth))).
  { cbn [m_eth m_txd]. split; [reflexivity|exact Ht]. }
  pose proof (anchors_dma_map env (Z.min frag_size (tx_dma_max_len (soc eth))) eth) as Em.
  destruct (dma_map env (Z.min frag_size (tx_dma_max_len (soc eth))) eth)
    as [[addr|] eth1]; cbn [snd] in Em.
  2: { cbn [m_eth m_txd]. split; [exact Em|exact Ht]. }
  cbn [m_eth m_txd m_n_desc].
  split.
  { rewrite anchors_setup_tx_buf, anchors_update_buf.
    destruct advance; [rewrite anchors_update_buf|];
      rewrite anchors_mtk_tx_set_dma_desc; exact Em. }
  split; [exact Ht|]. split; [reflexivity|].
  intros Hq. unfold txd. rewrite (Hadv Hq). split; [reflexivity|exact Hnext].
Qed.

(** The lengths a fragment is cut into add up to the fragment. *)
Lemma frag_chunks_sum max_len : forall fuel frag_size,
  0 < max_len -> 0 <= frag_size -> (Z.to_nat frag_size <= fuel)%nat ->
  foldr Z.add 0 (frag_chunks fuel max_len frag_size) = frag_size /\
  Forall (fun c => 0 < c <= max_len) (frag_chunks fuel max_len frag_size).
Proof.
  induction fuel as [|fuel IH]; intros f Hm Hf Hfuel.
  - assert (f = 0) by lia. subst f. cbn. split; [reflexivity|constructor].
  - cbn [frag_chunks]. destruct (f =? 0) eqn:E.
    + apply Z.eqb_eq in E. subst f. split; [reflexivity|constructor].
    + apply Z.eqb_neq in E.
      destruct (IH (f - Z.min f max_len) Hm ltac:(lia) ltac:(lia)) as [Hs Hall].
      split.
      * cbn [foldr]. rewrite Hs. lia.
      * constructor; [lia|exact Hall].
Qed.

(** [while (frag_size)] ends, and on the queue-aware ring it has used one
    slot for each piece of the fragment. *)
Lemma tx_map_frag_anchors env mac queue i nr_frags : forall fuel frag_size s,
  ring_ok (m_eth s) -> (m_txd s < ring_len (m_eth s))%nat ->
  0 < tx_dma_max_len (soc (m_eth s)) -> 0 <= frag_size ->
  (Z.to_nat frag_size <= fuel)%nat ->
  let n := length (frag_chunks fuel (tx_dma_max_len (soc (m_eth s))) frag_size) in
  match tx_map_frag fuel env mac queue i nr_frags frag_size s with
  | MapOk s' =>
      anchors (m_eth s') = anchors (m_eth s) /\ (m_txd s' < ring_len (m_eth s))%nat /\
      (caps_qdma (soc (m_eth s)) = true ->
       m_n_desc s' = m_n_desc s + Z.of_nat n /\
       m_txd s' = Nat.iter n (slot_succ (ring_len (m_eth s))) (m_txd s))
  | MapErr s' =>
      anchors (m_eth s') = anchors (m_eth s) /\ (m_txd s' < ring_len (m_eth s))%nat
  | MapDiverge => False
  end.
Proof.
  induction fuel as [|fuel IH]; intros f s Hok Htxd Hm Hf Hfuel n.
  - assert (f = 0) by lia. subst f. cbn.
    split; [reflexivity|]. split; [exact Htxd|]. intros _. split; [lia|reflexivity].
  - unfold n. cbn [tx_map_frag frag_chunks]. destruct (f =? 0) eqn:E.
    { split; [reflexivity|]. split; [exact Htxd|]. intros _.
      cbn. split; [lia|reflexivity]. }
    apply Z.eqb_neq in E.
    pose proof (tx_map_chunk_anchors env mac queue i nr_frags f s Hok Htxd) as Hc.
    destruct (tx_map_chunk env mac queue i nr_frags f s) as [[size s']|s'];
      [|exact Hc].
    destruct Hc as (Ef & Ht' & Hsize & Hq).
    pose proof (anchors_ring_len _ _ Ef) as El.
    pose proof (anchors_soc _ _ Ef) as Es.
    specialize (IH (f - size) s' (anchors_ring_ok _ _ Ef Hok) ltac:(rewrite El; exact Ht')
                  ltac:(rewrite Es; exact Hm) ltac:(lia) ltac:(lia)).
    cbv zeta in IH. rewrite Es, El in IH. rewrite <- Hsize.
    destruct (tx_map_frag fuel env mac queue i nr_frags (f - size) s') as [s''|s''|];
      [| |exact IH].
    + destruct IH as (Ef' & Ht'' & Hq').
      split; [congruence|]. split; [exact Ht''|].
      intros Hcq. destruct (Hq Hcq) as [Hn1 Ht1]. destruct (Hq' Hcq) as [Hn2 Ht2].
      cbn [length]. split; [lia|].
      rewrite Nat.iter_succ_r, <- Ht1. exact Ht2.
    + destruct IH as (Ef' & Ht''). split; [congruence|exact Ht''].
Qed.

(** The pieces of all the fragments of a packet. *)
Definition skb_chunks (max_len : Z) (fs : list Z) : list Z :=
  concat (map (fun f => frag_chunks (Z.to_nat f) max_len f) fs).

(** [for (i = 0; i < nr_frags; i++)] ends the same way. *)
Lemma tx_map_frags_anchors env mac queue nr_frags : forall fs i s,
  ring_ok (m_eth s) -> (m_txd s < ring_len (m_eth s))%nat ->
  0 < tx_dma_max_len (soc (m_eth s)) -> Forall (fun f => 0 <= f) fs ->
  let n := length (skb_chunks (tx_dma_max_len (soc (m_eth s))) fs) in
  match tx_map_frags env mac queue nr_frags i fs s with
  | MapOk s' =>
      anchors (m_eth s') = anchors (m_eth s) /\ (m_txd s' < ring_len (m_eth s))%nat /\
      (caps_qdma (soc (m_eth s)) = true ->
       m_n_desc s' = m_n_desc s + Z.of_nat n /\
       m_txd s' = Nat.iter n (slot_succ (ring_len (m_eth s))) (m_txd s))
  | MapErr s' =>
      anchors (m_eth s') = anchors (m_eth s) /\ (m_txd s' < ring_len (m_eth s))%nat
  | MapDiverge => False
  end.
Proof.
  induction fs as [|f fs IH]; intros i s Hok Htxd Hm Hall n.
  - cbn. split; [reflexivity|]. split; [exact Htxd|]. intros _. split; [lia|reflexivity].
  - inversion Hall as [|? ? Hf Hall']; subst.
    unfold n, skb_chunks. cbn [tx_map_frags map concat].
    pose proof (tx_map_frag_anchors env mac queue i nr_frags (Z.to_nat f) f s Hok Htxd Hm Hf
                  ltac:(lia)) as Hc.
    cbv zeta in Hc.
    destruct (tx_map_frag (Z.to_nat f) env mac queue i nr_frags f s) as [s'|s'|];
      [|exact Hc|exact Hc].
    destruct Hc as (Ef & Ht' & Hq).
    pose proof (anchors_ring_len _ _ Ef) as El.
    pose proof (anchors_soc _ _ Ef) as Es.
    specialize (IH (i + 1) s' (anchors_ring_ok _ _ Ef Hok) ltac:(rewrite El; exact Ht')
                  ltac:(rewrite Es; exact Hm) Hall').
    cbv zeta in IH. rewrite Es, El in IH. fold (skb_chunks (tx_dma_max_len (soc (m_eth s))) fs).
    destruct (tx_map_frags env mac queue nr_frags (i + 1) fs s') as [s''|s''|];
      [| |exact IH].
    + destruct IH as (Ef' & Ht'' & Hq').
      split; [congruence|]. split; [exact Ht''|].
      intros Hcq. destruct (Hq Hcq) as [Hn1 Ht1]. destruct (Hq' Hcq) as [Hn2 Ht2].
      rewrite length_app, Nat2Z.inj_add. split; [lia|].
      rewrite Ht2, Ht1. rewrite Nat.add_comm. symmetry. apply Nat.iter_add.
    + destruct IH as (Ef' & Ht''). split; [congruence|exact Ht''].
Qed.

(** The [err_dma] loop ends within one turn of the ring and moves none
    of the anchors. *)
Lemma tx_map_unwind_returns : forall k fuel itxd txd eth,
    ring_ok eth -> (itxd < ring_len eth)%nat ->
    Nat.iter (S k) (slot_succ (ring_len eth)) itxd = txd -> (S k <= fuel)%nat ->
    exists eth', tx_map_unwind fuel itxd txd eth = Some eth' /\ anchors eth' = anchors eth.
Proof.
  induction k as [|k IH]; intros fuel itxd txd eth Hok Hi Hit Hk.
  all: destruct fuel as [|fuel]; [lia|]; cbn [tx_map_unwind].
  all: pose proof (anchors_tx_map_unwind_slot itxd eth) as E1.
  all: pose proof (anchors_next_desc _ _ itxd E1 Hok Hi) as Hn.
  all: set (eth1 := tx_map_unwind_slot itxd eth) in *; clearbody eth1.
  - cbn in Hit. rewrite Hn, Hit, bool_decide_eq_true_2 by reflexivity. eauto.
  - destruct (bool_decide (next_desc eth1 itxd = txd)); [eauto|].
    rewrite Nat.iter_succ_r in Hit.
    pose proof (anchors_ring_len _ _ E1) as El.
    destruct (IH fuel (next_desc eth1 itxd) txd eth1) as (eth' & Hr & Ea).
    + apply (anchors_ring_ok _ _ E1 Hok).
    + rewrite Hn, El. apply slot_succ_lt. lia.
    + rewrite Hn, El. exact Hit.
    + lia.
    + exists eth'. split; [exact Hr|congruence].
Qed.

Lemma slot_iter_full n h : (h < n)%nat -> Nat.iter n (slot_succ n) h = h.
Proof.
  intros Hh. rewrite slot_iter by lia.
  replace (h + n)%nat with (h + 1 * n)%nat by lia.
  rewrite Nat.Div0.mod_add. apply Nat.mod_small, Hh.
Qed.

Lemma tx_map_unwind_total itxd txd eth :
  ring_ok eth -> (itxd < ring_len eth)%nat -> (txd < ring_len eth)%nat ->
  exists eth',
    tx_map_unwind (length (dma (tx_ring eth))) itxd txd eth = Some eth' /\
    anchors eth' = anchors eth.
Proof.
  intros Hok Hi Ht.
  destruct (slot_reach (ring_len eth) itxd txd Hi Ht) as (j & Hj & Hit).
  destruct j as [|j].
  - cbn in Hit. subst txd.
    destruct (ring_len eth) as [|m] eqn:En; [lia|].
    apply (tx_map_unwind_returns m); try assumption.
    + rewrite En. exact Hi.
    + rewrite En. apply slot_iter_full. lia.
    + unfold ring_len in En. lia.
  - apply (tx_map_unwind_returns j); try assumption.
    unfold ring_len in Hj. lia.
Qed.

Lemma tx_map_commit_links env skb mac itxd s :
  links (tx_map_commit env skb mac itxd s) = links (m_eth s).
Proof.
  unfold tx_map_commit. destruct s as [e t nd k]. cbn [m_eth m_txd m_n_desc m_k].
  unfold links, next_desc, desc_at.
  destruct (caps_qdma (soc e)); [destruct (ring_doorbell env)|destruct (Z.odd k)];
    destruct_eth e; tx_norm; rewrite ?length_insert; reflexivity.
Qed.

Lemma tx_map_commit_last_free_ptr env skb mac itxd s :
  last_free_ptr (tx_ring (tx_map_commit env skb mac itxd s)) =
  last_free_ptr (tx_ring (m_eth s)).
Proof.
  unfold tx_map_commit. destruct s as [e t nd k]. cbn [m_eth m_txd m_n_desc m_k].
  unfold next_desc, desc_at.
  destruct (caps_qdma (soc e)); [destruct (ring_doorbell env)|destruct (Z.odd k)];
    destruct_eth e; tx_norm; reflexivity.
Qed.

Lemma tx_map_commit_counts env skb mac itxd s :
  let eth' := tx_map_commit env skb mac itxd s in
  free_count (tx_ring eth') = free_count (tx_ring (m_eth s)) - m_n_desc s /\
  next_free (tx_ring eth') = next_desc (m_eth s) (m_txd s) /\
  last_free (tx_ring eth') = last_free (tx_ring (m_eth s)).
Proof.
  destruct (caps_qdma (soc (m_eth s))) eqn:Hq.
  - destruct (tx_map_commit_qdma env skb mac itxd s Hq) as (A & B & C & _).
    repeat split; assumption.
  - destruct (tx_map_commit_pdma env skb mac itxd s Hq) as (A & B & C & _).
    repeat split; assumption.
Qed.

(** The pieces the fragments of [skb] are cut into on device [eth]. *)
Definition tx_pieces (eth : mtk_eth) (skb : sk_buff) : list Z :=
  skb_chunks (tx_dma_max_len (soc eth)) (frags skb).

(** The outcome of [mtk_tx_map] on a well-formed ring, with the next
    free slot given as a number of links followed. *)
Lemma tx_map_slot_accounting_base env skb mac gso eth :
  tx_wf eth -> 0 < tx_dma_max_len (soc eth) ->
  Forall (fun f => 0 <= f) (frags skb) ->
  let used := S (length (tx_pieces eth skb)) in
  exists ret eth',
    mtk_tx_map env skb mac gso eth = Some (ret, eth') /\
    tx_wf eth' /\ ring_len eth' = ring_len eth /\
    last_free (tx_ring eth') = last_free (tx_ring eth) /\
    ((ret = - ENOMEM /\
      free_count (tx_ring eth') = free_count (tx_ring eth) /\
      next_free (tx_ring eth') = next_free (tx_ring eth)) \/
     (ret = 0 /\
      (caps_qdma (soc eth) = true ->
       free_count (tx_ring eth') = free_count (tx_ring eth) - Z.of_nat used /\
       next_free (tx_ring eth') =
         Nat.iter used (slot_succ (ring_len eth)) (next_free (tx_ring eth))))).
Proof.
  intros [Hok Hnf] Hm Hall used. unfold mtk_tx_map.
  set (itxd := next_free (tx_ring eth)) in *.
  assert (Keep : forall e, anchors e = anchors eth ->
            tx_wf e /\ ring_len e = ring_len eth /\
            last_free (tx_ring e) = last_free (tx_ring eth) /\
            free_count (tx_ring e) = free_count (tx_ring eth) /\
            next_free (tx_ring e) = next_free (tx_ring eth)).
  { intros e Ea. pose proof (anchors_ring_len _ _ Ea) as El.
    pose proof (shape_next_free _ _ (anchors_shape _ _ Ea)) as En.
    split; [split; [apply (anchors_ring_ok _ _ Ea Hok)|rewrite En, El; exact Hnf]|].
    split; [exact El|]. split; [apply anchors_last_free, Ea|].
    split; [apply anchors_free_count, Ea|exact En]. }
  destruct (bool_decide (itxd = last_free (tx_ring eth))).
  { destruct (Keep eth eq_refl) as (K1 & K2 & K3 & K4 & K5).
    exists (- ENOMEM), eth. split; [reflexivity|].
    split; [exact K1|]. split; [exact K2|]. split; [exact K3|]. left. auto. }
  set (eth1 := update_buf itxd (fun _ => zero_buf) eth).
  assert (E1 : anchors eth1 = anchors eth) by apply anchors_update_buf.
  clearbody eth1.
  pose proof (anchors_dma_map env (headlen skb) eth1) as Em.
  destruct (dma_map env (headlen skb) eth1) as [[addr|] eth2]; cbn [snd] in Em.
  2: { destruct (Keep eth2 ltac:(congruence)) as (K1 & K2 & K3 & K4 & K5).
       exists (- ENOMEM), eth2. split; [reflexivity|].
       split; [exact K1|]. split; [exact K2|]. split; [exact K3|]. left. auto. }
  match goal with
  | |- context [tx_map_frags _ _ _ _ _ _ {| m_eth := ?e; m_txd := _; m_n_desc := _; m_k := _ |}] =>
      set (eth5 := e)
  end.
  assert (E5 : anchors eth5 = anchors eth).
  { unfold eth5. rewrite anchors_setup_tx_buf, anchors_update_buf,
      anchors_mtk_tx_set_dma_desc. congruence. }
  clearbody eth5.
  pose proof (anchors_ring_len _ _ E5) as El5.
  pose proof (anchors_soc _ _ E5) as Es5.
  pose proof (tx_map_frags_anchors env mac (obj_queue (skb_obj skb))
                (Z.of_nat (length (frags skb))) (frags skb) 0
                {| m_eth := eth5; m_txd := itxd; m_n_desc := 1; m_k := 1 |}
                (anchors_ring_ok _ _ E5 Hok)
                ltac:(cbn [m_eth m_txd]; rewrite El5; exact Hnf)
                ltac:(cbn [m_eth]; rewrite Es5; exact Hm) Hall) as Hf.
  cbv zeta in Hf. cbn [m_eth m_txd m_n_desc] in Hf. rewrite Es5, El5 in Hf.
  destruct (tx_map_frags _ _ _ _ _ _ _) as [s|s|]; [| |contradiction].
  - (* committed *)
    destruct Hf as (Ef & Ht & Hq).
    assert (Es : anchors (m_eth s) = anchors eth) by congruence.
    destruct (Keep (m_eth s) Es) as ([Hoks _] & Kl & Klf & Kfc & Knf).
    destruct (tx_map_commit_counts env skb mac itxd s) as (Cf & Cn & Cl).
    pose proof (tx_map_commit_links env skb mac itxd s) as CL.
    set (eth' := tx_map_commit env skb mac itxd s) in *. clearbody eth'.
    assert (Hnd : next_desc (m_eth s) (m_txd s) = slot_succ (ring_len eth) (m_txd s)).
    { rewrite <- Kl. apply next_desc_succ; [exact Hoks|rewrite Kl; exact Ht]. }
    assert (Ll : ring_len eth' = ring_len eth)
      by (rewrite (links_ring_len _ _ CL); exact Kl).
    exists 0, eth'. split; [reflexivity|]. split.
    { split; [apply (links_ring_ok _ _ CL Hoks)|].
      rewrite Cn, Hnd, Ll. apply slot_succ_lt. lia. }
    split; [exact Ll|]. split; [congruence|]. right. split; [reflexivity|].
    intros Hcq. destruct (Hq Hcq) as [Hn Htx]. fold (tx_pieces eth skb) in Hn, Htx.
    split.
    + rewrite Cf, Kfc, Hn. unfold used. lia.
    + rewrite Cn, Hnd, Htx. unfold used. reflexivity.
  - (* unwound *)
    destruct Hf as (Ef & Ht).
    assert (Es : anchors (m_eth s) = anchors eth) by congruence.
    destruct (Keep (m_eth s) Es) as ([Hoks _] & Kl & _).
    destruct (tx_map_unwind_total itxd (m_txd s) (m_eth s) Hoks
                ltac:(rewrite Kl; exact Hnf) ltac:(rewrite Kl; exact Ht))
      as (eth' & Hr & Ea).
    rewrite Hr.
    destruct (Keep eth' ltac:(congruence)) as (K1 & K2 & K3 & K4 & K5).
    exists (- ENOMEM), eth'. split; [reflexivity|].
    split; [exact K1|]. split; [exact K2|]. split; [exact K3|]. left. auto.
Qed.

(** X1: [mtk_tx_map] on any packet and any well-formed ring.  It returns
    and leaves the ring well formed and its reclaim position alone.  If
    it fails, it returns [-ENOMEM] and neither the free-slot counter nor
    the next free slot has moved.  If it succeeds on the queue-aware
    ring, it has taken one slot for the head and one for each piece of
    each fragment: the counter went down by that number and the next
    free slot moved that many places round the ring. *)
Theorem tx_map_slot_accounting env skb mac gso eth :
  tx_wf eth -> 0 < tx_dma_max_len (soc eth) ->
  Forall (fun f => 0 <= f) (frags skb) ->
  let used := S (length (tx_pieces eth skb)) in
  exists ret eth',
    mtk_tx_map env skb mac gso eth = Some (ret, eth') /\
    tx_wf eth' /\ ring_len eth' = ring_len eth /\
    last_free (tx_ring eth') = last_free (tx_ring eth) /\
    ((ret = - ENOMEM /\
      free_count (tx_ring eth') = free_count (tx_ring eth) /\
      next_free (tx_ring eth') = next_free (tx_ring eth)) \/
     (ret = 0 /\
      (caps_qdma (soc eth) = true ->
       free_count (tx_ring eth') = free_count (tx_ring eth) - Z.of_nat used /\
       next_free (tx_ring eth') =
         ((next_free (tx_ring eth) + used) mod ring_len eth)%nat))).
Proof.
  intros Hwf Hm Hall used.
  destruct (tx_map_slot_accounting_base env skb mac gso eth Hwf Hm Hall)
    as (ret & eth' & Hr & Hwf' & Hl & Hlf & Hres).
  exists ret, eth'. repeat (split; [assumption|]).
  destruct Hres as [Hfail|[Hz Hok]]; [left; exact Hfail|right].
  split; [exact Hz|]. intros Hq. destruct (Hok Hq) as [Hfc Hnf].
  split; [exact Hfc|].
  destruct Hwf as [Hrk Hlt]. rewrite Hnf. apply slot_iter; [lia|exact Hlt].
Qed.

Lemma frag_chunks_single max_len f :
  0 < f <= max_len -> frag_chunks (Z.to_nat f) max_len f = [f].
Proof.
  intros Hf. destruct (Z.to_nat f) as [|fuel] eqn:E; [lia|].
  cbn [frag_chunks]. replace (f =? 0) with false by (symmetry; apply Z.eqb_neq; lia).
  rewrite Z.min_l by lia. rewrite Z.sub_diag.
  destruct fuel; reflexivity.
Qed.

Lemma skb_chunks_small max_len (fs : list Z) :
  Forall (fun f => 0 < f <= max_len) fs -> skb_chunks max_len fs = fs.
Proof.
  induction 1 as [|f fs Hf _ IH]; [reflexivity|].
  unfold skb_chunks in *. cbn [map concat]. rewrite frag_chunks_single by exact Hf.
  rewrite IH. reflexivity.
Qed.

(** The slots [mtk_tx_map] takes are the slots [mtk_cal_txd_req] asked
    for, if the packet is a segmentation-offload packet or none of its
    fragments exceeds what one descriptor carries. *)
Lemma tx_pieces_requirement eth skb :
  0 < tx_dma_max_len (soc eth) ->
  Forall (fun f => 0 <= f /\ f + tx_dma_max_len (soc eth) <= 2 ^ 32) (frags skb) ->
  is_gso skb = true \/ Forall (fun f => 0 < f <= tx_dma_max_len (soc eth)) (frags skb) ->
  Z.of_nat (S (length (tx_pieces eth skb))) = mtk_cal_txd_req (soc eth) skb.
Proof.
  intros Hm Hall Hcase. unfold tx_pieces, mtk_cal_txd_req.
  destruct (is_gso skb) eqn:Hg.
  - rewrite cal_txd_req_foldl by assumption. unfold skb_chunks. lia.
  - destruct Hcase as [Hc|Hc]; [discriminate|].
    rewrite skb_chunks_small by exact Hc. lia.
Qed.

(** X2: [mtk_start_xmit] on the queue-aware ring, for a segmentation-offload
    packet or a packet whose fragments each fit one descriptor: it
    returns and keeps the ring well formed; a refused or dropped packet
    leaves the free-slot counter alone, and an accepted packet takes
    exactly the number of slots [mtk_cal_txd_req] computed, so that at
    least one slot stays free. *)
Theorem start_xmit_takes_requirement env skb mac eth :
  tx_wf eth -> caps_qdma (soc eth) = true -> 0 < tx_dma_max_len (soc eth) ->
  Forall (fun f => 0 <= f /\ f + tx_dma_max_len (soc eth) <= 2 ^ 32) (frags skb) ->
  is_gso skb = true \/ Forall (fun f => 0 < f <= tx_dma_max_len (soc eth)) (frags skb) ->
  let req := mtk_cal_txd_req (soc eth) skb in
  exists r eth',
    mtk_start_xmit env skb mac eth = Some (r, eth') /\ tx_wf eth' /\
    match r with
    | NETDEV_TX_BUSY =>
        free_count (tx_ring eth) <= req /\
        free_count (tx_ring eth') = free_count (tx_ring eth)
    | NETDEV_TX_OK =>
        free_count (tx_ring eth') = free_count (tx_ring eth) \/
        (req < free_count (tx_ring eth) /\
         free_count (tx_ring eth') = free_count (tx_ring eth) - req /\
         1 <= free_count (tx_ring eth'))
    end.
Proof.
  intros Hwf Hq Hm Hall Hcase req. unfold mtk_start_xmit.
  destruct (resetting eth).
  { eexists _, _. split; [reflexivity|]. split; [exact Hwf|]. left. reflexivity. }
  fold req. destruct (free_count (tx_ring eth) <=? req) eqn:Efull.
  { apply Z.leb_le in Efull. eexists _, _. split; [reflexivity|].
    split; [exact Hwf|]. split; [exact Efull|reflexivity]. }
  apply Z.leb_gt in Efull.
  destruct (is_gso skb && cow_head_fails env).
  { eexists _, _. split; [reflexivity|]. split; [exact Hwf|]. left. reflexivity. }
  destruct (tx_map_slot_accounting_base env skb mac (is_gso skb && gso_tcp skb) eth Hwf Hm)
    as (ret & eth1 & Hr & Hwf1 & _ & _ & Hres).
  { revert Hall. apply List.Forall_impl. intros f [Hf _]. exact Hf. }
  rewrite Hr.
  destruct Hres as [(-> & Hfc & _)|(-> & Hok)].
  - replace (- ENOMEM <? 0) with true by reflexivity.
    eexists _, _. split; [reflexivity|]. split; [exact Hwf1|]. left. exact Hfc.
  - replace (0 <? 0) with false by reflexivity.
    destruct (Hok Hq) as [Hfc _].
    rewrite (tx_pieces_requirement eth skb Hm Hall Hcase) in Hfc. fold req in Hfc.
    eexists _, _. split; [reflexivity|]. split.
    + destruct (_ <=? _); exact Hwf1.
    + right. split; [exact Efull|].
      destruct (free_count (tx_ring eth1) <=? thresh (tx_ring eth1));
        (split; [exact Hfc|]); cbn; lia.
Qed.

(** *** [mtk_xdp_xmit] and [mtk_tx_clean] *)

Definition EINVAL : Z := 22.

(** [XDP_XMIT_FLAGS_MASK] of the kernel's XDP interface: the flush flag
    is the only flag a caller may pass. *)
Definition XDP_XMIT_FLAGS_MASK : Z := 1.

(** The transmit-side counters of [hw_stats->xdp_stats]. *)
Record xdp_tx_stats := {
  tx_xdp_xmit : Z;
  tx_xdp_xmit_errors : Z
}.

(** The [for] loop of [mtk_xdp_xmit] over the frames not yet reached;
    it stops at the first frame [mtk_xdp_submit_frame] does not take. *)
Fixpoint xdp_xmit_loop (env : tx_env) (mac : Z) (frames : list xdp_frame) (nxmit : Z)
    (eth : mtk_eth) : option (Z * mtk_eth) :=
  match frames with
  | [] => Some (nxmit, eth)
  | xdpf :: rest =>
      match mtk_xdp_submit_frame env xdpf mac true eth with
      | None => None
      | Some (err, eth1) =>
          if nonzero err then Some (nxmit, eth1)
          else xdp_xmit_loop env mac rest (nxmit + 1) eth1
      end
  end.

(** [mtk_xdp_xmit(dev, num_frame, frames, flags)] with [stats] the
    counters of the device's MAC. *)
Definition mtk_xdp_xmit (env : tx_env) (mac : Z) (frames : list xdp_frame) (flags : Z)
    (stats : xdp_tx_stats) (eth : mtk_eth) : option (Z * xdp_tx_stats * mtk_eth) :=
  let num_frame := Z.of_nat (length frames) in
  if nonzero (Z.land flags (Z.lnot XDP_XMIT_FLAGS_MASK)) then Some (- EINVAL, stats, eth)
  else
    match xdp_xmit_loop env mac frames 0 eth with
    | None => None
    | Some (nxmit, eth1) =>
        Some (nxmit,
              {| tx_xdp_xmit := tx_xdp_xmit stats + nxmit;
                 tx_xdp_xmit_errors := tx_xdp_xmit_errors stats + (num_frame - nxmit) |},
              eth1)
    end.

(** The loop of [mtk_tx_clean] from slot [i] on, [n] slots. *)
Fixpoint tx_clean_slots (n i : nat) (eth : mtk_eth) : mtk_eth :=
  match n with
  | O => eth
  | S n' => tx_clean_slots n' (S i) (mtk_tx_unmap i false false eth)
  end.

(** [mtk_tx_clean]; a [NULL] array is the empty list. *)
Definition mtk_tx_clean (eth : mtk_eth) : mtk_eth :=
  let eth1 :=
    match buf (tx_ring eth) with
    | [] => eth
    | _ =>
        set_tx_ring (set_buf (fun _ => []))
          (tx_clean_slots (Z.to_nat (dma_size (tx_ring eth))) O eth)
    end in
  let eth2 := set_tx_ring (set_dma (fun _ => [])) eth1 in
  set_tx_ring (set_dma_pdma (fun _ => [])) eth2.

Lemma xdp_xmit_loop_spec env mac : forall frames nxmit eth,
    tx_wf eth ->
    exists n eth',
      xdp_xmit_loop env mac frames nxmit eth = Some (n, eth') /\ tx_wf eth' /\
      nxmit <= n <= nxmit + Z.of_nat (length frames) /\
      (resetting eth = true -> frames <> [] -> n = nxmit /\ eth' = eth).
Proof.
  induction frames as [|f rest IH]; intros nxmit eth Hwf.
  - exists nxmit, eth. cbn. split; [reflexivity|]. split; [exact Hwf|].
    split; [lia|]. intros _ Hne. contradiction.
  - cbn [xdp_xmit_loop length].
    destruct (mtk_xdp_submit_frame_returns env f mac true eth Hwf)
      as (err & eth1 & Hr & Hwf1).
    assert (Hrst : resetting eth = true -> err = - EBUSY /\ eth1 = eth).
    { intros Hb. unfold mtk_xdp_submit_frame in Hr. rewrite Hb in Hr.
      injection Hr as <- <-. split; reflexivity. }
    rewrite Hr. destruct (nonzero err) eqn:Ee.
    + exists nxmit, eth1. split; [reflexivity|]. split; [exact Hwf1|].
      split; [lia|]. intros Hb _. destruct (Hrst Hb) as [_ ->]. split; reflexivity.
    + destruct (IH (nxmit + 1) eth1 Hwf1) as (n & eth' & Hl & Hwf' & Hb & _).
      exists n, eth'. split; [exact Hl|]. split; [exact Hwf'|]. split; [lia|].
      intros Hrs _. destruct (Hrst Hrs) as [-> _]. discriminate Ee.
Qed.

(** X3: [mtk_xdp_xmit] on a well-formed ring returns and keeps the ring well
    formed.  Flags outside [XDP_XMIT_FLAGS_MASK] make it return
    [-EINVAL] with nothing touched.  Otherwise it returns the number of
    frames sent, between zero and [num_frame], and every frame of the
    call is counted exactly once: the sent counter grows by the number
    returned and the error counter by the rest.  During a reset no
    frame is sent and the device is left as it was. *)
Theorem xdp_xmit_accounting env mac frames flags stats eth :
  tx_wf eth ->
  let num_frame := Z.of_nat (length frames) in
  exists ret stats' eth',
    mtk_xdp_xmit env mac frames flags stats eth = Some (ret, stats', eth') /\
    tx_wf eth' /\
    if nonzero (Z.land flags (Z.lnot XDP_XMIT_FLAGS_MASK))
    then ret = - EINVAL /\ stats' = stats /\ eth' = eth
    else
      0 <= ret <= num_frame /\
      tx_xdp_xmit stats' = tx_xdp_xmit stats + ret /\
      tx_xdp_xmit_errors stats' = tx_xdp_xmit_errors stats + (num_frame - ret) /\
      (resetting eth = true -> ret = 0 /\ eth' = eth).
Proof.
  intros Hwf num_frame. unfold mtk_xdp_xmit.
  destruct (nonzero (Z.land flags (Z.lnot XDP_XMIT_FLAGS_MASK))).
  { exists (- EINVAL), stats, eth. repeat split; try reflexivity; apply Hwf. }
  destruct (xdp_xmit_loop_spec env mac frames 0 eth Hwf) as (n & eth' & Hl & Hwf' & Hb & Hr).
  rewrite Hl. eexists _, _, _. split; [reflexivity|]. split; [exact Hwf'|].
  split; [fold num_frame; lia|]. split; [reflexivity|]. split; [reflexivity|].
  intros Hrs. destruct frames as [|f rest].
  - cbn in Hl. injection Hl as <- <-. split; reflexivity.
  - apply Hr; [exact Hrs|discriminate].
Qed.

(** The releases [mtk_tx_clean] performs for a list of slots. *)
Definition clean_releases (l : list mtk_tx_buf) : list release_event :=
  flat_map (release_of false false) l.

Lemma tx_clean_slots_spec : forall n i eth,
    (i + n <= length (buf (tx_ring eth)))%nat ->
    let eth' := tx_clean_slots n i eth in
    released eth' = released eth ++ clean_releases (take n (drop i (buf (tx_ring eth)))) /\
    length (buf (tx_ring eth')) = length (buf (tx_ring eth)) /\
    (forall j, (i <= j < i + n)%nat -> in_use (buf (tx_ring eth') !!! j) = false) /\
    (forall j, (j < i)%nat \/ (i + n <= j)%nat ->
               buf (tx_ring eth') !!! j = buf (tx_ring eth) !!! j) /\
    netdev eth' = netdev eth /\ regs eth' = regs eth /\ bql eth' = bql eth /\
    dma_calls eth' = dma_calls eth.
Proof.
  induction n as [|n IH]; intros i eth Hlen eth'.
  - unfold eth'. cbn. rewrite app_nil_r. repeat split; try reflexivity. lia.
  - unfold eth'. cbn [tx_clean_slots].
    destruct (mtk_tx_unmap_effect i false false eth)
      as (_ & E2 & E3 & _ & E5 & E6 & _ & _ & E9 & _ & E11).
    set (eth1 := mtk_tx_unmap i false false eth) in *. clearbody eth1.
    assert (Eb : buf (tx_ring eth1) =
                 <[i := cleared (buf (tx_ring eth) !!! i)]> (buf (tx_ring eth)))
      by (rewrite E9; reflexivity).
    destruct (IH (S i) eth1) as (R & L & U & K & N & G & B & C).
    { rewrite Eb, length_insert. lia. }
    split.
    { rewrite R, E11, <- app_assoc. f_equal.
      rewrite Eb. rewrite drop_insert_lt by lia.
      destruct (lookup_lt_is_Some_2 (buf (tx_ring eth)) i ltac:(lia)) as [b Hb].
      rewrite (drop_S _ _ _ Hb). cbn [take]. unfold clean_releases. cbn [flat_map].
      unfold mtk_desc_to_tx_buf. rewrite (list_lookup_total_correct _ _ _ Hb).
      reflexivity. }
    split; [rewrite L, Eb, length_insert; reflexivity|].
    split.
    { intros j Hj. destruct (decide (j = i)) as [->|Hne].
      - rewrite K by lia. rewrite Eb, list_lookup_total_insert_eq by lia. reflexivity.
      - apply U. lia. }
    split.
    { intros j Hj. rewrite K by lia. rewrite Eb.
      apply list_lookup_total_insert_ne. lia. }
    repeat split; congruence.
Qed.

Lemma tx_clean_slots_free_count : forall n i eth,
    free_count (tx_ring (tx_clean_slots n i eth)) = free_count (tx_ring eth).
Proof.
  induction n as [|n IH]; intros i e; [reflexivity|].
  cbn [tx_clean_slots]. rewrite IH.
  destruct (mtk_tx_unmap_effect i false false e)
    as (_ & _ & _ & _ & _ & _ & _ & _ & E9 & _).
  rewrite E9. reflexivity.
Qed.

(** X4: [mtk_tx_clean] on a ring whose bookkeeping array has [dma_size]
    entries: every packet and every frame a slot still points to is
    released exactly once, in slot order, and nothing else is; the three
    arrays of the ring are gone afterwards. *)
Theorem tx_clean_releases_held eth :
  Z.of_nat (length (buf (tx_ring eth))) = dma_size (tx_ring eth) ->
  let eth' := mtk_tx_clean eth in
  released eth' = released eth ++ clean_releases (buf (tx_ring eth)) /\
  buf (tx_ring eth') = [] /\ dma (tx_ring eth') = [] /\ dma_pdma (tx_ring eth') = [] /\
  netdev eth' = netdev eth /\ bql eth' = bql eth /\
  free_count (tx_ring eth') = free_count (tx_ring eth).
Proof.
  intros Hsz eth'. unfold eth', mtk_tx_clean.
  destruct (buf (tx_ring eth)) as [|b l] eqn:Eb.
  - cbn. rewrite app_nil_r. repeat split; try reflexivity. exact Eb.
  - rewrite <- Eb in *.
    pose proof (tx_clean_slots_spec (Z.to_nat (dma_size (tx_ring eth))) O eth
                  ltac:(lia)) as X.
    cbv zeta in X. destruct X as (R & _ & _ & _ & N & _ & B & _).
    rewrite drop_0, firstn_all2 in R by lia.
    set (eth1 := tx_clean_slots _ _ _) in *.
    assert (F : free_count (tx_ring eth1) = free_count (tx_ring eth))
      by apply tx_clean_slots_free_count.
    clearbody eth1. repeat split; try assumption; reflexivity.
Qed.

(** *** The ring between producer and reclaim

    Slot [i] places after slot [h] on a ring of [n] slots. *)
Definition slot_off (n h i : nat) : nat := ((h + i) mod n)%nat.

Lemma slot_off_lt n h i : (0 < n)%nat -> (slot_off n h i < n)%nat.
Proof. intros Hn. apply Nat.mod_upper_bound. lia. Qed.

Lemma slot_off_0 n h : (h < n)%nat -> slot_off n h 0 = h.
Proof. intros Hh. unfold slot_off. rewrite Nat.add_0_r. apply Nat.mod_small, Hh. Qed.

Lemma slot_off_off n h i j : slot_off n (slot_off n h i) j = slot_off n h (i + j).
Proof.
  unfold slot_off. rewrite Nat.Div0.add_mod_idemp_l. f_equal. lia.
Qed.

Lemma slot_succ_off n h i : slot_succ n (slot_off n h i) = slot_off n h (S i).
Proof.
  unfold slot_succ, slot_off. rewrite Nat.Div0.add_mod_idemp_l. f_equal. lia.
Qed.

Lemma mod_below_twice n x :
  (0 < n)%nat -> (x < 2 * n)%nat -> (x mod n = if x <? n then x else x - n)%nat.
Proof.
  intros Hn Hx. destruct (x <? n)%nat eqn:E.
  - apply Nat.ltb_lt in E. apply Nat.mod_small, E.
  - apply Nat.ltb_ge in E.
    replace x with ((x - n) + 1 * n)%nat at 1 by lia.
    rewrite Nat.Div0.mod_add. apply Nat.mod_small. lia.
Qed.

(** Two places less than a full turn apart are different slots. *)
Lemma slot_off_inj n h i j :
  (h < n)%nat -> (i < n)%nat -> (j < n)%nat ->
  slot_off n h i = slot_off n h j -> i = j.
Proof.
  intros Hh Hi Hj. unfold slot_off.
  rewrite !mod_below_twice by lia.
  destruct (h + i <? n)%nat eqn:E1; destruct (h + j <? n)%nat eqn:E2;
    try apply Nat.ltb_lt in E1; try apply Nat.ltb_lt in E2;
    try apply Nat.ltb_ge in E1; try apply Nat.ltb_ge in E2; lia.
Qed.

Lemma slot_iter_off n h k :
  (h < n)%nat -> Nat.iter k (slot_succ n) h = slot_off n h k.
Proof. intros Hh. apply slot_iter; lia. Qed.

(** The invariant of the transmit ring: it is well formed;
    [last_free_ptr] is the bus address of the slot [last_free]; [f]
    slots are free, at most all but two; the reclaim position lies
    [f + 1] places after the next free slot; and no slot from the next
    free one up to the reclaim position holds a buffer. *)
Definition ring_inv (eth : mtk_eth) : Prop :=
  let r := tx_ring eth in
  let n := ring_len eth in
  tx_wf eth /\
  last_free_ptr r = phys r + Z.of_nat (last_free r) * tx_desc_size (soc eth) /\
  exists f : nat,
    free_count r = Z.of_nat f /\ (f + 2 <= n)%nat /\
    last_free r = slot_off n (next_free r) (f + 1) /\
    forall j, (j <= f + 1)%nat -> in_use (buf r !!! slot_off n (next_free r) j) = false.

(** The ring [mtk_tx_alloc] builds satisfies the invariant, with all
    slots but two free. *)
Lemma mtk_tx_alloc_ring_inv a eth p pp :
  buf_alloc_ok a = true -> ring_alloc a = Some p -> pdma_alloc a = Some pp ->
  0 < tx_desc_size (soc eth) -> 2 <= tx_ring_size (soc eth) -> 0 <= p ->
  p + tx_ring_size (soc eth) * tx_desc_size (soc eth) <= 2 ^ 32 ->
  ring_inv (mtk_tx_alloc a eth).2 /\
  free_count (tx_ring (mtk_tx_alloc a eth).2) = tx_ring_size (soc eth) - 2.
Proof.
  intros Hb Hr Hp Hsz Hn H0 Hlim.
  pose proof (mtk_tx_alloc_fresh a eth p pp Hb Hr Hp Hsz ltac:(lia) H0 Hlim) as X.
  cbv zeta in X.
  destruct X as (_ & Hok & Hlen & Hsoc & _ & _ & _ & _ & Hph & _ & Hbuf & Hnf & Hlf & Hlp &
                 Hfc & _).
  set (eth1 := (mtk_tx_alloc a eth).2) in *. clearbody eth1.
  split; [|exact Hfc].
  unfold ring_inv. rewrite Hlen, Hnf, Hlf, Hfc, Hbuf, Hlp, Hph, Hsoc.
  split; [split; [exact Hok|rewrite Hnf, Hlen; lia]|].
  split; [rewrite Nat2Z.inj_sub, Z2Nat.id by lia; reflexivity|].
  exists (Z.to_nat (tx_ring_size (soc eth)) - 2)%nat.
  split; [lia|]. split; [lia|]. split.
  - unfold slot_off. rewrite Nat.mod_small by lia. lia.
  - intros j Hj.
    rewrite lookup_total_replicate_2 by (apply slot_off_lt; lia). reflexivity.
Qed.

(** Which bookkeeping records an operation may change. *)
Lemma buf_update_buf_ne idx f eth j :
  j <> idx -> buf (tx_ring (update_buf idx f eth)) !!! j = buf (tx_ring eth) !!! j.
Proof. intros Hne. cbn. apply list_lookup_total_insert_ne. congruence. Qed.

Lemma buf_dma_map env size eth : buf (tx_ring (dma_map env size eth).2) = buf (tx_ring eth).
Proof. unfold dma_map. destruct (map_result env (dma_calls eth)); reflexivity. Qed.

Lemma dma_map_none env size eth :
  (dma_map env size eth).1 = None -> map_result env (dma_calls eth) = None.
Proof. unfold dma_map. destruct (map_result env (dma_calls eth)); [discriminate|reflexivity]. Qed.

Lemma buf_mtk_tx_set_dma_desc mac idx info eth :
  buf (tx_ring (mtk_tx_set_dma_desc mac idx info eth)) = buf (tx_ring eth).
Proof. rewrite mtk_tx_set_dma_desc_encode. reflexivity. Qed.

Lemma buf_setup_tx_buf_ne idx a size k eth j :
  j <> idx -> buf (tx_ring (setup_tx_buf idx a size k eth)) !!! j = buf (tx_ring eth) !!! j.
Proof.
  intros Hne. unfold setup_tx_buf.
  destruct (caps_qdma (soc eth)); [apply buf_update_buf_ne, Hne|].
  destruct (Z.odd k).
  - rewrite buf_update_buf_ne by exact Hne. reflexivity.
  - rewrite buf_update_buf_ne by exact Hne.
    change (buf (tx_ring (update_pdma idx ?f ?e))) with (buf (tx_ring e)).
    apply buf_update_buf_ne, Hne.
Qed.

Lemma buf_tx_map_unwind_slot itxd eth :
  buf (tx_ring (tx_map_unwind_slot itxd eth)) =
  <[itxd := cleared (buf (tx_ring eth) !!! itxd)]> (buf (tx_ring eth)).
Proof.
  unfold tx_map_unwind_slot.
  destruct (mtk_tx_unmap_effect itxd false false eth)
    as (_ & _ & _ & _ & _ & _ & _ & _ & Er & _).
  destruct (caps_qdma (soc eth)).
  - change (buf (tx_ring (update_desc itxd ?f ?e))) with (buf (tx_ring e)).
    rewrite Er. reflexivity.
  - change (buf (tx_ring (update_pdma itxd ?f (update_desc itxd ?g ?e))))
      with (buf (tx_ring e)).
    rewrite Er. reflexivity.
Qed.

(** Where the fragment loop stands on the queue-aware ring: [c] slots
    after the head slot [itxd], on a ring with [f] free slots whose
    reclaim position is [f + 1] places after [itxd]. *)
Definition at_slot (n itxd f c : nat) (s : map_st) : Prop :=
  ring_ok (m_eth s) /\ caps_qdma (soc (m_eth s)) = true /\
  ring_len (m_eth s) = n /\ (itxd < n)%nat /\ (f + 2 <= n)%nat /\ (c <= f)%nat /\
  m_txd s = slot_off n itxd c /\
  last_free (tx_ring (m_eth s)) = slot_off n itxd (f + 1).

Lemma at_slot_anchors n itxd f c c' s s' :
  at_slot n itxd f c s -> anchors (m_eth s') = anchors (m_eth s) ->
  (c' <= f)%nat -> m_txd s' = slot_off n itxd c' ->
  at_slot n itxd f c' s'.
Proof.
  intros (Hok & Hq & Hl & Hi & Hf & Hc & Ht & Hlf) Ea Hc' Ht'.
  unfold at_slot.
  rewrite (anchors_soc _ _ Ea), (anchors_ring_len _ _ Ea), (anchors_last_free _ _ Ea).
  split; [apply (anchors_ring_ok _ _ Ea Hok)|].
  repeat (split; [assumption|]). assumption.
Qed.

(** One pass of [while (frag_size)] on the queue-aware ring: it writes
    the slot after the current one and no other, unless that slot is the
    reclaim position or the mapping fails. *)
Lemma tx_map_chunk_inv env mac queue i nr_frags frag_size s n itxd f c :
  at_slot n itxd f c s ->
  match tx_map_chunk env mac queue i nr_frags frag_size s with
  | inl (size, s') =>
      at_slot n itxd f (S c) s' /\ m_n_desc s' = m_n_desc s + 1 /\
      anchors (m_eth s') = anchors (m_eth s) /\
      size = Z.min frag_size (tx_dma_max_len (soc (m_eth s))) /\
      (forall j, j <> slot_off n itxd (S c) ->
                 buf (tx_ring (m_eth s')) !!! j = buf (tx_ring (m_eth s)) !!! j)
  | inr s' =>
      m_txd s' = slot_off n itxd (S c) /\
      anchors (m_eth s') = anchors (m_eth s) /\
      buf (tx_ring (m_eth s')) = buf (tx_ring (m_eth s)) /\
      (c = f \/ exists k, map_result env k = None)
  end.
Proof.
  intros Hat. pose proof Hat as (Hok & Hq & Hl & Hi & Hf & Hc & Ht & Hlf).
  unfold tx_map_chunk. rewrite Hq. cbn [orb andb].
  assert (Hnext : next_desc (m_eth s) (m_txd s) = slot_off n itxd (S c)).
  { rewrite next_desc_succ; [|exact Hok|rewrite Hl, Ht; apply slot_off_lt; lia].
    rewrite Hl, Ht. apply slot_succ_off. }
  rewrite Hnext, Hlf.
  destruct (bool_decide (slot_off n itxd (S c) = slot_off n itxd (f + 1))) eqn:Eb.
  { apply bool_decide_eq_true_1 in Eb.
    apply slot_off_inj in Eb; [|lia..].
    cbn [m_eth m_txd]. split; [reflexivity|]. split; [reflexivity|].
    split; [reflexivity|]. left. lia. }
  apply bool_decide_eq_false_1 in Eb.
  assert (Hcf : (c < f)%nat).
  { destruct (decide (c = f)) as [->|Hne]; [|lia].
    exfalso. apply Eb. f_equal. lia. }
  set (size := Z.min frag_size (tx_dma_max_len (soc (m_eth s)))).
  pose proof (anchors_dma_map env size (m_eth s)) as Em.
  pose proof (buf_dma_map env size (m_eth s)) as Bm.
  pose proof (dma_map_none env size (m_eth s)) as Nm.
  destruct (dma_map env size (m_eth s)) as [[addr|] eth1]; cbn [fst snd] in Em, Bm, Nm.
  2: { cbn [m_eth m_txd]. split; [reflexivity|]. split; [exact Em|].
       split; [exact Bm|]. right. exists (dma_calls (m_eth s)). apply Nm. reflexivity. }
  cbn [m_eth m_txd m_n_desc].
  match goal with
  | |- context [at_slot _ _ _ _ {| m_eth := ?e; m_txd := _; m_n_desc := _; m_k := _ |}] =>
      set (eth5 := e)
  end.
  assert (E5 : anchors eth5 = anchors (m_eth s)).
  { unfold eth5. rewrite anchors_setup_tx_buf, !anchors_update_buf,
      anchors_mtk_tx_set_dma_desc. exact Em. }
  assert (B5 : forall j, j <> slot_off n itxd (S c) ->
                 buf (tx_ring eth5) !!! j = buf (tx_ring (m_eth s)) !!! j).
  { intros j Hne. unfold eth5.
    rewrite buf_setup_tx_buf_ne, !buf_update_buf_ne by exact Hne.
    rewrite buf_mtk_tx_set_dma_desc, Bm. reflexivity. }
  clearbody eth5.
  split.
  { apply (at_slot_anchors n itxd f c (S c) s); [exact Hat|exact E5|lia|reflexivity]. }
  split; [reflexivity|]. split; [exact E5|]. split; [reflexivity|exact B5].
Qed.

(** [while (frag_size)] on the queue-aware ring. *)
Lemma tx_map_frag_inv env mac queue i nr_frags n itxd f : forall fuel frag_size s c,
  at_slot n itxd f c s ->
  0 < tx_dma_max_len (soc (m_eth s)) -> 0 <= frag_size ->
  (Z.to_nat frag_size <= fuel)%nat ->
  let p := length (frag_chunks fuel (tx_dma_max_len (soc (m_eth s))) frag_size) in
  match tx_map_frag fuel env mac queue i nr_frags frag_size s with
  | MapOk s' =>
      at_slot n itxd f (c + p) s' /\ m_n_desc s' = m_n_desc s + Z.of_nat p /\
      anchors (m_eth s') = anchors (m_eth s) /\
      (forall j, (forall d, (c < d <= c + p)%nat -> j <> slot_off n itxd d) ->
                 buf (tx_ring (m_eth s')) !!! j = buf (tx_ring (m_eth s)) !!! j)
  | MapErr s' =>
      exists c', (c <= c' <= f)%nat /\ m_txd s' = slot_off n itxd (S c') /\
        anchors (m_eth s') = anchors (m_eth s) /\
        (forall j, (forall d, (c < d <= c')%nat -> j <> slot_off n itxd d) ->
                   buf (tx_ring (m_eth s')) !!! j = buf (tx_ring (m_eth s)) !!! j) /\
        ((c' = f /\ (c' < c + p)%nat) \/ exists k, map_result env k = None)
  | MapDiverge => False
  end.
Proof.
  induction fuel as [|fuel IH]; intros fs s c Hat Hm Hf Hfuel p.
  - assert (fs = 0) by lia. subst fs. unfold p. cbn.
    rewrite Nat.add_0_r. split; [exact Hat|]. split; [lia|]. split; [reflexivity|].
    intros j _. reflexivity.
  - unfold p. cbn [tx_map_frag frag_chunks]. destruct (fs =? 0) eqn:E.
    { cbn [length]. rewrite Nat.add_0_r. split; [exact Hat|]. split; [lia|].
      split; [reflexivity|]. intros j _. reflexivity. }
    apply Z.eqb_neq in E.
    pose proof (tx_map_chunk_inv env mac queue i nr_frags fs s n itxd f c Hat) as Hc.
    pose proof Hat as (_ & _ & _ & _ & _ & Hcf & _).
    destruct (tx_map_chunk env mac queue i nr_frags fs s) as [[size s']|s'].
    + destruct Hc as (Hat' & Hn & Ea & Hsize & Hb).
      pose proof (anchors_soc _ _ Ea) as Es.
      specialize (IH (fs - size) s' (S c) Hat' ltac:(rewrite Es; exact Hm)
                    ltac:(lia) ltac:(lia)).
      cbv zeta in IH. rewrite Es in IH. rewrite <- Hsize.
      set (q := length (frag_chunks fuel (tx_dma_max_len (soc (m_eth s))) (fs - size))) in *.
      cbn [length]. fold q.
      destruct (tx_map_frag fuel env mac queue i nr_frags (fs - size) s') as [s''|s''|];
        [| |exact IH].
      * destruct IH as (Hat'' & Hn' & Ea' & Hb').
        replace (c + S q)%nat with (S c + q)%nat by lia.
        split; [exact Hat''|]. split; [lia|]. split; [congruence|].
        intros j Hj. rewrite Hb'; [apply Hb|].
        -- apply Hj. lia.
        -- intros d Hd. apply Hj. lia.
      * destruct IH as (c' & Hc' & Ht' & Ea' & Hb' & Hwhy).
        exists c'. split; [lia|]. split; [exact Ht'|]. split; [congruence|].
        split.
        -- intros j Hj. rewrite Hb'; [apply Hb|].
           ++ apply Hj. lia.
           ++ intros d Hd. apply Hj. lia.
        -- destruct Hwhy as [[-> Hlt]|Hk]; [left; split; [reflexivity|lia]|right; exact Hk].
    + destruct Hc as (Ht' & Ea & Hb & Hwhy).
      exists c. split; [lia|]. split; [exact Ht'|]. split; [exact Ea|].
      split; [intros j _; rewrite Hb; reflexivity|].
      destruct Hwhy as [->|Hk]; [left; split; [reflexivity|cbn [length]; lia]|right; exact Hk].
Qed.

(** [for (i = 0; i < nr_frags; i++)] on the queue-aware ring. *)
Lemma tx_map_frags_inv env mac queue nr_frags n itxd f : forall fs i s c,
  at_slot n itxd f c s ->
  0 < tx_dma_max_len (soc (m_eth s)) -> Forall (fun x => 0 <= x) fs ->
  let p := length (skb_chunks (tx_dma_max_len (soc (m_eth s))) fs) in
  match tx_map_frags env mac queue nr_frags i fs s with
  | MapOk s' =>
      at_slot n itxd f (c + p) s' /\ m_n_desc s' = m_n_desc s + Z.of_nat p /\
      anchors (m_eth s') = anchors (m_eth s) /\
      (forall j, (forall d, (c < d <= c + p)%nat -> j <> slot_off n itxd d) ->
                 buf (tx_ring (m_eth s')) !!! j = buf (tx_ring (m_eth s)) !!! j)
  | MapErr s' =>
      exists c', (c <= c' <= f)%nat /\ m_txd s' = slot_off n itxd (S c') /\
        anchors (m_eth s') = anchors (m_eth s) /\
        (forall j, (forall d, (c < d <= c')%nat -> j <> slot_off n itxd d) ->
                   buf (tx_ring (m_eth s')) !!! j = buf (tx_ring (m_eth s)) !!! j) /\
        ((c' = f /\ (c' < c + p)%nat) \/ exists k, map_result env k = None)
  | MapDiverge => False
  end.
Proof.
  induction fs as [|x fs IH]; intros i s c Hat Hm Hall p.
  - unfold p. cbn. rewrite Nat.add_0_r. split; [exact Hat|]. split; [lia|].
    split; [reflexivity|]. intros j _. reflexivity.
  - inversion Hall as [|? ? Hx Hall']; subst.
    unfold p, skb_chunks. cbn [tx_map_frags map concat]. rewrite length_app.
    fold (skb_chunks (tx_dma_max_len (soc (m_eth s))) fs).
    pose proof (tx_map_frag_inv env mac queue i nr_frags n itxd f (Z.to_nat x) x s c Hat Hm
                  Hx ltac:(lia)) as Hc.
    cbv zeta in Hc.
    set (q1 := length (frag_chunks (Z.to_nat x) (tx_dma_max_len (soc (m_eth s))) x)) in *.
    destruct (tx_map_frag (Z.to_nat x) env mac queue i nr_frags x s) as [s'|s'|];
      [| |exact Hc].
    + destruct Hc as (Hat' & Hn & Ea & Hb).
      pose proof (anchors_soc _ _ Ea) as Es.
      specialize (IH (i + 1) s' (c + q1)%nat Hat' ltac:(rewrite Es; exact Hm) Hall').
      cbv zeta in IH. rewrite Es in IH.
      set (q2 := length (skb_chunks (tx_dma_max_len (soc (m_eth s))) fs)) in *.
      destruct (tx_map_frags env mac queue nr_frags (i + 1) fs s') as [s''|s''|];
        [| |exact IH].
      * destruct IH as (Hat'' & Hn' & Ea' & Hb').
        replace (c + (q1 + q2))%nat with (c + q1 + q2)%nat by lia.
        split; [exact Hat''|]. split; [lia|]. split; [congruence|].
        intros j Hj. rewrite Hb'; [apply Hb|].
        -- intros d Hd. apply Hj. lia.
        -- intros d Hd. apply Hj. lia.
      * destruct IH as (c' & Hc' & Ht' & Ea' & Hb' & Hwhy).
        exists c'. split; [lia|]. split; [exact Ht'|]. split; [congruence|].
        split.
        -- intros j Hj. rewrite Hb'; [apply Hb|].
           ++ intros d Hd. apply Hj. lia.
           ++ intros d Hd. apply Hj. lia.
        -- destruct Hwhy as [[-> Hlt]|Hk]; [left; split; [reflexivity|lia]|right; exact Hk].
    + destruct Hc as (c' & Hc' & Ht' & Ea & Hb & Hwhy).
      exists c'. split; [lia|]. split; [exact Ht'|]. split; [exact Ea|].
      split; [exact Hb|].
      destruct Hwhy as [[-> Hlt]|Hk]; [left; split; [reflexivity|lia]|right; exact Hk].
Qed.

Lemma in_use_cleared b : in_use (cleared b) = false.
Proof. reflexivity. Qed.

(** The [err_dma] loop from the head slot to the slot [m] places after
    it clears exactly the [m] slots in between. *)
Lemma tx_map_unwind_exact n : forall m fuel itxd eth,
    ring_ok eth -> ring_len eth = n -> (itxd < n)%nat ->
    (1 <= m < n)%nat -> (m <= fuel)%nat ->
    exists eth',
      tx_map_unwind fuel itxd (slot_off n itxd m) eth = Some eth' /\
      anchors eth' = anchors eth /\
      (forall d, (d < m)%nat -> in_use (buf (tx_ring eth') !!! slot_off n itxd d) = false) /\
      (forall j, (forall d, (d < m)%nat -> j <> slot_off n itxd d) ->
                 buf (tx_ring eth') !!! j = buf (tx_ring eth) !!! j).
Proof.
  induction m as [|m IH]; intros fuel itxd eth Hok Hl Hi Hm Hfuel; [lia|].
  destruct fuel as [|fuel]; [lia|]. cbn [tx_map_unwind].
  pose proof (anchors_tx_map_unwind_slot itxd eth) as E1.
  pose proof (buf_tx_map_unwind_slot itxd eth) as B1.
  pose proof (anchors_next_desc _ _ itxd E1 Hok ltac:(rewrite Hl; exact Hi)) as Hn.
  set (eth1 := tx_map_unwind_slot itxd eth) in *. clearbody eth1.
  rewrite Hl in Hn. rewrite Hn.
  assert (Hlen : length (buf (tx_ring eth)) = n)
    by (destruct Hok as (_ & Hb & _); unfold ring_len in Hl; lia).
  assert (Hs : slot_succ n itxd = slot_off n itxd 1) by reflexivity.
  assert (Hcl : in_use (buf (tx_ring eth1) !!! itxd) = false).
  { rewrite B1, list_lookup_total_insert_eq by lia. apply in_use_cleared. }
  assert (Hun : forall j, j <> itxd -> buf (tx_ring eth1) !!! j = buf (tx_ring eth) !!! j).
  { intros j Hne. rewrite B1. apply list_lookup_total_insert_ne. congruence. }
  destruct (decide (m = 0)%nat) as [->|Hm0].
  - rewrite bool_decide_eq_true_2 by exact Hs.
    exists eth1. split; [reflexivity|]. split; [exact E1|]. split.
    + intros d Hd. replace d with 0%nat by lia. rewrite slot_off_0 by exact Hi. exact Hcl.
    + intros j Hj. apply Hun. specialize (Hj 0%nat ltac:(lia)).
      rewrite slot_off_0 in Hj by exact Hi. exact Hj.
  - rewrite bool_decide_eq_false_2.
    2: { rewrite Hs. intros Heq. apply slot_off_inj in Heq; lia. }
    destruct (IH fuel (slot_succ n itxd) eth1) as (eth' & Hr & Ea & Hc & Hu).
    + apply (anchors_ring_ok _ _ E1 Hok).
    + rewrite (anchors_ring_len _ _ E1). exact Hl.
    + apply slot_succ_lt. lia.
    + lia.
    + lia.
    + rewrite Hs, slot_off_off in Hr. cbn [Nat.add] in Hr.
      exists eth'. split; [exact Hr|]. split; [congruence|]. split.
      * intros d Hd. destruct d as [|d].
        -- rewrite slot_off_0 by exact Hi. rewrite Hu; [exact Hcl|].
           intros d' Hd'. rewrite Hs, slot_off_off. cbn [Nat.add].
           intros Heq. rewrite <- (slot_off_0 n itxd Hi) in Heq at 1.
           apply slot_off_inj in Heq; lia.
        -- specialize (Hc d ltac:(lia)). rewrite Hs, slot_off_off in Hc. exact Hc.
      * intros j Hj. rewrite Hu.
        -- apply Hun. specialize (Hj 0%nat ltac:(lia)).
           rewrite slot_off_0 in Hj by exact Hi. exact Hj.
        -- intros d Hd. rewrite Hs, slot_off_off. cbn [Nat.add]. apply Hj. lia.
Qed.

(** [mtk_tx_map] on a queue-aware ring that satisfies the invariant,
    with [used] the slots the packet needs.  A failed submission leaves
    the invariant in place; so does a successful one that was given at
    least one free slot more than it used; and if the free slots
    suffice, only a failed bus mapping makes the submission fail.  No
    slot that holds a buffer is written. *)
Lemma mtk_tx_map_ring_inv env skb mac gso eth :
  ring_inv eth -> caps_qdma (soc eth) = true -> 0 < tx_dma_max_len (soc eth) ->
  Forall (fun x => 0 <= x) (frags skb) ->
  let used := Z.of_nat (S (length (tx_pieces eth skb))) in
  exists ret eth',
    mtk_tx_map env skb mac gso eth = Some (ret, eth') /\
    soc eth' = soc eth /\
    (forall j, in_use (buf (tx_ring eth) !!! j) = true ->
               buf (tx_ring eth') !!! j = buf (tx_ring eth) !!! j) /\
    ((ret = - ENOMEM /\ ring_inv eth' /\
      free_count (tx_ring eth') = free_count (tx_ring eth) /\
      (used <= free_count (tx_ring eth) -> exists k, map_result env k = None)) \/
     (ret = 0 /\ free_count (tx_ring eth') = free_count (tx_ring eth) - used /\
      (used <= free_count (tx_ring eth) -> ring_inv eth'))).
Proof.
  intros ([Hok Hnf] & Hptr & f & Hfc & Hf2 & Hlf & Hfree) Hq Hm Hall used.
  set (n := ring_len eth) in *. set (itxd := next_free (tx_ring eth)) in *.
  assert (Hlenb : length (buf (tx_ring eth)) = n)
    by (destruct Hok as (_ & Hb & _); unfold n, ring_len; lia).
  (* the invariant carries over to any state with the same anchors in
     which the slots from [lo] on, up to the reclaim position, are
     untouched and those before are empty *)
  assert (Keep : forall e lo,
            anchors e = anchors eth ->
            (forall d, (d < lo)%nat -> (d <= f + 1)%nat ->
                       in_use (buf (tx_ring e) !!! slot_off n itxd d) = false) ->
            (forall d, (lo <= d <= f + 1)%nat ->
                       buf (tx_ring e) !!! slot_off n itxd d =
                       buf (tx_ring eth) !!! slot_off n itxd d) ->
            ring_inv e /\ free_count (tx_ring e) = free_count (tx_ring eth)).
  { intros e lo Ea Hlo Hhi.
    pose proof (anchors_ring_len _ _ Ea) as El.
    pose proof (shape_next_free _ _ (anchors_shape _ _ Ea)) as En.
    split; [|apply anchors_free_count, Ea].
    destruct (anchors_last_free_ptr _ _ Ea) as [Elp Eph].
    unfold ring_inv. rewrite El, En, (anchors_free_count _ _ Ea), (anchors_last_free _ _ Ea),
      Elp, Eph, (anchors_soc _ _ Ea).
    split; [split; [apply (anchors_ring_ok _ _ Ea Hok)|rewrite En, El; exact Hnf]|].
    split; [exact Hptr|].
    exists f. split; [exact Hfc|]. split; [exact Hf2|]. split; [exact Hlf|].
    intros j Hj. destruct (lt_dec j lo) as [Hlt|Hge].
    - apply Hlo; assumption.
    - rewrite Hhi by lia. apply Hfree, Hj. }
  assert (Hout : forall j, in_use (buf (tx_ring eth) !!! j) = true ->
                 forall d, (d <= f + 1)%nat -> j <> slot_off n itxd d).
  { intros j Hj d Hd ->. rewrite Hfree in Hj by exact Hd. discriminate. }
  assert (Hout0 : forall j, in_use (buf (tx_ring eth) !!! j) = true -> j <> itxd).
  { intros j Hj. rewrite <- (slot_off_0 n itxd Hnf). apply (Hout j Hj). lia. }
  unfold mtk_tx_map. fold itxd.
  rewrite bool_decide_eq_false_2.
  2: { rewrite Hlf. rewrite <- (slot_off_0 n itxd Hnf) at 1.
       intros Heq. apply slot_off_inj in Heq; lia. }
  set (eth1 := update_buf itxd (fun _ => zero_buf) eth).
  assert (E1 : anchors eth1 = anchors eth) by apply anchors_update_buf.
  assert (B1 : forall j, j <> itxd -> buf (tx_ring eth1) !!! j = buf (tx_ring eth) !!! j)
    by (intros j Hne; apply buf_update_buf_ne, Hne).
  assert (Z1 : in_use (buf (tx_ring eth1) !!! itxd) = false).
  { unfold eth1. cbn. rewrite list_lookup_total_insert_eq by lia. reflexivity. }
  clearbody eth1.
  assert (Hoff : forall d, (1 <= d <= f + 1)%nat -> slot_off n itxd d <> itxd).
  { intros d Hd Heq. rewrite <- (slot_off_0 n itxd Hnf) in Heq at 2.
    apply slot_off_inj in Heq; lia. }
  pose proof (anchors_dma_map env (headlen skb) eth1) as Em.
  pose proof (buf_dma_map env (headlen skb) eth1) as Bm.
  pose proof (dma_map_none env (headlen skb) eth1) as Nm.
  destruct (dma_map env (headlen skb) eth1) as [[addr|] eth2]; cbn [fst snd] in Em, Bm, Nm.
  2: { exists (- ENOMEM), eth2. split; [reflexivity|].
       split; [rewrite (anchors_soc _ _ Em); apply (anchors_soc _ _ E1)|].
       split; [intros j Hj; rewrite Bm; apply B1, Hout0, Hj|]. left.
       destruct (Keep eth2 1%nat) as [K1 K2].
       - congruence.
       - intros d Hd _. replace d with 0%nat by lia.
         rewrite slot_off_0 by exact Hnf. rewrite Bm. exact Z1.
       - intros d Hd. rewrite Bm. apply B1, Hoff. lia.
       - split; [reflexivity|]. split; [exact K1|]. split; [exact K2|].
         intros _. exists (dma_calls eth1). apply Nm. reflexivity. }
  match goal with
  | |- context [tx_map_frags _ _ _ _ _ _ {| m_eth := ?e; m_txd := _; m_n_desc := _; m_k := _ |}] =>
      set (eth5 := e)
  end.
  assert (E5 : anchors eth5 = anchors eth).
  { unfold eth5. rewrite anchors_setup_tx_buf, anchors_update_buf,
      anchors_mtk_tx_set_dma_desc. congruence. }
  assert (B5 : forall j, j <> itxd -> buf (tx_ring eth5) !!! j = buf (tx_ring eth) !!! j).
  { intros j Hne. unfold eth5.
    rewrite buf_setup_tx_buf_ne, buf_update_buf_ne by exact Hne.
    rewrite buf_mtk_tx_set_dma_desc, Bm. apply B1, Hne. }
  clearbody eth5.
  pose proof (anchors_ring_len _ _ E5) as El5. fold n in El5.
  pose proof (anchors_soc _ _ E5) as Es5.
  set (s0 := {| m_eth := eth5; m_txd := itxd; m_n_desc := 1; m_k := 1 |}).
  assert (Hat : at_slot n itxd f 0 s0).
  { unfold at_slot, s0. cbn [m_eth m_txd].
    rewrite Es5, El5, (anchors_last_free _ _ E5), slot_off_0 by exact Hnf.
    split; [apply (anchors_ring_ok _ _ E5 Hok)|].
    repeat (split; [first [assumption|reflexivity|lia]|]). exact Hlf. }
  pose proof (tx_map_frags_inv env mac (obj_queue (skb_obj skb))
                (Z.of_nat (length (frags skb))) n itxd f (frags skb) 0 s0 0%nat Hat
                ltac:(cbn [m_eth s0]; rewrite Es5; exact Hm) Hall) as Hf.
  cbv zeta in Hf. cbn [m_eth s0 m_n_desc] in Hf. rewrite Es5 in Hf.
  fold (tx_pieces eth skb) in Hf.
  set (p := length (tx_pieces eth skb)) in *.
  assert (Hused : used = 1 + Z.of_nat p) by (unfold used; lia).
  fold s0. destruct (tx_map_frags _ _ _ _ _ _ s0) as [s|s|]; [| |contradiction].
  - (* committed *)
    destruct Hf as (Hats & Hn & Ea & Hb). cbn [Nat.add] in Hats, Hb.
    destruct Hats as (Hoks & _ & Hls & _ & _ & Hpf & Hts & _).
    assert (Es : anchors (m_eth s) = anchors eth) by (cbn [m_eth s0] in Ea; congruence).
    destruct (tx_map_commit_counts env skb mac itxd s) as (Cf & Cn & Cl).
    pose proof (tx_map_commit_links env skb mac itxd s) as CL.
    pose proof (tx_map_commit_last_free_ptr env skb mac itxd s) as Cp.
    assert (CB : forall j, j <> itxd ->
               buf (tx_ring (tx_map_commit env skb mac itxd s)) !!! j =
               buf (tx_ring (m_eth s)) !!! j).
    { intros j Hne.
      destruct (tx_map_commit_qdma env skb mac itxd s
                  ltac:(rewrite (anchors_soc _ _ Es); exact Hq))
        as (_ & _ & _ & _ & _ & Bc & _).
      rewrite Bc. apply list_lookup_total_insert_ne. congruence. }
    set (eth' := tx_map_commit env skb mac itxd s) in *. clearbody eth'.
    exists 0, eth'. split; [reflexivity|].
    split; [rewrite (links_soc _ _ CL); apply (anchors_soc _ _ Es)|].
    split.
    { intros j Hj. pose proof (Hout0 j Hj) as Hne.
      rewrite (CB _ Hne), Hb; [cbn [m_eth s0]; apply B5, Hne|].
      intros d Hd. apply (Hout j Hj). lia. }
    right.
    split; [reflexivity|].
    split; [rewrite Cf, (anchors_free_count _ _ Es), Hn; lia|].
    intros Hroom.
    assert (Hp : (p + 1 <= f)%nat) by lia.
    assert (Hnd : next_desc (m_eth s) (m_txd s) = slot_off n itxd (S p)).
    { rewrite next_desc_succ; [|exact Hoks|rewrite Hls, Hts; apply slot_off_lt; lia].
      rewrite Hls, Hts. apply slot_succ_off. }
    pose proof (links_ring_len _ _ CL) as Ll. rewrite Hls in Ll.
    destruct (anchors_last_free_ptr _ _ Es) as [Elp Eph].
    assert (Cph : phys (tx_ring eth') = phys (tx_ring (m_eth s)))
      by (unfold links in CL; congruence).
    unfold ring_inv. rewrite Ll, Cn, Hnd, Cf, Cl, (anchors_free_count _ _ Es),
      (anchors_last_free _ _ Es), Hn, Cp, Elp, Cph, Eph, (links_soc _ _ CL),
      (anchors_soc _ _ Es).
    split.
    { split; [apply (links_ring_ok _ _ CL Hoks)|].
      rewrite Cn, Hnd, Ll. apply slot_off_lt. lia. }
    split; [exact Hptr|].
    exists (f - (p + 1))%nat.
    split; [lia|]. split; [lia|]. split.
    + rewrite slot_off_off, Hlf. f_equal. lia.
    + intros j Hj. rewrite slot_off_off.
      assert (Hne : slot_off n itxd (S p + j) <> itxd) by (apply Hoff; lia).
      rewrite (CB _ Hne). rewrite Hb.
      * cbn [m_eth s0]. rewrite (B5 _ Hne). apply Hfree. lia.
      * intros d Hd Heq. apply slot_off_inj in Heq; lia.
  - (* unwound *)
    destruct Hf as (c' & Hc' & Ht & Ea & Hb & Hwhy).
    assert (Es : anchors (m_eth s) = anchors eth) by (cbn [m_eth s0] in Ea; congruence).
    pose proof (anchors_ring_len _ _ Es) as Els. fold n in Els.
    destruct (tx_map_unwind_exact n (S c') (length (dma (tx_ring (m_eth s)))) itxd (m_eth s)
                (anchors_ring_ok _ _ Es Hok) Els Hnf ltac:(lia)
                ltac:(unfold ring_len in Els; lia))
      as (eth' & Hr & Ea' & Hcl & Hun).
    rewrite Ht, Hr.
    exists (- ENOMEM), eth'. split; [reflexivity|].
    split; [rewrite (anchors_soc _ _ Ea'); apply (anchors_soc _ _ Es)|].
    split.
    { intros j Hj. pose proof (Hout0 j Hj) as Hne.
      rewrite Hun; [|intros d Hd; apply (Hout j Hj); lia].
      rewrite Hb; [cbn [m_eth s0]; apply B5, Hne|].
      intros d Hd. apply (Hout j Hj). lia. }
    left.
    destruct (Keep eth' (S c')) as [K1 K2].
    + congruence.
    + intros d Hd _. apply Hcl, Hd.
    + intros d Hd.
      assert (Hne : slot_off n itxd d <> itxd) by (apply Hoff; lia).
      rewrite Hun.
      * rewrite Hb; [cbn [m_eth s0]; apply B5, Hne|].
        intros d' Hd' Heq. apply slot_off_inj in Heq; lia.
      * intros d' Hd' Heq. apply slot_off_inj in Heq; lia.
    + split; [reflexivity|]. split; [exact K1|]. split; [exact K2|].
      intros Hroom. destruct Hwhy as [[-> Hlt]|Hk]; [|exact Hk].
      exfalso. cbn [Nat.add] in Hlt. lia.
Qed.

(** X5: [mtk_start_xmit] on a queue-aware ring that satisfies the ring
    invariant, for a segmentation-offload packet or a packet whose
    fragments each fit one descriptor.  The call returns, the invariant
    holds afterwards, and no slot that held a buffer before the call is
    written by it.  Outside a reset, with more free slots than
    [mtk_cal_txd_req] asks for, the header copy succeeding and no bus
    mapping failing, the packet is accepted and takes exactly that many
    slots. *)
Theorem start_xmit_keeps_ring_inv env skb mac eth :
  ring_inv eth -> caps_qdma (soc eth) = true -> 0 < tx_dma_max_len (soc eth) ->
  Forall (fun f => 0 <= f /\ f + tx_dma_max_len (soc eth) <= 2 ^ 32) (frags skb) ->
  is_gso skb = true \/ Forall (fun f => 0 < f <= tx_dma_max_len (soc eth)) (frags skb) ->
  let req := mtk_cal_txd_req (soc eth) skb in
  exists r eth',
    mtk_start_xmit env skb mac eth = Some (r, eth') /\ ring_inv eth' /\
    (forall j, in_use (buf (tx_ring eth) !!! j) = true ->
               buf (tx_ring eth') !!! j = buf (tx_ring eth) !!! j) /\
    (resetting eth = false -> req < free_count (tx_ring eth) ->
     is_gso skb && cow_head_fails env = false ->
     (forall k, map_result env k <> None) ->
     r = NETDEV_TX_OK /\
     free_count (tx_ring eth') = free_count (tx_ring eth) - req).
Proof.
  intros Hinv Hq Hm Hall Hcase req. unfold mtk_start_xmit.
  destruct (resetting eth).
  { eexists _, _. split; [reflexivity|]. split; [exact Hinv|].
    split; [reflexivity|]. discriminate. }
  fold req. destruct (free_count (tx_ring eth) <=? req) eqn:Efull.
  { apply Z.leb_le in Efull. eexists _, _. split; [reflexivity|].
    split; [exact Hinv|]. split; [reflexivity|]. lia. }
  apply Z.leb_gt in Efull.
  destruct (is_gso skb && cow_head_fails env).
  { eexists _, _. split; [reflexivity|]. split; [exact Hinv|].
    split; [reflexivity|]. discriminate. }
  pose proof (mtk_tx_map_ring_inv env skb mac (is_gso skb && gso_tcp skb) eth Hinv Hq Hm) as X.
  cbv zeta in X.
  rewrite (tx_pieces_requirement eth skb Hm Hall Hcase) in X. fold req in X.
  destruct X as (ret & eth1 & Hr & _ & Hkeep & Hres).
  { revert Hall. apply List.Forall_impl. intros f [Hf _]. exact Hf. }
  rewrite Hr.
  destruct Hres as [(-> & Hi1 & Hfc & Hwhy)|(-> & Hfc & Hi1)].
  - replace (- ENOMEM <? 0) with true by reflexivity.
    eexists _, _. split; [reflexivity|]. split; [exact Hi1|].
    split; [exact Hkeep|]. intros _ _ _ Hmaps.
    destruct (Hwhy ltac:(lia)) as (k & Hk). destruct (Hmaps k Hk).
  - replace (0 <? 0) with false by reflexivity.
    specialize (Hi1 ltac:(lia)).
    eexists _, _. split; [reflexivity|]. split.
    + destruct (_ <=? _); exact Hi1.
    + split.
      * destruct (_ <=? _); exact Hkeep.
      * intros _ _ _ _. split; [reflexivity|].
        destruct (free_count (tx_ring eth1) <=? thresh (tx_ring eth1)); exact Hfc.
Qed.

(** X6: a successful [mtk_tx_alloc] of a ring of at least two slots
    returns 0 and leaves a ring that satisfies the ring invariant: every
    slot is empty and all slots but two are counted as free. *)
Theorem tx_alloc_establishes_ring_inv a eth p pp :
  buf_alloc_ok a = true -> ring_alloc a = Some p -> pdma_alloc a = Some pp ->
  0 < tx_desc_size (soc eth) -> 2 <= tx_ring_size (soc eth) -> 0 <= p ->
  p + tx_ring_size (soc eth) * tx_desc_size (soc eth) <= 2 ^ 32 ->
  (mtk_tx_alloc a eth).1 = 0 /\
  ring_inv (mtk_tx_alloc a eth).2 /\
  free_count (tx_ring (mtk_tx_alloc a eth).2) = tx_ring_size (soc eth) - 2 /\
  forall j, in_use (buf (tx_ring (mtk_tx_alloc a eth).2) !!! j) = false.
Proof.
  intros Hb Hr Hp Hsz Hn H0 Hlim.
  destruct (mtk_tx_alloc_ring_inv a eth p pp Hb Hr Hp Hsz Hn H0 Hlim) as [Hinv Hfc].
  pose proof (mtk_tx_alloc_fresh a eth p pp Hb Hr Hp Hsz ltac:(lia) H0 Hlim) as X.
  cbv zeta in X.
  destruct X as (Hret & _ & _ & _ & _ & _ & _ & _ & _ & _ & Hbuf & _).
  split; [exact Hret|]. split; [exact Hinv|]. split; [exact Hfc|].
  intros j. rewrite Hbuf.
  destruct (decide (j < Z.to_nat (tx_ring_size (soc eth)))%nat) as [Hj|Hj].
  - rewrite lookup_total_replicate_2 by exact Hj. reflexivity.
  - rewrite list_lookup_total_alt.
    rewrite (proj1 (lookup_replicate_None _ _ _)) by lia. reflexivity.
Qed.

(** *** The reclaim keeps the ring invariant *)

(** The invariant only reads the ring and the chip description. *)
Lemma ring_inv_ext eth eth' :
  tx_ring eth' = tx_ring eth -> soc eth' = soc eth -> ring_inv eth -> ring_inv eth'.
Proof.
  intros Er Es Hinv. unfold ring_inv, tx_wf, ring_ok, ring_len in *.
  rewrite Er, Es. exact Hinv.
Qed.

(** The invariant while the reclaim loop runs: [cpu] stands for
    [last_free_ptr], which the function stores after the loop. *)
Definition walk_inv (cpu : Z) (eth : mtk_eth) : Prop :=
  let r := tx_ring eth in
  let n := ring_len eth in
  tx_wf eth /\
  cpu = phys r + Z.of_nat (last_free r) * tx_desc_size (soc eth) /\
  exists f : nat,
    free_count r = Z.of_nat f /\ (f + 2 <= n)%nat /\
    last_free r = slot_off n (next_free r) (f + 1) /\
    forall j, (j <= f + 1)%nat -> in_use (buf r !!! slot_off n (next_free r) j) = false.

(** A slot changes under the reclaim only by being returned. *)
Definition only_returned (eth eth' : mtk_eth) : Prop :=
  forall j, buf (tx_ring eth') !!! j = buf (tx_ring eth) !!! j \/
            (in_use (buf (tx_ring eth) !!! j) = true /\
             in_use (buf (tx_ring eth') !!! j) = false).

Lemma only_returned_refl eth : only_returned eth eth.
Proof. intros j. left. reflexivity. Qed.

Lemma only_returned_trans e1 e2 e3 :
  only_returned e1 e2 -> only_returned e2 e3 -> only_returned e1 e3.
Proof.
  intros H12 H23 j. destruct (H12 j) as [E|[U F]], (H23 j) as [E'|[U' F']].
  - left. congruence.
  - right. split; congruence.
  - right. split; congruence.
  - right. split; [exact U|exact F'].
Qed.

Lemma poll_tx_reclaim_walk idx budget state eth cpu :
  walk_inv cpu eth ->
  idx = slot_succ (ring_len eth) (last_free (tx_ring eth)) ->
  in_use (mtk_desc_to_tx_buf (tx_ring eth) idx) = true ->
  let r := poll_tx_reclaim false idx budget state eth in
  walk_inv (phys (tx_ring eth) + Z.of_nat idx * tx_desc_size (soc eth)) r.2 /\
  links r.2 = links eth /\ next_free (tx_ring r.2) = next_free (tx_ring eth) /\
  only_returned eth r.2.
Proof.
  intros ([Hok Hnf] & Hcpu & f & Hfc & Hf2 & Hlf & Hfree) Hidx Hu r.
  pose proof (poll_tx_reclaim_effect false idx budget state eth) as E. cbv zeta in E.
  fold r in E. destruct E as (_ & _ & Er & Es & _).
  set (n := ring_len eth) in *. set (h := next_free (tx_ring eth)) in *.
  assert (Hlenb : length (buf (tx_ring eth)) = n)
    by (destruct Hok as (_ & Hb & _); unfold n, ring_len; lia).
  assert (Hi : idx = slot_off n h (f + 2)).
  { rewrite Hidx, Hlf, slot_succ_off. f_equal. lia. }
  assert (Hnot : (f + 2 < n)%nat).
  { destruct (decide (f + 2 < n)%nat) as [Hlt|Hge]; [exact Hlt|exfalso].
    assert (Hn : (f + 2 = n)%nat) by lia.
    assert (idx = h).
    { rewrite Hi, Hn. unfold slot_off.
      rewrite <- (Nat.mul_1_l n) at 1. rewrite Nat.Div0.mod_add.
      apply Nat.mod_small, Hnf. }
    subst idx. unfold mtk_desc_to_tx_buf in Hu.
    specialize (Hfree 0%nat ltac:(lia)). rewrite slot_off_0 in Hfree by exact Hnf.
    fold h in Hu. congruence. }
  assert (Hil : (idx < n)%nat) by (rewrite Hi; apply slot_off_lt; lia).
  assert (El : links r.2 = links eth).
  { unfold links. rewrite Er, Es. cbn [phys dma buf dma_pdma add_free_count set_last_free set_buf].
    rewrite length_insert. reflexivity. }
  assert (En : next_free (tx_ring r.2) = next_free (tx_ring eth)) by (rewrite Er; reflexivity).
  assert (Eb : buf (tx_ring r.2) =
               <[idx := cleared (mtk_desc_to_tx_buf (tx_ring eth) idx)]> (buf (tx_ring eth)))
    by (rewrite Er; reflexivity).
  split; [|split; [exact El|split; [exact En|]]].
  - unfold walk_inv. rewrite (links_ring_len _ _ El), En. fold n h.
    split; [split; [apply (links_ring_ok _ _ El Hok)|
                    rewrite En, (links_ring_len _ _ El); exact Hnf]|].
    split.
    { rewrite Er, Es. cbn [phys last_free add_free_count set_last_free set_buf]. reflexivity. }
    exists (S f). rewrite Er. cbn [free_count last_free buf add_free_count set_last_free set_buf].
    split; [lia|]. split; [lia|]. split; [rewrite Hi; f_equal; lia|].
    intros j Hj. destruct (decide (j = f + 2)%nat) as [->|Hne].
    + rewrite <- Hi, list_lookup_total_insert_eq by lia. reflexivity.
    + rewrite list_lookup_total_insert_ne.
      * apply Hfree. lia.
      * rewrite Hi. intros Heq. apply slot_off_inj in Heq; lia.
  - intros j. rewrite Eb. destruct (decide (j = idx)) as [->|Hne].
    + right. split; [exact Hu|]. rewrite list_lookup_total_insert_eq by lia. reflexivity.
    + left. apply list_lookup_total_insert_ne. congruence.
Qed.

Lemma poll_tx_qdma_loop_walk : forall fuel cpu dma_ptr desc budget state eth,
    walk_inv cpu eth -> desc = last_free (tx_ring eth) ->
    (count_in_use (buf (tx_ring eth)) < fuel)%nat ->
    exists cpu' budget' state' eth',
      poll_tx_qdma_loop fuel cpu dma_ptr desc budget state eth =
        Some (cpu', budget', state', eth') /\
      walk_inv cpu' eth' /\ links eth' = links eth /\
      next_free (tx_ring eth') = next_free (tx_ring eth) /\
      only_returned eth eth' /\
      reclaim_account budget eth budget' eth'.
Proof.
  induction fuel as [|fuel IH]; intros cpu dma_ptr desc budget state eth Hw Hd Hfuel; [lia|].
  assert (Stop : exists cpu' budget' state' eth',
             Some (cpu, budget, state, eth) = Some (cpu', budget', state', eth') /\
             walk_inv cpu' eth' /\ links eth' = links eth /\
             next_free (tx_ring eth') = next_free (tx_ring eth) /\
             only_returned eth eth' /\
             reclaim_account budget eth budget' eth').
  { exists cpu, budget, state, eth. split; [reflexivity|]. split; [exact Hw|].
    split; [reflexivity|]. split; [reflexivity|].
    split; [apply only_returned_refl|apply reclaim_account_refl]. }
  cbn [poll_tx_qdma_loop].
  destruct ((cpu =? dma_ptr) || (budget =? 0)); [exact Stop|].
  destruct (Z.land _ _ =? 0); [exact Stop|].
  pose proof Hw as ([Hok Hnf] & Hcpu & f & Hfc & Hf2 & Hlf & Hfree).
  assert (Hdl : (desc < ring_len eth)%nat).
  { rewrite Hd, Hlf. apply slot_off_lt. lia. }
  assert (Hnd : next_desc eth desc = slot_succ (ring_len eth) (last_free (tx_ring eth))).
  { rewrite next_desc_succ by assumption. rewrite Hd. reflexivity. }
  set (idx := next_desc eth desc) in *.
  destruct (in_use (mtk_desc_to_tx_buf (tx_ring eth) idx)) eqn:Hu.
  2: { unfold in_use in Hu.
       destruct (data (mtk_desc_to_tx_buf (tx_ring eth) idx)); try discriminate.
       exact Stop. }
  pose proof (poll_tx_reclaim_count false idx budget state eth Hu) as Hc.
  pose proof (reclaim_account_step false idx budget state eth) as Hstep.
  pose proof (poll_tx_reclaim_walk idx budget state eth cpu Hw Hnd Hu) as Hwalk.
  cbv zeta in Hwalk.
  destruct (poll_tx_reclaim false idx budget state eth) as [[b1 s1] e1] eqn:E.
  cbn [fst snd] in Hc, Hstep, Hwalk.
  destruct Hwalk as (Hw1 & El1 & En1 & Ho1).
  assert (Hcpu1 : txd2 (desc_at (tx_ring eth) desc) =
                  phys (tx_ring eth) + Z.of_nat idx * tx_desc_size (soc eth)).
  { destruct Hok as (_ & _ & _ & Hl). unfold desc_at.
    rewrite (Hl desc Hdl). rewrite Hnd, Hd. reflexivity. }
  rewrite Hcpu1.
  destruct (IH (phys (tx_ring eth) + Z.of_nat idx * tx_desc_size (soc eth)) dma_ptr idx
              b1 s1 e1 Hw1)
    as (cpu' & budget' & state' & eth' & Hloop & Hw' & El' & En' & Ho' & Hacc).
  { pose proof (poll_tx_reclaim_effect false idx budget state eth) as X. cbv zeta in X.
    rewrite E in X. cbn [fst snd] in X. destruct X as (_ & _ & Er & _).
    rewrite Er. reflexivity. }
  { lia. }
  exists cpu', budget', state', eth'. split.
  - unfold in_use in Hu.
    destruct (data (mtk_desc_to_tx_buf (tx_ring eth) idx)); [discriminate| |]; exact Hloop.
  - split; [exact Hw'|]. split; [congruence|]. split; [congruence|].
    split; [apply (only_returned_trans _ _ _ Ho1 Ho')|].
    apply Hstep; assumption.
Qed.

(** X7: [mtk_poll_tx] on a queue-aware ring that satisfies the ring
    invariant returns and keeps the invariant, whatever the device
    reports and whatever the budget.  It does not move the next free
    slot; a slot changes only by being returned to the ring, and the
    free-slot counter grows by the number of slots returned. *)
Theorem poll_tx_keeps_ring_inv budget eth :
  ring_inv eth -> caps_qdma (soc eth) = true ->
  exists n eth',
    mtk_poll_tx budget eth = Some (n, eth') /\
    ring_inv eth' /\
    next_free (tx_ring eth') = next_free (tx_ring eth) /\
    only_returned eth eth' /\
    free_count (tx_ring eth') = free_count (tx_ring eth) + slots_reclaimed eth eth' /\
    0 <= slots_reclaimed eth eth'.
Proof.
  intros Hinv Hq. unfold mtk_poll_tx. rewrite Hq. unfold mtk_poll_tx_qdma.
  pose proof Hinv as ([Hok Hnf] & Hptr & Hrest).
  assert (Hsz : 0 < tx_desc_size (soc eth)) by (destruct Hok as (Hs & _); exact Hs).
  assert (Hdesc : mtk_qdma_phys_to_virt (soc eth) (tx_ring eth) (last_free_ptr (tx_ring eth))
                  = last_free (tx_ring eth)).
  { unfold mtk_qdma_phys_to_virt. rewrite Hptr.
    replace (phys (tx_ring eth) + Z.of_nat (last_free (tx_ring eth)) * tx_desc_size (soc eth)
             - phys (tx_ring eth))
      with (Z.of_nat (last_free (tx_ring eth)) * tx_desc_size (soc eth)) by lia.
    rewrite Z.div_mul by lia. apply Nat2Z.id. }
  rewrite Hdesc.
  destruct (poll_tx_qdma_loop_walk (S (length (buf (tx_ring eth))))
              (last_free_ptr (tx_ring eth)) (qdma_drx_ptr (regs eth))
              (last_free (tx_ring eth)) budget
              {| txq := None; total := 0; done := 0; bytes := 0 |} eth)
    as (cpu' & budget' & state' & eth1 & Hloop & Hw & El & En & Ho & Hacc).
  { split; [split; assumption|]. split; [exact Hptr|exact Hrest]. }
  { reflexivity. }
  { pose proof (count_in_use_le (buf (tx_ring eth))). lia. }
  rewrite Hloop.
  set (eth3 := set_regs _ (set_tx_ring (set_last_free_ptr cpu') eth1)).
  assert (H3 : ring_inv eth3 /\ buf (tx_ring eth3) = buf (tx_ring eth1) /\
               next_free (tx_ring eth3) = next_free (tx_ring eth1) /\
               free_count (tx_ring eth3) = free_count (tx_ring eth1)).
  { split; [|repeat split].
    destruct Hw as (Hwf & Hcpu & Hr).
    unfold ring_inv, tx_wf, ring_ok, ring_len in *. unfold eth3. tx_proj.
    split; [exact Hwf|]. split; [exact Hcpu|exact Hr]. }
  clearbody eth3. destruct H3 as (Hi3 & Hb3 & Hn3 & Hf3).
  set (eth4 := match txq state' with Some (d, qi) => _ | None => eth3 end).
  assert (H4 : tx_ring eth4 = tx_ring eth3 /\ soc eth4 = soc eth3)
    by (unfold eth4; destruct (txq state') as [[d qi]|]; split; reflexivity).
  clearbody eth4. destruct H4 as [Hr4 Hs4].
  set (eth5 := if mtk_queue_stopped eth4 && _ then mtk_wake_queue eth4 else eth4).
  assert (H5 : tx_ring eth5 = tx_ring eth3 /\ soc eth5 = soc eth3).
  { unfold eth5. destruct (_ && _); [|split; assumption].
    split; [rewrite <- Hr4|rewrite <- Hs4]; reflexivity. }
  clearbody eth5. destruct H5 as [Hr5 Hs5].
  exists (total state'), eth5. split; [reflexivity|].
  split; [apply (ring_inv_ext eth3 eth5 Hr5 Hs5 Hi3)|].
  destruct Hacc as (_ & _ & _ & Hf & _).
  assert (Hsr : slots_reclaimed eth eth5 = slots_reclaimed eth eth1)
    by (unfold slots_reclaimed; rewrite Hr5, Hb3; reflexivity).
  rewrite Hr5, Hn3, Hf3, Hsr.
  split; [exact En|]. split.
  { intros j. rewrite Hr5, Hb3. apply Ho. }
  split; [exact Hf|].
  unfold slots_reclaimed. generalize (buf (tx_ring eth)) (buf (tx_ring eth1)).
  induction l as [|x l IH]; intros [|y l']; cbn [count2]; try lia.
  specialize (IH l'). destruct (in_use x && negb (in_use y)); lia.
Qed.

(** *** The XDP submission keeps the ring invariant *)

Lemma anchors_mtk_xdp_frame_map env mac info idx seg headroom index do_map eth :
  anchors (mtk_xdp_frame_map env mac info idx seg headroom index do_map eth).2 = anchors eth.
Proof.
  unfold mtk_xdp_frame_map. destruct do_map.
  - pose proof (anchors_dma_map env (i_size info) eth) as Em.
    destruct (dma_map env (i_size info) eth) as [[a|] eth1]; cbn [snd] in *.
    + rewrite anchors_setup_tx_buf, anchors_update_buf, anchors_mtk_tx_set_dma_desc,
        anchors_update_buf. exact Em.
    + exact Em.
  - cbn [snd]. rewrite anchors_setup_tx_buf, anchors_update_buf, anchors_mtk_tx_set_dma_desc.
    reflexivity.
Qed.

Lemma buf_mtk_xdp_frame_map_ne env mac info idx seg headroom index do_map eth j :
  j <> idx ->
  buf (tx_ring (mtk_xdp_frame_map env mac info idx seg headroom index do_map eth).2) !!! j =
  buf (tx_ring eth) !!! j.
Proof.
  intros Hne. unfold mtk_xdp_frame_map. destruct do_map.
  - pose proof (buf_dma_map env (i_size info) eth) as Bm.
    destruct (dma_map env (i_size info) eth) as [[a|] eth1]; cbn [snd] in *.
    + rewrite buf_setup_tx_buf_ne, buf_update_buf_ne by exact Hne.
      rewrite buf_mtk_tx_set_dma_desc, buf_update_buf_ne by exact Hne.
      rewrite Bm. reflexivity.
    + rewrite Bm. reflexivity.
  - cbn [snd]. rewrite buf_setup_tx_buf_ne, buf_update_buf_ne by exact Hne.
    rewrite buf_mtk_tx_set_dma_desc. reflexivity.
Qed.

(** [mtk_xdp_frame_map] fails only on a failed mapping, and then
    without a trace in the bookkeeping array. *)
Lemma mtk_xdp_frame_map_result env mac info idx seg headroom index do_map eth :
  let r := mtk_xdp_frame_map env mac info idx seg headroom index do_map eth in
  (r.1.1 = 0 /\ i_last r.1.2 = i_last info) \/
  (r.1.1 = - ENOMEM /\ do_map = true /\ buf (tx_ring r.2) = buf (tx_ring eth) /\
   exists k, map_result env k = None).
Proof.
  unfold mtk_xdp_frame_map. destruct do_map.
  - pose proof (buf_dma_map env (i_size info) eth) as Bm.
    pose proof (dma_map_none env (i_size info) eth) as Nm.
    destruct (dma_map env (i_size info) eth) as [[a|] eth1]; cbn [fst snd] in *.
    + left. split; reflexivity.
    + right. split; [reflexivity|]. split; [reflexivity|]. split; [exact Bm|].
      exists (dma_calls eth). apply Nm. reflexivity.
  - left. split; reflexivity.
Qed.

(** The loop of [mtk_xdp_submit_frame] on the queue-aware ring, entered
    at the slot [c] places after the head slot [h] with room for the
    buffers still to come: it writes one slot per buffer, in order, and
    leaves through [unmap] only on a failed mapping. *)
Lemma xdp_submit_loop_inv env mac do_map headroom nr_frags n h f :
  forall rest info seg (c : nat) n_desc index eth,
    ring_ok eth -> caps_qdma (soc eth) = true -> ring_len eth = n ->
    (h < n)%nat -> (f + 2 <= n)%nat ->
    last_free (tx_ring eth) = slot_off n h (f + 1) ->
    (c + length rest <= f)%nat ->
    i_last info = match rest with [] => true | _ => false end ->
    Z.of_nat (length rest) = nr_frags - index ->
    in_use (buf (tx_ring eth) !!! slot_off n h c) = false ->
    match xdp_submit_loop env mac do_map headroom nr_frags rest info seg (slot_off n h c)
            n_desc index eth with
    | XdpDone txd' n_desc' _ eth' =>
        txd' = slot_off n h (c + length rest) /\
        n_desc' = n_desc + Z.of_nat (length rest) /\
        anchors eth' = anchors eth /\
        (forall j, (forall d, (c <= d <= c + length rest)%nat -> j <> slot_off n h d) ->
                   buf (tx_ring eth') !!! j = buf (tx_ring eth) !!! j)
    | XdpUnmap err txd' eth' =>
        err = - ENOMEM /\ do_map = true /\ (exists k, map_result env k = None) /\
        exists c', (c <= c' <= c + length rest)%nat /\ txd' = slot_off n h c' /\
          anchors eth' = anchors eth /\
          in_use (buf (tx_ring eth') !!! slot_off n h c') = false /\
          (forall j, (forall d, (c <= d <= c')%nat -> j <> slot_off n h d) ->
                     buf (tx_ring eth') !!! j = buf (tx_ring eth) !!! j)
    end.
Proof.
  induction rest as [|frag rest IH];
    intros info seg c n_desc index eth Hok Hq Hl Hh Hf Hlf Hroom Hlast Hcount Hfree.
  all: cbn [xdp_submit_loop].
  all: pose proof (anchors_mtk_xdp_frame_map env mac info (slot_off n h c) seg headroom
                     index do_map eth) as Em.
  all: pose proof (mtk_xdp_frame_map_result env mac info (slot_off n h c) seg headroom
                     index do_map eth) as Hres.
  all: pose proof (fun j => buf_mtk_xdp_frame_map_ne env mac info (slot_off n h c) seg
                     headroom index do_map eth j) as Bne.
  all: cbv zeta in Hres.
  all: destruct (mtk_xdp_frame_map env mac info (slot_off n h c) seg headroom index do_map eth)
         as [[err info1] eth1]; cbn [fst snd] in Em, Hres, Bne.
  all: destruct Hres as [[-> Hl1]|(-> & Hdm & Hb & Hk)].
  all: try (replace (- ENOMEM <? 0) with true by reflexivity;
            split; [reflexivity|]; split; [exact Hdm|]; split; [exact Hk|];
            exists c; split; [lia|]; split; [reflexivity|]; split; [exact Em|];
            split; [rewrite Hb; exact Hfree|];
            intros j Hj; rewrite Hb; reflexivity).
  all: replace (0 <? 0) with false by reflexivity.
  all: rewrite Hl1, Hlast.
  - cbn [length]. rewrite Nat.add_0_r.
    split; [reflexivity|]. split; [lia|]. split; [exact Em|].
    intros j Hj. apply Bne. apply Hj. lia.
  - cbn [length] in *.
    rewrite (anchors_soc _ _ Em), Hq. cbn [orb andb].
    assert (Hnext : next_desc eth1 (slot_off n h c) = slot_off n h (S c)).
    { rewrite (anchors_next_desc _ _ _ Em Hok) by (rewrite Hl; apply slot_off_lt; lia).
      rewrite Hl. apply slot_succ_off. }
    rewrite Hnext, (anchors_last_free _ _ Em), Hlf.
    rewrite bool_decide_eq_false_2
      by (intros Heq; apply slot_off_inj in Heq; lia).
    set (eth2 := update_buf (slot_off n h (S c)) (fun _ => zero_buf) eth1).
    assert (E2 : anchors eth2 = anchors eth)
      by (unfold eth2; rewrite anchors_update_buf; exact Em).
    assert (B2 : forall j, j <> slot_off n h (S c) ->
                 buf (tx_ring eth2) !!! j = buf (tx_ring eth1) !!! j)
      by (intros j Hne; apply buf_update_buf_ne, Hne).
    assert (Hlenb : length (buf (tx_ring eth1)) = n).
    { pose proof (anchors_ring_ok _ _ Em Hok) as (_ & Hb1 & _).
      pose proof (anchors_ring_len _ _ Em) as Hl1'. unfold ring_len in *. lia. }
    assert (Z2 : in_use (buf (tx_ring eth2) !!! slot_off n h (S c)) = false).
    { unfold eth2. cbn. rewrite list_lookup_total_insert_eq; [reflexivity|].
      rewrite Hlenb. apply slot_off_lt. lia. }
    clearbody eth2.
    specialize (IH {| i_size := seg_len frag; i_addr := 0; i_vlan_tci := 0;
                      i_qid := mac; i_vlan := false; i_csum := false;
                      i_gso := false; i_first := false;
                      i_last := (index + 1 =? nr_frags) |}
                  frag (S c) (n_desc + 1) (index + 1) eth2
                  (anchors_ring_ok _ _ E2 Hok)
                  ltac:(rewrite (anchors_soc _ _ E2); exact Hq)
                  ltac:(rewrite (anchors_ring_len _ _ E2); exact Hl)
                  Hh Hf
                  ltac:(rewrite (anchors_last_free _ _ E2); exact Hlf)
                  ltac:(lia)).
    cbn [i_last] in IH.
    assert (Hlast' : (index + 1 =? nr_frags) = match rest with [] => true | _ => false end).
    { destruct rest; cbn [length] in Hcount.
      - apply Z.eqb_eq. lia.
      - apply Z.eqb_neq. lia. }
    specialize (IH Hlast' ltac:(lia) Z2).
    destruct (xdp_submit_loop _ _ _ _ _ _ _ _ _ _ _ eth2) as [txd' nd' ix' eth'|err txd' eth'].
    + destruct IH as (Ht & Hn & Ea & Hu).
      split; [rewrite Ht; f_equal; lia|]. split; [lia|]. split; [congruence|].
      intros j Hj. rewrite Hu by (intros d Hd; apply Hj; lia).
      rewrite B2 by (apply Hj; lia). apply Bne. apply Hj. lia.
    + destruct IH as (He & Hdm & Hk & c' & Hc' & Ht & Ea & Hz & Hu).
      split; [exact He|]. split; [exact Hdm|]. split; [exact Hk|].
      exists c'. split; [lia|]. split; [exact Ht|]. split; [congruence|].
      split; [exact Hz|].
      intros j Hj. rewrite Hu by (intros d Hd; apply Hj; lia).
      rewrite B2 by (apply Hj; lia). apply Bne. apply Hj. lia.
Qed.

(** The [unmap] loop from the head slot to the slot [m] places after it
    clears exactly the [m] slots before that slot. *)
Lemma xdp_unwind_exact n : forall m fuel htxd eth,
    ring_ok eth -> ring_len eth = n -> (htxd < n)%nat -> (m < n)%nat -> (m <= fuel)%nat ->
    exists eth',
      xdp_unwind fuel htxd (slot_off n htxd m) eth = Some eth' /\
      anchors eth' = anchors eth /\
      (forall d, (d < m)%nat -> in_use (buf (tx_ring eth') !!! slot_off n htxd d) = false) /\
      (forall j, (forall d, (d < m)%nat -> j <> slot_off n htxd d) ->
                 buf (tx_ring eth') !!! j = buf (tx_ring eth) !!! j).
Proof.
  induction m as [|m IH]; intros fuel htxd eth Hok Hl Hi Hm Hfuel.
  - rewrite slot_off_0 by exact Hi.
    exists eth. split.
    + destruct fuel; cbn [xdp_unwind]; rewrite bool_decide_eq_true_2 by reflexivity;
        reflexivity.
    + split; [reflexivity|]. split; [intros d Hd; lia|reflexivity].
  - destruct fuel as [|fuel]; [lia|]. cbn [xdp_unwind].
    rewrite bool_decide_eq_false_2.
    2: { rewrite <- (slot_off_0 n htxd Hi) at 1. intros Heq.
         apply slot_off_inj in Heq; lia. }
    set (eth3 := if caps_qdma (soc eth) then _ else _).
    assert (E3 : anchors eth3 = anchors eth).
    { unfold eth3. destruct (caps_qdma (soc eth)).
      - rewrite anchors_update_desc by reflexivity. apply anchors_mtk_tx_unmap.
      - rewrite anchors_update_pdma, anchors_update_desc by reflexivity.
        apply anchors_mtk_tx_unmap. }
    assert (B3 : buf (tx_ring eth3) =
                 <[htxd := cleared (buf (tx_ring eth) !!! htxd)]> (buf (tx_ring eth))).
    { destruct (mtk_tx_unmap_effect htxd false false eth)
        as (_ & _ & _ & _ & _ & _ & _ & _ & Er & _).
      unfold eth3. destruct (caps_qdma (soc eth)).
      - change (buf (tx_ring (update_desc htxd ?f ?e))) with (buf (tx_ring e)).
        rewrite Er. reflexivity.
      - change (buf (tx_ring (update_pdma htxd ?f (update_desc htxd ?g ?e))))
          with (buf (tx_ring e)).
        rewrite Er. reflexivity. }
    clearbody eth3.
    assert (Hlen : length (buf (tx_ring eth)) = n)
      by (destruct Hok as (_ & Hb & _); unfold ring_len in Hl; lia).
    assert (Hnext : next_desc eth3 htxd = slot_off n htxd 1).
    { rewrite (anchors_next_desc _ _ _ E3 Hok) by (rewrite Hl; exact Hi).
      rewrite Hl. reflexivity. }
    rewrite Hnext.
    destruct (IH fuel (slot_off n htxd 1) eth3) as (eth' & Hr & Ea & Hc & Hu).
    + apply (anchors_ring_ok _ _ E3 Hok).
    + rewrite (anchors_ring_len _ _ E3). exact Hl.
    + apply slot_off_lt. lia.
    + lia.
    + lia.
    + rewrite slot_off_off in Hr. cbn [Nat.add] in Hr.
      exists eth'. split; [exact Hr|]. split; [congruence|]. split.
      * intros d Hd. destruct d as [|d].
        -- rewrite slot_off_0 by exact Hi. rewrite Hu.
           ++ rewrite B3, list_lookup_total_insert_eq by lia. reflexivity.
           ++ intros d' Hd'. rewrite slot_off_off. cbn [Nat.add].
              rewrite <- (slot_off_0 n htxd Hi) at 1. intros Heq.
              apply slot_off_inj in Heq; lia.
        -- specialize (Hc d ltac:(lia)). rewrite slot_off_off in Hc. exact Hc.
      * intros j Hj. rewrite Hu.
        -- rewrite B3. apply list_lookup_total_insert_ne.
           specialize (Hj 0%nat ltac:(lia)). rewrite slot_off_0 in Hj by exact Hi.
           congruence.
        -- intros d Hd. rewrite slot_off_off. cbn [Nat.add]. apply Hj. lia.
Qed.

(** The invariant carries over to a state with the same anchors in which
    the free region is still empty. *)
Lemma ring_inv_keep eth e :
  ring_inv eth -> anchors e = anchors eth ->
  (forall j, in_use (buf (tx_ring eth) !!! j) = false ->
             in_use (buf (tx_ring e) !!! j) = false) ->
  ring_inv e.
Proof.
  intros ([Hok Hnf] & Hptr & f & Hfc & Hf2 & Hlf & Hfree) Ea Hkeep.
  pose proof (anchors_ring_len _ _ Ea) as El.
  pose proof (shape_next_free _ _ (anchors_shape _ _ Ea)) as En.
  destruct (anchors_last_free_ptr _ _ Ea) as [Elp Eph].
  unfold ring_inv. rewrite El, En, (anchors_free_count _ _ Ea), (anchors_last_free _ _ Ea),
    Elp, Eph, (anchors_soc _ _ Ea).
  split; [split; [apply (anchors_ring_ok _ _ Ea Hok)|rewrite En, El; exact Hnf]|].
  split; [exact Hptr|].
  exists f. split; [exact Hfc|]. split; [exact Hf2|]. split; [exact Hlf|].
  intros j Hj. apply Hkeep, Hfree, Hj.
Qed.

Lemma in_use_beyond (l : list mtk_tx_buf) j : (length l <= j)%nat -> in_use (l !!! j) = false.
Proof.
  intros Hj. rewrite list_lookup_total_alt, lookup_ge_None_2 by exact Hj. reflexivity.
Qed.

Lemma slot_off_cover n h j :
  (h < n)%nat -> (j < n)%nat -> exists d, (d < n)%nat /\ j = slot_off n h d.
Proof.
  intros Hh Hj. destruct (slot_reach n h j Hh Hj) as (k & Hk & Hit).
  exists k. split; [exact Hk|]. rewrite <- Hit. apply slot_iter_off, Hh.
Qed.

(** X8: [mtk_xdp_submit_frame] on a queue-aware ring that satisfies the
    ring invariant returns and keeps the invariant, and writes no slot
    that holds a buffer.  When it returns 0 the frame is on the ring: it
    took one slot for the head and one for each fragment, and the head
    slot points to the frame.  Otherwise it returns [-EBUSY] or
    [-ENOMEM] and the free-slot counter and the next free slot are as
    before.  Outside a reset, with more free slots than buffers plus
    one, only a failed mapping makes it fail, so a frame whose buffers
    are already mapped ([dma_map] false) is always taken. *)
Theorem xdp_submit_keeps_ring_inv env xdpf mac do_map eth :
  ring_inv eth -> caps_qdma (soc eth) = true ->
  let nr := Z.of_nat (length (xdp_frags xdpf)) in
  exists err eth',
    mtk_xdp_submit_frame env xdpf mac do_map eth = Some (err, eth') /\
    ring_inv eth' /\
    (forall j, in_use (buf (tx_ring eth) !!! j) = true ->
               buf (tx_ring eth') !!! j = buf (tx_ring eth) !!! j) /\
    ((err = 0 /\
      free_count (tx_ring eth') = free_count (tx_ring eth) - (1 + nr) /\
      data (buf (tx_ring eth') !!! next_free (tx_ring eth)) = ObjPtr (xdpf_obj xdpf)) \/
     ((err = - EBUSY \/ err = - ENOMEM) /\
      free_count (tx_ring eth') = free_count (tx_ring eth) /\
      next_free (tx_ring eth') = next_free (tx_ring eth))) /\
    (resetting eth = false -> 1 + nr < free_count (tx_ring eth) ->
     (do_map = true -> forall k, map_result env k <> None) -> err = 0).
Proof.
  intros Hinv Hq nr.
  pose proof Hinv as ([Hok Hnf] & Hptr & f & Hfc & Hf2 & Hlf & Hfree).
  set (n := ring_len eth) in *. set (h := next_free (tx_ring eth)) in *.
  assert (Hlenb : length (buf (tx_ring eth)) = n)
    by (destruct Hok as (_ & Hb & _); unfold n, ring_len; lia).
  assert (Refuse : forall e, e = - EBUSY ->
            exists err eth',
              Some (e, eth) = Some (err, eth') /\ ring_inv eth' /\
              (forall j, in_use (buf (tx_ring eth) !!! j) = true ->
                         buf (tx_ring eth') !!! j = buf (tx_ring eth) !!! j) /\
              ((err = 0 /\
                free_count (tx_ring eth') = free_count (tx_ring eth) - (1 + nr) /\
                data (buf (tx_ring eth') !!! h) = ObjPtr (xdpf_obj xdpf)) \/
               ((err = - EBUSY \/ err = - ENOMEM) /\
                free_count (tx_ring eth') = free_count (tx_ring eth) /\
                next_free (tx_ring eth') = h))).
  { intros e ->. exists (- EBUSY), eth. split; [reflexivity|]. split; [exact Hinv|].
    split; [reflexivity|]. right. split; [left; reflexivity|split; reflexivity]. }
  unfold mtk_xdp_submit_frame. fold nr h.
  destruct (resetting eth).
  { destruct (Refuse _ eq_refl) as (err & eth' & He & Hrest).
    exists err, eth'. split; [exact He|].
    destruct Hrest as (A & B & C). split; [exact A|]. split; [exact B|].
    split; [exact C|]. discriminate. }
  destruct (Z.leb_spec (free_count (tx_ring eth)) (1 + nr)) as [Hfull|Hroom].
  { destruct (Refuse _ eq_refl) as (err & eth' & He & Hrest).
    exists err, eth'. split; [exact He|].
    destruct Hrest as (A & B & C). split; [exact A|]. split; [exact B|].
    split; [exact C|]. intros _ Hlt. lia. }
  clear Refuse.
  rewrite bool_decide_eq_false_2.
  2: { rewrite Hlf. rewrite <- (slot_off_0 n h Hnf) at 1.
       intros Heq. apply slot_off_inj in Heq; lia. }
  set (L := length (xdp_frags xdpf)) in *.
  assert (HL : (L + 2 <= f)%nat) by (unfold nr in Hroom; lia).
  assert (Hout : forall j, in_use (buf (tx_ring eth) !!! j) = true ->
                 forall d, (d <= f + 1)%nat -> j <> slot_off n h d).
  { intros j Hj d Hd ->. rewrite Hfree in Hj by exact Hd. discriminate. }
  set (eth1 := update_buf h (fun _ => zero_buf) eth).
  assert (E1 : anchors eth1 = anchors eth) by apply anchors_update_buf.
  assert (B1 : forall j, j <> h -> buf (tx_ring eth1) !!! j = buf (tx_ring eth) !!! j)
    by (intros j Hne; apply buf_update_buf_ne, Hne).
  assert (Z1 : in_use (buf (tx_ring eth1) !!! h) = false).
  { unfold eth1. cbn. rewrite list_lookup_total_insert_eq by lia. reflexivity. }
  clearbody eth1.
  pose proof (xdp_submit_loop_inv env mac do_map (xdpf_headroom xdpf) nr n h f
                (xdp_frags xdpf)
                {| i_size := seg_len (xdpf_head xdpf); i_addr := 0; i_vlan_tci := 0;
                   i_qid := mac; i_vlan := false; i_csum := false; i_gso := false;
                   i_first := true; i_last := negb (xdp_frame_has_frags xdpf) |}
                (xdpf_head xdpf) 0%nat 1 0 eth1
                (anchors_ring_ok _ _ E1 Hok)
                ltac:(rewrite (anchors_soc _ _ E1); exact Hq)
                (anchors_ring_len _ _ E1) Hnf Hf2
                ltac:(rewrite (anchors_last_free _ _ E1); exact Hlf)
                ltac:(fold L; lia)
                ltac:(unfold xdp_frame_has_frags; destruct (xdp_frags xdpf); reflexivity)
                ltac:(unfold nr; lia)
                ltac:(rewrite slot_off_0 by exact Hnf; exact Z1)) as X.
  rewrite slot_off_0 in X by exact Hnf. fold L in X. cbn [Nat.add] in X.
  destruct (xdp_submit_loop _ _ _ _ _ _ _ _ _ _ _ eth1) as [txd' nd ix eth2|err txd' eth2].
  - (* committed *)
    destruct X as (Ht & Hn & Ea & Hu).
    assert (E2 : anchors eth2 = anchors eth) by congruence.
    cbv zeta. rewrite Hq. cbv iota.
    set (eth4 := update_buf h (with_data (ObjPtr (xdpf_obj xdpf))) eth2).
    assert (E4 : anchors eth4 = anchors eth)
      by (unfold eth4; rewrite anchors_update_buf; exact E2).
    assert (Hlen2 : length (buf (tx_ring eth2)) = n).
    { pose proof (anchors_ring_ok _ _ E2 Hok) as (_ & Hb2 & _).
      pose proof (anchors_ring_len _ _ E2) as Hl2. unfold n, ring_len in *. lia. }
    assert (B4 : forall j, j <> h -> buf (tx_ring eth4) !!! j = buf (tx_ring eth2) !!! j)
      by (intros j Hne; apply buf_update_buf_ne, Hne).
    assert (D4 : data (buf (tx_ring eth4) !!! h) = ObjPtr (xdpf_obj xdpf)).
    { unfold eth4. cbn. rewrite list_lookup_total_insert_eq by lia. reflexivity. }
    assert (Hnd : next_desc eth4 txd' = slot_off n h (S L)).
    { rewrite (anchors_next_desc _ _ _ E4 Hok) by (rewrite Ht; apply slot_off_lt; lia).
      rewrite Ht. apply slot_succ_off. }
    clearbody eth4.
    set (eth6 := set_regs _ (set_tx_ring _ eth4)).
    assert (F6 : links eth6 = links eth4 /\
                 next_free (tx_ring eth6) = next_desc eth4 txd' /\
                 free_count (tx_ring eth6) = free_count (tx_ring eth4) + - nd /\
                 last_free (tx_ring eth6) = last_free (tx_ring eth4) /\
                 last_free_ptr (tx_ring eth6) = last_free_ptr (tx_ring eth4) /\
                 buf (tx_ring eth6) = buf (tx_ring eth4)).
    { unfold eth6, links. tx_proj. repeat split. }
    clearbody eth6. destruct F6 as (L6 & N6 & C6 & A6 & P6 & B6).
    assert (Untouched : forall j, (forall d, (d <= L)%nat -> j <> slot_off n h d) ->
                                  buf (tx_ring eth6) !!! j = buf (tx_ring eth) !!! j).
    { intros j Hj.
      assert (Hne : j <> h)
        by (specialize (Hj 0%nat ltac:(lia)); rewrite slot_off_0 in Hj by exact Hnf; exact Hj).
      rewrite B6, (B4 _ Hne), Hu by (intros d Hd; apply Hj; lia).
      apply B1, Hne. }
    exists 0, eth6. split; [reflexivity|].
    destruct (anchors_last_free_ptr _ _ E4) as [Elp Eph].
    assert (Eph6 : phys (tx_ring eth6) = phys (tx_ring eth))
      by (unfold links in L6; congruence).
    split.
    { unfold ring_inv.
      rewrite (links_ring_len _ _ L6), (anchors_ring_len _ _ E4), N6, Hnd, C6, A6, P6,
        (anchors_free_count _ _ E4), (anchors_last_free _ _ E4), Elp, Eph6,
        (links_soc _ _ L6), (anchors_soc _ _ E4), Hn.
      fold n.
      split.
      { split; [apply (links_ring_ok _ _ L6), (anchors_ring_ok _ _ E4 Hok)|].
        rewrite N6, Hnd, (links_ring_len _ _ L6), (anchors_ring_len _ _ E4).
        apply slot_off_lt. lia. }
      split; [exact Hptr|].
      exists (f - (L + 1))%nat.
      split; [lia|]. split; [lia|]. split.
      - rewrite slot_off_off, Hlf. f_equal. lia.
      - intros j Hj. rewrite slot_off_off. rewrite Untouched.
        + apply Hfree. lia.
        + intros d Hd Heq. apply slot_off_inj in Heq; lia. }
    split.
    { intros j Hj. apply Untouched. intros d Hd. apply (Hout j Hj). lia. }
    split.
    { left. split; [reflexivity|].
      split; [rewrite C6, (anchors_free_count _ _ E4), Hn; unfold nr; fold L; lia|].
      rewrite B6. exact D4. }
    intros _ _ _. reflexivity.
  - (* unwound *)
    destruct X as (-> & Hdm & (k & Hk) & c' & Hc' & Ht & Ea & Hz & Hu).
    assert (E2 : anchors eth2 = anchors eth) by congruence.
    pose proof (anchors_ring_len _ _ E2) as Hl2. fold n in Hl2.
    destruct (xdp_unwind_exact n c' (length (dma (tx_ring eth2))) h eth2
                (anchors_ring_ok _ _ E2 Hok) Hl2 Hnf ltac:(lia)
                ltac:(unfold ring_len in Hl2; lia))
      as (eth3 & Hr & Ea3 & Hcl & Hun).
    rewrite Ht, Hr.
    assert (E3 : anchors eth3 = anchors eth) by congruence.
    assert (Hlen3 : length (buf (tx_ring eth3)) = n).
    { pose proof (anchors_ring_ok _ _ E3 Hok) as (_ & Hb3 & _).
      pose proof (anchors_ring_len _ _ E3) as Hl3. unfold n, ring_len in *. lia. }
    exists (- ENOMEM), eth3. split; [reflexivity|].
    split.
    { apply (ring_inv_keep eth eth3 Hinv E3).
      intros j Hj.
      destruct (decide (j < n)%nat) as [Hjn|Hjn];
        [|apply in_use_beyond; lia].
      destruct (slot_off_cover n h j Hnf Hjn) as (d & Hd & ->).
      destruct (decide (d < c')%nat) as [Hlt|Hge]; [apply Hcl, Hlt|].
      rewrite Hun by (intros d' Hd' Heq; apply slot_off_inj in Heq; lia).
      destruct (decide (d = c')) as [->|Hne]; [exact Hz|].
      rewrite Hu by (intros d' Hd' Heq; apply slot_off_inj in Heq; lia).
      rewrite B1; [exact Hj|].
      rewrite <- (slot_off_0 n h Hnf) at 2. intros Heq.
      apply slot_off_inj in Heq; lia. }
    split.
    { intros j Hj.
      assert (Hne : j <> h).
      { rewrite <- (slot_off_0 n h Hnf). apply (Hout j Hj). lia. }
      rewrite Hun by (intros d Hd; apply (Hout j Hj); lia).
      rewrite Hu by (intros d Hd; apply (Hout j Hj); lia).
      apply B1, Hne. }
    split.
    { right. split; [right; reflexivity|].
      split; [apply (anchors_free_count _ _ E3)|].
      apply (shape_next_free _ _ (anchors_shape _ _ E3)). }
    intros _ _ Hmaps. destruct (Hmaps Hdm k Hk).
Qed.
End WithHeader.

(** *** A reference configuration for the examples

    The header values below are those of the driver's [mtk_eth_soc.h];
    they are used only to run the model on concrete inputs. *)

Definition ref_header (qdma_ring_size : Z) : header :=
  {| TX_DMA_OWNER_CPU := BIT 31;
     TX_DMA_LS0 := BIT 30;
     TX_DMA_LS1 := BIT 14;
     TX_DMA_SWC := BIT 14;
     TX_DMA_PQID := GENMASK 3 0;
     TX_DMA_FPORT_SHIFT := 25;
     TX_DMA_TSO := BIT 28;
     TX_DMA_CHKSUM := Z.shiftl 7 29;
     TX_DMA_INS_VLAN := BIT 16;
     TX_DMA_DESP2_DEF := Z.lor (BIT 30) (BIT 31);
     TX_DMA_FPORT_SHIFT_V2 := 8;
     TX_DMA_SWC_V2 := BIT 30;
     TX_DMA_TSO_V2 := BIT 31;
     TX_DMA_CHKSUM_V2 := Z.shiftl 7 28;
     TX_DMA_SPTAG_V3 := BIT 27;
     TX_DMA_INS_VLAN_V2 := BIT 16;
     PSE_GDM1_PORT := 1;
     PSE_GDM2_PORT := 2;
     PSE_GDM3_PORT := 15;
     QID_BITS_V2 := fun x => Z.shiftl (Z.land x 0x3f) 16;
     TX_DMA_PLEN0 := fun max_len ofs x => Z.shiftl (Z.land x max_len) ofs;
     TX_DMA_PLEN1 := fun max_len _ x => Z.land x max_len;
     TX_DMA_PREP_ADDR64 := fun x => FIELD_PREP (GENMASK 3 0) (Z.shiftr x 32);
     MTK_TX_FLAGS_SINGLE0 := 1;
     MTK_TX_FLAGS_PAGE0 := 2;
     MTK_QDMA_RING_SIZE := qdma_ring_size;
     MAX_SKB_FRAGS := 17;
     NEXT_DESP_IDX := fun x y => Z.land (x + 1) (y - 1);
     sizeof_xdp_frame := 40 |}.

(** [mt7621_data] and [rt5350_data] (the MT7628 family), with the ring
    depth of the legacy ring as a parameter. *)
Definition mt7621_soc : mtk_soc_data :=
  {| caps_qdma := true; caps_36bit_dma := false; version := 1;
     tx_desc_size := 16; tx_dma_max_len := 0x3fff; tx_dma_len_offset := 16;
     tx_dma_size := 2048 |}.

Definition rt5350_soc (depth : Z) : mtk_soc_data :=
  {| caps_qdma := false; caps_36bit_dma := false; version := 1;
     tx_desc_size := 16; tx_dma_max_len := 0x3fff; tx_dma_len_offset := 16;
     tx_dma_size := depth |}.

Definition idle_netdev : net_device :=
  {| tx_dropped := 0; rx_dropped := 0; queues_stopped := false; uses_dsa := false |}.

(** The device after probe, before its rings are allocated. *)
Definition probed (s : mtk_soc_data) : mtk_eth :=
  {| soc := s; resetting := false; tx_ring := empty_ring;
     regs := {| qdma_ctx_ptr := 0; qdma_dtx_ptr := 0; qdma_crx_ptr := 0;
                qdma_drx_ptr := 0; MT7628_TX_CTX_IDX0 := 0;
                MT7628_TX_DTX_IDX0 := 0 |};
     netdev := [Some idle_netdev; Some idle_netdev];
     tx_packets := 0; tx_bytes := 0; dma_mapped := []; dma_calls := 0%nat;
     released := []; bql := [] |}.

Definition alloc_ok : alloc_env :=
  {| buf_alloc_ok := true; ring_alloc := Some 0x1000000;
     pdma_alloc := Some 0x2000000 |}.

(** A device with a freshly allocated transmit ring. *)
Definition brought_up (H : header) (s : mtk_soc_data) : mtk_eth :=
  (mtk_tx_alloc H alloc_ok (probed s)).2.

Definition set_resetting (b : bool) (eth : mtk_eth) : mtk_eth :=
  {| soc := soc eth; resetting := b; tx_ring := tx_ring eth;
     regs := regs eth; netdev := netdev eth; tx_packets := tx_packets eth;
     tx_bytes := tx_bytes eth; dma_mapped := dma_mapped eth;
     dma_calls := dma_calls eth; released := released eth; bql := bql eth |}.

(** An environment in which the first [n] mapping requests succeed, each
    with its own page, and every later one fails. *)
Definition maps_then_fails (n : nat) : tx_env :=
  {| map_result := fun k =>
       if (k <? n)%nat then Some (0x4000000 + 0x1000 * Z.of_nat k) else None;
     cow_head_fails := false; ring_doorbell := true |}.

(** A packet with a linear part of [hl] bytes and the fragments [fs]. *)
Definition packet (hl : Z) (fs : list Z) (gso : bool) : sk_buff :=
  {| skb_obj := {| obj_id := 1; obj_len := hl + foldr Z.add 0 fs; obj_queue := 0 |};
     headlen := hl; frags := fs; is_gso := gso; gso_tcp := gso;
     ip_summed_partial := gso; vlan_tag_present := false; vlan_tag := 0 |}.

Definition frame (len : Z) : xdp_frame :=
  {| xdpf_obj := {| obj_id := 2; obj_len := len; obj_queue := 0 |};
     xdpf_head := {| seg_len := len; seg_page_dma := 0x5000000 |};
     xdpf_headroom := 256; xdp_frags := [] |}.

(** A ring whose last free slots are taken. *)
Definition nearly_full (eth : mtk_eth) : mtk_eth :=
  set_tx_ring (fun r => add_free_count (3 - free_count r) r) eth.

Lemma start_xmit_descriptor_requirement_witness :
  (exists eth',
    mtk_start_xmit (ref_header 256) (maps_then_fails 8) (packet 64 [1000; 1000] false) 0
      (nearly_full (brought_up (ref_header 256) mt7621_soc))
    = Some (NETDEV_TX_BUSY, eth') /\
    tx_ring eth' = tx_ring (nearly_full (brought_up (ref_header 256) mt7621_soc))) /\
  mtk_cal_txd_req (soc (brought_up (ref_header 256) mt7621_soc))
    (packet 64 [3000; 1000] true) = 1 + 2.
Proof.
  split.
  - destruct (start_xmit_descriptor_requirement (ref_header 256) (maps_then_fails 8)
                (packet 64 [1000; 1000] false) 0
                (nearly_full (brought_up (ref_header 256) mt7621_soc)))
      as (_ & _ & Hfull).
    destruct Hfull as (r & eth' & Hx & Hring & _ & _ & _ & _ & Hr).
    + vm_compute. discriminate.
    + change (resetting (nearly_full (brought_up (ref_header 256) mt7621_soc)))
        with false in Hr. cbv iota in Hr. destruct Hr as (-> & _).
      exists eth'. split; assumption.
  - destruct (start_xmit_descriptor_requirement (ref_header 256) (maps_then_fails 8)
                (packet 64 [3000; 1000] true) 0
                (brought_up (ref_header 256) mt7621_soc))
      as (_ & Hgso & _).
    rewrite Hgso.
    + vm_compute. reflexivity.
    + reflexivity.
    + vm_compute. reflexivity.
    + repeat constructor; vm_compute; intuition discriminate.
Defined.

(** C3 (as stated) fails: with [MTK_RESETTING] set and the ring full,
    [mtk_start_xmit] does not answer Busy; it drops the packet and
    returns [NETDEV_TX_OK]. *)
Lemma ring_full_counterexample :
  ~ full_ring_refused (ref_header 256) (maps_then_fails 8) (packet 64 [1000; 1000] false) 0
      (set_resetting true (nearly_full (brought_up (ref_header 256) mt7621_soc))).
Proof.
  intros Hc. destruct Hc as (eth' & Hx & _).
  - vm_compute. discriminate.
  - unfold mtk_start_xmit in Hx. cbn [resetting set_resetting] in Hx.
    unfold xmit_drop in Hx. discriminate Hx.
Qed.

Lemma reset_window_submissions_witness :
  mtk_xdp_submit_frame (ref_header 256) (maps_then_fails 8) (frame 64) 0 false
    (set_resetting true (brought_up (ref_header 256) mt7621_soc))
  = Some (- EBUSY, set_resetting true (brought_up (ref_header 256) mt7621_soc)).
Proof.
  exact (proj1 (reset_window_submissions (ref_header 256) (maps_then_fails 8)
                  (packet 64 [] false) (frame 64) 0 false
                  (set_resetting true (brought_up (ref_header 256) mt7621_soc))
                  eq_refl)).
Defined.

(** C5 (as stated) fails: in the reset window [mtk_start_xmit] answers
    [NETDEV_TX_OK], not Busy, and the device does not stay as it was (the
    packet is freed and counted as dropped). *)
Lemma reset_window_counterexample :
  ~ reset_rejects_with_busy (ref_header 256) (maps_then_fails 8)
      (packet 64 [] false) (frame 64) 0 false
      (set_resetting true (brought_up (ref_header 256) mt7621_soc)).
Proof.
  intros Hc. destruct (Hc eq_refl) as [Hx _].
  unfold mtk_start_xmit in Hx. cbn [resetting set_resetting] in Hx.
  unfold xmit_drop in Hx. discriminate Hx.
Qed.

Lemma brought_up_ok :
  ring_ok (brought_up (ref_header 256) mt7621_soc) /\
  ring_len (brought_up (ref_header 256) mt7621_soc) = 256%nat.
Proof.
  pose proof (mtk_tx_alloc_fresh (ref_header 256) alloc_ok (probed mt7621_soc)
                0x1000000 0x2000000 eq_refl eq_refl eq_refl eq_refl eq_refl
                ltac:(discriminate) ltac:(discriminate)) as (_ & Hok & Hlen & _).
  split; [exact Hok|exact Hlen].
Qed.


(** The same round trip on the legacy ring of an MT7628-class device. *)
Example single_packet_round_trip_legacy :
  match mtk_start_xmit (ref_header 2048) (maps_then_fails 8) (packet 64 [] false) 0
          (brought_up (ref_header 2048) (rt5350_soc 256)) with
  | Some (ret, eth2) =>
      ret = NETDEV_TX_OK /\ free_count (tx_ring eth2) = 253 /\
      match mtk_poll_tx (ref_header 2048) 64 (device_done (ref_header 2048) 0 eth2) with
      | Some (n, eth3) => n = 1 /\ free_count (tx_ring eth3) = 254
      | None => False
      end
  | None => False
  end.
Proof. vm_compute. repeat split. Qed.

(** A fragment of one and a half times [MTK_TX_DMA_BUF_LEN] (rounded
    down). *)
Definition tso_packet : sk_buff := packet 64 [0x3fff + 0x1fff] true.


(** The split seen in the descriptor words, with the header's layout of
    [txd3] (length in bits 16 to 29, last-segment flag in bit 30): after
    the head in slot 0, slot 1 carries 0x3fff bytes and is not last, slot
    2 carries the remaining 0x1fff bytes and is last. *)
Example tso_fragment_split_words :
  match mtk_start_xmit (ref_header 256) (maps_then_fails 8) tso_packet 0
          (brought_up (ref_header 256) mt7621_soc) with
  | Some (ret, eth') =>
      ret = NETDEV_TX_OK /\
      free_count (tx_ring eth') = 251 /\ next_free (tx_ring eth') = 3%nat /\
      map (fun i => (Z.land (Z.shiftr (txd3 (desc_at (tx_ring eth') i)) 16) 0x3fff,
                     Z.testbit (txd3 (desc_at (tx_ring eth') i)) 30))
          [0; 1; 2]%nat
      = [(64, false); (0x3fff, false); (0x1fff, true)]
  | None => False
  end.
Proof. vm_compute. repeat split. Qed.

(** A packet with two fragments takes three slots; its reclaim costs one
    unit of budget and frees three slots. *)
Example reclaim_three_slots_one_packet :
  match mtk_start_xmit (ref_header 256) (maps_then_fails 8)
          (packet 64 [1000; 1000] false) 0
          (brought_up (ref_header 256) mt7621_soc) with
  | Some (_, eth2) =>
      let done :=
        update_desc 1 (fun d => with_txd3 (Z.lor (txd3 d) (BIT 31)) d)
          (update_desc 0 (fun d => with_txd3 (Z.lor (txd3 d) (BIT 31)) d)
             (device_done (ref_header 256) 2 eth2)) in
      free_count (tx_ring eth2) = 251 /\
      match mtk_poll_tx_qdma (ref_header 256) 64
              {| txq := None; total := 0; done := 0; bytes := 0 |} done with
      | Some (budget', state', eth3) =>
          budget' = 63 /\ total state' = 1 /\ free_count (tx_ring eth3) = 254 /\
          slots_reclaimed done eth3 = 3 /\ heads_reclaimed done eth3 = 1
      | None => False
      end
  | None => False
  end.
Proof. vm_compute. repeat split. Qed.

(** The device after a packet with two fragments was queued and sent:
    the slots 0 to 2 are completed. *)
Definition three_slots_done : mtk_eth :=
  match mtk_start_xmit (ref_header 256) (maps_then_fails 8)
          (packet 64 [1000; 1000] false) 0
          (brought_up (ref_header 256) mt7621_soc) with
  | Some (_, eth2) =>
      update_desc 1 (fun d => with_txd3 (Z.lor (txd3 d) (BIT 31)) d)
        (update_desc 0 (fun d => with_txd3 (Z.lor (txd3 d) (BIT 31)) d)
           (device_done (ref_header 256) 2 eth2))
  | None => brought_up (ref_header 256) mt7621_soc
  end.

Definition poll_start : mtk_poll_state := {| txq := None; total := 0; done := 0; bytes := 0 |}.

(** With a budget of 2 the reclaim walks the three slots of the packet
    and has 1 left: the two fragment slots cost nothing. *)
Lemma reclaim_budget_counts_heads_witness :
  exists slots budget' state' eth',
    mtk_poll_tx_qdma (ref_header 256) 2 poll_start three_slots_done
      = Some (budget', state', eth') /\
    budget' = 1 /\ length slots = 3%nat /\
    among is_head (buf (tx_ring three_slots_done)) slots = 1 /\
    returned (ref_header 256) slots 2 three_slots_done budget' eth' /\
    free_count (tx_ring eth') = free_count (tx_ring three_slots_done) + 3.
Proof.
  pose proof (reclaim_budget_counts_heads (ref_header 256) 2 poll_start three_slots_done) as T.
  cbv zeta in T.
  destruct T as (_ & (slots & cpu' & desc' & eth' & Hcall & _ & _ & _ & Hret & _) & _).
  assert (C : (fun x => (x.1.1, free_count (tx_ring x.2))) <$>
              mtk_poll_tx_qdma (ref_header 256) 2 poll_start three_slots_done
              = Some (1, 254)) by (vm_compute; reflexivity).
  rewrite Hcall in C. cbn [fmap option_fmap option_map fst snd] in C.
  injection C as Cb Cf.
  assert (F0 : free_count (tx_ring three_slots_done) = 251) by (vm_compute; reflexivity).
  pose proof Hret as (_ & _ & R3 & R4 & _).
  rewrite Cb in R3. rewrite Cf, F0 in R4.
  eexists slots, _, _, eth'. split; [exact Hcall|].
  split; [exact Cb|]. split; [lia|]. split; [lia|]. split; [exact Hret|].
  rewrite Cf, F0. reflexivity.
Defined.

(** C1 on the legacy ring: a packet with three fragments whose third
    fragment fails to map.  The head and the first fragment share slot 0,
    the second fragment is in slot 1, and the third does not open a slot,
    so the unwinding loop, which runs from the head slot up to but not
    including the current slot, stops before slot 1: [mtk_tx_map] returns
    [-ENOMEM] and leaves the free-slot counter alone, but slot 1 still
    holds the second fragment, and its mapping stays active. *)
Theorem tx_map_unwind_legacy_leak :
  let eth := brought_up (ref_header 2048) (rt5350_soc 2048) in
  match mtk_tx_map (ref_header 2048) (maps_then_fails 3)
          (packet 64 [100; 100; 100] false) 0 false eth with
  | Some (ret, eth') =>
      ret = - ENOMEM /\
      free_count (tx_ring eth') = free_count (tx_ring eth) /\
      dma_mapped eth = [] /\
      dma_mapped eth' = [(0x4002000, 100)] /\
      mtk_desc_to_tx_buf (tx_ring eth) 1 = zero_buf /\
      data (mtk_desc_to_tx_buf (tx_ring eth') 1) = DummyDesc /\
      dma_len0 (mtk_desc_to_tx_buf (tx_ring eth') 1) = 100 /\
      txd2 (pdma_at (tx_ring eth) 1) = TX_DMA_DESP2_DEF (ref_header 2048) /\
      txd2 (pdma_at (tx_ring eth') 1) <> TX_DMA_DESP2_DEF (ref_header 2048)
  | None => False
  end.
Proof. vm_compute. repeat split; discriminate. Qed.

(** On the same ring a mapping failure on the first fragment, which
    shares the head slot, makes the unwinding loop go once around the
    whole ring: a packet submitted earlier and still owned by the device
    (slot 0 here) is freed and unmapped by the failing submission. *)
Example tx_map_unwind_legacy_wraps :
  match mtk_start_xmit (ref_header 2048) (maps_then_fails 2)
          (packet 64 [] false) 0
          (brought_up (ref_header 2048) (rt5350_soc 2048)) with
  | Some (_, eth1) =>
      data (mtk_desc_to_tx_buf (tx_ring eth1) 0)
        = ObjPtr (skb_obj (packet 64 [] false)) /\
      match mtk_tx_map (ref_header 2048) (maps_then_fails 2)
              (packet 64 [100] false) 0 false eth1 with
      | Some (ret, eth2) =>
          ret = - ENOMEM /\
          data (mtk_desc_to_tx_buf (tx_ring eth2) 0) = NullPtr /\
          released eth2 = [dev_kfree_skb_any (skb_obj (packet 64 [] false))]
      | None => False
      end
  | None => False
  end.
Proof. vm_compute. repeat split. Qed.



(** The same packet and the same failure on the queue-aware ring, where
    every buffer has a slot of its own: the loop unwinds the three slots
    written, no mapping stays active and no slot stays in use. *)
Example tx_map_unwind_queue_ring :
  let eth := brought_up (ref_header 256) mt7621_soc in
  match mtk_tx_map (ref_header 256) (maps_then_fails 3)
          (packet 64 [100; 100; 100] false) 0 false eth with
  | Some (ret, eth') =>
      ret = - ENOMEM /\
      free_count (tx_ring eth') = free_count (tx_ring eth) /\
      next_free (tx_ring eth') = next_free (tx_ring eth) /\
      dma_mapped eth' = [] /\
      forallb (fun b => negb (in_use b)) (buf (tx_ring eth')) = true /\
      map (fun i => txd3 (desc_at (tx_ring eth') i)) [0; 1; 2]%nat =
        replicate 3 (Z.lor (TX_DMA_LS0 (ref_header 256)) (TX_DMA_OWNER_CPU (ref_header 256)))
  | None => False
  end.
Proof. vm_compute. repeat split. Qed.

(** *** The ring-level theorems on the reference device *)

(** An environment in which every mapping request succeeds, each with
    its own page. *)
Definition maps_always : tx_env :=
  {| map_result := fun k => Some (0x4000000 + 0x1000 * Z.of_nat k);
     cow_head_fails := false; ring_doorbell := true |}.

Lemma brought_up_ring_inv :
  ring_inv (brought_up (ref_header 256) mt7621_soc) /\
  free_count (tx_ring (brought_up (ref_header 256) mt7621_soc)) = 254.
Proof.
  apply (mtk_tx_alloc_ring_inv (ref_header 256) alloc_ok (probed mt7621_soc)
           0x1000000 0x2000000 eq_refl eq_refl eq_refl eq_refl
           ltac:(discriminate) ltac:(discriminate) ltac:(discriminate)).
Qed.

(** A packet with one fragment that needs two descriptors and one that
    needs one. *)
Definition big_packet : sk_buff := packet 64 [0x3fff + 0x1fff; 100] false.

Lemma tx_alloc_establishes_ring_inv_witness :
  (mtk_tx_alloc (ref_header 256) alloc_ok (probed mt7621_soc)).1 = 0 /\
  ring_inv (brought_up (ref_header 256) mt7621_soc) /\
  free_count (tx_ring (brought_up (ref_header 256) mt7621_soc)) = 254.
Proof.
  destruct (tx_alloc_establishes_ring_inv (ref_header 256) alloc_ok (probed mt7621_soc)
              0x1000000 0x2000000 eq_refl eq_refl eq_refl eq_refl
              ltac:(discriminate) ltac:(discriminate) ltac:(discriminate))
    as (Hr & Hinv & Hfc & _).
  split; [exact Hr|]. split; [exact Hinv|exact Hfc].
Defined.

Lemma tx_map_slot_accounting_witness :
  exists ret eth',
    mtk_tx_map (ref_header 256) maps_always big_packet 0 false
      (brought_up (ref_header 256) mt7621_soc) = Some (ret, eth') /\
    tx_wf eth' /\
    (ret = - ENOMEM \/ (ret = 0 /\ free_count (tx_ring eth') = 250)).
Proof.
  pose proof (tx_map_slot_accounting (ref_header 256) maps_always big_packet 0 false
                (brought_up (ref_header 256) mt7621_soc)
                (proj1 (proj1 brought_up_ring_inv)) eq_refl) as X.
  destruct X as (ret & eth' & Hr & Hwf & _ & _ & Hres).
  - repeat constructor; discriminate.
  - exists ret, eth'. split; [exact Hr|]. split; [exact Hwf|].
    destruct Hres as [(-> & _)|(-> & Hq)]; [left; reflexivity|right].
    split; [reflexivity|]. destruct (Hq eq_refl) as [Hfc _].
    rewrite Hfc. vm_compute. reflexivity.
Defined.

Lemma start_xmit_takes_requirement_witness :
  exists r eth',
    mtk_start_xmit (ref_header 256) maps_always (packet 64 [1000; 1000] false) 0
      (brought_up (ref_header 256) mt7621_soc) = Some (r, eth') /\
    tx_wf eth' /\
    (r = NETDEV_TX_OK ->
     free_count (tx_ring eth') = 254 \/ free_count (tx_ring eth') = 251).
Proof.
  pose proof (start_xmit_takes_requirement (ref_header 256) maps_always
                (packet 64 [1000; 1000] false) 0
                (brought_up (ref_header 256) mt7621_soc)
                (proj1 (proj1 brought_up_ring_inv)) eq_refl eq_refl) as X.
  destruct X as (r & eth' & Hr & Hwf & Hres).
  - repeat constructor; discriminate.
  - right. repeat constructor; discriminate.
  - exists r, eth'. split; [exact Hr|]. split; [exact Hwf|].
    intros ->. destruct Hres as [Hfc|(_ & Hfc & _)].
    + left. rewrite Hfc. apply (proj2 brought_up_ring_inv).
    + right. rewrite Hfc. vm_compute. reflexivity.
Defined.

Lemma start_xmit_keeps_ring_inv_witness :
  exists eth',
    mtk_start_xmit (ref_header 256) maps_always (packet 64 [1000; 1000] false) 0
      (brought_up (ref_header 256) mt7621_soc) = Some (NETDEV_TX_OK, eth') /\
    ring_inv eth' /\ free_count (tx_ring eth') = 251.
Proof.
  pose proof (start_xmit_keeps_ring_inv (ref_header 256) maps_always
                (packet 64 [1000; 1000] false) 0
                (brought_up (ref_header 256) mt7621_soc)
                (proj1 brought_up_ring_inv) eq_refl eq_refl) as X.
  destruct X as (r & eth' & Hr & Hinv & _ & Hacc).
  - repeat constructor; discriminate.
  - right. repeat constructor; discriminate.
  - destruct Hacc as [-> Hfc].
    + reflexivity.
    + vm_compute. reflexivity.
    + reflexivity.
    + intros k. discriminate.
    + exists eth'. split; [exact Hr|]. split; [exact Hinv|].
      rewrite Hfc. vm_compute. reflexivity.
Defined.

Lemma xdp_xmit_accounting_witness :
  exists ret stats' eth',
    mtk_xdp_xmit (ref_header 256) maps_always 0 [frame 64; frame 128] 0
      {| tx_xdp_xmit := 10; tx_xdp_xmit_errors := 1 |}
      (brought_up (ref_header 256) mt7621_soc) = Some (ret, stats', eth') /\
    0 <= ret <= 2 /\
    tx_xdp_xmit stats' = 10 + ret /\ tx_xdp_xmit_errors stats' = 1 + (2 - ret).
Proof.
  destruct (xdp_xmit_accounting (ref_header 256) maps_always 0 [frame 64; frame 128] 0
              {| tx_xdp_xmit := 10; tx_xdp_xmit_errors := 1 |}
              (brought_up (ref_header 256) mt7621_soc)
              (proj1 (proj1 brought_up_ring_inv)))
    as (ret & stats' & eth' & Hr & _ & Hb & Hs & He & _).
  exists ret, stats', eth'. split; [exact Hr|]. split; [exact Hb|].
  split; [exact Hs|exact He].
Defined.

(** The reference device with one packet of three slots in flight. *)
Definition one_in_flight : mtk_eth :=
  match mtk_start_xmit (ref_header 256) maps_always (packet 64 [1000; 1000] false) 0
          (brought_up (ref_header 256) mt7621_soc) with
  | Some (_, eth) => eth
  | None => brought_up (ref_header 256) mt7621_soc
  end.

Lemma tx_clean_releases_held_witness :
  released (mtk_tx_clean (ref_header 256) one_in_flight) =
    released one_in_flight ++ clean_releases (buf (tx_ring one_in_flight)) /\
  buf (tx_ring (mtk_tx_clean (ref_header 256) one_in_flight)) = [].
Proof.
  destruct (tx_clean_releases_held (ref_header 256) one_in_flight) as (Hr & Hb & _).
  - vm_compute. reflexivity.
  - split; [exact Hr|exact Hb].
Defined.

Lemma poll_tx_keeps_ring_inv_witness :
  exists n eth',
    mtk_poll_tx (ref_header 256) 64 (brought_up (ref_header 256) mt7621_soc) = Some (n, eth') /\
    ring_inv eth' /\ 254 <= free_count (tx_ring eth').
Proof.
  destruct (poll_tx_keeps_ring_inv (ref_header 256) 64 (brought_up (ref_header 256) mt7621_soc)
              (proj1 brought_up_ring_inv) eq_refl)
    as (n & eth' & Hp & Hinv & _ & _ & Hfc & Hnn).
  exists n, eth'. split; [exact Hp|]. split; [exact Hinv|].
  rewrite Hfc, (proj2 brought_up_ring_inv). lia.
Defined.

(** A frame with a head and one fragment. *)
Definition frame_with_frag : xdp_frame :=
  {| xdpf_obj := {| obj_id := 3; obj_len := 192; obj_queue := 0 |};
     xdpf_head := {| seg_len := 128; seg_page_dma := 0x5000000 |};
     xdpf_headroom := 256;
     xdp_frags := [{| seg_len := 64; seg_page_dma := 0x5001000 |}] |}.

Lemma xdp_submit_keeps_ring_inv_witness :
  exists eth',
    mtk_xdp_submit_frame (ref_header 256) maps_always frame_with_frag 0 false
      (brought_up (ref_header 256) mt7621_soc) = Some (0, eth') /\
    ring_inv eth' /\ free_count (tx_ring eth') = 252.
Proof.
  destruct (xdp_submit_keeps_ring_inv (ref_header 256) maps_always frame_with_frag 0 false
              (brought_up (ref_header 256) mt7621_soc)
              (proj1 brought_up_ring_inv) eq_refl)
    as (err & eth' & Hs & Hinv & _ & Hres & Hok).
  assert (He : err = 0).
  { apply Hok; [reflexivity|vm_compute; reflexivity|discriminate]. }
  subst err. exists eth'. split; [exact Hs|]. split; [exact Hinv|].
  destruct Hres as [(_ & Hfc & _)|([Hx|Hx] & _)]; [|discriminate Hx..].
  rewrite Hfc, (proj2 brought_up_ring_inv). reflexivity.
Defined.
End Tx.

(** ** Receive ring and the XDP hook *)

Module Rx.

(** *** Constants and macros of [mtk_eth_soc.h] used by the receive path.
    [RX_DMA_PREP_PLEN0] and [RX_DMA_GET_PLEN0] read [eth->soc->rx]
    ([dma_max_len], [dma_len_offset]). *)
Record header := {
  RX_DMA_DONE : Z;
  RX_DMA_LSO : Z;
  RX_DMA_SPECIAL_TAG : Z;
  RX_DMA_ADDR64_MASK : Z;
  RX_DMA_PREP_PLEN0 : Z -> Z -> Z -> Z;
  RX_DMA_GET_PLEN0 : Z -> Z -> Z -> Z;
  RX_DMA_GET_ADDR64 : Z -> Z;
  RX_DMA_PREP_ADDR64 : Z -> Z;
  RX_DMA_GET_SPORT : Z -> Z;
  RX_DMA_GET_SPORT_V2 : Z -> Z;
  PSE_GDM1_PORT : Z;
  PSE_GDM2_PORT : Z;
  PSE_GDM3_PORT : Z;
  MTK_MAX_DEVS : Z;
  MTK_MAX_RX_RING_NUM : Z;
  MTK_GMAC3_ID : Z;
  NEXT_DESP_IDX : Z -> Z -> Z
}.

(** [enum xdp_action] of the kernel's user API. *)
Definition XDP_ABORTED : Z := 0.
Definition XDP_DROP : Z := 1.
Definition XDP_PASS : Z := 2.
Definition XDP_TX : Z := 3.
Definition XDP_REDIRECT : Z := 4.

(** [struct mtk_rx_dma_v2], as far as the poll loop reads or writes it. *)
Record mtk_rx_dma := {
  rxd1 : Z; rxd2 : Z; rxd3 : Z; rxd4 : Z; rxd5 : Z; rxd6 : Z
}.

Definition zero_rxd : mtk_rx_dma :=
  {| rxd1 := 0; rxd2 := 0; rxd3 := 0; rxd4 := 0; rxd5 := 0; rxd6 := 0 |}.

#[global] Instance mtk_rx_dma_inhabited : Inhabited mtk_rx_dma := populate zero_rxd.

(** [struct mtk_rx_ring].  A buffer is named by a number; [data] holds
    the buffer of every slot. *)
Record mtk_rx_ring := {
  dma : list mtk_rx_dma;
  data : list Z;
  calc_idx : Z;
  calc_idx_update : bool;
  dma_size : Z;
  frag_size : Z;
  buf_size : Z;
  page_pool : bool;          (* ring->page_pool != NULL *)
  crx_idx : Z                (* the value last written to crx_idx_reg *)
}.

(** [hw_stats->xdp_stats], the receive-side counters. *)
Record xdp_stats := {
  rx_xdp_redirect : Z;
  rx_xdp_pass : Z;
  rx_xdp_drop : Z;
  rx_xdp_tx : Z;
  rx_xdp_tx_errors : Z
}.

(** What the receive path does to its collaborators. *)
Inductive rx_event :=
| page_pool_put_full_page (b : Z)
| skb_free_frag (b : Z)
| dma_unmap_single (addr len : Z)
| napi_gro_receive (b len mac : Z)
| xdp_do_redirect (b : Z)
| xdp_do_flush
| bpf_warn_invalid_xdp_action (act : Z)
| trace_xdp_exception (act : Z).

(** The receive side of [struct mtk_eth]; [tx] is the transmit side and
    everything shared with it (capabilities, [MTK_RESETTING], the network
    devices).  [hw_stats m] are the XDP counters of MAC [m]. *)
Record mtk_eth := {
  tx : Tx.mtk_eth;
  caps_mt7628 : bool;        (* MTK_HAS_CAPS(caps, MTK_SOC_MT7628) *)
  rx_dma_max_len : Z;
  rx_dma_len_offset : Z;
  rx_ring : list mtk_rx_ring;
  hwlro : bool;
  prog : bool;               (* eth->prog != NULL *)
  hw_stats : Z -> xdp_stats;
  rx_packets : Z;
  rx_bytes : Z;
  events : list rx_event
}.

(** What one pass of the poll loop obtains from its environment. *)
Record rx_env := {
  pp_alloc : option (Z * Z);     (* mtk_page_pool_get_buff: buffer, bus address *)
  frag_alloc : option Z;         (* napi_alloc_frag / mtk_max_lro_buf_alloc *)
  rx_map : option Z;             (* dma_map_single of the new buffer *)
  build_skb_ok : bool;
  xdp_act : Z;                   (* bpf_prog_run_xdp *)
  xdp_redirect_fails : bool;     (* xdp_do_redirect(...) != 0 *)
  xdp_frame : option Tx.xdp_frame; (* xdp_convert_buff_to_frame *)
  xdp_tx_env : Tx.tx_env
}.

#[global] Instance mtk_rx_ring_inhabited : Inhabited mtk_rx_ring :=
  populate {| dma := []; data := []; calc_idx := 0; calc_idx_update := false;
              dma_size := 0; frag_size := 0; buf_size := 0; page_pool := false;
              crx_idx := 0 |}.

(** *** Field updates *)

Definition set_tx (f : Tx.mtk_eth -> Tx.mtk_eth) (eth : mtk_eth) : mtk_eth :=
  {| tx := f (tx eth); caps_mt7628 := caps_mt7628 eth;
     rx_dma_max_len := rx_dma_max_len eth;
     rx_dma_len_offset := rx_dma_len_offset eth; rx_ring := rx_ring eth;
     hwlro := hwlro eth; prog := prog eth; hw_stats := hw_stats eth;
     rx_packets := rx_packets eth; rx_bytes := rx_bytes eth;
     events := events eth |}.

Definition set_rx_ring (f : list mtk_rx_ring -> list mtk_rx_ring) (eth : mtk_eth) : mtk_eth :=
  {| tx := tx eth; caps_mt7628 := caps_mt7628 eth;
     rx_dma_max_len := rx_dma_max_len eth;
     rx_dma_len_offset := rx_dma_len_offset eth; rx_ring := f (rx_ring eth);
     hwlro := hwlro eth; prog := prog eth; hw_stats := hw_stats eth;
     rx_packets := rx_packets eth; rx_bytes := rx_bytes eth;
     events := events eth |}.

Definition set_hw_stats (f : (Z -> xdp_stats) -> Z -> xdp_stats) (eth : mtk_eth) : mtk_eth :=
  {| tx := tx eth; caps_mt7628 := caps_mt7628 eth;
     rx_dma_max_len := rx_dma_max_len eth;
     rx_dma_len_offset := rx_dma_len_offset eth; rx_ring := rx_ring eth;
     hwlro := hwlro eth; prog := prog eth; hw_stats := f (hw_stats eth);
     rx_packets := rx_packets eth; rx_bytes := rx_bytes eth;
     events := events eth |}.

Definition add_event (e : rx_event) (eth : mtk_eth) : mtk_eth :=
  {| tx := tx eth; caps_mt7628 := caps_mt7628 eth;
     rx_dma_max_len := rx_dma_max_len eth;
     rx_dma_len_offset := rx_dma_len_offset eth; rx_ring := rx_ring eth;
     hwlro := hwlro eth; prog := prog eth; hw_stats := hw_stats eth;
     rx_packets := rx_packets eth; rx_bytes := rx_bytes eth;
     events := events eth ++ [e] |}.

Definition add_rx_totals (pkts nbytes : Z) (eth : mtk_eth) : mtk_eth :=
  {| tx := tx eth; caps_mt7628 := caps_mt7628 eth;
     rx_dma_max_len := rx_dma_max_len eth;
     rx_dma_len_offset := rx_dma_len_offset eth; rx_ring := rx_ring eth;
     hwlro := hwlro eth; prog := prog eth; hw_stats := hw_stats eth;
     rx_packets := rx_packets eth + pkts; rx_bytes := rx_bytes eth + nbytes;
     events := events eth |}.

Definition with_ring_dma (f : list mtk_rx_dma -> list mtk_rx_dma) (r : mtk_rx_ring) : mtk_rx_ring :=
  {| dma := f (dma r); data := data r; calc_idx := calc_idx r;
     calc_idx_update := calc_idx_update r; dma_size := dma_size r;
     frag_size := frag_size r; buf_size := buf_size r;
     page_pool := page_pool r; crx_idx := crx_idx r |}.

Definition with_ring_data (f : list Z -> list Z) (r : mtk_rx_ring) : mtk_rx_ring :=
  {| dma := dma r; data := f (data r); calc_idx := calc_idx r;
     calc_idx_update := calc_idx_update r; dma_size := dma_size r;
     frag_size := frag_size r; buf_size := buf_size r;
     page_pool := page_pool r; crx_idx := crx_idx r |}.

Definition with_calc_idx (v : Z) (r : mtk_rx_ring) : mtk_rx_ring :=
  {| dma := dma r; data := data r; calc_idx := v;
     calc_idx_update := calc_idx_update r; dma_size := dma_size r;
     frag_size := frag_size r; buf_size := buf_size r;
     page_pool := page_pool r; crx_idx := crx_idx r |}.

Definition with_calc_idx_update (b : bool) (r : mtk_rx_ring) : mtk_rx_ring :=
  {| dma := dma r; data := data r; calc_idx := calc_idx r;
     calc_idx_update := b; dma_size := dma_size r;
     frag_size := frag_size r; buf_size := buf_size r;
     page_pool := page_pool r; crx_idx := crx_idx r |}.

Definition with_crx_idx (v : Z) (r : mtk_rx_ring) : mtk_rx_ring :=
  {| dma := dma r; data := data r; calc_idx := calc_idx r;
     calc_idx_update := calc_idx_update r; dma_size := dma_size r;
     frag_size := frag_size r; buf_size := buf_size r;
     page_pool := page_pool r; crx_idx := v |}.

Definition with_rxd1 (v : Z) (d : mtk_rx_dma) : mtk_rx_dma :=
  {| rxd1 := v; rxd2 := rxd2 d; rxd3 := rxd3 d; rxd4 := rxd4 d;
     rxd5 := rxd5 d; rxd6 := rxd6 d |}.

Definition with_rxd2 (v : Z) (d : mtk_rx_dma) : mtk_rx_dma :=
  {| rxd1 := rxd1 d; rxd2 := v; rxd3 := rxd3 d; rxd4 := rxd4 d;
     rxd5 := rxd5 d; rxd6 := rxd6 d |}.

Definition update_ring (i : nat) (f : mtk_rx_ring -> mtk_rx_ring) (eth : mtk_eth) : mtk_eth :=
  set_rx_ring (fun l => <[i := f (l !!! i)]> l) eth.

Definition update_rxd (i idx : nat) (f : mtk_rx_dma -> mtk_rx_dma) (eth : mtk_eth) : mtk_eth :=
  update_ring i (with_ring_dma (fun l => <[idx := f (l !!! idx)]> l)) eth.

(** [netdev->stats.rx_dropped++]. *)
Definition inc_rx_dropped (mac : Z) (eth : mtk_eth) : mtk_eth :=
  set_tx (Tx.set_netdev (fun l =>
    match l !! Z.to_nat mac with
    | Some (Some dev) =>
        <[Z.to_nat mac := Some {| Tx.tx_dropped := Tx.tx_dropped dev;
                                  Tx.rx_dropped := Tx.rx_dropped dev + 1;
                                  Tx.queues_stopped := Tx.queues_stopped dev;
                                  Tx.uses_dsa := Tx.uses_dsa dev |}]> l
    | _ => l
    end)) eth.

Definition rx_dropped_of (eth : mtk_eth) (mac : Z) : Z :=
  match Tx.netdev (tx eth) !! Z.to_nat mac with
  | Some (Some dev) => Tx.rx_dropped dev
  | _ => 0
  end.


Section WithHeader.

Variable HT : Tx.header.
Variable H : header.

(** *** [mtk_xdp_run] *)

(** The counter [count] points to. *)
Inductive xdp_counter :=
| redirect_counter | pass_counter | drop_counter | tx_counter | tx_errors_counter.

Definition bump (c : xdp_counter) (s : xdp_stats) : xdp_stats :=
  match c with
  | redirect_counter =>
      {| rx_xdp_redirect := rx_xdp_redirect s + 1; rx_xdp_pass := rx_xdp_pass s;
         rx_xdp_drop := rx_xdp_drop s; rx_xdp_tx := rx_xdp_tx s;
         rx_xdp_tx_errors := rx_xdp_tx_errors s |}
  | pass_counter =>
      {| rx_xdp_redirect := rx_xdp_redirect s; rx_xdp_pass := rx_xdp_pass s + 1;
         rx_xdp_drop := rx_xdp_drop s; rx_xdp_tx := rx_xdp_tx s;
         rx_xdp_tx_errors := rx_xdp_tx_errors s |}
  | drop_counter =>
      {| rx_xdp_redirect := rx_xdp_redirect s; rx_xdp_pass := rx_xdp_pass s;
         rx_xdp_drop := rx_xdp_drop s + 1; rx_xdp_tx := rx_xdp_tx s;
         rx_xdp_tx_errors := rx_xdp_tx_errors s |}
  | tx_counter =>
      {| rx_xdp_redirect := rx_xdp_redirect s; rx_xdp_pass := rx_xdp_pass s;
         rx_xdp_drop := rx_xdp_drop s; rx_xdp_tx := rx_xdp_tx s + 1;
         rx_xdp_tx_errors := rx_xdp_tx_errors s |}
  | tx_errors_counter =>
      {| rx_xdp_redirect := rx_xdp_redirect s; rx_xdp_pass := rx_xdp_pass s;
         rx_xdp_drop := rx_xdp_drop s; rx_xdp_tx := rx_xdp_tx s;
         rx_xdp_tx_errors := rx_xdp_tx_errors s + 1 |}
  end.

(** The [update_stats] label: [*count = *count + 1] on the statistics of
    MAC [mac]. *)
Definition update_stats (mac : Z) (count : xdp_counter) (eth : mtk_eth) : mtk_eth :=
  set_hw_stats (fun s m => if bool_decide (m = mac) then bump count (s m) else s m) eth.

(** After the [switch]: the page goes back to the pool, then
    [update_stats]. *)
Definition xdp_put_page (mac page : Z) (count : xdp_counter) (eth : mtk_eth) : mtk_eth :=
  update_stats mac count (add_event (page_pool_put_full_page page) eth).

(** [mtk_xdp_run(eth, ring, xdp, dev)] for the buffer [page] received on
    MAC [mac].  [None] only when the transmit ring walk of
    [mtk_xdp_submit_frame] does not end. *)
Definition mtk_xdp_run (env : rx_env) (page mac : Z) (eth : mtk_eth) : option (Z * mtk_eth) :=
  if negb (prog eth) then Some (XDP_PASS, eth)
  else
    let act := xdp_act env in
    if act =? XDP_PASS then Some (act, update_stats mac pass_counter eth)
    else if act =? XDP_REDIRECT then
      if xdp_redirect_fails env
      then Some (XDP_DROP, xdp_put_page mac page drop_counter eth)
      else Some (act, update_stats mac redirect_counter (add_event (xdp_do_redirect page) eth))
    else if act =? XDP_TX then
      match xdp_frame env with
      | None => Some (XDP_DROP, xdp_put_page mac page tx_errors_counter eth)
      | Some xdpf =>
          match Tx.mtk_xdp_submit_frame HT (xdp_tx_env env) xdpf mac false (tx eth) with
          | None => None
          | Some (err, tx') =>
              let eth1 := set_tx (fun _ => tx') eth in
              if nonzero err
              then Some (XDP_DROP, xdp_put_page mac page tx_errors_counter eth1)
              else Some (act, update_stats mac tx_counter eth1)
          end
      end
    else
      let eth1 :=
        if (act =? XDP_ABORTED) || (act =? XDP_DROP) then eth
        else add_event (bpf_warn_invalid_xdp_action act) eth in
      let eth2 :=
        if act =? XDP_DROP then eth1 else add_event (trace_xdp_exception act) eth1 in
      Some (act, xdp_put_page mac page drop_counter eth2).

(** *** [mtk_poll_rx] *)

(** The slot the ring reads next. *)
Definition next_idx (r : mtk_rx_ring) : nat :=
  Z.to_nat (NEXT_DESP_IDX H (calc_idx r) (dma_size r)).

(** The search of [mtk_get_rx_ring] under hardware LRO, from ring [i]. *)
Fixpoint get_rx_ring_from (n : nat) (i : nat) (eth : mtk_eth) : option (nat * mtk_eth) :=
  match n with
  | O => None
  | S n' =>
      let ring := rx_ring eth !!! i in
      if nonzero (Z.land (rxd2 (dma ring !!! next_idx ring)) (RX_DMA_DONE H))
      then Some (i, update_ring i (with_calc_idx_update true) eth)
      else get_rx_ring_from n' (S i) eth
  end.

(** [mtk_get_rx_ring]: the index of the ring, [None] for [NULL]. *)
Definition mtk_get_rx_ring (eth : mtk_eth) : option (nat * mtk_eth) :=
  if negb (hwlro eth) then Some (O, eth)
  else get_rx_ring_from (Z.to_nat (MTK_MAX_RX_RING_NUM H)) O eth.

(** [mtk_update_rx_cpu_idx]. *)
Definition mtk_update_rx_cpu_idx (eth : mtk_eth) : mtk_eth :=
  if negb (hwlro eth)
  then update_ring O (fun r => with_crx_idx (calc_idx r) r) eth
  else
    set_rx_ring (fun l =>
      imap (fun i r =>
        if bool_decide (i < Z.to_nat (MTK_MAX_RX_RING_NUM H))%nat && calc_idx_update r
        then with_crx_idx (calc_idx r) (with_calc_idx_update false r)
        else r) l) eth.

(** [mtk_rx_get_desc]: the copy [trxd] of a slot the device has filled.
    Words 5 and 6 are copied from NETSYS v3 on, and read only there. *)
Definition mtk_rx_get_desc (eth : mtk_eth) (rxd : mtk_rx_dma) : option mtk_rx_dma :=
  if nonzero (Z.land (rxd2 rxd) (RX_DMA_DONE H)) then
    Some {| rxd1 := rxd1 rxd; rxd2 := rxd2 rxd; rxd3 := rxd3 rxd; rxd4 := rxd4 rxd;
            rxd5 := if Tx.mtk_is_netsys_v3_or_greater (Tx.soc (tx eth)) then rxd5 rxd else 0;
            rxd6 := if Tx.mtk_is_netsys_v3_or_greater (Tx.soc (tx eth)) then rxd6 rxd else 0 |}
  else None.

(** The locals of [mtk_poll_rx] that live across passes of its loop;
    [dma_addr = None] is [DMA_MAPPING_ERROR]. *)
Record rx_locals := {
  done : Z;
  bytes : Z;
  dma_addr : option Z;
  addr64 : Z;
  xdp_flush : bool
}.

Definition rx_locals_init : rx_locals :=
  {| done := 0; bytes := 0; dma_addr := None; addr64 := 0; xdp_flush := false |}.

(** Which MAC the packet came from. *)
Definition rx_mac (eth : mtk_eth) (trxd : mtk_rx_dma) : Z :=
  if Tx.mtk_is_netsys_v3_or_greater (Tx.soc (tx eth)) then
    let val := RX_DMA_GET_SPORT_V2 H (rxd5 trxd) in
    if (val =? PSE_GDM1_PORT H) || (val =? PSE_GDM2_PORT H) then val - 1
    else if val =? PSE_GDM3_PORT H then MTK_GMAC3_ID H
    else 0
  else if negb (caps_mt7628 eth) && negb (nonzero (Z.land (rxd4 trxd) (RX_DMA_SPECIAL_TAG H)))
  then RX_DMA_GET_SPORT H (rxd4 trxd) - 1
  else 0.

(** The [release_desc] label for slot [idx] of ring [i]. *)
Definition release_desc (i idx : nat) (l : rx_locals) (eth : mtk_eth) : rx_locals * mtk_eth :=
  let ring := rx_ring eth !!! i in
  let rxd := dma ring !!! idx in
  let addr64' :=
    if Tx.caps_36bit_dma (Tx.soc (tx eth)) then
      match dma_addr l with
      | None => FIELD_GET (RX_DMA_ADDR64_MASK H) (rxd2 rxd)
      | Some a => RX_DMA_PREP_ADDR64 H a
      end
    else addr64 l in
  let v :=
    if caps_mt7628 eth then RX_DMA_LSO H
    else u32 (Z.lor (RX_DMA_PREP_PLEN0 H (rx_dma_max_len eth) (rx_dma_len_offset eth)
                       (buf_size ring)) addr64') in
  let eth1 := update_rxd i idx (with_rxd2 v) eth in
  let eth2 := update_ring i (with_calc_idx (Z.of_nat idx)) eth1 in
  ({| done := done l + 1; bytes := bytes l; dma_addr := dma_addr l;
      addr64 := addr64'; xdp_flush := xdp_flush l |}, eth2).

(** The [skip_rx] label: the slot takes the new buffer. *)
Definition skip_rx (i idx : nat) (new_data : Z) (l : rx_locals) (eth : mtk_eth) : rx_locals * mtk_eth :=
  let eth1 := update_ring i (with_ring_data (fun d => <[idx := new_data]> d)) eth in
  let eth2 :=
    update_rxd i idx
      (with_rxd1 (u32 (match dma_addr l with Some a => a | None => -1 end))) eth1 in
  release_desc i idx l eth2.

Definition with_dma_addr (a : option Z) (l : rx_locals) : rx_locals :=
  {| done := done l; bytes := bytes l; dma_addr := a; addr64 := addr64 l;
     xdp_flush := xdp_flush l |}.

Definition with_addr64 (a : Z) (l : rx_locals) : rx_locals :=
  {| done := done l; bytes := bytes l; dma_addr := dma_addr l; addr64 := a;
     xdp_flush := xdp_flush l |}.

Definition with_xdp_flush (b : bool) (l : rx_locals) : rx_locals :=
  {| done := done l; bytes := bytes l; dma_addr := dma_addr l; addr64 := addr64 l;
     xdp_flush := b |}.

Definition add_bytes (n : Z) (l : rx_locals) : rx_locals :=
  {| done := done l; bytes := bytes l + n; dma_addr := dma_addr l; addr64 := addr64 l;
     xdp_flush := xdp_flush l |}.

(** How one pass of the loop ends. *)
Inductive rx_pass :=
| RxStop (eth : mtk_eth)                    (* [break] or [goto rx_done] *)
| RxNext (l : rx_locals) (eth : mtk_eth)
| RxDiverge.

Definition rx_next (p : rx_locals * mtk_eth) : rx_pass := RxNext (fst p) (snd p).

(** The packet leaves for the stack: [bytes += skb->len] and
    [napi_gro_receive].  The hash, checksum and flow-offload marks put
    on the packet first touch neither ring nor counters; the length is
    that of the descriptor. *)
Definition deliver (b pktlen mac : Z) (l : rx_locals) (eth : mtk_eth) : rx_locals * mtk_eth :=
  (add_bytes pktlen l, add_event (napi_gro_receive b pktlen mac) eth).

(** One pass of [while (done < budget)]. *)
Definition poll_rx_pass (env : rx_env) (l : rx_locals) (eth : mtk_eth) : rx_pass :=
  match mtk_get_rx_ring eth with
  | None => RxStop eth
  | Some (i, eth) =>
      let ring := rx_ring eth !!! i in
      let idx := next_idx ring in
      let old_data := data ring !!! idx in
      match mtk_rx_get_desc eth (dma ring !!! idx) with
      | None => RxStop eth
      | Some trxd =>
          let mac := rx_mac eth trxd in
          if (mac <? 0) || (MTK_MAX_DEVS H <=? mac) || negb (Tx.netdev_present (tx eth) mac)
          then rx_next (release_desc i idx l eth)
          else if Tx.resetting (tx eth) then rx_next (release_desc i idx l eth)
          else
            let pktlen :=
              RX_DMA_GET_PLEN0 H (rx_dma_max_len eth) (rx_dma_len_offset eth) (rxd2 trxd) in
            if page_pool ring then
              match pp_alloc env with
              | None => rx_next (release_desc i idx l (inc_rx_dropped mac eth))
              | Some (new_data, a) =>
                  let l1 := with_dma_addr (Some a) l in
                  match mtk_xdp_run env old_data mac eth with
                  | None => RxDiverge
                  | Some (ret, eth1) =>
                      let l2 := if ret =? XDP_REDIRECT then with_xdp_flush true l1 else l1 in
                      if negb (ret =? XDP_PASS) then rx_next (skip_rx i idx new_data l2 eth1)
                      else if negb (build_skb_ok env) then
                        rx_next (skip_rx i idx new_data l2
                                   (inc_rx_dropped mac
                                      (add_event (page_pool_put_full_page old_data) eth1)))
                      else
                        let '(l3, eth2) := deliver old_data pktlen mac l2 eth1 in
                        rx_next (skip_rx i idx new_data l3 eth2)
                  end
              end
            else
              match frag_alloc env with
              | None => rx_next (release_desc i idx l (inc_rx_dropped mac eth))
              | Some new_data =>
                  let l1 := with_dma_addr (rx_map env) l in
                  match rx_map env with
                  | None =>
                      rx_next (release_desc i idx l1
                                 (inc_rx_dropped mac (add_event (skb_free_frag new_data) eth)))
                  | Some _ =>
                      let l2 :=
                        if Tx.caps_36bit_dma (Tx.soc (tx eth))
                        then with_addr64 (RX_DMA_GET_ADDR64 H (rxd2 trxd)) l1 else l1 in
                      let eth1 :=
                        add_event (dma_unmap_single (Z.lor (rxd1 trxd) (addr64 l2))
                                     (buf_size ring)) eth in
                      if negb (build_skb_ok env) then
                        rx_next (skip_rx i idx new_data l2
                                   (add_event (skb_free_frag old_data)
                                      (inc_rx_dropped mac eth1)))
                      else
                        let '(l3, eth2) := deliver old_data pktlen mac l2 eth1 in
                        rx_next (skip_rx i idx new_data l3 eth2)
                  end
              end
      end
  end.

(** The [rx_done] label. *)
Definition rx_done (l : rx_locals) (eth : mtk_eth) : Z * mtk_eth :=
  let eth1 := if nonzero (done l) then mtk_update_rx_cpu_idx eth else eth in
  let eth2 := add_rx_totals (done l) (bytes l) eth1 in
  let eth3 := if xdp_flush l then add_event xdp_do_flush eth2 else eth2 in
  (done l, eth3).

(** The loop, [n] passes at most; pass [k] draws [env k].  Every pass
    that does not leave the loop adds one to [done], so [budget] passes
    exhaust [done < budget]. *)
Fixpoint poll_rx_loop (n : nat) (k : nat) (env : nat -> rx_env) (budget : Z)
    (l : rx_locals) (eth : mtk_eth) : option (rx_locals * mtk_eth) :=
  if done l <? budget then
    match n with
    | O => None
    | S n' =>
        match poll_rx_pass (env k) l eth with
        | RxStop eth1 => Some (l, eth1)
        | RxNext l1 eth1 => poll_rx_loop n' (S k) env budget l1 eth1
        | RxDiverge => None
        end
    end
  else Some (l, eth).

(** [mtk_poll_rx(napi, budget, eth)]. *)
Definition mtk_poll_rx (env : nat -> rx_env) (budget : Z) (eth : mtk_eth) : option (Z * mtk_eth) :=
  match poll_rx_loop (Z.to_nat budget) O env budget rx_locals_init eth with
  | Some (l, eth1) => Some (rx_done l eth1)
  | None => None
  end.


(** *** The verdict counters *)

(** The sum of the per-verdict counters. *)
Definition verdicts (s : xdp_stats) : Z :=
  rx_xdp_redirect s + rx_xdp_pass s + rx_xdp_drop s + rx_xdp_tx s + rx_xdp_tx_errors s.

(** One invocation of the hook: what the program and the kernel answer,
    the buffer and the receiving MAC. *)
Record xdp_call := {
  call_env : rx_env;
  call_page : Z;
  call_mac : Z
}.

(** A window of invocations, in order. *)
Fixpoint xdp_runs (calls : list xdp_call) (eth : mtk_eth) : option mtk_eth :=
  match calls with
  | [] => Some eth
  | c :: calls' =>
      match mtk_xdp_run (call_env c) (call_page c) (call_mac c) eth with
      | Some (_, eth1) => xdp_runs calls' eth1
      | None => None
      end
  end.

(** The invocations of a window made for MAC [m]. *)
Definition calls_on (m : Z) (calls : list xdp_call) : Z :=
  Z.of_nat (length (List.filter (fun c => bool_decide (call_mac c = m)) calls)).

(** The verdicts a program may return. *)
Definition known_verdict (act : Z) : bool :=
  (act =? XDP_ABORTED) || (act =? XDP_DROP) || (act =? XDP_PASS) ||
  (act =? XDP_TX) || (act =? XDP_REDIRECT).

Lemma verdicts_bump c s : verdicts (bump c s) = verdicts s + 1.
Proof. destruct c; unfold verdicts; cbn; lia. Qed.

(** Exactly one field moves, by one. *)
Lemma bump_one c s :
  let d f := f (bump c s) - f s in
  match c with
  | redirect_counter =>
      d rx_xdp_redirect = 1 /\ d rx_xdp_pass = 0 /\ d rx_xdp_drop = 0 /\
      d rx_xdp_tx = 0 /\ d rx_xdp_tx_errors = 0
  | pass_counter =>
      d rx_xdp_redirect = 0 /\ d rx_xdp_pass = 1 /\ d rx_xdp_drop = 0 /\
      d rx_xdp_tx = 0 /\ d rx_xdp_tx_errors = 0
  | drop_counter =>
      d rx_xdp_redirect = 0 /\ d rx_xdp_pass = 0 /\ d rx_xdp_drop = 1 /\
      d rx_xdp_tx = 0 /\ d rx_xdp_tx_errors = 0
  | tx_counter =>
      d rx_xdp_redirect = 0 /\ d rx_xdp_pass = 0 /\ d rx_xdp_drop = 0 /\
      d rx_xdp_tx = 1 /\ d rx_xdp_tx_errors = 0
  | tx_errors_counter =>
      d rx_xdp_redirect = 0 /\ d rx_xdp_pass = 0 /\ d rx_xdp_drop = 0 /\
      d rx_xdp_tx = 0 /\ d rx_xdp_tx_errors = 1
  end.
Proof. destruct c; cbn; repeat split; lia. Qed.

(** What one invocation with a program attached leaves behind. *)
Definition counted_once (mac : Z) (c : xdp_counter) (eth eth' : mtk_eth) : Prop :=
  forall m, hw_stats eth' m = if bool_decide (m = mac) then bump c (hw_stats eth m)
                              else hw_stats eth m.

Lemma mtk_xdp_run_counts env page mac eth :
  prog eth = true -> Tx.tx_wf (tx eth) ->
  exists act eth' c,
    mtk_xdp_run env page mac eth = Some (act, eth') /\
    prog eth' = true /\ Tx.tx_wf (tx eth') /\
    counted_once mac c eth eth' /\
    (known_verdict (xdp_act env) = false ->
     act = xdp_act env /\ c = drop_counter /\
     events eth' = events eth ++ [bpf_warn_invalid_xdp_action (xdp_act env);
                                  trace_xdp_exception (xdp_act env);
                                  page_pool_put_full_page page]).
Proof.
  intros Hp Hwf. unfold mtk_xdp_run, known_verdict. rewrite Hp. cbn [negb].
  assert (Known : forall (P : Prop) a b c d e,
             a || b || c || d || e = true -> a || b || c || d || e = false -> P).
  { intros P a b c d e -> Hf. discriminate Hf. }
  destruct (xdp_act env =? XDP_PASS) eqn:E2.
  { eexists _, _, pass_counter. split; [reflexivity|].
    split; [exact Hp|]. split; [exact Hwf|]. split; [intros m; reflexivity|].
    apply Known. rewrite !orb_true_r. reflexivity. }
  destruct (xdp_act env =? XDP_REDIRECT) eqn:E4.
  { destruct (xdp_redirect_fails env).
    - eexists _, _, drop_counter. split; [reflexivity|].
      split; [exact Hp|]. split; [exact Hwf|]. split; [intros m; reflexivity|].
      apply Known. rewrite !orb_true_r. reflexivity.
    - eexists _, _, redirect_counter. split; [reflexivity|].
      split; [exact Hp|]. split; [exact Hwf|]. split; [intros m; reflexivity|].
      apply Known. rewrite !orb_true_r. reflexivity. }
  destruct (xdp_act env =? XDP_TX) eqn:E3.
  { destruct (xdp_frame env) as [xdpf|].
    - destruct (Tx.mtk_xdp_submit_frame_returns HT (xdp_tx_env env) xdpf mac false
                  (tx eth) Hwf) as (err & tx' & Hr & Hwf').
      rewrite Hr. destruct (nonzero err).
      + eexists _, _, tx_errors_counter. split; [reflexivity|].
        split; [exact Hp|]. split; [exact Hwf'|]. split; [intros m; reflexivity|].
        apply Known. rewrite !orb_true_r. reflexivity.
      + eexists _, _, tx_counter. split; [reflexivity|].
        split; [exact Hp|]. split; [exact Hwf'|]. split; [intros m; reflexivity|].
        apply Known. rewrite !orb_true_r. reflexivity.
    - eexists _, _, tx_errors_counter. split; [reflexivity|].
      split; [exact Hp|]. split; [exact Hwf|]. split; [intros m; reflexivity|].
      apply Known. rewrite !orb_true_r. reflexivity. }
  eexists _, _, drop_counter. split; [reflexivity|].
  destruct (xdp_act env =? XDP_ABORTED) eqn:E0;
    destruct (xdp_act env =? XDP_DROP) eqn:E1; cbn [orb].
  all: split; [exact Hp|]; split; [exact Hwf|]; split; [intros m; reflexivity|].
  all: try discriminate.
  intros _. split; [reflexivity|]. split; [reflexivity|].
  cbn. rewrite <- !app_assoc. reflexivity.
Qed.

Lemma calls_on_cons m c calls :
  calls_on m (c :: calls) =
  (if bool_decide (m = call_mac c) then 1 else 0) + calls_on m calls.
Proof.
  unfold calls_on. cbn [List.filter].
  destruct (decide (m = call_mac c)) as [->|Hne].
  - rewrite !bool_decide_eq_true_2 by reflexivity. cbn [length]. lia.
  - rewrite (bool_decide_eq_false_2 (call_mac c = m)) by congruence.
    rewrite (bool_decide_eq_false_2 (m = call_mac c)) by congruence. lia.
Qed.

Lemma xdp_runs_counts : forall calls eth,
    prog eth = true -> Tx.tx_wf (tx eth) ->
    exists eth',
      xdp_runs calls eth = Some eth' /\
      forall m, verdicts (hw_stats eth' m) = verdicts (hw_stats eth m) + calls_on m calls.
Proof.
  induction calls as [|c calls IH]; intros eth Hp Hwf.
  - exists eth. split; [reflexivity|]. intros m. unfold calls_on. cbn. lia.
  - destruct (mtk_xdp_run_counts (call_env c) (call_page c) (call_mac c) eth Hp Hwf)
      as (act & eth1 & k & Hr & Hp1 & Hwf1 & Hc & _).
    destruct (IH eth1 Hp1 Hwf1) as (eth' & Hrs & Hsum).
    exists eth'. cbn [xdp_runs]. rewrite Hr. split; [exact Hrs|].
    intros m. rewrite Hsum, (Hc m), calls_on_cons.
    destruct (bool_decide (m = call_mac c)); [rewrite verdicts_bump|]; lia.
Qed.

(** C8.  With a program attached and the transmit ring well formed,
    every invocation of the XDP hook returns and adds one to exactly one
    of the five per-verdict counters of the receiving MAC, leaving the
    counters of every other MAC alone; over any window of invocations
    the sum of the counters of a MAC grows by the number of invocations
    made for it; and a verdict outside the known set comes back to the
    caller as it is (so not as [XDP_PASS]), with the warning and the
    exception trace raised, the buffer returned to the page pool and the
    drop counter the one incremented. *)
Theorem xdp_verdict_accounting eth :
  prog eth = true -> Tx.tx_wf (tx eth) ->
  (forall env page mac,
      exists act eth' c,
        mtk_xdp_run env page mac eth = Some (act, eth') /\
        counted_once mac c eth eth' /\
        verdicts (hw_stats eth' mac) = verdicts (hw_stats eth mac) + 1 /\
        (known_verdict (xdp_act env) = false ->
         act = xdp_act env /\ act <> XDP_PASS /\ c = drop_counter /\
         events eth' = events eth ++ [bpf_warn_invalid_xdp_action (xdp_act env);
                                      trace_xdp_exception (xdp_act env);
                                      page_pool_put_full_page page])) /\
  (forall calls,
      exists eth',
        xdp_runs calls eth = Some eth' /\
        forall m, verdicts (hw_stats eth' m)
                  = verdicts (hw_stats eth m) + calls_on m calls).
Proof.
  intros Hp Hwf. split.
  - intros env page mac.
    destruct (mtk_xdp_run_counts env page mac eth Hp Hwf)
      as (act & eth' & c & Hr & _ & _ & Hc & Hu).
    exists act, eth', c. split; [exact Hr|]. split; [exact Hc|]. split.
    + rewrite (Hc mac), bool_decide_eq_true_2 by reflexivity. apply verdicts_bump.
    + intros Hk. destruct (Hu Hk) as (Ha & Hd & He).
      repeat split; try assumption.
      rewrite Ha. intros Epass. unfold known_verdict in Hk. rewrite Epass in Hk.
      cbn in Hk. discriminate.
  - intros calls. apply xdp_runs_counts; assumption.
Qed.

(** *** A pass whose replacement buffer cannot be had *)

Ltac rx_proj :=
  cbn [set_tx set_rx_ring set_hw_stats add_event add_rx_totals
       with_ring_dma with_ring_data with_calc_idx with_calc_idx_update with_crx_idx
       with_rxd1 with_rxd2 update_ring update_rxd inc_rx_dropped
       tx caps_mt7628 rx_dma_max_len rx_dma_len_offset rx_ring hwlro prog hw_stats
       rx_packets rx_bytes events
       dma data calc_idx calc_idx_update dma_size frag_size buf_size page_pool crx_idx
       rxd1 rxd2 rxd3 rxd4 rxd5 rxd6
       done bytes dma_addr addr64 xdp_flush fst snd].

(** The value [release_desc] writes to [rxd2] of a slot that advertised
    [old], for a ring with buffers of [size] bytes. *)
Definition released_rxd2 (eth : mtk_eth) (l : rx_locals) (size old : Z) : Z :=
  if caps_mt7628 eth then RX_DMA_LSO H
  else u32 (Z.lor (RX_DMA_PREP_PLEN0 H (rx_dma_max_len eth) (rx_dma_len_offset eth) size)
              (if Tx.caps_36bit_dma (Tx.soc (tx eth)) then
                 match dma_addr l with
                 | None => FIELD_GET (RX_DMA_ADDR64_MASK H) old
                 | Some a => RX_DMA_PREP_ADDR64 H a
                 end
               else addr64 l)).

Lemma release_desc_effect i idx l eth :
  (i < length (rx_ring eth))%nat ->
  (idx < length (dma (rx_ring eth !!! i)))%nat ->
  let ring := rx_ring eth !!! i in
  let p := release_desc i idx l eth in
  done p.1 = done l + 1 /\ dma_addr p.1 = dma_addr l /\
  tx p.2 = tx eth /\ events p.2 = events eth /\ hw_stats p.2 = hw_stats eth /\
  data (rx_ring p.2 !!! i) = data ring /\
  calc_idx (rx_ring p.2 !!! i) = Z.of_nat idx /\
  rxd1 (dma (rx_ring p.2 !!! i) !!! idx) = rxd1 (dma ring !!! idx) /\
  rxd2 (dma (rx_ring p.2 !!! i) !!! idx) =
    released_rxd2 eth l (buf_size ring) (rxd2 (dma ring !!! idx)).
Proof.
  intros Hi Hidx ring p. unfold p, release_desc, released_rxd2. fold ring.
  rx_proj.
  rewrite !list_lookup_total_insert_eq by (rewrite ?length_insert; exact Hi).
  rx_proj.
  rewrite !list_lookup_total_insert_eq by exact Hidx.
  repeat split; reflexivity.
Qed.

Lemma rx_dropped_of_inc mac eth :
  Tx.netdev_present (tx eth) mac = true ->
  rx_dropped_of (inc_rx_dropped mac eth) mac = rx_dropped_of eth mac + 1.
Proof.
  unfold Tx.netdev_present, rx_dropped_of, inc_rx_dropped. rx_proj. cbn [Tx.netdev Tx.set_netdev].
  destruct (Tx.netdev (tx eth) !! Z.to_nat mac) as [[dev|]|] eqn:E; try discriminate.
  intros _. rewrite list_lookup_insert_eq by (eapply lookup_lt_Some; exact E).
  reflexivity.
Qed.

(** What the slot is handed back with when it keeps its buffer: empty,
    host-owned, the address bits it advertised. *)
Definition kept_rxd2 (eth : mtk_eth) (l : rx_locals) (size old : Z) : Z :=
  if caps_mt7628 eth then RX_DMA_LSO H
  else u32 (Z.lor (RX_DMA_PREP_PLEN0 H (rx_dma_max_len eth) (rx_dma_len_offset eth) size)
              (if Tx.caps_36bit_dma (Tx.soc (tx eth))
               then FIELD_GET (RX_DMA_ADDR64_MASK H) old else addr64 l)).

(** The buffers a failed replacement gives back. *)
Definition given_back (pool : bool) (env : rx_env) : list rx_event :=
  if pool then []
  else match frag_alloc env with Some b => [skb_free_frag b] | None => [] end.

(** The locals at [release_desc] after the failure: only a failed
    [dma_map_single] assigns [dma_addr]. *)
Definition after_failure (pool : bool) (env : rx_env) (l : rx_locals) : rx_locals :=
  if pool then l
  else match frag_alloc env with Some _ => with_dma_addr None l | None => l end.

(** A pass for a valid packet whose replacement (or its mapping) fails:
    the packet is dropped and counted, nothing is delivered, the slot
    keeps its buffer and the low address word, and [rxd2] is what
    [release_desc] makes of the locals. *)
Lemma failed_alloc_release env l eth i eth0 trxd :
  let ring := rx_ring eth0 !!! i in
  let idx := next_idx ring in
  let mac := rx_mac eth0 trxd in
  mtk_get_rx_ring eth = Some (i, eth0) ->
  (i < length (rx_ring eth0))%nat -> (idx < length (dma ring))%nat ->
  mtk_rx_get_desc eth0 (dma ring !!! idx) = Some trxd ->
  0 <= mac < MTK_MAX_DEVS H ->
  Tx.netdev_present (tx eth0) mac = true ->
  Tx.resetting (tx eth0) = false ->
  (if page_pool ring then pp_alloc env = None
   else frag_alloc env = None \/ rx_map env = None) ->
  exists l' eth',
    poll_rx_pass env l eth = RxNext l' eth' /\
    done l' = done l + 1 /\
    rx_dropped_of eth' mac = rx_dropped_of eth0 mac + 1 /\
    events eth' = events eth0 ++ given_back (page_pool ring) env /\
    data (rx_ring eth' !!! i) = data ring /\
    rxd1 (dma (rx_ring eth' !!! i) !!! idx) = rxd1 (dma ring !!! idx) /\
    rxd2 (dma (rx_ring eth' !!! i) !!! idx) =
      released_rxd2 eth0 (after_failure (page_pool ring) env l) (buf_size ring)
        (rxd2 (dma ring !!! idx)).
Proof.
  intros ring idx mac Hring Hi Hidx Hdesc Hmac Hdev Hrst Hfail.
  unfold poll_rx_pass. rewrite Hring. fold ring. fold idx. rewrite Hdesc. fold mac.
  replace (mac <? 0) with false by (symmetry; apply Z.ltb_ge; lia).
  replace (MTK_MAX_DEVS H <=? mac) with false by (symmetry; apply Z.leb_gt; lia).
  rewrite Hdev, Hrst. cbn [orb negb].
  assert (Fin : forall (l1 : rx_locals) (ev : list rx_event) (eth1 : mtk_eth),
             tx eth1 = tx (inc_rx_dropped mac eth0) -> rx_ring eth1 = rx_ring eth0 ->
             caps_mt7628 eth1 = caps_mt7628 eth0 ->
             rx_dma_max_len eth1 = rx_dma_max_len eth0 ->
             rx_dma_len_offset eth1 = rx_dma_len_offset eth0 ->
             events eth1 = events eth0 ++ ev ->
             done l1 = done l ->
             exists l' eth',
               rx_next (release_desc i idx l1 eth1) = RxNext l' eth' /\
               done l' = done l + 1 /\
               rx_dropped_of eth' mac = rx_dropped_of eth0 mac + 1 /\
               events eth' = events eth0 ++ ev /\
               data (rx_ring eth' !!! i) = data ring /\
               rxd1 (dma (rx_ring eth' !!! i) !!! idx) = rxd1 (dma ring !!! idx) /\
               rxd2 (dma (rx_ring eth' !!! i) !!! idx) =
                 released_rxd2 eth0 l1 (buf_size ring) (rxd2 (dma ring !!! idx))).
  { intros l1 ev eth1 Et Er Ec Em Eo Ee Ed.
    destruct (release_desc_effect i idx l1 eth1) as (R1 & _ & R3 & R4 & _ & R6 & _ & R8 & R9).
    { rewrite Er. exact Hi. }
    { rewrite Er. exact Hidx. }
    eexists _, _. split; [reflexivity|].
    rewrite Er in R6, R8, R9. fold ring in R6, R8, R9.
    split; [rewrite R1, Ed; reflexivity|].
    split.
    { unfold rx_dropped_of at 1. rewrite R3, Et.
      apply (rx_dropped_of_inc mac eth0 Hdev). }
    split; [rewrite R4; exact Ee|].
    split; [exact R6|]. split; [exact R8|].
    rewrite R9. unfold released_rxd2. rewrite Ec, Em, Eo, Et. reflexivity. }
  unfold given_back, after_failure.
  destruct (page_pool ring).
  - rewrite Hfail. apply Fin; try reflexivity.
    symmetry; apply app_nil_r.
  - destruct (frag_alloc env) as [b|].
    + destruct Hfail as [Hfail|Hfail]; [discriminate|]. rewrite Hfail.
      apply Fin; reflexivity.
    + apply Fin; try reflexivity.
      symmetry; apply app_nil_r.
Qed.

(** On a device without 36-bit addresses, or before any replacement was
    mapped in this poll, the slot goes back to the device with the
    address it had. *)
Lemma failed_alloc_pass env l eth i eth0 trxd :
  let ring := rx_ring eth0 !!! i in
  let idx := next_idx ring in
  let mac := rx_mac eth0 trxd in
  mtk_get_rx_ring eth = Some (i, eth0) ->
  (i < length (rx_ring eth0))%nat -> (idx < length (dma ring))%nat ->
  mtk_rx_get_desc eth0 (dma ring !!! idx) = Some trxd ->
  0 <= mac < MTK_MAX_DEVS H ->
  Tx.netdev_present (tx eth0) mac = true ->
  Tx.resetting (tx eth0) = false ->
  (if page_pool ring then pp_alloc env = None
   else frag_alloc env = None \/ rx_map env = None) ->
  Tx.caps_36bit_dma (Tx.soc (tx eth0)) = false \/ dma_addr l = None ->
  exists l' eth',
    poll_rx_pass env l eth = RxNext l' eth' /\
    done l' = done l + 1 /\
    rx_dropped_of eth' mac = rx_dropped_of eth0 mac + 1 /\
    events eth' = events eth0 ++ given_back (page_pool ring) env /\
    data (rx_ring eth' !!! i) = data ring /\
    rxd1 (dma (rx_ring eth' !!! i) !!! idx) = rxd1 (dma ring !!! idx) /\
    rxd2 (dma (rx_ring eth' !!! i) !!! idx) =
      kept_rxd2 eth0 l (buf_size ring) (rxd2 (dma ring !!! idx)).
Proof.
  intros ring idx mac Hring Hi Hidx Hdesc Hmac Hdev Hrst Hfail Hfresh.
  destruct (failed_alloc_release env l eth i eth0 trxd Hring Hi Hidx Hdesc Hmac Hdev
              Hrst Hfail) as (l' & eth' & Hp & Hd & Hdr & He & Hda & H1 & H2).
  exists l', eth'. repeat (split; [assumption|]).
  fold ring idx in H2. rewrite H2. unfold released_rxd2, kept_rxd2, after_failure.
  destruct (caps_mt7628 eth0); [reflexivity|].
  destruct Hfresh as [-> | Hn]; [destruct (page_pool ring); [|destruct (frag_alloc env)];
                                  reflexivity|].
  destruct (Tx.caps_36bit_dma _);
    (destruct (page_pool ring); [|destruct (frag_alloc env)]);
    cbn [dma_addr addr64 with_dma_addr]; rewrite ?Hn; reflexivity.
Qed.

(** On a 36-bit device whose locals still hold the address [a] mapped
    by an earlier pass of the same poll, a failed allocation hands the
    slot back with the address bits of [a], whatever the slot
    advertised. *)
Lemma stale_alloc_pass env l eth i eth0 trxd a :
  let ring := rx_ring eth0 !!! i in
  let idx := next_idx ring in
  let mac := rx_mac eth0 trxd in
  mtk_get_rx_ring eth = Some (i, eth0) ->
  (i < length (rx_ring eth0))%nat -> (idx < length (dma ring))%nat ->
  mtk_rx_get_desc eth0 (dma ring !!! idx) = Some trxd ->
  0 <= mac < MTK_MAX_DEVS H ->
  Tx.netdev_present (tx eth0) mac = true ->
  Tx.resetting (tx eth0) = false ->
  page_pool ring = true -> pp_alloc env = None ->
  Tx.caps_36bit_dma (Tx.soc (tx eth0)) = true -> caps_mt7628 eth0 = false ->
  dma_addr l = Some a ->
  exists l' eth',
    poll_rx_pass env l eth = RxNext l' eth' /\
    rxd2 (dma (rx_ring eth' !!! i) !!! idx) =
      u32 (Z.lor (RX_DMA_PREP_PLEN0 H (rx_dma_max_len eth0) (rx_dma_len_offset eth0)
                    (buf_size ring))
                 (RX_DMA_PREP_ADDR64 H a)).
Proof.
  intros ring idx mac Hring Hi Hidx Hdesc Hmac Hdev Hrst Hpool Halloc H36 H28 Ha.
  destruct (failed_alloc_release env l eth i eth0 trxd Hring Hi Hidx Hdesc Hmac Hdev
              Hrst) as (l' & eth' & Hp & _ & _ & _ & _ & _ & H2).
  { fold ring. rewrite Hpool. exact Halloc. }
  exists l', eth'. split; [exact Hp|].
  fold ring idx in H2. rewrite H2. unfold released_rxd2, after_failure.
  rewrite H28, H36, Hpool, Ha. reflexivity.
Qed.

(** *** [mtk_poll_rx] returns *)

Lemma tx_wf_set_netdev f eth : Tx.tx_wf eth -> Tx.tx_wf (Tx.set_netdev f eth).
Proof. intros Hwf. exact Hwf. Qed.

Lemma mtk_xdp_run_returns env page mac eth :
  Tx.tx_wf (tx eth) ->
  exists act eth',
    mtk_xdp_run env page mac eth = Some (act, eth') /\ Tx.tx_wf (tx eth') /\
    rx_packets eth' = rx_packets eth.
Proof.
  intros Hwf. unfold mtk_xdp_run.
  destruct (prog eth); cbn [negb]; [|eauto].
  destruct (xdp_act env =? XDP_PASS); [eauto|].
  destruct (xdp_act env =? XDP_REDIRECT);
    [destruct (xdp_redirect_fails env); eauto|].
  destruct (xdp_act env =? XDP_TX).
  - destruct (xdp_frame env) as [xdpf|]; [|eauto].
    destruct (Tx.mtk_xdp_submit_frame_returns HT (xdp_tx_env env) xdpf mac false
                (tx eth) Hwf) as (err & tx' & Hr & Hwf').
    rewrite Hr. destruct (nonzero err); eauto.
  - destruct ((xdp_act env =? XDP_ABORTED) || (xdp_act env =? XDP_DROP));
      destruct (xdp_act env =? XDP_DROP); eauto.
Qed.

Lemma release_desc_done i idx l eth :
  done (release_desc i idx l eth).1 = done l + 1 /\
  tx (release_desc i idx l eth).2 = tx eth.
Proof. split; reflexivity. Qed.

Lemma skip_rx_done i idx new_data l eth :
  done (skip_rx i idx new_data l eth).1 = done l + 1 /\
  tx (skip_rx i idx new_data l eth).2 = tx eth.
Proof. split; reflexivity. Qed.

Lemma get_rx_ring_from_tx n : forall i eth j eth0,
    get_rx_ring_from n i eth = Some (j, eth0) ->
    tx eth0 = tx eth /\ rx_packets eth0 = rx_packets eth.
Proof.
  induction n as [|n IH]; intros i eth j eth0; cbn [get_rx_ring_from]; [discriminate|].
  destruct (nonzero _).
  - intros [= _ <-]. split; reflexivity.
  - apply IH.
Qed.

Lemma mtk_get_rx_ring_tx eth i eth0 :
  mtk_get_rx_ring eth = Some (i, eth0) ->
  tx eth0 = tx eth /\ rx_packets eth0 = rx_packets eth.
Proof.
  unfold mtk_get_rx_ring. destruct (hwlro eth); cbn [negb].
  - apply get_rx_ring_from_tx.
  - intros [= _ <-]. split; reflexivity.
Qed.

(** A pass on a well-formed device ends, and if the loop goes on, [done]
    went up by one.  The packet total is only touched after the loop. *)
Lemma poll_rx_pass_returns env l eth :
  Tx.tx_wf (tx eth) ->
  match poll_rx_pass env l eth with
  | RxStop eth' => Tx.tx_wf (tx eth') /\ rx_packets eth' = rx_packets eth
  | RxNext l' eth' =>
      Tx.tx_wf (tx eth') /\ rx_packets eth' = rx_packets eth /\ done l' = done l + 1
  | RxDiverge => False
  end.
Proof.
  intros Hwf. unfold poll_rx_pass.
  destruct (mtk_get_rx_ring eth) as [[i eth0]|] eqn:Hring; [|split; [exact Hwf|reflexivity]].
  destruct (mtk_get_rx_ring_tx _ _ _ Hring) as [Et Ep].
  assert (Hwf0 : Tx.tx_wf (tx eth0)) by (rewrite Et; exact Hwf).
  rewrite <- Ep. clear Hring Et Ep Hwf eth.
  destruct (mtk_rx_get_desc _ _) as [trxd|]; [|split; [exact Hwf0|reflexivity]].
  set (mac := rx_mac eth0 trxd).
  set (ring := rx_ring eth0 !!! i).
  set (idx := next_idx ring).
  destruct (_ || _ || _); [split; [exact Hwf0|split; reflexivity]|].
  destruct (Tx.resetting (tx eth0)); [split; [exact Hwf0|split; reflexivity]|].
  destruct (page_pool ring).
  - destruct (pp_alloc env) as [[new_data a]|]; [|split; [exact Hwf0|split; reflexivity]].
    destruct (mtk_xdp_run_returns env (data ring !!! idx) mac eth0 Hwf0)
      as (ret & eth1 & Hr & Hwf1 & Ep1).
    rewrite Hr, <- Ep1.
    destruct (negb (ret =? XDP_PASS)); [split; [exact Hwf1|];
      destruct (ret =? XDP_REDIRECT); split; reflexivity|].
    destruct (negb (build_skb_ok env)); (split; [exact Hwf1|];
      destruct (ret =? XDP_REDIRECT); split; reflexivity).
  - destruct (frag_alloc env) as [new_data|]; [|split; [exact Hwf0|split; reflexivity]].
    destruct (rx_map env) as [a|]; [|split; [exact Hwf0|split; reflexivity]].
    destruct (negb (build_skb_ok env)); (split; [exact Hwf0|];
      destruct (Tx.caps_36bit_dma _); split; reflexivity).
Qed.

Lemma poll_rx_loop_returns env budget : forall n k l eth,
    Tx.tx_wf (tx eth) -> budget - done l <= Z.of_nat n ->
    exists l' eth',
      poll_rx_loop n k env budget l eth = Some (l', eth') /\
      Tx.tx_wf (tx eth') /\ rx_packets eth' = rx_packets eth /\
      done l <= done l' /\ (done l <= budget -> done l' <= budget).
Proof.
  induction n as [|n IH]; intros k l eth Hwf Hfuel; cbn [poll_rx_loop].
  - destruct (done l <? budget) eqn:E; [apply Z.ltb_lt in E; lia|].
    exists l, eth. split; [reflexivity|]. split; [exact Hwf|]. split; [reflexivity|]. lia.
  - destruct (done l <? budget) eqn:E.
    2: { exists l, eth. split; [reflexivity|]. split; [exact Hwf|].
         split; [reflexivity|]. lia. }
    apply Z.ltb_lt in E.
    pose proof (poll_rx_pass_returns (env k) l eth Hwf) as Hp.
    destruct (poll_rx_pass (env k) l eth) as [eth1|l1 eth1|]; [| |contradiction].
    + destruct Hp as [Hwf1 Ep1].
      exists l, eth1. split; [reflexivity|]. split; [exact Hwf1|]. split; [exact Ep1|]. lia.
    + destruct Hp as (Hwf1 & Ep1 & Hd).
      destruct (IH (S k) l1 eth1 Hwf1 ltac:(lia)) as (l' & eth' & Hr & Hwf' & Ep' & Hle & Hb).
      exists l', eth'. split; [exact Hr|]. split; [exact Hwf'|].
      split; [congruence|]. lia.
Qed.

(** [mtk_poll_rx] returns, with at most [budget] packets done, and adds
    them to [eth->rx_packets]. *)
Lemma mtk_poll_rx_returns env budget eth :
  Tx.tx_wf (tx eth) -> 0 <= budget ->
  exists n eth',
    mtk_poll_rx env budget eth = Some (n, eth') /\
    Tx.tx_wf (tx eth') /\ 0 <= n <= budget /\
    rx_packets eth' = rx_packets eth + n.
Proof.
  intros Hwf Hb. unfold mtk_poll_rx.
  destruct (poll_rx_loop_returns env budget (Z.to_nat budget) O rx_locals_init eth Hwf)
    as (l' & eth' & Hr & Hwf' & Ep & Hle & Hub).
  { cbn [done rx_locals_init]. lia. }
  rewrite Hr. cbn [done rx_locals_init] in Hle, Hub.
  eexists _, _. split; [reflexivity|]. split; [|split].
  - unfold rx_done. cbn [snd].
    destruct (xdp_flush l'); destruct (nonzero (done l')); try exact Hwf'.
    all: unfold mtk_update_rx_cpu_idx; destruct (hwlro eth'); exact Hwf'.
  - cbn [fst rx_done]. lia.
  - unfold rx_done. cbn [fst snd]. rewrite <- Ep.
    destruct (xdp_flush l'); destruct (nonzero (done l')); try reflexivity.
    all: unfold mtk_update_rx_cpu_idx; destruct (hwlro eth'); reflexivity.
Qed.

(** *** A poll while the device is being reset *)

(** The buffers a ring holds: the bookkeeping array and the low address
    word of every descriptor. *)
Definition ring_bufs (r : mtk_rx_ring) : list Z * list Z := (data r, rxd1 <$> dma r).

(** What a pass that only recycles descriptors leaves alone. *)
Definition held (eth : mtk_eth)
  : Tx.mtk_eth * list rx_event * (Z -> xdp_stats) * Z * Z * list (list Z * list Z) :=
  (tx eth, events eth, hw_stats eth, rx_bytes eth, rx_packets eth,
   ring_bufs <$> rx_ring eth).

Lemma fmap_insert_keep {A B} `{Inhabited A} (g : A -> B) (f : A -> A) (l : list A) i :
  g (f (l !!! i)) = g (l !!! i) -> g <$> <[i := f (l !!! i)]> l = g <$> l.
Proof.
  intros Hg. rewrite list_fmap_insert, Hg.
  destruct (decide (i < length l)%nat) as [Hi|Hi].
  - apply list_insert_id. rewrite list_lookup_fmap.
    rewrite (list_lookup_lookup_total_lt l i Hi). reflexivity.
  - apply list_insert_ge. rewrite length_fmap. lia.
Qed.

Lemma held_update_ring i f eth :
  ring_bufs (f (rx_ring eth !!! i)) = ring_bufs (rx_ring eth !!! i) ->
  held (update_ring i f eth) = held eth.
Proof.
  intros Hf. unfold held, update_ring. rx_proj.
  rewrite (fmap_insert_keep ring_bufs f _ i Hf). reflexivity.
Qed.

Lemma held_release_desc i idx l eth :
  held (release_desc i idx l eth).2 = held eth /\
  bytes (release_desc i idx l eth).1 = bytes l /\
  xdp_flush (release_desc i idx l eth).1 = xdp_flush l /\
  done (release_desc i idx l eth).1 = done l + 1.
Proof.
  split; [|repeat split].
  unfold release_desc. cbn [snd]. rewrite held_update_ring by reflexivity.
  unfold update_rxd. apply held_update_ring.
  unfold ring_bufs. cbn [data dma with_ring_dma]. f_equal.
  apply (fmap_insert_keep rxd1). reflexivity.
Qed.

Lemma held_get_rx_ring_from n : forall i eth j eth0,
    get_rx_ring_from n i eth = Some (j, eth0) -> held eth0 = held eth.
Proof.
  induction n as [|n IH]; intros i eth j eth0; cbn [get_rx_ring_from]; [discriminate|].
  destruct (nonzero _).
  - intros [= _ <-]. apply held_update_ring. reflexivity.
  - apply IH.
Qed.

Lemma held_mtk_get_rx_ring eth i eth0 :
  mtk_get_rx_ring eth = Some (i, eth0) -> held eth0 = held eth.
Proof.
  unfold mtk_get_rx_ring. destruct (hwlro eth); cbn [negb].
  - apply held_get_rx_ring_from.
  - intros [= _ <-]. reflexivity.
Qed.

Lemma held_mtk_update_rx_cpu_idx eth : held (mtk_update_rx_cpu_idx eth) = held eth.
Proof.
  unfold mtk_update_rx_cpu_idx. destruct (hwlro eth); cbn [negb].
  - unfold held. rx_proj. f_equal. apply list_eq. intros i.
    rewrite !list_lookup_fmap, list_lookup_imap.
    destruct (rx_ring eth !! i) as [r|]; [|reflexivity]. cbn [fmap option_fmap option_map].
    destruct (_ && _); reflexivity.
  - apply held_update_ring. reflexivity.
Qed.

Lemma held_resetting eth eth' :
  held eth' = held eth -> Tx.resetting (tx eth') = Tx.resetting (tx eth).
Proof. unfold held. intros [= -> _ _ _ _ _]. reflexivity. Qed.

(** A pass during a reset stops at an empty slot or recycles the slot in
    place. *)
Lemma reset_pass env l eth :
  Tx.resetting (tx eth) = true ->
  match poll_rx_pass env l eth with
  | RxStop eth' => held eth' = held eth
  | RxNext l' eth' =>
      held eth' = held eth /\ bytes l' = bytes l /\ xdp_flush l' = xdp_flush l /\
      done l' = done l + 1
  | RxDiverge => False
  end.
Proof.
  intros Hrst. unfold poll_rx_pass.
  destruct (mtk_get_rx_ring eth) as [[i eth0]|] eqn:Hring; [|reflexivity].
  pose proof (held_mtk_get_rx_ring _ _ _ Hring) as H0.
  rewrite <- (held_resetting _ _ H0) in Hrst. rewrite <- H0.
  destruct (mtk_rx_get_desc _ _) as [trxd|]; [|reflexivity].
  rewrite Hrst.
  destruct (_ || _ || _); unfold rx_next; apply held_release_desc.
Qed.

Lemma reset_loop env budget : forall n k l eth,
    Tx.resetting (tx eth) = true -> budget - done l <= Z.of_nat n ->
    exists l' eth',
      poll_rx_loop n k env budget l eth = Some (l', eth') /\
      held eth' = held eth /\ bytes l' = bytes l /\ xdp_flush l' = xdp_flush l /\
      done l <= done l' /\ (done l <= budget -> done l' <= budget).
Proof.
  induction n as [|n IH]; intros k l eth Hrst Hfuel; cbn [poll_rx_loop].
  - destruct (done l <? budget) eqn:E; [apply Z.ltb_lt in E; lia|].
    exists l, eth. repeat split; try reflexivity; lia.
  - destruct (done l <? budget) eqn:E.
    2: { exists l, eth. repeat split; try reflexivity; lia. }
    apply Z.ltb_lt in E.
    pose proof (reset_pass (env k) l eth Hrst) as Hp.
    destruct (poll_rx_pass (env k) l eth) as [eth1|l1 eth1|]; [| |contradiction].
    + exists l, eth1. split; [reflexivity|]. split; [exact Hp|].
      repeat split; try reflexivity; lia.
    + destruct Hp as (Hh & Hb & Hx & Hd).
      destruct (IH (S k) l1 eth1) as (l' & eth' & Hr & Hh' & Hb' & Hx' & Hle & Hub).
      { rewrite (held_resetting _ _ Hh). exact Hrst. }
      { lia. }
      exists l', eth'. split; [exact Hr|]. split; [congruence|].
      split; [congruence|]. split; [congruence|]. lia.
Qed.

(** X10: [mtk_poll_rx] while [MTK_RESETTING] is set returns after at most
    [budget] descriptors, each handed back to the device in place: no
    packet is delivered, no buffer is allocated, freed or replaced, no
    byte and no drop is counted, and the transmit side is not touched.
    The descriptors handed back are still added to [eth->rx_packets]. *)
Theorem poll_rx_during_reset env budget eth :
  Tx.resetting (tx eth) = true -> 0 <= budget ->
  exists n eth',
    mtk_poll_rx env budget eth = Some (n, eth') /\
    0 <= n <= budget /\
    rx_packets eth' = rx_packets eth + n /\
    rx_bytes eth' = rx_bytes eth /\
    events eth' = events eth /\
    tx eth' = tx eth /\
    hw_stats eth' = hw_stats eth /\
    ring_bufs <$> rx_ring eth' = ring_bufs <$> rx_ring eth.
Proof.
  intros Hrst Hb. unfold mtk_poll_rx.
  destruct (reset_loop env budget (Z.to_nat budget) O rx_locals_init eth Hrst)
    as (l' & eth1 & Hr & Hh & Hby & Hx & Hle & Hub).
  { cbn [done rx_locals_init]. lia. }
  rewrite Hr. cbn [done bytes xdp_flush rx_locals_init] in Hby, Hx, Hle, Hub.
  unfold rx_done. rewrite Hx, Hby.
  set (eth2 := if nonzero (done l') then mtk_update_rx_cpu_idx eth1 else eth1).
  assert (Hh2 : held eth2 = held eth).
  { unfold eth2. destruct (nonzero (done l')); [|exact Hh].
    rewrite held_mtk_update_rx_cpu_idx. exact Hh. }
  clearbody eth2.
  unfold held in Hh2. injection Hh2 as Ht He Hs Hbb Hpk Hrg.
  eexists _, _. split; [reflexivity|]. rx_proj.
  split; [lia|]. split; [lia|]. split; [lia|].
  repeat split; assumption.
Qed.

(** *** What the byte counter counts *)

(** The packets and bytes handed to the stack by a list of events. *)
Definition ev_bytes (e : rx_event) : Z :=
  match e with napi_gro_receive _ len _ => len | _ => 0 end.

Definition ev_pkts (e : rx_event) : Z :=
  match e with napi_gro_receive _ _ _ => 1 | _ => 0 end.

Definition delivered_bytes (evs : list rx_event) : Z := foldr (fun e a => ev_bytes e + a) 0 evs.

Definition delivered_pkts (evs : list rx_event) : Z := foldr (fun e a => ev_pkts e + a) 0 evs.

Lemma delivered_bytes_snoc evs e :
  delivered_bytes (evs ++ [e]) = delivered_bytes evs + ev_bytes e.
Proof.
  unfold delivered_bytes. induction evs as [|x evs IH]; cbn [foldr app]; lia.
Qed.

Lemma delivered_pkts_snoc evs e :
  delivered_pkts (evs ++ [e]) = delivered_pkts evs + ev_pkts e.
Proof.
  unfold delivered_pkts. induction evs as [|x evs IH]; cbn [foldr app]; lia.
Qed.

Ltac tally :=
  unfold xdp_put_page, update_stats;
  rx_proj;
  rewrite ?delivered_bytes_snoc, ?delivered_pkts_snoc;
  cbn [ev_bytes ev_pkts];
  try lia.

(** The program hands nothing to the stack itself. *)
Lemma mtk_xdp_run_tally env page mac eth ret eth1 :
  mtk_xdp_run env page mac eth = Some (ret, eth1) ->
  delivered_bytes (events eth1) = delivered_bytes (events eth) /\
  delivered_pkts (events eth1) = delivered_pkts (events eth) /\
  rx_bytes eth1 = rx_bytes eth.
Proof.
  unfold mtk_xdp_run.
  destruct (prog eth); cbn [negb]; [|intros [= _ <-]; repeat split].
  destruct (xdp_act env =? XDP_PASS); [intros [= _ <-]; repeat split|].
  destruct (xdp_act env =? XDP_REDIRECT).
  { destruct (xdp_redirect_fails env); intros [= _ <-]; repeat split; tally. }
  destruct (xdp_act env =? XDP_TX).
  - destruct (xdp_frame env) as [xdpf|]; [|intros [= _ <-]; repeat split; tally].
    destruct (Tx.mtk_xdp_submit_frame _ _ _ _ _ _) as [[err tx']|]; [|discriminate].
    destruct (nonzero err); intros [= _ <-]; repeat split; tally.
  - destruct ((xdp_act env =? XDP_ABORTED) || (xdp_act env =? XDP_DROP));
      destruct (xdp_act env =? XDP_DROP); intros [= _ <-]; repeat split; tally.
Qed.

Ltac pass_end :=
  unfold rx_next, skip_rx, release_desc, deliver, update_rxd, update_ring, inc_rx_dropped,
    with_dma_addr, with_addr64, with_xdp_flush, add_bytes;
  rx_proj;
  rewrite ?delivered_bytes_snoc, ?delivered_pkts_snoc;
  cbn [ev_bytes ev_pkts];
  repeat split; lia.

(** One pass: the bytes added to the local counter are the bytes of the
    packet handed to the stack, if any. *)
Lemma poll_rx_pass_tally env l eth :
  match poll_rx_pass env l eth with
  | RxStop eth' =>
      delivered_bytes (events eth') = delivered_bytes (events eth) /\
      delivered_pkts (events eth') = delivered_pkts (events eth) /\
      rx_bytes eth' = rx_bytes eth
  | RxNext l' eth' =>
      delivered_bytes (events eth') - delivered_bytes (events eth) = bytes l' - bytes l /\
      0 <= delivered_pkts (events eth') - delivered_pkts (events eth) <= 1 /\
      rx_bytes eth' = rx_bytes eth
  | RxDiverge => True
  end.
Proof.
  unfold poll_rx_pass.
  destruct (mtk_get_rx_ring eth) as [[i eth0]|] eqn:Hring; [|repeat split].
  pose proof (held_mtk_get_rx_ring _ _ _ Hring) as H0.
  unfold held in H0. injection H0 as _ He _ Hb _ _. rewrite <- He, <- Hb.
  clear Hring He Hb eth.
  destruct (mtk_rx_get_desc _ _) as [trxd|]; [|repeat split].
  set (mac := rx_mac eth0 trxd).
  set (ring := rx_ring eth0 !!! i).
  set (idx := next_idx ring).
  destruct (_ || _ || _); [pass_end|].
  destruct (Tx.resetting (tx eth0)); [pass_end|].
  destruct (page_pool ring).
  - destruct (pp_alloc env) as [[new_data a]|]; [|pass_end].
    destruct (mtk_xdp_run env (data ring !!! idx) mac eth0) as [[ret eth1]|] eqn:Hx;
      [|exact I].
    destruct (mtk_xdp_run_tally _ _ _ _ _ _ Hx) as (Tb & Tp & Rb).
    rewrite <- Tb, <- Tp, <- Rb.
    destruct (negb (ret =? XDP_PASS)); [destruct (ret =? XDP_REDIRECT); pass_end|].
    destruct (negb (build_skb_ok env)); destruct (ret =? XDP_REDIRECT); pass_end.
  - destruct (frag_alloc env) as [new_data|]; [|pass_end].
    destruct (rx_map env) as [a|]; [|pass_end].
    destruct (negb (build_skb_ok env)); destruct (Tx.caps_36bit_dma _); pass_end.
Qed.

Lemma poll_rx_loop_tally env budget : forall n k l eth l' eth',
    poll_rx_loop n k env budget l eth = Some (l', eth') ->
    delivered_bytes (events eth') - delivered_bytes (events eth) = bytes l' - bytes l /\
    0 <= delivered_pkts (events eth') - delivered_pkts (events eth) <= done l' - done l /\
    rx_bytes eth' = rx_bytes eth.
Proof.
  induction n as [|n IH]; intros k l eth l' eth'; cbn [poll_rx_loop].
  - destruct (done l <? budget); [discriminate|]. intros [= <- <-]. repeat split; lia.
  - destruct (done l <? budget); [|intros [= <- <-]; repeat split; lia].
    pose proof (poll_rx_pass_tally (env k) l eth) as Hp.
    destruct (poll_rx_pass (env k) l eth) as [eth1|l1 eth1|] eqn:Epass; [| |discriminate].
    + intros [= <- <-]. destruct Hp as (A & B & C). repeat split; lia.
    + intros Hl. destruct (IH _ _ _ _ _ Hl) as (A' & B' & C').
      destruct Hp as (A & B & C).
      assert (Hd : done l1 = done l + 1).
      { revert Epass. unfold poll_rx_pass.
        destruct (mtk_get_rx_ring eth) as [[i eth0]|]; [|discriminate].
        destruct (mtk_rx_get_desc _ _); [|discriminate].
        destruct (_ || _ || _); [intros [= <- _]; reflexivity|].
        destruct (Tx.resetting _); [intros [= <- _]; reflexivity|].
        destruct (page_pool _).
        - destruct (pp_alloc _) as [[? ?]|]; [|intros [= <- _]; reflexivity].
          destruct (mtk_xdp_run _ _ _ _) as [[ret ?]|]; [|discriminate].
          destruct (negb (ret =? XDP_PASS));
            [destruct (ret =? XDP_REDIRECT); intros [= <- _]; reflexivity|].
          destruct (negb _); destruct (ret =? XDP_REDIRECT); intros [= <- _]; reflexivity.
        - destruct (frag_alloc _); [|intros [= <- _]; reflexivity].
          destruct (rx_map _); [|intros [= <- _]; reflexivity].
          destruct (negb _); destruct (Tx.caps_36bit_dma _); intros [= <- _]; reflexivity. }
      repeat split; lia.
Qed.

(** X11: what [mtk_poll_rx] adds to [eth->rx_bytes] is the sum of the
    lengths of the packets it hands to [napi_gro_receive], and it hands
    over no more packets than it reports as done; packets dropped,
    consumed by the XDP program or recycled are counted in
    [eth->rx_packets] but contribute no bytes. *)
Theorem rx_bytes_are_delivered_bytes env budget eth :
  Tx.tx_wf (tx eth) -> 0 <= budget ->
  exists n eth',
    mtk_poll_rx env budget eth = Some (n, eth') /\
    rx_bytes eth' - rx_bytes eth =
      delivered_bytes (events eth') - delivered_bytes (events eth) /\
    0 <= delivered_pkts (events eth') - delivered_pkts (events eth) <= n /\
    rx_packets eth' - rx_packets eth = n /\ n <= budget.
Proof.
  intros Hwf Hb. unfold mtk_poll_rx.
  destruct (poll_rx_loop_returns env budget (Z.to_nat budget) O rx_locals_init eth Hwf)
    as (l' & eth1 & Hr & _ & Ep & Hle & Hub).
  { cbn [done rx_locals_init]. lia. }
  rewrite Hr. destruct (poll_rx_loop_tally _ _ _ _ _ _ _ _ Hr) as (A & B & C).
  cbn [done bytes rx_locals_init] in A, B, Hle, Hub.
  unfold rx_done.
  set (eth2 := if nonzero (done l') then mtk_update_rx_cpu_idx eth1 else eth1).
  assert (Hh2 : held eth2 = held eth1).
  { unfold eth2. destruct (nonzero (done l')); [|reflexivity].
    apply held_mtk_update_rx_cpu_idx. }
  clearbody eth2.
  unfold held in Hh2. injection Hh2 as _ He _ Hbb Hpk _.
  eexists _, _. split; [reflexivity|].
  destruct (xdp_flush l'); rx_proj;
    rewrite ?delivered_bytes_snoc, ?delivered_pkts_snoc; cbn [ev_bytes ev_pkts];
    rewrite He, Hbb, Hpk; repeat split; lia.
Qed.

(** *** Which ring is polled *)

(** The slot ring [i] reads next has been filled by the device. *)
Definition ring_ready (eth : mtk_eth) (i : nat) : bool :=
  let ring := rx_ring eth !!! i in
  nonzero (Z.land (rxd2 (dma ring !!! next_idx ring)) (RX_DMA_DONE H)).

Lemma get_rx_ring_from_spec n : forall i eth,
    (i + n <= length (rx_ring eth))%nat ->
    match get_rx_ring_from n i eth with
    | Some (j, eth') =>
        (i <= j < i + n)%nat /\ ring_ready eth j = true /\
        (forall k, (i <= k < j)%nat -> ring_ready eth k = false) /\
        eth' = update_ring j (with_calc_idx_update true) eth
    | None => forall k, (i <= k < i + n)%nat -> ring_ready eth k = false
    end.
Proof.
  induction n as [|n IH]; intros i eth Hlen; cbn [get_rx_ring_from].
  - intros k Hk. lia.
  - fold (ring_ready eth i). destruct (ring_ready eth i) eqn:Er.
    + split; [lia|]. split; [exact Er|]. split; [intros k Hk; lia|reflexivity].
    + specialize (IH (S i) eth ltac:(lia)).
      destruct (get_rx_ring_from n (S i) eth) as [[j eth']|].
      * destruct IH as (Hj & Hr & Hlow & He).
        split; [lia|]. split; [exact Hr|]. split; [|exact He].
        intros k Hk. destruct (decide (k = i)) as [->|Hne]; [exact Er|apply Hlow; lia].
      * intros k Hk. destruct (decide (k = i)) as [->|Hne]; [exact Er|apply IH; lia].
Qed.

(** X12: under hardware LRO [mtk_get_rx_ring] picks the lowest-numbered
    ring whose next slot the device has filled, marks that ring for the
    update of its CPU index and changes nothing else; it returns [NULL]
    exactly when no ring has a filled slot. *)
Theorem get_rx_ring_picks_lowest eth :
  hwlro eth = true ->
  length (rx_ring eth) = Z.to_nat (MTK_MAX_RX_RING_NUM H) ->
  match mtk_get_rx_ring eth with
  | Some (j, eth') =>
      (j < length (rx_ring eth))%nat /\ ring_ready eth j = true /\
      (forall k, (k < j)%nat -> ring_ready eth k = false) /\
      calc_idx_update (rx_ring eth' !!! j) = true /\
      ring_bufs (rx_ring eth' !!! j) = ring_bufs (rx_ring eth !!! j) /\
      calc_idx (rx_ring eth' !!! j) = calc_idx (rx_ring eth !!! j) /\
      (forall k, k <> j -> rx_ring eth' !!! k = rx_ring eth !!! k) /\
      held eth' = held eth
  | None => forall k, (k < length (rx_ring eth))%nat -> ring_ready eth k = false
  end.
Proof.
  intros Hl Hlen. unfold mtk_get_rx_ring. rewrite Hl. cbn [negb].
  pose proof (get_rx_ring_from_spec (Z.to_nat (MTK_MAX_RX_RING_NUM H)) O eth ltac:(lia)) as X.
  destruct (get_rx_ring_from _ _ _) as [[j eth']|].
  - destruct X as (Hj & Hr & Hlow & ->).
    split; [lia|]. split; [exact Hr|]. split; [intros k Hk; apply Hlow; lia|].
    unfold update_ring. rx_proj.
    rewrite list_lookup_total_insert_eq by lia.
    split; [reflexivity|]. split; [reflexivity|]. split; [reflexivity|].
    split; [intros k Hk; apply list_lookup_total_insert_ne; congruence|].
    apply (held_update_ring j (with_calc_idx_update true) eth). reflexivity.
  - intros k Hk. apply X. lia.
Qed.

End WithHeader.


(** *** A NETSYS v3 device *)

(** The receive-side values of the upstream [mtk_eth_soc.h]. *)
Definition ref_header : header :=
  {| RX_DMA_DONE := BIT 31;
     RX_DMA_LSO := BIT 30;
     RX_DMA_SPECIAL_TAG := BIT 22;
     RX_DMA_ADDR64_MASK := GENMASK 3 0;
     RX_DMA_PREP_PLEN0 := fun max_len ofs x => Z.shiftl (Z.land x max_len) ofs;
     RX_DMA_GET_PLEN0 := fun max_len ofs x => Z.land (Z.shiftr x ofs) max_len;
     RX_DMA_GET_ADDR64 := fun x => Z.shiftl (FIELD_GET (GENMASK 3 0) x) 32;
     RX_DMA_PREP_ADDR64 := fun x => FIELD_PREP (GENMASK 3 0) (Z.shiftr x 32);
     RX_DMA_GET_SPORT := fun x => Z.land (Z.shiftr x 19) 0x7;
     RX_DMA_GET_SPORT_V2 := fun x => Z.land (Z.shiftr x 26) 0xf;
     PSE_GDM1_PORT := 1;
     PSE_GDM2_PORT := 2;
     PSE_GDM3_PORT := 15;
     MTK_MAX_DEVS := 3;
     MTK_MAX_RX_RING_NUM := 4;
     MTK_GMAC3_ID := 2;
     NEXT_DESP_IDX := fun x y => Z.land (x + 1) (y - 1) |}.

(** [mt7988_data]: queue-aware transmit ring, 36-bit DMA, page pool on
    the receive ring.  The transmit ring depth is a parameter. *)
Definition mt7988_soc (depth : Z) : Tx.mtk_soc_data :=
  {| Tx.caps_qdma := true; Tx.caps_36bit_dma := true; Tx.version := 3;
     Tx.tx_desc_size := 32; Tx.tx_dma_max_len := 0xffff; Tx.tx_dma_len_offset := 8;
     Tx.tx_dma_size := depth |}.

(** A receive slot as [mtk_rx_alloc] initialises it for a buffer at bus
    address [a], on a ring with buffers of [size] bytes. *)
Definition fresh_rxd (size a : Z) : mtk_rx_dma :=
  {| rxd1 := u32 a;
     rxd2 := Z.lor (RX_DMA_PREP_PLEN0 ref_header 0xffff 8 size)
                   (RX_DMA_PREP_ADDR64 ref_header a);
     rxd3 := 0; rxd4 := 0; rxd5 := 0; rxd6 := 0 |}.

(** The same slot once the device stored a packet of [len] bytes that
    arrived on port [sport]. *)
Definition filled_rxd (a len sport : Z) : mtk_rx_dma :=
  {| rxd1 := u32 a;
     rxd2 := Z.lor (Z.lor (RX_DMA_DONE ref_header)
                          (RX_DMA_PREP_PLEN0 ref_header 0xffff 8 len))
                   (RX_DMA_PREP_ADDR64 ref_header a);
     rxd3 := 0; rxd4 := 0; rxd5 := Z.shiftl sport 26; rxd6 := 0 |}.

(** Buffer [i] lives at [bus_addr i], each buffer in a 4 GiB window of
    its own. *)
Definition bus_addr (i : Z) : Z := Z.shiftl (i + 1) 32 + 0x1000 * i.

(** A page-pool ring of eight slots whose first [filled] slots hold a
    received packet of 128 bytes from the first MAC. *)
Definition page_pool_ring (filled : nat) : mtk_rx_ring :=
  {| dma := map (fun i : nat =>
                   if (i <? filled)%nat then filled_rxd (bus_addr (Z.of_nat i)) 128 1
                   else fresh_rxd 3840 (bus_addr (Z.of_nat i))) (seq 0 8);
     data := map Z.of_nat (seq 0 8);
     calc_idx := 7; calc_idx_update := false; dma_size := 8;
     frag_size := 4096; buf_size := 3840; page_pool := true; crx_idx := 7 |}.

Definition zero_stats : xdp_stats :=
  {| rx_xdp_redirect := 0; rx_xdp_pass := 0; rx_xdp_drop := 0; rx_xdp_tx := 0;
     rx_xdp_tx_errors := 0 |}.

(** The device after open, with [filled] packets waiting and an XDP
    program attached or not. *)
Definition mt7988_up (filled : nat) (attached : bool) : mtk_eth :=
  {| tx := Tx.brought_up (Tx.ref_header 256) (mt7988_soc 256);
     caps_mt7628 := false; rx_dma_max_len := 0xffff; rx_dma_len_offset := 8;
     rx_ring := [page_pool_ring filled]; hwlro := false; prog := attached;
     hw_stats := fun _ => zero_stats; rx_packets := 0; rx_bytes := 0;
     events := [] |}.

(** What a pass is given: the pool hands out buffer [b] at address [a]
    (or nothing), and the program answers [act]. *)
Definition pass_env (alloc : option (Z * Z)) (act : Z) : rx_env :=
  {| pp_alloc := alloc; frag_alloc := None; rx_map := None; build_skb_ok := true;
     xdp_act := act; xdp_redirect_fails := false;
     xdp_frame := Some (Tx.frame 128);
     xdp_tx_env := Tx.maps_then_fails 0 |}.

Lemma mt7988_tx_wf filled attached : Tx.tx_wf (tx (mt7988_up filled attached)).
Proof.
  pose proof (Tx.mtk_tx_alloc_fresh (Tx.ref_header 256) Tx.alloc_ok
                (Tx.probed (mt7988_soc 256)) 0x1000000 0x2000000
                eq_refl eq_refl eq_refl eq_refl eq_refl
                ltac:(discriminate) ltac:(discriminate))
    as (_ & Hok & Hlen & _ & _ & _ & _ & _ & _ & _ & _ & Hnf & _).
  split; [exact Hok|].
  cbn [tx mt7988_up]. unfold Tx.brought_up. rewrite Hnf, Hlen. vm_compute. lia.
Qed.

(** A window of five invocations for the first MAC: pass, drop,
    transmit, redirect and a verdict no program may return. *)
Definition five_calls : list xdp_call :=
  map (fun act => {| call_env := pass_env None act; call_page := act; call_mac := 0 |})
      [XDP_PASS; XDP_DROP; XDP_TX; XDP_REDIRECT; 7].

Lemma xdp_verdict_accounting_witness :
  exists eth',
    xdp_runs (Tx.ref_header 256) five_calls (mt7988_up 0 true) = Some eth' /\
    verdicts (hw_stats eth' 0) = 5 /\ verdicts (hw_stats eth' 1) = 0.
Proof.
  destruct (xdp_verdict_accounting (Tx.ref_header 256) (mt7988_up 0 true)
              eq_refl (mt7988_tx_wf 0 true)) as [_ W].
  destruct (W five_calls) as (eth' & Hr & Hs).
  exists eth'. split; [exact Hr|].
  split; rewrite Hs; reflexivity.
Defined.

(** The same window, counter by counter: the unknown verdict went to
    the drop counter and its page went back to the pool. *)
Example five_calls_counters :
  match xdp_runs (Tx.ref_header 256) five_calls (mt7988_up 0 true) with
  | Some eth' =>
      hw_stats eth' 0 =
        {| rx_xdp_redirect := 1; rx_xdp_pass := 1; rx_xdp_drop := 2; rx_xdp_tx := 1;
           rx_xdp_tx_errors := 0 |} /\
      events eth' =
        [page_pool_put_full_page 1; xdp_do_redirect 4;
         bpf_warn_invalid_xdp_action 7; trace_xdp_exception 7;
         page_pool_put_full_page 7]
  | None => False
  end.
Proof. vm_compute. split; reflexivity. Qed.

(** Two packets wait in slots 0 and 1.  The pool serves the first pass
    (buffer 8) and has nothing for the second. *)
Definition pool_runs_dry (k : nat) : rx_env :=
  match k with
  | O => pass_env (Some (8, bus_addr 8)) XDP_PASS
  | _ => pass_env None XDP_PASS
  end.

(** The high address bits a slot advertises to the device. *)
Definition slot_addr64 (eth : mtk_eth) (idx : nat) : Z :=
  FIELD_GET (RX_DMA_ADDR64_MASK ref_header) (rxd2 (dma (rx_ring eth !!! O) !!! idx)).

(** C4, on the 36-bit device.  The first packet is delivered after its
    slot took buffer 8; for the second the pool is empty, the packet is
    dropped and counted, the slot keeps its buffer and the low address
    word, and is handed back to the device empty.  The high address bits
    written with it are those of buffer 8, the mapping of the pass
    before, which [dma_addr] still holds: slot 1 advertised window 2
    before the poll and advertises window 9 after it. *)
Theorem poll_rx_stale_bus_address :
  let eth := mt7988_up 2 false in
  match mtk_poll_rx (Tx.ref_header 256) ref_header pool_runs_dry 64 eth with
  | Some (n, eth') =>
      n = 2 /\
      events eth' = [napi_gro_receive 0 128 0] /\
      rx_dropped_of eth' 0 = rx_dropped_of eth 0 + 1 /\
      data (rx_ring eth' !!! O) !!! 1%nat = data (rx_ring eth !!! O) !!! 1%nat /\
      rxd1 (dma (rx_ring eth' !!! O) !!! 1%nat) = rxd1 (dma (rx_ring eth !!! O) !!! 1%nat) /\
      Z.land (rxd2 (dma (rx_ring eth' !!! O) !!! 1%nat)) (RX_DMA_DONE ref_header) = 0 /\
      slot_addr64 eth 1 = 2 /\
      slot_addr64 eth' 1 = 9 /\
      slot_addr64 eth' 0 = 9
  | None => False
  end.
Proof. vm_compute. repeat split; reflexivity. Qed.

(** *** Polls on the reference device *)

(** The device of [mt7988_up] while a reset is in progress. *)
Definition in_reset (filled : nat) : mtk_eth :=
  set_tx (Tx.set_resetting true) (mt7988_up filled false).

(** The pool serves pass [k] with buffer [8 + k]. *)
Definition pool_serves (k : nat) : rx_env :=
  pass_env (Some (8 + Z.of_nat k, bus_addr (8 + Z.of_nat k))) XDP_PASS.

Lemma poll_rx_during_reset_witness :
  exists n eth',
    mtk_poll_rx (Tx.ref_header 256) ref_header pool_serves 64 (in_reset 3) = Some (n, eth') /\
    0 <= n <= 64 /\ events eth' = [] /\ rx_bytes eth' = 0.
Proof.
  destruct (poll_rx_during_reset (Tx.ref_header 256) ref_header pool_serves 64 (in_reset 3)
              eq_refl ltac:(lia))
    as (n & eth' & Hr & Hn & _ & Hb & He & _).
  exists n, eth'. split; [exact Hr|]. split; [exact Hn|]. split; [exact He|exact Hb].
Defined.

Lemma rx_bytes_are_delivered_bytes_witness :
  exists n eth',
    mtk_poll_rx (Tx.ref_header 256) ref_header pool_serves 64 (mt7988_up 3 false)
      = Some (n, eth') /\
    rx_bytes eth' = delivered_bytes (events eth') /\ rx_packets eth' = n.
Proof.
  destruct (rx_bytes_are_delivered_bytes (Tx.ref_header 256) ref_header pool_serves 64
              (mt7988_up 3 false) (mt7988_tx_wf 3 false) ltac:(lia))
    as (n & eth' & Hr & Hb & _ & Hp & _).
  exists n, eth'. split; [exact Hr|].
  cbn [rx_bytes rx_packets events mt7988_up delivered_bytes foldr] in Hb, Hp.
  split; lia.
Defined.

(** A device with hardware LRO: four rings, of which the third and the
    fourth hold received packets. *)
Definition lro_up : mtk_eth :=
  {| tx := Tx.brought_up (Tx.ref_header 256) (mt7988_soc 256);
     caps_mt7628 := false; rx_dma_max_len := 0xffff; rx_dma_len_offset := 8;
     rx_ring := [page_pool_ring 0; page_pool_ring 0; page_pool_ring 2; page_pool_ring 1];
     hwlro := true; prog := false;
     hw_stats := fun _ => zero_stats; rx_packets := 0; rx_bytes := 0;
     events := [] |}.

Lemma get_rx_ring_picks_lowest_witness :
  exists j eth',
    mtk_get_rx_ring ref_header lro_up = Some (j, eth') /\
    ring_ready ref_header lro_up j = true /\
    calc_idx_update (rx_ring eth' !!! j) = true.
Proof.
  pose proof (get_rx_ring_picks_lowest ref_header lro_up eq_refl eq_refl) as X.
  destruct (mtk_get_rx_ring ref_header lro_up) as [[j eth']|].
  - destruct X as (_ & Hr & _ & Hu & _).
    exists j, eth'. split; [reflexivity|]. split; [exact Hr|exact Hu].
  - specialize (X 2%nat ltac:(vm_compute; lia)). vm_compute in X. discriminate X.
Defined.

End Rx.

(** ** The poll routines: [mtk_napi_tx] and [mtk_napi_rx] *)

Module Napi.

(** Interrupt bits of [mtk_eth_soc.h]. *)
Record header := {
  MTK_TX_DONE_INT : Z;
  MTK_GDM1_AF : Z;
  MTK_GDM2_AF : Z
}.

Inductive direction := TxDir | RxDir.

(** The status registers the routines acknowledge by writing to them. *)
Inductive status_reg := MTK_INT_STATUS2 | tx_irq_status_reg | pdma_irq_status_reg.

(** The part of [struct mtk_reg_map] the routines use: the addresses of
    the two interrupt mask registers, [reg_map->tx_irq_mask] and
    [reg_map->pdma.irq_mask].  They are two registers in [mtk_reg_map],
    [mt7986_reg_map] and [mt7988_reg_map] and one and the same register
    (0x0a28) in [mt7628_reg_map]. *)
Record mtk_reg_map := {
  tx_irq_mask_reg : Z;
  pdma_irq_mask_reg : Z
}.

(** The device with the registers the mask helpers read and write, by
    address.  [acks] are the writes to the status registers, named by
    the field of the register map that gives their address, [completed]
    the calls of [napi_complete_done] with the work they report. *)
Record mtk_eth := {
  eth : Rx.mtk_eth;
  rx_irq_done_mask : Z;          (* eth->soc->rx.irq_done_mask *)
  reg_map : mtk_reg_map;         (* eth->soc->reg_map *)
  irq_regs : Z -> Z;
  acks : list (status_reg * Z);
  completed : list (direction * Z);
  stats_updates : nat            (* calls of mtk_stats_update *)
}.

(** What a run of [mtk_napi_tx] reads: [MTK_INT_STATUS2], the transmit
    status after the reclaim, and the answer of [napi_complete_done]. *)
Record tx_env := {
  tx_status2 : Z;
  tx_irq_status : Z;
  tx_complete : bool
}.

(** What a run of [mtk_napi_rx] reads: [MTK_INT_STATUS2]; for round [k]
    of its loop the environment of every pass of [mtk_poll_rx] and the
    receive status read when the round ends; the answer of
    [napi_complete_done]. *)
Record rx_env := {
  rx_status2 : Z;
  rx_poll_env : nat -> nat -> Rx.rx_env;
  pdma_irq_status : nat -> Z;
  rx_complete : bool
}.

Definition set_eth (e : Rx.mtk_eth) (st : mtk_eth) : mtk_eth :=
  {| eth := e; rx_irq_done_mask := rx_irq_done_mask st;
     reg_map := reg_map st; irq_regs := irq_regs st;
     acks := acks st; completed := completed st;
     stats_updates := stats_updates st |}.

(** [mtk_r32(eth, reg)] and [mtk_w32(eth, val, reg)] on a mask
    register. *)
Definition mtk_r32 (st : mtk_eth) (reg : Z) : Z := irq_regs st reg.

Definition mtk_w32 (val reg : Z) (st : mtk_eth) : mtk_eth :=
  {| eth := eth st; rx_irq_done_mask := rx_irq_done_mask st;
     reg_map := reg_map st;
     irq_regs := fun r => if r =? reg then val else irq_regs st r;
     acks := acks st; completed := completed st;
     stats_updates := stats_updates st |}.

(** The contents of the two mask registers. *)
Definition tx_irq_mask (st : mtk_eth) : Z := mtk_r32 st (tx_irq_mask_reg (reg_map st)).
Definition pdma_irq_mask (st : mtk_eth) : Z := mtk_r32 st (pdma_irq_mask_reg (reg_map st)).

(** [mtk_w32(eth, v, reg)] on a status register. *)
Definition ack (reg : status_reg) (v : Z) (st : mtk_eth) : mtk_eth :=
  {| eth := eth st; rx_irq_done_mask := rx_irq_done_mask st;
     reg_map := reg_map st; irq_regs := irq_regs st;
     acks := acks st ++ [(reg, v)]; completed := completed st;
     stats_updates := stats_updates st |}.

Definition mtk_stats_update (st : mtk_eth) : mtk_eth :=
  {| eth := eth st; rx_irq_done_mask := rx_irq_done_mask st;
     reg_map := reg_map st; irq_regs := irq_regs st;
     acks := acks st; completed := completed st;
     stats_updates := S (stats_updates st) |}.

(** [napi_complete_done(napi, work)]. *)
Definition napi_complete_done (d : direction) (work : Z) (st : mtk_eth) : mtk_eth :=
  {| eth := eth st; rx_irq_done_mask := rx_irq_done_mask st;
     reg_map := reg_map st; irq_regs := irq_regs st;
     acks := acks st; completed := completed st ++ [(d, work)];
     stats_updates := stats_updates st |}.

(** [mtk_tx_irq_enable(eth, mask)]. *)
Definition mtk_tx_irq_enable (mask : Z) (st : mtk_eth) : mtk_eth :=
  let val := mtk_r32 st (tx_irq_mask_reg (reg_map st)) in
  mtk_w32 (Z.lor val mask) (tx_irq_mask_reg (reg_map st)) st.

(** [mtk_rx_irq_enable(eth, mask)]. *)
Definition mtk_rx_irq_enable (mask : Z) (st : mtk_eth) : mtk_eth :=
  let val := mtk_r32 st (pdma_irq_mask_reg (reg_map st)) in
  mtk_w32 (Z.lor val mask) (pdma_irq_mask_reg (reg_map st)) st.

Section WithHeader.

Variable HT : Tx.header.
Variable HR : Rx.header.
Variable H : header.

(** [mtk_handle_status_irq], given the value read from
    [MTK_INT_STATUS2]. *)
Definition mtk_handle_status_irq (status2 : Z) (st : mtk_eth) : mtk_eth :=
  if nonzero (Z.land status2 (Z.lor (MTK_GDM1_AF H) (MTK_GDM2_AF H)))
  then ack MTK_INT_STATUS2 (Z.lor (MTK_GDM1_AF H) (MTK_GDM2_AF H)) (mtk_stats_update st)
  else st.

(** [mtk_napi_tx(napi, budget)].  The message printed under
    [netif_msg_intr] is left out. *)
Definition mtk_napi_tx (env : tx_env) (budget : Z) (st : mtk_eth) : option (Z * mtk_eth) :=
  let st1 :=
    if Tx.caps_qdma (Tx.soc (Rx.tx (eth st)))
    then mtk_handle_status_irq (tx_status2 env) st else st in
  let st2 := ack tx_irq_status_reg (MTK_TX_DONE_INT H) st1 in
  match Tx.mtk_poll_tx HT budget (Rx.tx (eth st2)) with
  | None => None
  | Some (tx_done, tx') =>
      let st3 := set_eth (Rx.set_tx (fun _ => tx') (eth st2)) st2 in
      if tx_done =? budget then Some (budget, st3)
      else if nonzero (Z.land (tx_irq_status env) (MTK_TX_DONE_INT H))
      then Some (budget, st3)
      else
        let st4 := napi_complete_done TxDir tx_done st3 in
        Some (tx_done,
              if tx_complete env then mtk_tx_irq_enable (MTK_TX_DONE_INT H) st4 else st4)
  end.

(** The [do ... while] of [mtk_napi_rx] from round [k] on, at most
    [fuel] rounds. *)
Fixpoint napi_rx_loop (fuel k : nat) (env : rx_env) (budget rx_done_total : Z)
    (st : mtk_eth) : option (Z * mtk_eth) :=
  match fuel with
  | O => None
  | S fuel' =>
      let st1 := ack pdma_irq_status_reg (rx_irq_done_mask st) st in
      match Rx.mtk_poll_rx HT HR (rx_poll_env env k) (budget - rx_done_total) (eth st1) with
      | None => None
      | Some (rx_done, e') =>
          let st2 := set_eth e' st1 in
          let rx_done_total := rx_done_total + rx_done in
          if rx_done_total =? budget then Some (budget, st2)
          else if nonzero (Z.land (pdma_irq_status env k) (rx_irq_done_mask st2))
          then napi_rx_loop fuel' (S k) env budget rx_done_total st2
          else
            let st3 := napi_complete_done RxDir rx_done_total st2 in
            Some (rx_done_total,
                  if rx_complete env then mtk_rx_irq_enable (rx_irq_done_mask st3) st3
                  else st3)
      end
  end.

(** [mtk_napi_rx(napi, budget)], cut off after [fuel] rounds. *)
Definition mtk_napi_rx (fuel : nat) (env : rx_env) (budget : Z) (st : mtk_eth)
  : option (Z * mtk_eth) :=
  napi_rx_loop fuel O env budget 0 (mtk_handle_status_irq (rx_status2 env) st).

(** *** The decision after the drain *)

(** The transmit status read after the reclaim shows completions
    pending. *)
Definition tx_pending (env : tx_env) : bool :=
  nonzero (Z.land (tx_irq_status env) (MTK_TX_DONE_INT H)).

(** The receive status read at the end of round [k] shows completions
    pending. *)
Definition rx_pending (env : rx_env) (st : mtk_eth) (k : nat) : bool :=
  nonzero (Z.land (pdma_irq_status env k) (rx_irq_done_mask st)).

(** The routine asks to be run again: it returns the whole budget,
    completes nothing and writes no mask register. *)
Definition rescheduled (budget : Z) (st : mtk_eth) (r : Z * mtk_eth) : Prop :=
  r.1 = budget /\ completed r.2 = completed st /\
  reg_map r.2 = reg_map st /\ irq_regs r.2 = irq_regs st.

(** The mask register of a direction and the done bits set in it. *)
Definition own_mask_reg (d : direction) (st : mtk_eth) : Z :=
  match d with
  | TxDir => tx_irq_mask_reg (reg_map st)
  | RxDir => pdma_irq_mask_reg (reg_map st)
  end.

Definition done_bits (d : direction) (st : mtk_eth) : Z :=
  match d with
  | TxDir => MTK_TX_DONE_INT H
  | RxDir => rx_irq_done_mask st
  end.

(** The routine stops: it reports its work to [napi_complete_done] and,
    if that call answered true, sets the done bits in the mask register
    of its direction; no other register changes. *)
Definition poll_completed (d : direction) (ok : bool) (st : mtk_eth) (r : Z * mtk_eth) : Prop :=
  completed r.2 = completed st ++ [(d, r.1)] /\
  reg_map r.2 = reg_map st /\
  forall a, mtk_r32 r.2 a =
            if ok && (a =? own_mask_reg d st)
            then Z.lor (mtk_r32 st a) (done_bits d st) else mtk_r32 st a.

(** The decision as the specification words it, for the receive routine
    after its first drain: pending completions make it return the whole
    budget. *)
Definition pending_returns_budget (fuel : nat) (env : rx_env) (budget : Z) (st : mtk_eth) : Prop :=
  rx_pending env st O = true ->
  exists st', mtk_napi_rx fuel env budget st = Some (budget, st').

(** What the two outcomes leave in the two mask registers. *)
Lemma rescheduled_masks budget st r :
  rescheduled budget st r ->
  tx_irq_mask r.2 = tx_irq_mask st /\ pdma_irq_mask r.2 = pdma_irq_mask st.
Proof.
  intros (_ & _ & Em & Er). unfold tx_irq_mask, pdma_irq_mask, mtk_r32.
  rewrite Em, Er. split; reflexivity.
Qed.

Lemma poll_completed_masks d ok st r :
  tx_irq_mask_reg (reg_map st) <> pdma_irq_mask_reg (reg_map st) ->
  poll_completed d ok st r ->
  match d with
  | TxDir =>
      tx_irq_mask r.2 = (if ok then Z.lor (tx_irq_mask st) (MTK_TX_DONE_INT H)
                         else tx_irq_mask st) /\
      pdma_irq_mask r.2 = pdma_irq_mask st
  | RxDir =>
      pdma_irq_mask r.2 = (if ok then Z.lor (pdma_irq_mask st) (rx_irq_done_mask st)
                           else pdma_irq_mask st) /\
      tx_irq_mask r.2 = tx_irq_mask st
  end.
Proof.
  intros Hne (_ & Em & Hr). unfold tx_irq_mask, pdma_irq_mask. rewrite Em, !Hr.
  destruct d; cbn [own_mask_reg done_bits]; rewrite Z.eqb_refl.
  - rewrite (proj2 (Z.eqb_neq (pdma_irq_mask_reg (reg_map st)) (tx_irq_mask_reg (reg_map st))))
      by congruence.
    rewrite andb_true_r, andb_false_r. split; reflexivity.
  - rewrite (proj2 (Z.eqb_neq (tx_irq_mask_reg (reg_map st)) (pdma_irq_mask_reg (reg_map st))))
      by congruence.
    rewrite andb_true_r, andb_false_r. split; reflexivity.
Qed.

Lemma mtk_handle_status_irq_frame status2 st :
  let st' := mtk_handle_status_irq status2 st in
  eth st' = eth st /\ completed st' = completed st /\
  reg_map st' = reg_map st /\ irq_regs st' = irq_regs st /\
  rx_irq_done_mask st' = rx_irq_done_mask st.
Proof.
  unfold mtk_handle_status_irq. destruct (nonzero _); repeat split; reflexivity.
Qed.

Lemma mtk_napi_tx_spec env budget st :
  exists tx_done tx' r,
    Tx.mtk_poll_tx HT budget (Rx.tx (eth st)) = Some (tx_done, tx') /\
    mtk_napi_tx env budget st = Some r /\ Rx.tx (eth r.2) = tx' /\
    if (tx_done =? budget) || tx_pending env then rescheduled budget st r
    else r.1 = tx_done /\ poll_completed TxDir (tx_complete env) st r.
Proof.
  destruct (Tx.mtk_poll_tx_returns HT budget (Rx.tx (eth st))) as (tx_done & tx' & Hp).
  unfold mtk_napi_tx.
  set (st1 := if Tx.caps_qdma _ then _ else st).
  assert (F : eth st1 = eth st /\ completed st1 = completed st /\
              reg_map st1 = reg_map st /\ irq_regs st1 = irq_regs st).
  { unfold st1. destruct (Tx.caps_qdma _); [|repeat split; reflexivity].
    destruct (mtk_handle_status_irq_frame (tx_status2 env) st) as (A & B & C & D & _).
    repeat split; assumption. }
  clearbody st1. destruct F as (F1 & F2 & F3 & F4).
  cbn [eth ack]. rewrite F1, Hp.
  exists tx_done, tx'. unfold tx_pending.
  destruct (tx_done =? budget) eqn:Eb; cbn [orb].
  { eexists. split; [reflexivity|]. split; [reflexivity|]. split; [reflexivity|].
    cbn. repeat split; assumption. }
  destruct (nonzero _).
  { eexists. split; [reflexivity|]. split; [reflexivity|]. split; [reflexivity|].
    cbn. repeat split; assumption. }
  eexists. split; [reflexivity|]. split; [reflexivity|].
  split; [destruct (tx_complete env); reflexivity|].
  split; [reflexivity|]. unfold poll_completed, own_mask_reg, done_bits.
  destruct (tx_complete env);
    cbn [fst snd completed reg_map mtk_r32 mtk_w32 irq_regs mtk_tx_irq_enable
           napi_complete_done set_eth ack andb];
    rewrite F2, F3, F4.
  - split; [reflexivity|]. split; [reflexivity|]. intros a.
    destruct (a =? tx_irq_mask_reg (reg_map st)) eqn:Ea; [|reflexivity].
    apply Z.eqb_eq in Ea. subst a. reflexivity.
  - repeat split; reflexivity.
Qed.

Lemma napi_rx_loop_spec env budget : forall fuel k total st,
    Tx.tx_wf (Rx.tx (eth st)) -> 0 <= total <= budget ->
    (exists j, (j < fuel)%nat /\ rx_pending env st (k + j) = false) ->
    exists r,
      napi_rx_loop fuel k env budget total st = Some r /\
      Rx.rx_packets (eth r.2) = Rx.rx_packets (eth st) + (r.1 - total) /\
      total <= r.1 <= budget /\
      if r.1 =? budget then rescheduled budget st r
      else
        (exists n, (n < fuel)%nat /\
                   (forall i, (i < n)%nat -> rx_pending env st (k + i) = true) /\
                   rx_pending env st (k + n) = false) /\
        poll_completed RxDir (rx_complete env) st r.
Proof.
  induction fuel as [|fuel IH]; intros k total st Hwf Ht (j & Hj & Hclear); [lia|].
  cbn [napi_rx_loop].
  destruct (Rx.mtk_poll_rx_returns HT HR (rx_poll_env env k) (budget - total) (eth st)
              Hwf ltac:(lia)) as (n & e' & Hr & Hwf' & Hn & Ep).
  cbn [eth ack]. rewrite Hr.
  destruct (total + n =? budget) eqn:Eb.
  { apply Z.eqb_eq in Eb. eexists. split; [reflexivity|]. cbn [fst snd].
    split; [cbn; rewrite Ep; lia|]. split; [lia|].
    rewrite Z.eqb_refl. repeat split; reflexivity. }
  apply Z.eqb_neq in Eb.
  change (rx_irq_done_mask (set_eth e' (ack pdma_irq_status_reg (rx_irq_done_mask st) st)))
    with (rx_irq_done_mask st).
  fold (rx_pending env st k).
  destruct (rx_pending env st k) eqn:Ek.
  - destruct j as [|j]; [rewrite Nat.add_0_r in Hclear; congruence|].
    set (st2 := set_eth e' (ack pdma_irq_status_reg (rx_irq_done_mask st) st)).
    destruct (IH (S k) (total + n) st2 Hwf' ltac:(lia)) as (r & Hl & Hp & Hb & Hd).
    { exists j. split; [lia|].
      replace (S k + j)%nat with (k + S j)%nat by lia. exact Hclear. }
    exists r. split; [exact Hl|].
    split; [change (Rx.rx_packets (eth st2)) with (Rx.rx_packets e') in Hp; lia|].
    split; [lia|].
    destruct (r.1 =? budget); [exact Hd|].
    destruct Hd as ((m & Hm & Hpend & Hclr) & Hc). split; [|exact Hc].
    exists (S m). split; [lia|]. split.
    + intros [|i] Hi.
      * rewrite Nat.add_0_r. exact Ek.
      * replace (k + S i)%nat with (S k + i)%nat by lia. apply Hpend. lia.
    + replace (k + S m)%nat with (S k + m)%nat by lia. exact Hclr.
  - eexists. split; [reflexivity|]. cbn [fst snd].
    split; [destruct (rx_complete env); cbn; rewrite Ep; lia|]. split; [lia|].
    replace (total + n =? budget) with false by (symmetry; apply Z.eqb_neq; exact Eb).
    split.
    + exists O. split; [lia|]. split; [intros i Hi; lia|].
      rewrite Nat.add_0_r. exact Ek.
    + unfold poll_completed, own_mask_reg, done_bits.
      destruct (rx_complete env);
        cbn [fst snd completed reg_map mtk_r32 mtk_w32 irq_regs mtk_rx_irq_enable
               napi_complete_done set_eth ack andb rx_irq_done_mask].
      * split; [reflexivity|]. split; [reflexivity|]. intros a.
        destruct (a =? pdma_irq_mask_reg (reg_map st)) eqn:Ea; [|reflexivity].
        apply Z.eqb_eq in Ea. subst a. reflexivity.
      * repeat split; reflexivity.
Qed.

(** C9 (as amended).  [mtk_napi_tx] reclaims once and then decides.  The
    number it compares with the budget is the one [mtk_poll_tx] returns,
    the socket buffers reclaimed: frames of the XDP path cost the
    reclaim budget but are not counted, so the number may stay below
    the budget although the reclaim used the budget up.  If that number
    equals the budget, or the status register read after the reclaim
    shows completions pending, the routine returns the whole budget,
    completing nothing and writing no mask register; otherwise it
    reports the number to [napi_complete_done], sets the done bit in the
    transmit mask register if that call answered true, and returns the
    number.  [mtk_napi_rx] polls again with what is left of the budget
    as long as the status register read after a poll shows completions
    pending; it returns the whole budget only when the packets done add
    up to it, and once a status read is clear it reports the packets
    done to [napi_complete_done], sets the done bits in the receive mask
    register if that call answered true, and returns their number.  No
    register but the mask register of the direction is written; where
    the two mask registers are one, as on MT7628, that one register
    gets the bits. *)
Theorem poll_decision fuel tenv renv budget st j :
  Tx.tx_wf (Rx.tx (eth st)) -> 0 <= budget ->
  (j < fuel)%nat -> rx_pending renv st j = false ->
  (exists tx_done tx' r,
      Tx.mtk_poll_tx HT budget (Rx.tx (eth st)) = Some (tx_done, tx') /\
      tx_done = Tx.skbs_reclaimed (Rx.tx (eth st)) tx' /\
      0 <= tx_done <= Tx.heads_reclaimed (Rx.tx (eth st)) tx' /\
      Tx.heads_reclaimed (Rx.tx (eth st)) tx' <= budget /\
      mtk_napi_tx tenv budget st = Some r /\ Rx.tx (eth r.2) = tx' /\
      if (tx_done =? budget) || tx_pending tenv then rescheduled budget st r
      else r.1 = tx_done /\ poll_completed TxDir (tx_complete tenv) st r) /\
  (exists r,
      mtk_napi_rx fuel renv budget st = Some r /\
      Rx.rx_packets (eth r.2) = Rx.rx_packets (eth st) + r.1 /\
      0 <= r.1 <= budget /\
      if r.1 =? budget then rescheduled budget st r
      else
        (exists n, (n <= j)%nat /\
                   (forall i, (i < n)%nat -> rx_pending renv st i = true) /\
                   rx_pending renv st n = false) /\
        poll_completed RxDir (rx_complete renv) st r).
Proof.
  intros Hwf Hb Hj Hclear. split.
  { destruct (mtk_napi_tx_spec tenv budget st) as (tx_done & tx' & r & Hp & Hr & Ht & Hd).
    destruct (Tx.mtk_poll_tx_counts HT budget (Rx.tx (eth st)))
      as (n & tx'' & Hp' & Hn & Hle & Hbud).
    rewrite Hp in Hp'. injection Hp' as <- <-.
    exists tx_done, tx', r. split; [exact Hp|]. split; [exact Hn|].
    split; [rewrite Hn; exact Hle|]. split; [apply Hbud, Hb|].
    split; [exact Hr|]. split; [exact Ht|exact Hd]. }
  unfold mtk_napi_rx.
  destruct (mtk_handle_status_irq_frame (rx_status2 renv) st) as (A & B & C & D & E).
  cbv zeta in A, B, C, D, E.
  set (st0 := mtk_handle_status_irq (rx_status2 renv) st) in *. clearbody st0.
  assert (Ep : forall k, rx_pending renv st0 k = rx_pending renv st k)
    by (intros k; unfold rx_pending; rewrite E; reflexivity).
  destruct (napi_rx_loop_spec renv budget fuel O 0 st0) as (r & Hl & Hp & Hbd & Hd).
  { rewrite A. exact Hwf. }
  { lia. }
  { exists j. split; [exact Hj|]. rewrite Ep. exact Hclear. }
  exists r. split; [exact Hl|]. split; [rewrite Hp, A; lia|]. split; [lia|].
  destruct (r.1 =? budget).
  - destruct Hd as (D1 & D2 & D3 & D4). unfold rescheduled.
    rewrite D2, D3, D4. repeat split; assumption.
  - destruct Hd as ((n & Hn & Hpend & Hclr) & Hc & Hm & Ht). split.
    + cbn [Nat.add] in *. rewrite Ep in Hclr.
      destruct (le_lt_dec n j) as [Hle|Hgt].
      * exists n. split; [exact Hle|]. split; [|exact Hclr].
        intros i Hi. rewrite <- Ep. apply Hpend, Hi.
      * specialize (Hpend j Hgt). rewrite Ep in Hpend. congruence.
    + unfold poll_completed, own_mask_reg, done_bits, mtk_r32 in *.
      rewrite Hc, Hm, B, C. split; [reflexivity|]. split; [reflexivity|].
      intros a. rewrite Ht, C, D, E. reflexivity.
Qed.

End WithHeader.

(** *** A poll on the NETSYS v3 device *)

(** The interrupt bits of the upstream [mtk_eth_soc.h]. *)
Definition ref_header : header :=
  {| MTK_TX_DONE_INT := BIT 28; MTK_GDM1_AF := BIT 28; MTK_GDM2_AF := BIT 29 |}.

(** The mask registers of [mt7988_reg_map] and of [mt7628_reg_map]. *)
Definition mt7988_reg_map : mtk_reg_map :=
  {| tx_irq_mask_reg := 0x461c; pdma_irq_mask_reg := 0x6a28 |}.

Definition mt7628_reg_map : mtk_reg_map :=
  {| tx_irq_mask_reg := 0x0a28; pdma_irq_mask_reg := 0x0a28 |}.

(** The device of [Rx.mt7988_up] with both interrupts masked, as the
    interrupt handlers leave them; [MTK_RX_DONE_INT_V2] is bit 14. *)
Definition mt7988_napi (filled : nat) : mtk_eth :=
  {| eth := Rx.mt7988_up filled false; rx_irq_done_mask := BIT 14;
     reg_map := mt7988_reg_map; irq_regs := fun _ => 0;
     acks := []; completed := []; stats_updates := 0 |}.

(** The pool serves every pass; the status register shows the receive
    bit again after the first round (the packets arrived after the
    acknowledgement and were drained by the same poll) and is clear
    after the second. *)
Definition late_status : rx_env :=
  {| rx_status2 := 0;
     rx_poll_env := fun _ pass =>
       Rx.pass_env (Some (8 + Z.of_nat pass, Rx.bus_addr (8 + Z.of_nat pass))) Rx.XDP_PASS;
     pdma_irq_status := fun k => match k with O => BIT 14 | _ => 0 end;
     rx_complete := true |}.

Definition quiet_tx : tx_env :=
  {| tx_status2 := 0; tx_irq_status := 0; tx_complete := true |}.

(** With three packets waiting and a budget of 64: the first round
    delivers the three, the status read shows completions pending, the
    second round finds nothing and the status read is clear.  The routine
    returns 3, completes the poll and enables the receive interrupt. *)
Example napi_rx_second_round :
  match mtk_napi_rx (Tx.ref_header 256) Rx.ref_header ref_header 8 late_status 64 (mt7988_napi 3) with
  | Some (ret, st') =>
      ret = 3 /\ completed st' = [(RxDir, 3)] /\ pdma_irq_mask st' = BIT 14 /\
      acks st' = [(pdma_irq_status_reg, BIT 14); (pdma_irq_status_reg, BIT 14)] /\
      Rx.rx_packets (eth st') = 3
  | None => False
  end.
Proof. vm_compute. repeat split; reflexivity. Qed.

(** C9 (as stated) fails for the receive routine: the status register
    shows completions pending after the drain, and the routine does not
    return the budget. *)
Lemma pending_status_counterexample :
  ~ pending_returns_budget (Tx.ref_header 256) Rx.ref_header ref_header 8 late_status 64 (mt7988_napi 3).
Proof.
  intros Hc. destruct (Hc eq_refl) as [st' Hx].
  assert (E : fst <$> mtk_napi_rx (Tx.ref_header 256) Rx.ref_header ref_header 8 late_status 64
                        (mt7988_napi 3) = Some 3)
    by (vm_compute; reflexivity).
  rewrite Hx in E. discriminate E.
Qed.

(** Three frames of the XDP path, queued and sent. *)
Definition frames_done : Tx.mtk_eth :=
  let submit e :=
    match Tx.mtk_xdp_submit_frame (Tx.ref_header 256) (Tx.maps_then_fails 0)
            (Tx.frame 64) 0 false e with
    | Some (_, e') => e'
    | None => e
    end in
  let own i e :=
    Tx.update_desc i (fun d => Tx.with_txd3 (Z.lor (Tx.txd3 d) (BIT 31)) d) e in
  own 1%nat (own 0%nat
    (Tx.device_done (Tx.ref_header 256) 2
       (submit (submit (submit (Rx.tx (Rx.mt7988_up 0 false))))))).

Definition frames_napi : mtk_eth :=
  set_eth (Rx.set_tx (fun _ => frames_done) (Rx.mt7988_up 0 false)) (mt7988_napi 0).

(** With a budget of 2 the reclaim returns two of the three frames and
    has used its budget up, but no socket buffer was among them:
    [mtk_napi_tx] returns 0, completes the poll and enables the
    interrupt. *)
Example napi_tx_budget_spent_on_frames :
  match mtk_napi_tx (Tx.ref_header 256) ref_header quiet_tx 2 frames_napi with
  | Some (ret, st') =>
      ret = 0 /\ completed st' = [(TxDir, 0)] /\ tx_irq_mask st' = BIT 28 /\
      Tx.heads_reclaimed frames_done (Rx.tx (eth st')) = 2 /\
      Tx.skbs_reclaimed frames_done (Rx.tx (eth st')) = 0 /\
      Tx.free_count (Tx.tx_ring (Rx.tx (eth st'))) =
        Tx.free_count (Tx.tx_ring frames_done) + 2
  | None => False
  end.
Proof. vm_compute. repeat split; reflexivity. Qed.

(** On MT7628 the two mask registers are one: a transmit poll that
    completes sets the transmit done bit in the register the receive
    side reads as its mask. *)
Definition mt7628_napi : mtk_eth :=
  {| eth :=
       {| Rx.tx := Tx.brought_up (Tx.ref_header 256) (Tx.rt5350_soc 256);
          Rx.caps_mt7628 := true; Rx.rx_dma_max_len := 0x3fff; Rx.rx_dma_len_offset := 16;
          Rx.rx_ring := []; Rx.hwlro := false; Rx.prog := false;
          Rx.hw_stats := fun _ => Rx.zero_stats; Rx.rx_packets := 0; Rx.rx_bytes := 0;
          Rx.events := [] |};
     rx_irq_done_mask := BIT 16;
     reg_map := mt7628_reg_map; irq_regs := fun _ => 0;
     acks := []; completed := []; stats_updates := 0 |}.

Example napi_tx_shared_mask_register :
  match mtk_napi_tx (Tx.ref_header 256) ref_header quiet_tx 64 mt7628_napi with
  | Some (ret, st') =>
      ret = 0 /\ completed st' = [(TxDir, 0)] /\
      pdma_irq_mask mt7628_napi = 0 /\ pdma_irq_mask st' = BIT 28 /\
      tx_irq_mask st' = BIT 28
  | None => False
  end.
Proof. vm_compute. repeat split; reflexivity. Qed.

Lemma poll_decision_witness :
  (exists r,
      mtk_napi_tx (Tx.ref_header 256) ref_header quiet_tx 64 (mt7988_napi 3) = Some r /\
      r.1 = 0 /\ completed r.2 = [(TxDir, 0)] /\ mtk_r32 r.2 0x461c = BIT 28 /\
      mtk_r32 r.2 0x6a28 = 0) /\
  (exists r,
      mtk_napi_rx (Tx.ref_header 256) Rx.ref_header ref_header 8 late_status 64 (mt7988_napi 3)
        = Some r /\
      0 <= r.1 <= 64 /\ Rx.rx_packets (eth r.2) = r.1).
Proof.
  destruct (poll_decision (Tx.ref_header 256) Rx.ref_header ref_header 8 quiet_tx
              late_status 64 (mt7988_napi 3) 1
              (Rx.mt7988_tx_wf 3 false) ltac:(lia) ltac:(lia) eq_refl)
    as [(tx_done & tx' & r & Hp & _ & _ & _ & Hr & _ & Hd) (r' & Hr' & Hpk & Hb & _)].
  assert (E : tx_done = 0).
  { assert (E : fst <$> Tx.mtk_poll_tx (Tx.ref_header 256) 64
                          (Rx.tx (eth (mt7988_napi 3))) = Some 0)
      by (vm_compute; reflexivity).
    rewrite Hp in E. cbn in E. congruence. }
  subst tx_done. split.
  - exists r. split; [exact Hr|].
    change ((0 =? 64) || tx_pending ref_header quiet_tx) with false in Hd.
    destruct Hd as (D1 & D2 & D3 & D4).
    split; [exact D1|]. split; [rewrite D2, D1; reflexivity|].
    split; rewrite D4; reflexivity.
  - exists r'. split; [exact Hr'|]. split; [exact Hb|]. rewrite Hpk. cbn. lia.
Defined.

End Napi.

(** ** Hardware LRO address table and its ethtool interface:
    [mtk_hwlro_add_ipaddr], [mtk_hwlro_del_ipaddr],
    [mtk_hwlro_get_fdir_entry], [mtk_hwlro_get_fdir_all],
    [mtk_fix_features], [mtk_set_features], [mtk_get_rxnfc],
    [mtk_set_rxnfc] *)

Module Lro.

(** Constants of [mtk_eth_soc.h] and of the kernel's ethtool and netdev
    headers, and the byte order of the CPU. *)
Record header := {
  MTK_MAX_LRO_IP_CNT : Z;
  MTK_MAX_RX_RING_NUM : Z;
  MTK_RING_MYIP_VLD : Z;
  MTK_LRO_CTRL_DW2_CFG : Z -> Z;
  MTK_LRO_DIP_DW0_CFG : Z -> Z;
  NETIF_F_LRO : Z;
  TCP_V4_FLOW : Z;
  ETHTOOL_GRXRINGS : Z;
  ETHTOOL_GRXCLSRLCNT : Z;
  ETHTOOL_GRXCLSRULE : Z;
  ETHTOOL_GRXCLSRLALL : Z;
  ETHTOOL_SRXCLSRLDEL : Z;
  ETHTOOL_SRXCLSRLINS : Z;
  big_endian : bool
}.

Definition EINVAL : Z := 22.
Definition EMSGSIZE : Z := 90.
Definition EOPNOTSUPP : Z := 95.

(** [___constant_swab32]. *)
Definition swab32 (x : Z) : Z :=
  Z.lor (Z.lor (Z.lor (Z.shiftl (Z.land x 0x000000ff) 24)
                      (Z.shiftl (Z.land x 0x0000ff00) 8))
               (Z.shiftr (Z.land x 0x00ff0000) 8))
        (Z.shiftr (Z.land x 0xff000000) 24).

(** The fields of [struct ethtool_rx_flow_spec] the driver touches; [h_]
    is [h_u.tcp_ip4_spec], [m_] is [m_u.tcp_ip4_spec]. *)
Record ethtool_rx_flow_spec := {
  flow_type : Z;
  location : Z;
  h_ip4dst : Z; m_ip4dst : Z;
  h_ip4src : Z; m_ip4src : Z;
  h_psrc : Z; m_psrc : Z;
  h_pdst : Z; m_pdst : Z;
  h_tos : Z; m_tos : Z
}.

Record ethtool_rxnfc := {
  cmd : Z;
  data : Z;
  fs : ethtool_rx_flow_spec;
  rule_cnt : Z
}.

(** [struct mtk_mac] and the [net_device] it belongs to, with the
    register file of the device. *)
Record mtk_mac := {
  id : Z;
  hwlro_ip : list Z;
  hwlro_ip_cnt : Z;
  features : Z;                  (* dev->features *)
  hw_features : Z;               (* dev->hw_features *)
  regs : Z -> Z
}.

Definition set_hwlro_ip (f : list Z -> list Z) (m : mtk_mac) : mtk_mac :=
  {| id := id m; hwlro_ip := f (hwlro_ip m); hwlro_ip_cnt := hwlro_ip_cnt m;
     features := features m; hw_features := hw_features m; regs := regs m |}.

Definition set_hwlro_ip_cnt (c : Z) (m : mtk_mac) : mtk_mac :=
  {| id := id m; hwlro_ip := hwlro_ip m; hwlro_ip_cnt := c;
     features := features m; hw_features := hw_features m; regs := regs m |}.

(** [mtk_r32] and [mtk_w32] on the register file. *)
Definition mtk_r32 (m : mtk_mac) (reg : Z) : Z := regs m reg.

Definition mtk_w32 (val reg : Z) (m : mtk_mac) : mtk_mac :=
  {| id := id m; hwlro_ip := hwlro_ip m; hwlro_ip_cnt := hwlro_ip_cnt m;
     features := features m; hw_features := hw_features m;
     regs := fun r => if r =? reg then val else regs m r |}.

Definition with_rule_cnt (c : Z) (x : ethtool_rxnfc) : ethtool_rxnfc :=
  {| cmd := cmd x; data := data x; fs := fs x; rule_cnt := c |}.

Definition with_data (d : Z) (x : ethtool_rxnfc) : ethtool_rxnfc :=
  {| cmd := cmd x; data := d; fs := fs x; rule_cnt := rule_cnt x |}.

Definition with_fs (f : ethtool_rx_flow_spec) (x : ethtool_rxnfc) : ethtool_rxnfc :=
  {| cmd := cmd x; data := data x; fs := f; rule_cnt := rule_cnt x |}.

Section WithHeader.

Variable H : header.

(** [htonl] and [ntohl]. *)
Definition htonl (x : Z) : Z := if big_endian H then x else swab32 x.
Definition ntohl (x : Z) : Z := if big_endian H then x else swab32 x.

(** [mtk_hwlro_val_ipaddr(eth, idx, ip)]. *)
Definition mtk_hwlro_val_ipaddr (idx ip : Z) (m : mtk_mac) : mtk_mac :=
  let reg_val := mtk_r32 m (MTK_LRO_CTRL_DW2_CFG H idx) in
  let m1 :=
    mtk_w32 (Z.land reg_val (Z.lnot (MTK_RING_MYIP_VLD H)))
      (MTK_LRO_CTRL_DW2_CFG H idx) m in
  let m2 := mtk_w32 ip (MTK_LRO_DIP_DW0_CFG H idx) m1 in
  mtk_w32 (Z.lor reg_val (MTK_RING_MYIP_VLD H)) (MTK_LRO_CTRL_DW2_CFG H idx) m2.

(** [mtk_hwlro_inval_ipaddr(eth, idx)]. *)
Definition mtk_hwlro_inval_ipaddr (idx : Z) (m : mtk_mac) : mtk_mac :=
  let reg_val := mtk_r32 m (MTK_LRO_CTRL_DW2_CFG H idx) in
  let m1 :=
    mtk_w32 (Z.land reg_val (Z.lnot (MTK_RING_MYIP_VLD H)))
      (MTK_LRO_CTRL_DW2_CFG H idx) m in
  mtk_w32 0 (MTK_LRO_DIP_DW0_CFG H idx) m1.

(** [mtk_hwlro_get_ip_cnt(mac)]. *)
Definition mtk_hwlro_get_ip_cnt (m : mtk_mac) : Z :=
  foldl (fun cnt i => if nonzero (hwlro_ip m !!! i) then cnt + 1 else cnt) 0
    (seq 0 (Z.to_nat (MTK_MAX_LRO_IP_CNT H))).

(** A store to [mac->hwlro_ip[i]]; the array has [MTK_MAX_LRO_IP_CNT]
    entries, and a store outside it has no defined result. *)
Definition store_ip (i : Z) (v : Z) (m : mtk_mac) : option mtk_mac :=
  if (0 <=? i) && (i <? Z.of_nat (length (hwlro_ip m)))
  then Some (set_hwlro_ip (fun l => <[Z.to_nat i := v]> l) m)
  else None.

(** [mtk_hwlro_add_ipaddr(dev, cmd)]: the return value and the device. *)
Definition mtk_hwlro_add_ipaddr (c : ethtool_rxnfc) (m : mtk_mac) : option (Z * mtk_mac) :=
  let fsp := fs c in
  if negb (flow_type fsp =? TCP_V4_FLOW H) || negb (nonzero (h_ip4dst fsp))
     || (1 <? location fsp)
  then Some (- EINVAL, m)
  else
    match store_ip (location fsp) (htonl (h_ip4dst fsp)) m with
    | None => None
    | Some m1 =>
        let hwlro_idx := id m * MTK_MAX_LRO_IP_CNT H + location fsp in
        let m2 := set_hwlro_ip_cnt (mtk_hwlro_get_ip_cnt m1) m1 in
        Some (0, mtk_hwlro_val_ipaddr hwlro_idx (hwlro_ip m2 !!! Z.to_nat (location fsp)) m2)
    end.

(** [mtk_hwlro_del_ipaddr(dev, cmd)]. *)
Definition mtk_hwlro_del_ipaddr (c : ethtool_rxnfc) (m : mtk_mac) : option (Z * mtk_mac) :=
  let fsp := fs c in
  if 1 <? location fsp then Some (- EINVAL, m)
  else
    match store_ip (location fsp) 0 m with
    | None => None
    | Some m1 =>
        let hwlro_idx := id m * MTK_MAX_LRO_IP_CNT H + location fsp in
        let m2 := set_hwlro_ip_cnt (mtk_hwlro_get_ip_cnt m1) m1 in
        Some (0, mtk_hwlro_inval_ipaddr hwlro_idx m2)
    end.

(** The loop of [mtk_hwlro_netdev_disable] from entry [i] on. *)
Fixpoint netdev_disable_loop (n : nat) (i : Z) (m : mtk_mac) : option mtk_mac :=
  match n with
  | O => Some m
  | S n' =>
      match store_ip i 0 m with
      | None => None
      | Some m1 =>
          netdev_disable_loop n' (i + 1)
            (mtk_hwlro_inval_ipaddr (id m * MTK_MAX_LRO_IP_CNT H + i) m1)
      end
  end.

(** [mtk_hwlro_netdev_disable(dev)]. *)
Definition mtk_hwlro_netdev_disable (m : mtk_mac) : option mtk_mac :=
  match netdev_disable_loop (Z.to_nat (MTK_MAX_LRO_IP_CNT H)) 0 m with
  | None => None
  | Some m1 => Some (set_hwlro_ip_cnt 0 m1)
  end.

(** [mtk_hwlro_get_fdir_entry(dev, cmd)]: the return value and [cmd].
    [ARRAY_SIZE(mac->hwlro_ip)] is the length of the array. *)
Definition mtk_hwlro_get_fdir_entry (c : ethtool_rxnfc) (m : mtk_mac) : Z * ethtool_rxnfc :=
  let fsp := fs c in
  if Z.of_nat (length (hwlro_ip m)) <=? location fsp then (- EINVAL, c)
  else
    (0, with_fs
          {| flow_type := TCP_V4_FLOW H;
             location := location fsp;
             h_ip4dst := ntohl (hwlro_ip m !!! Z.to_nat (location fsp));
             m_ip4dst := 0;
             h_ip4src := 0; m_ip4src := 0xffffffff;
             h_psrc := 0; m_psrc := 0xffff;
             h_pdst := 0; m_pdst := 0xffff;
             h_tos := 0; m_tos := 0xff |} c).

(** How the loop of [mtk_hwlro_get_fdir_all] ends: it falls through with
    [cnt] and the buffer, it returns [-EMSGSIZE] from inside, or it
    stores outside the caller's buffer of [rule_cnt] entries. *)
Inductive fdir_loop_res :=
| FdirDone (cnt : Z) (rule_locs : list Z)
| FdirFull (rule_locs : list Z)
| FdirOverrun.

(** The loop over the entries [i], [i+1], ... ([n] of them). *)
Fixpoint fdir_all_loop (ips : list Z) (n i : nat) (rule_cnt cnt : Z) (rule_locs : list Z)
    : fdir_loop_res :=
  match n with
  | O => FdirDone cnt rule_locs
  | S n' =>
      if cnt =? rule_cnt then FdirFull rule_locs
      else if nonzero (ips !!! i) then
        if (Z.to_nat cnt <? length rule_locs)%nat
        then fdir_all_loop ips n' (S i) rule_cnt (cnt + 1)
               (<[Z.to_nat cnt := Z.of_nat i]> rule_locs)
        else FdirOverrun
      else fdir_all_loop ips n' (S i) rule_cnt cnt rule_locs
  end.

(** [mtk_hwlro_get_fdir_all(dev, cmd, rule_locs)]: the return value,
    [cmd] and the buffer. *)
Definition mtk_hwlro_get_fdir_all (c : ethtool_rxnfc) (rule_locs : list Z) (m : mtk_mac)
    : option (Z * ethtool_rxnfc * list Z) :=
  match fdir_all_loop (hwlro_ip m) (Z.to_nat (MTK_MAX_LRO_IP_CNT H)) O (rule_cnt c) 0
          rule_locs with
  | FdirDone cnt locs => Some (0, with_rule_cnt cnt c, locs)
  | FdirFull locs => Some (- EMSGSIZE, c, locs)
  | FdirOverrun => None
  end.

(** [mtk_fix_features(dev, features)]. *)
Definition mtk_fix_features (feat : Z) (m : mtk_mac) : Z :=
  if negb (nonzero (Z.land feat (NETIF_F_LRO H))) then
    if nonzero (mtk_hwlro_get_ip_cnt m) then Z.lor feat (NETIF_F_LRO H) else feat
  else feat.

(** [mtk_set_features(dev, features)]. *)
Definition mtk_set_features (feat : Z) (m : mtk_mac) : option (Z * mtk_mac) :=
  let diff := Z.lxor (features m) feat in
  if nonzero (Z.land diff (NETIF_F_LRO H)) && negb (nonzero (Z.land feat (NETIF_F_LRO H)))
  then
    match mtk_hwlro_netdev_disable m with
    | None => None
    | Some m1 => Some (0, m1)
    end
  else Some (0, m).

(** [mtk_get_rxnfc(dev, cmd, rule_locs)]. *)
Definition mtk_get_rxnfc (c : ethtool_rxnfc) (rule_locs : list Z) (m : mtk_mac)
    : option (Z * ethtool_rxnfc * list Z) :=
  let lro := nonzero (Z.land (hw_features m) (NETIF_F_LRO H)) in
  if cmd c =? ETHTOOL_GRXRINGS H then
    if lro then Some (0, with_data (MTK_MAX_RX_RING_NUM H) c, rule_locs)
    else Some (- EOPNOTSUPP, c, rule_locs)
  else if cmd c =? ETHTOOL_GRXCLSRLCNT H then
    if lro then Some (0, with_rule_cnt (hwlro_ip_cnt m) c, rule_locs)
    else Some (- EOPNOTSUPP, c, rule_locs)
  else if cmd c =? ETHTOOL_GRXCLSRULE H then
    if lro then
      let '(ret, c') := mtk_hwlro_get_fdir_entry c m in Some (ret, c', rule_locs)
    else Some (- EOPNOTSUPP, c, rule_locs)
  else if cmd c =? ETHTOOL_GRXCLSRLALL H then
    if lro then mtk_hwlro_get_fdir_all c rule_locs m
    else Some (- EOPNOTSUPP, c, rule_locs)
  else Some (- EOPNOTSUPP, c, rule_locs).

(** [mtk_set_rxnfc(dev, cmd)]. *)
Definition mtk_set_rxnfc (c : ethtool_rxnfc) (m : mtk_mac) : option (Z * mtk_mac) :=
  let lro := nonzero (Z.land (hw_features m) (NETIF_F_LRO H)) in
  if cmd c =? ETHTOOL_SRXCLSRLINS H then
    if lro then mtk_hwlro_add_ipaddr c m else Some (- EOPNOTSUPP, m)
  else if cmd c =? ETHTOOL_SRXCLSRLDEL H then
    if lro then mtk_hwlro_del_ipaddr c m else Some (- EOPNOTSUPP, m)
  else Some (- EOPNOTSUPP, m).

(** *** Byte order *)

Lemma testbit_low_mask (k n : Z) :
  0 <= k -> 0 <= n -> Z.testbit (Z.ones k) n = (n <? k).
Proof.
  intros Hk Hn. rewrite Z.testbit_ones by exact Hk.
  replace (0 <=? n) with true by (symmetry; apply Z.leb_le; exact Hn). reflexivity.
Qed.

(** Bit [n] of [swab32 x]. *)
Lemma swab32_spec x n :
  0 <= n ->
  Z.testbit (swab32 x) n =
    if n <? 8 then Z.testbit x (n + 24)
    else if n <? 16 then Z.testbit x (n + 8)
    else if n <? 24 then Z.testbit x (n - 8)
    else if n <? 32 then Z.testbit x (n - 24)
    else false.
Proof.
  intros Hn. unfold swab32.
  change 0x000000ff with (Z.ones 8).
  change 0x0000ff00 with (Z.shiftl (Z.ones 8) 8).
  change 0x00ff0000 with (Z.shiftl (Z.ones 8) 16).
  change 0xff000000 with (Z.shiftl (Z.ones 8) 24).
  rewrite !Z.lor_spec.
  rewrite !Z.shiftr_spec by lia.
  rewrite !Z.land_spec.
  rewrite (Z.shiftl_spec (Z.ones 8) 16) by lia.
  rewrite (Z.shiftl_spec (Z.ones 8) 24) by lia.
  replace (n + 8 - 16) with (n - 8) by lia. replace (n + 24 - 24) with n by lia.
  rewrite (testbit_low_mask 8 n) by lia.
  destruct (Z.ltb_spec n 8) as [H8|H8].
  - rewrite (Z.shiftl_spec_low _ _ n) by lia.
    rewrite (Z.shiftl_spec_low _ _ n) by lia.
    rewrite (Z.testbit_neg_r _ (n - 8)) by lia.
    rewrite !andb_false_r, andb_true_r. reflexivity.
  - rewrite andb_false_r, orb_false_r.
    rewrite (Z.shiftl_spec _ 24 n), (Z.shiftl_spec _ 8 n) by lia.
    rewrite !Z.land_spec.
    rewrite (Z.shiftl_spec (Z.ones 8) 8) by lia.
    rewrite (testbit_low_mask 8 (n - 8)) by lia.
    destruct (Z.ltb_spec n 16) as [H16|H16].
    + rewrite (Z.testbit_neg_r _ (n - 24)) by lia.
      replace (n - 8 <? 8) with true by (symmetry; apply Z.ltb_lt; lia).
      replace (n - 8 - 8) with (n - 16) by lia.
      rewrite (Z.testbit_neg_r _ (n - 16)) by lia.
      rewrite !andb_false_r, andb_true_r. cbn [orb]. rewrite orb_false_r. reflexivity.
    + replace (n - 8 <? 8) with false by (symmetry; apply Z.ltb_ge; lia).
      rewrite !andb_false_r, orb_false_r.
      replace (n - 8 - 8) with (n - 16) by lia.
      rewrite (testbit_low_mask 8 (n - 16)) by lia.
      destruct (Z.ltb_spec n 24) as [H24|H24].
      * rewrite (Z.testbit_neg_r (Z.ones 8) (n - 24)) by lia.
        rewrite (Z.testbit_neg_r x (n - 24)) by lia.
        replace (n - 16 <? 8) with true by (symmetry; apply Z.ltb_lt; lia).
        rewrite andb_true_r. reflexivity.
      * replace (n - 16 <? 8) with false by (symmetry; apply Z.ltb_ge; lia).
        rewrite andb_false_r. cbn [orb].
        rewrite (testbit_low_mask 8 (n - 24)) by lia.
        destruct (Z.ltb_spec n 32) as [H32|H32].
        -- replace (n - 24 <? 8) with true by (symmetry; apply Z.ltb_lt; lia).
           rewrite ?andb_true_r, ?andb_false_r, ?orb_false_r. reflexivity.
        -- replace (n - 24 <? 8) with false by (symmetry; apply Z.ltb_ge; lia).
           rewrite ?andb_true_r, ?andb_false_r, ?orb_false_r. reflexivity.
Qed.

Lemma testbit_u32_high x n : 0 <= x < 2 ^ 32 -> 32 <= n -> Z.testbit x n = false.
Proof.
  intros Hx Hn. destruct (Z.eq_dec x 0) as [->|Hne]; [apply Z.bits_0|].
  apply Z.bits_above_log2; [lia|].
  assert (Z.log2 x < 32) by (apply Z.log2_lt_pow2; lia). lia.
Qed.

Lemma swab32_range x : 0 <= swab32 x < 2 ^ 32.
Proof.
  assert (Hnn : 0 <= swab32 x).
  { apply Z.bits_iff_nonneg_ex. exists 32. intros m Hm.
    rewrite swab32_spec by lia.
    repeat match goal with
           | |- context [?a <? ?b] => destruct (Z.ltb_spec a b); try lia
           end. }
  split; [exact Hnn|].
  destruct (Z.eq_dec (swab32 x) 0) as [->|Hne]; [reflexivity|].
  apply Z.log2_lt_pow2; [lia|].
  destruct (Z.lt_ge_cases (Z.log2 (swab32 x)) 32) as [Hlt|Hge]; [exact Hlt|].
  pose proof (Z.bit_log2 (swab32 x) ltac:(lia)) as Hb.
  rewrite swab32_spec in Hb by lia.
  repeat match type of Hb with
         | context [?a <? ?b] => destruct (Z.ltb_spec a b); try lia
         end.
Qed.

(** Swapping the bytes of a 32-bit word twice gives the word back. *)
Lemma swab32_involutive x : 0 <= x < 2 ^ 32 -> swab32 (swab32 x) = x.
Proof.
  intros Hx. apply Z.bits_inj'. intros n Hn.
  rewrite swab32_spec by exact Hn.
  destruct (Z.ltb_spec n 8); [rewrite swab32_spec by lia|].
  { repeat match goal with
           | |- context [?a <? ?b] => destruct (Z.ltb_spec a b); try lia
           end.
    f_equal. lia. }
  destruct (Z.ltb_spec n 16); [rewrite swab32_spec by lia|].
  { repeat match goal with
           | |- context [?a <? ?b] => destruct (Z.ltb_spec a b); try lia
           end.
    f_equal. lia. }
  destruct (Z.ltb_spec n 24); [rewrite swab32_spec by lia|].
  { repeat match goal with
           | |- context [?a <? ?b] => destruct (Z.ltb_spec a b); try lia
           end.
    f_equal. lia. }
  destruct (Z.ltb_spec n 32); [rewrite swab32_spec by lia|].
  { repeat match goal with
           | |- context [?a <? ?b] => destruct (Z.ltb_spec a b); try lia
           end.
    f_equal. lia. }
  symmetry. apply testbit_u32_high; [exact Hx|lia].
Qed.

Lemma swab32_zero x : 0 <= x < 2 ^ 32 -> swab32 x = 0 -> x = 0.
Proof.
  intros Hx H0. rewrite <- (swab32_involutive x Hx), H0. reflexivity.
Qed.

Lemma ntohl_htonl x : 0 <= x < 2 ^ 32 -> ntohl (htonl x) = x.
Proof.
  intros Hx. unfold ntohl, htonl. destruct (big_endian H); [reflexivity|].
  apply swab32_involutive, Hx.
Qed.

Lemma htonl_nonzero x : 0 <= x < 2 ^ 32 -> nonzero x = true -> nonzero (htonl x) = true.
Proof.
  intros Hx Hn. unfold htonl. destruct (big_endian H); [exact Hn|].
  unfold nonzero in *. apply negb_true_iff, Z.eqb_neq. intros H0.
  apply (swab32_zero x Hx) in H0. subst x. discriminate.
Qed.

(** *** The address table *)

(** The programmed entries among the first [n], in ascending order. *)
Definition programmed (ips : list Z) (n : nat) : list nat :=
  List.filter (fun i => nonzero (ips !!! i)) (seq 0 n).

Lemma programmed_S ips n :
  programmed ips (S n) =
  programmed ips n ++ (if nonzero (ips !!! n) then [n] else []).
Proof.
  unfold programmed. rewrite seq_S, List.filter_app. cbn [List.filter Nat.add].
  destruct (nonzero (ips !!! n)); reflexivity.
Qed.

Lemma programmed_mono ips n k :
  (length (programmed ips n) <= length (programmed ips (n + k)))%nat.
Proof.
  induction k as [|k IH]; [rewrite Nat.add_0_r; lia|].
  rewrite Nat.add_succ_r, programmed_S, length_app. lia.
Qed.

Lemma programmed_lt ips n i : In i (programmed ips n) -> (i < n)%nat /\ ips !!! i <> 0.
Proof.
  unfold programmed. rewrite List.filter_In, in_seq. intros [Hi Hn].
  split; [lia|]. unfold nonzero in Hn. apply negb_true_iff, Z.eqb_neq in Hn. exact Hn.
Qed.

Lemma programmed_nil ips n :
  programmed ips n = [] <-> forall i, (i < n)%nat -> ips !!! i = 0.
Proof.
  induction n as [|n IH]; [split; [intros _ i Hi; lia|reflexivity]|].
  rewrite programmed_S. split.
  - intros Hnil i Hi. apply app_eq_nil in Hnil as [Hn Hl].
    destruct (decide (i = n)) as [->|Hne].
    + unfold nonzero in Hl. destruct (ips !!! n =? 0) eqn:E; [|discriminate].
      apply Z.eqb_eq, E.
    + apply IH; [exact Hn|lia].
  - intros Hall. rewrite (proj2 IH) by (intros i Hi; apply Hall; lia).
    unfold nonzero. rewrite (Hall n) by lia. reflexivity.
Qed.

Lemma get_ip_cnt_fold (ips : list Z) n a :
  foldl (fun cnt i => if nonzero (ips !!! i) then cnt + 1 else cnt) a (seq 0 n) =
  a + Z.of_nat (length (programmed ips n)).
Proof.
  induction n as [|n IH]; [cbn; lia|].
  rewrite seq_S, foldl_app, IH, programmed_S, length_app. cbn [foldl Nat.add].
  destruct (nonzero (ips !!! n)); cbn [length]; lia.
Qed.

(** [mtk_hwlro_get_ip_cnt] counts the programmed entries. *)
Lemma get_ip_cnt_programmed m :
  mtk_hwlro_get_ip_cnt m =
  Z.of_nat (length (programmed (hwlro_ip m) (Z.to_nat (MTK_MAX_LRO_IP_CNT H)))).
Proof. unfold mtk_hwlro_get_ip_cnt. rewrite get_ip_cnt_fold. lia. Qed.

(** The software side of a state: what the register writes leave alone. *)
Lemma val_ipaddr_soft idx ip m :
  let m' := mtk_hwlro_val_ipaddr idx ip m in
  id m' = id m /\ hwlro_ip m' = hwlro_ip m /\ hwlro_ip_cnt m' = hwlro_ip_cnt m /\
  features m' = features m /\ hw_features m' = hw_features m.
Proof. repeat split. Qed.

Lemma inval_ipaddr_soft idx m :
  let m' := mtk_hwlro_inval_ipaddr idx m in
  id m' = id m /\ hwlro_ip m' = hwlro_ip m /\ hwlro_ip_cnt m' = hwlro_ip_cnt m /\
  features m' = features m /\ hw_features m' = hw_features m.
Proof. repeat split. Qed.

(** The registers after [mtk_hwlro_val_ipaddr]. *)
Lemma val_ipaddr_regs idx ip m :
  MTK_LRO_DIP_DW0_CFG H idx <> MTK_LRO_CTRL_DW2_CFG H idx ->
  let m' := mtk_hwlro_val_ipaddr idx ip m in
  regs m' (MTK_LRO_DIP_DW0_CFG H idx) = ip /\
  regs m' (MTK_LRO_CTRL_DW2_CFG H idx) =
    Z.lor (regs m (MTK_LRO_CTRL_DW2_CFG H idx)) (MTK_RING_MYIP_VLD H) /\
  forall r, r <> MTK_LRO_DIP_DW0_CFG H idx -> r <> MTK_LRO_CTRL_DW2_CFG H idx ->
            regs m' r = regs m r.
Proof.
  intros Hne m'. unfold m', mtk_hwlro_val_ipaddr, mtk_w32, mtk_r32. cbn [regs].
  rewrite Z.eqb_refl.
  replace (MTK_LRO_DIP_DW0_CFG H idx =? MTK_LRO_CTRL_DW2_CFG H idx) with false
    by (symmetry; apply Z.eqb_neq; exact Hne).
  rewrite Z.eqb_refl. split; [reflexivity|]. split; [reflexivity|].
  intros r H1 H2.
  replace (r =? MTK_LRO_CTRL_DW2_CFG H idx) with false by (symmetry; apply Z.eqb_neq; exact H2).
  replace (r =? MTK_LRO_DIP_DW0_CFG H idx) with false by (symmetry; apply Z.eqb_neq; exact H1).
  reflexivity.
Qed.

Lemma store_ip_some i v m :
  0 <= i < Z.of_nat (length (hwlro_ip m)) ->
  store_ip i v m = Some (set_hwlro_ip (fun l => <[Z.to_nat i := v]> l) m).
Proof.
  intros Hi. unfold store_ip.
  replace (0 <=? i) with true by (symmetry; apply Z.leb_le; lia).
  replace (i <? Z.of_nat (length (hwlro_ip m))) with true by (symmetry; apply Z.ltb_lt; lia).
  reflexivity.
Qed.

(** [mtk_hwlro_add_ipaddr] with arguments it accepts. *)
Lemma add_ipaddr_ok c m :
  flow_type (fs c) = TCP_V4_FLOW H -> h_ip4dst (fs c) <> 0 ->
  0 <= location (fs c) <= 1 ->
  location (fs c) < Z.of_nat (length (hwlro_ip m)) ->
  exists m',
    mtk_hwlro_add_ipaddr c m = Some (0, m') /\
    hwlro_ip m' = <[Z.to_nat (location (fs c)) := htonl (h_ip4dst (fs c))]> (hwlro_ip m) /\
    hwlro_ip_cnt m' = mtk_hwlro_get_ip_cnt m' /\
    id m' = id m /\ features m' = features m /\ hw_features m' = hw_features m /\
    m' = mtk_hwlro_val_ipaddr (id m * MTK_MAX_LRO_IP_CNT H + location (fs c))
           (htonl (h_ip4dst (fs c)))
           (set_hwlro_ip_cnt (mtk_hwlro_get_ip_cnt m')
              (set_hwlro_ip (fun l => <[Z.to_nat (location (fs c)) := htonl (h_ip4dst (fs c))]> l) m)).
Proof.
  intros Hf Hip Hloc Hlen. unfold mtk_hwlro_add_ipaddr.
  rewrite Hf, Z.eqb_refl. unfold nonzero at 1.
  replace (h_ip4dst (fs c) =? 0) with false by (symmetry; apply Z.eqb_neq; exact Hip).
  replace (1 <? location (fs c)) with false by (symmetry; apply Z.ltb_ge; lia).
  cbn [negb orb]. rewrite store_ip_some by lia.
  eexists. split; [reflexivity|].
  cbn [hwlro_ip set_hwlro_ip_cnt set_hwlro_ip].
  rewrite list_lookup_total_insert_eq by lia.
  repeat split.
Qed.

(** [mtk_hwlro_del_ipaddr] with a location it accepts. *)
Lemma del_ipaddr_ok c m :
  0 <= location (fs c) <= 1 ->
  location (fs c) < Z.of_nat (length (hwlro_ip m)) ->
  exists m',
    mtk_hwlro_del_ipaddr c m = Some (0, m') /\
    hwlro_ip m' = <[Z.to_nat (location (fs c)) := 0]> (hwlro_ip m) /\
    hwlro_ip_cnt m' = mtk_hwlro_get_ip_cnt m' /\
    id m' = id m /\ features m' = features m /\ hw_features m' = hw_features m.
Proof.
  intros Hloc Hlen. unfold mtk_hwlro_del_ipaddr.
  replace (1 <? location (fs c)) with false by (symmetry; apply Z.ltb_ge; lia).
  rewrite store_ip_some by lia.
  eexists. split; [reflexivity|]. repeat split.
Qed.

(** X13: an address stored by [mtk_hwlro_add_ipaddr] is the address
    [mtk_hwlro_get_fdir_entry] reports for that location, whatever the
    byte order of the CPU; the call leaves the other entries alone,
    brings [hwlro_ip_cnt] up to date, and programs the hardware entry
    [id * MTK_MAX_LRO_IP_CNT + location] with the stored word and its
    valid bit. *)
Theorem lro_rule_round_trip c q m :
  flow_type (fs c) = TCP_V4_FLOW H ->
  0 < h_ip4dst (fs c) < 2 ^ 32 ->
  0 <= location (fs c) <= 1 ->
  location (fs c) < Z.of_nat (length (hwlro_ip m)) ->
  location (fs q) = location (fs c) ->
  let idx := id m * MTK_MAX_LRO_IP_CNT H + location (fs c) in
  exists m',
    mtk_hwlro_add_ipaddr c m = Some (0, m') /\
    (exists q',
        mtk_hwlro_get_fdir_entry q m' = (0, q') /\
        flow_type (fs q') = TCP_V4_FLOW H /\
        h_ip4dst (fs q') = h_ip4dst (fs c) /\
        location (fs q') = location (fs c)) /\
    (forall j, j <> Z.to_nat (location (fs c)) -> hwlro_ip m' !!! j = hwlro_ip m !!! j) /\
    hwlro_ip_cnt m' = Z.of_nat (length (programmed (hwlro_ip m')
                                          (Z.to_nat (MTK_MAX_LRO_IP_CNT H)))) /\
    (MTK_LRO_DIP_DW0_CFG H idx <> MTK_LRO_CTRL_DW2_CFG H idx ->
     regs m' (MTK_LRO_DIP_DW0_CFG H idx) = htonl (h_ip4dst (fs c)) /\
     regs m' (MTK_LRO_CTRL_DW2_CFG H idx) =
       Z.lor (regs m (MTK_LRO_CTRL_DW2_CFG H idx)) (MTK_RING_MYIP_VLD H)).
Proof.
  intros Hf Hip Hloc Hlen Hq idx.
  destruct (add_ipaddr_ok c m Hf ltac:(lia) Hloc Hlen)
    as (m' & Ha & Hips & Hcnt & _ & _ & _ & Hm').
  exists m'. split; [exact Ha|]. split; [|split; [|split]].
  - unfold mtk_hwlro_get_fdir_entry. rewrite Hips, length_insert, Hq.
    replace (Z.of_nat (length (hwlro_ip m)) <=? location (fs c)) with false
      by (symmetry; apply Z.leb_gt; lia).
    eexists. split; [reflexivity|]. cbn [fs with_fs flow_type h_ip4dst location].
    rewrite list_lookup_total_insert_eq by lia.
    rewrite ntohl_htonl by lia. repeat split.
  - intros j Hj. rewrite Hips. apply list_lookup_total_insert_ne. congruence.
  - rewrite Hcnt. apply get_ip_cnt_programmed.
  - intros Hne. rewrite Hm'.
    destruct (val_ipaddr_regs idx (htonl (h_ip4dst (fs c)))
                (set_hwlro_ip_cnt (mtk_hwlro_get_ip_cnt m')
                   (set_hwlro_ip
                      (fun l => <[Z.to_nat (location (fs c)) := htonl (h_ip4dst (fs c))]> l) m))
                Hne) as (Hd & Hc & _).
    fold idx. split; [exact Hd|exact Hc].
Qed.

(** X14: [mtk_set_rxnfc] on a table of at least two entries returns; a
    call that does not return 0 ([-EOPNOTSUPP] for an unknown command or
    a device without LRO, [-EINVAL] for a rule the driver refuses)
    leaves the device as it was, and after a call that returns 0
    [hwlro_ip_cnt] is the number of programmed entries, which is what
    [ETHTOOL_GRXCLSRLCNT] reports. *)
Theorem set_rxnfc_keeps_count c m :
  (2 <= length (hwlro_ip m))%nat -> 0 <= location (fs c) ->
  exists ret m',
    mtk_set_rxnfc c m = Some (ret, m') /\
    length (hwlro_ip m') = length (hwlro_ip m) /\
    ((ret = 0 /\
      hwlro_ip_cnt m' = Z.of_nat (length (programmed (hwlro_ip m')
                                            (Z.to_nat (MTK_MAX_LRO_IP_CNT H))))) \/
     ((ret = - EOPNOTSUPP \/ ret = - EINVAL) /\ m' = m)).
Proof.
  intros Hlen Hloc. unfold mtk_set_rxnfc.
  assert (Refuse : forall r, r = - EOPNOTSUPP \/ r = - EINVAL ->
            exists ret m',
              Some (r, m) = Some (ret, m') /\
              length (hwlro_ip m') = length (hwlro_ip m) /\
              ((ret = 0 /\
                hwlro_ip_cnt m' = Z.of_nat (length (programmed (hwlro_ip m')
                                            (Z.to_nat (MTK_MAX_LRO_IP_CNT H))))) \/
               ((ret = - EOPNOTSUPP \/ ret = - EINVAL) /\ m' = m))).
  { intros r Hr. exists r, m. split; [reflexivity|]. split; [reflexivity|].
    right. split; [exact Hr|reflexivity]. }
  destruct (cmd c =? ETHTOOL_SRXCLSRLINS H).
  - destruct (nonzero (Z.land (hw_features m) (NETIF_F_LRO H))); [|apply Refuse; left; reflexivity].
    destruct (Z.eq_dec (flow_type (fs c)) (TCP_V4_FLOW H)) as [Hf|Hf].
    2: { unfold mtk_hwlro_add_ipaddr.
         replace (flow_type (fs c) =? TCP_V4_FLOW H) with false
           by (symmetry; apply Z.eqb_neq; exact Hf).
         apply Refuse. right. reflexivity. }
    destruct (Z.eq_dec (h_ip4dst (fs c)) 0) as [H0|H0].
    { unfold mtk_hwlro_add_ipaddr. rewrite H0. cbn [nonzero Z.eqb negb].
      rewrite orb_true_r. apply Refuse. right. reflexivity. }
    destruct (Z.ltb_spec 1 (location (fs c))) as [Hl|Hl].
    { unfold mtk_hwlro_add_ipaddr.
      replace (1 <? location (fs c)) with true by (symmetry; apply Z.ltb_lt; exact Hl).
      rewrite orb_true_r. apply Refuse. right. reflexivity. }
    destruct (add_ipaddr_ok c m Hf H0 ltac:(lia) ltac:(lia))
      as (m' & Ha & Hips & Hcnt & _).
    exists 0, m'. split; [exact Ha|]. split; [rewrite Hips; apply length_insert|].
    left. split; [reflexivity|]. rewrite Hcnt. apply get_ip_cnt_programmed.
  - destruct (cmd c =? ETHTOOL_SRXCLSRLDEL H); [|apply Refuse; left; reflexivity].
    destruct (nonzero (Z.land (hw_features m) (NETIF_F_LRO H))); [|apply Refuse; left; reflexivity].
    destruct (Z.ltb_spec 1 (location (fs c))) as [Hl|Hl].
    { unfold mtk_hwlro_del_ipaddr.
      replace (1 <? location (fs c)) with true by (symmetry; apply Z.ltb_lt; exact Hl).
      apply Refuse. right. reflexivity. }
    destruct (del_ipaddr_ok c m ltac:(lia) ltac:(lia)) as (m' & Ha & Hips & Hcnt & _).
    exists 0, m'. split; [exact Ha|]. split; [rewrite Hips; apply length_insert|].
    left. split; [reflexivity|]. rewrite Hcnt. apply get_ip_cnt_programmed.
Qed.

(** *** Feature changes *)

Lemma land_lor_same a b : Z.land (Z.lor a b) b = b.
Proof.
  apply Z.bits_inj'. intros n _. rewrite Z.land_spec, Z.lor_spec.
  destruct (Z.testbit a n), (Z.testbit b n); reflexivity.
Qed.

Lemma lookup_total_eq (l1 l2 : list Z) :
  length l1 = length l2 -> (forall j, (j < length l1)%nat -> l1 !!! j = l2 !!! j) -> l1 = l2.
Proof.
  intros Hlen Hall. apply list_eq. intros j.
  destruct (decide (j < length l1)%nat) as [Hj|Hj].
  - rewrite (list_lookup_lookup_total_lt l1 j Hj).
    rewrite (list_lookup_lookup_total_lt l2 j) by lia. f_equal. apply Hall, Hj.
  - rewrite !lookup_ge_None_2 by lia. reflexivity.
Qed.

(** The loop of [mtk_hwlro_netdev_disable] clears the entries it walks
    over and no other. *)
Lemma netdev_disable_loop_spec : forall n i m,
    0 <= i -> (Z.to_nat i + n <= length (hwlro_ip m))%nat ->
    exists m',
      netdev_disable_loop n i m = Some m' /\
      length (hwlro_ip m') = length (hwlro_ip m) /\
      id m' = id m /\ features m' = features m /\ hw_features m' = hw_features m /\
      hwlro_ip_cnt m' = hwlro_ip_cnt m /\
      (forall j, (Z.to_nat i <= j < Z.to_nat i + n)%nat -> hwlro_ip m' !!! j = 0) /\
      (forall j, (j < Z.to_nat i \/ Z.to_nat i + n <= j)%nat ->
                 hwlro_ip m' !!! j = hwlro_ip m !!! j).
Proof.
  induction n as [|n IH]; intros i m Hi Hlen.
  - exists m. cbn [netdev_disable_loop]. repeat split; try reflexivity. intros j Hj. lia.
  - cbn [netdev_disable_loop]. rewrite store_ip_some by lia.
    set (m1 := mtk_hwlro_inval_ipaddr _ _).
    assert (E1 : hwlro_ip m1 = <[Z.to_nat i := 0]> (hwlro_ip m)) by reflexivity.
    assert (S1 : id m1 = id m /\ features m1 = features m /\ hw_features m1 = hw_features m /\
                 hwlro_ip_cnt m1 = hwlro_ip_cnt m) by (repeat split).
    clearbody m1. destruct S1 as (I1 & F1 & W1 & C1).
    destruct (IH (i + 1) m1 ltac:(lia)) as (m' & Hr & Hl & Hid & Hf & Hw & Hc & Hz & Hk).
    { rewrite E1, length_insert. lia. }
    exists m'. split; [exact Hr|].
    split; [rewrite Hl, E1; apply length_insert|].
    split; [congruence|]. split; [congruence|]. split; [congruence|]. split; [congruence|].
    split.
    + intros j Hj. destruct (decide (j = Z.to_nat i)) as [->|Hne].
      * rewrite Hk by lia. rewrite E1. apply list_lookup_total_insert_eq. lia.
      * apply Hz. lia.
    + intros j Hj. rewrite Hk by lia. rewrite E1.
      apply list_lookup_total_insert_ne. lia.
Qed.

(** [mtk_hwlro_netdev_disable] on a table of [MTK_MAX_LRO_IP_CNT]
    entries. *)
Lemma netdev_disable_spec m :
  length (hwlro_ip m) = Z.to_nat (MTK_MAX_LRO_IP_CNT H) ->
  exists m',
    mtk_hwlro_netdev_disable m = Some m' /\
    length (hwlro_ip m') = length (hwlro_ip m) /\
    id m' = id m /\ features m' = features m /\ hw_features m' = hw_features m /\
    hwlro_ip_cnt m' = 0 /\
    (forall j, (j < length (hwlro_ip m))%nat -> hwlro_ip m' !!! j = 0).
Proof.
  intros Hlen. unfold mtk_hwlro_netdev_disable.
  destruct (netdev_disable_loop_spec (Z.to_nat (MTK_MAX_LRO_IP_CNT H)) 0 m ltac:(lia)
              ltac:(lia)) as (m' & Hr & Hl & Hid & Hf & Hw & _ & Hz & _).
  rewrite Hr. eexists. split; [reflexivity|].
  cbn [set_hwlro_ip_cnt hwlro_ip id features hw_features hwlro_ip_cnt].
  repeat (split; [assumption || reflexivity|]).
  intros j Hj. apply Hz. lia.
Qed.

(** What [mtk_set_features] does to the address table. *)
Lemma lro_table_after_set_features feat m :
  length (hwlro_ip m) = Z.to_nat (MTK_MAX_LRO_IP_CNT H) ->
  exists m',
    mtk_set_features feat m = Some (0, m') /\
    (m' = m \/
     (nonzero (Z.land feat (NETIF_F_LRO H)) = false /\
      length (hwlro_ip m') = length (hwlro_ip m) /\
      forall j, (j < length (hwlro_ip m))%nat -> hwlro_ip m' !!! j = 0)).
Proof.
  intros Hlen. unfold mtk_set_features.
  destruct (nonzero (Z.land (Z.lxor (features m) feat) (NETIF_F_LRO H)));
    [|exists m; split; [reflexivity|left; reflexivity]].
  destruct (nonzero (Z.land feat (NETIF_F_LRO H))) eqn:Ef; cbn [negb andb];
    [exists m; split; [reflexivity|left; reflexivity]|].
  destruct (netdev_disable_spec m Hlen) as (m' & Hr & Hl & _ & _ & _ & _ & Hz).
  rewrite Hr. exists m'. split; [reflexivity|]. right.
  split; [reflexivity|]. split; [exact Hl|exact Hz].
Qed.

(** X15: switching LRO off through [mtk_set_features] (the bit is set in
    [dev->features] and clear in the new feature set) clears every
    entry of the address table and sets [hwlro_ip_cnt] to 0, so that
    [mtk_fix_features] no longer forces LRO on; any other feature change
    leaves the device as it was. *)
Theorem lro_off_clears_table feat m :
  length (hwlro_ip m) = Z.to_nat (MTK_MAX_LRO_IP_CNT H) ->
  exists m',
    mtk_set_features feat m = Some (0, m') /\
    if nonzero (Z.land (features m) (NETIF_F_LRO H)) &&
       negb (nonzero (Z.land feat (NETIF_F_LRO H)))
    then
      programmed (hwlro_ip m') (Z.to_nat (MTK_MAX_LRO_IP_CNT H)) = [] /\
      hwlro_ip_cnt m' = 0 /\ mtk_hwlro_get_ip_cnt m' = 0 /\
      mtk_fix_features feat m' = feat
    else m' = m.
Proof.
  intros Hlen. unfold mtk_set_features.
  assert (Hdiff : nonzero (Z.land feat (NETIF_F_LRO H)) = false ->
                  nonzero (Z.land (Z.lxor (features m) feat) (NETIF_F_LRO H)) =
                  nonzero (Z.land (features m) (NETIF_F_LRO H))).
  { intros Hoff. unfold nonzero in Hoff. apply negb_false_iff, Z.eqb_eq in Hoff.
    f_equal. apply Z.bits_inj'. intros n _.
    assert (Hb : Z.testbit (Z.land feat (NETIF_F_LRO H)) n = false)
      by (rewrite Hoff; apply Z.bits_0).
    rewrite Z.land_spec in Hb. rewrite !Z.land_spec, Z.lxor_spec.
    destruct (Z.testbit (features m) n), (Z.testbit feat n),
      (Z.testbit (NETIF_F_LRO H) n); try reflexivity; discriminate. }
  destruct (nonzero (Z.land feat (NETIF_F_LRO H))) eqn:Ef.
  { rewrite !andb_false_r. exists m. split; reflexivity. }
  rewrite (Hdiff eq_refl).
  destruct (nonzero (Z.land (features m) (NETIF_F_LRO H))); cbn [negb andb].
  2: { exists m. split; reflexivity. }
  destruct (netdev_disable_spec m Hlen) as (m' & Hr & Hl & _ & _ & _ & Hc & Hz).
  rewrite Hr. exists m'. split; [reflexivity|].
  assert (Hnil : programmed (hwlro_ip m') (Z.to_nat (MTK_MAX_LRO_IP_CNT H)) = []).
  { apply programmed_nil. intros i Hi. apply Hz. lia. }
  assert (Hcnt : mtk_hwlro_get_ip_cnt m' = 0)
    by (rewrite get_ip_cnt_programmed, Hnil; reflexivity).
  split; [exact Hnil|]. split; [exact Hc|]. split; [exact Hcnt|].
  unfold mtk_fix_features. rewrite Ef, Hcnt. reflexivity.
Qed.

(** X16: a feature set that went through [mtk_fix_features] never costs
    a programmed address: [mtk_set_features] called with it returns 0
    and leaves the address table as it was, and if the fixed set has LRO
    off, no entry was programmed. *)
Theorem feature_update_keeps_rules feat m :
  length (hwlro_ip m) = Z.to_nat (MTK_MAX_LRO_IP_CNT H) ->
  NETIF_F_LRO H <> 0 ->
  exists m',
    mtk_set_features (mtk_fix_features feat m) m = Some (0, m') /\
    hwlro_ip m' = hwlro_ip m /\
    (nonzero (Z.land (mtk_fix_features feat m) (NETIF_F_LRO H)) = false ->
     programmed (hwlro_ip m) (Z.to_nat (MTK_MAX_LRO_IP_CNT H)) = [] /\
     mtk_fix_features feat m = feat).
Proof.
  intros Hlen Hbit.
  assert (Hfix : nonzero (Z.land (mtk_fix_features feat m) (NETIF_F_LRO H)) = false ->
                 programmed (hwlro_ip m) (Z.to_nat (MTK_MAX_LRO_IP_CNT H)) = [] /\
                 mtk_fix_features feat m = feat).
  { unfold mtk_fix_features.
    destruct (nonzero (Z.land feat (NETIF_F_LRO H))) eqn:Ef; cbn [negb]; [congruence|].
    destruct (nonzero (mtk_hwlro_get_ip_cnt m)) eqn:Ec.
    - rewrite land_lor_same. unfold nonzero.
      replace (NETIF_F_LRO H =? 0) with false by (symmetry; apply Z.eqb_neq; exact Hbit).
      discriminate.
    - intros _. split; [|reflexivity].
      unfold nonzero in Ec. apply negb_false_iff, Z.eqb_eq in Ec.
      rewrite get_ip_cnt_programmed in Ec.
      destruct (programmed _ _); [reflexivity|cbn [length] in Ec; lia]. }
  destruct (lro_table_after_set_features (mtk_fix_features feat m) m Hlen) as (m' & Hs & Hres).
  exists m'. split; [exact Hs|]. split; [|exact Hfix].
  destruct Hres as [->|(Hoff & Hl & Hz)]; [reflexivity|].
  destruct (Hfix Hoff) as [Hnil _].
  apply lookup_total_eq; [exact Hl|].
  intros j Hj. rewrite Hz by lia. symmetry.
  apply (proj1 (programmed_nil _ _) Hnil). lia.
Qed.

(** *** Listing the rules *)

(** The loop of [mtk_hwlro_get_fdir_all], entered at entry [i] with the
    rules before [i] already in the buffer.  It never stores outside a
    buffer of [rule_cnt] entries; it gives up exactly when [rule_cnt]
    rules or more lie before the last entry it looks at. *)
Lemma fdir_all_loop_spec ips rule_cnt : forall n i cnt rule_locs,
    cnt = Z.of_nat (length (programmed ips i)) -> cnt <= rule_cnt ->
    (Z.to_nat rule_cnt <= length rule_locs)%nat ->
    take (Z.to_nat cnt) rule_locs = map Z.of_nat (programmed ips i) ->
    match fdir_all_loop ips n i rule_cnt cnt rule_locs with
    | FdirDone cnt' locs' =>
        (n = O \/ Z.of_nat (length (programmed ips (i + n - 1))) < rule_cnt) /\
        cnt' = Z.of_nat (length (programmed ips (i + n))) /\
        length locs' = length rule_locs /\
        take (Z.to_nat cnt') locs' = map Z.of_nat (programmed ips (i + n))
    | FdirFull locs' =>
        (1 <= n)%nat /\ rule_cnt <= Z.of_nat (length (programmed ips (i + n - 1))) /\
        length locs' = length rule_locs
    | FdirOverrun => False
    end.
Proof.
  induction n as [|n IH]; intros i cnt locs Hcnt Hle Hbuf Htake.
  - cbn [fdir_all_loop]. rewrite Nat.add_0_r.
    split; [left; reflexivity|]. split; [exact Hcnt|]. split; [reflexivity|exact Htake].
  - cbn [fdir_all_loop]. destruct (Z.eqb_spec cnt rule_cnt) as [Heq|Hne].
    + split; [lia|]. split; [|reflexivity].
      replace (i + S n - 1)%nat with (i + n)%nat by lia.
      pose proof (programmed_mono ips i n). lia.
    + pose proof (programmed_S ips i) as HS.
      assert (Step : forall cnt1 locs1,
                 cnt1 = Z.of_nat (length (programmed ips (S i))) -> cnt <= cnt1 ->
                 length locs1 = length locs ->
                 match fdir_all_loop ips n (S i) rule_cnt cnt1 locs1 with
                 | FdirDone cnt' locs' =>
                     (n = O \/ Z.of_nat (length (programmed ips (S i + n - 1))) < rule_cnt) /\
                     cnt' = Z.of_nat (length (programmed ips (S i + n))) /\
                     length locs' = length locs1 /\
                     take (Z.to_nat cnt') locs' = map Z.of_nat (programmed ips (S i + n))
                 | FdirFull locs' =>
                     (1 <= n)%nat /\
                     rule_cnt <= Z.of_nat (length (programmed ips (S i + n - 1))) /\
                     length locs' = length locs1
                 | FdirOverrun => False
                 end ->
                 match fdir_all_loop ips n (S i) rule_cnt cnt1 locs1 with
                 | FdirDone cnt' locs' =>
                     (S n = O \/ Z.of_nat (length (programmed ips (i + S n - 1))) < rule_cnt) /\
                     cnt' = Z.of_nat (length (programmed ips (i + S n))) /\
                     length locs' = length locs /\
                     take (Z.to_nat cnt') locs' = map Z.of_nat (programmed ips (i + S n))
                 | FdirFull locs' =>
                     (1 <= S n)%nat /\
                     rule_cnt <= Z.of_nat (length (programmed ips (i + S n - 1))) /\
                     length locs' = length locs
                 | FdirOverrun => False
                 end).
      { intros cnt1 locs1 Hc1 Hle1 Hl1 Hres.
        replace (i + S n)%nat with (S i + n)%nat by lia.
        destruct (fdir_all_loop ips n (S i) rule_cnt cnt1 locs1) as [cnt' locs'|locs'|];
          [| |exact Hres].
        - destruct Hres as (Hor & Hc & Hl & Ht).
          split; [right|split; [exact Hc|split; [congruence|exact Ht]]].
          destruct Hor as [->|Hlt].
          + replace (S i + 0 - 1)%nat with i by lia. lia.
          + exact Hlt.
        - destruct Hres as (Hn & Hr & Hl).
          split; [lia|split; [exact Hr|congruence]]. }
      destruct (nonzero (ips !!! i)) eqn:Enz.
      * assert (Hin : (Z.to_nat cnt < length locs)%nat) by lia.
        replace (Z.to_nat cnt <? length locs)%nat with true
          by (symmetry; apply Nat.ltb_lt; exact Hin).
        apply Step; [rewrite HS, length_app; cbn [length]; lia|lia|apply length_insert|].
        apply IH.
        -- rewrite HS, length_app. cbn [length]. lia.
        -- lia.
        -- rewrite length_insert. exact Hbuf.
        -- replace (Z.to_nat (cnt + 1)) with (S (Z.to_nat cnt)) by lia.
           rewrite (take_S_r _ _ (Z.of_nat i)) by (apply list_lookup_insert_eq; exact Hin).
           rewrite take_insert_ge by lia.
           rewrite Htake, HS, map_app. reflexivity.
      * rewrite app_nil_r in HS.
        apply Step; [rewrite HS; exact Hcnt|lia|reflexivity|].
        apply IH; [rewrite HS; exact Hcnt|exact Hle|exact Hbuf|rewrite HS; exact Htake].
Qed.

Lemma fdir_all_from_start c rule_locs m :
  0 <= rule_cnt c -> length rule_locs = Z.to_nat (rule_cnt c) ->
  match fdir_all_loop (hwlro_ip m) (Z.to_nat (MTK_MAX_LRO_IP_CNT H)) O (rule_cnt c) 0
          rule_locs with
  | FdirDone cnt' locs' =>
      (Z.to_nat (MTK_MAX_LRO_IP_CNT H) = O \/
       Z.of_nat (length (programmed (hwlro_ip m) (Z.to_nat (MTK_MAX_LRO_IP_CNT H) - 1)))
         < rule_cnt c) /\
      cnt' = Z.of_nat (length (programmed (hwlro_ip m) (Z.to_nat (MTK_MAX_LRO_IP_CNT H)))) /\
      length locs' = length rule_locs /\
      take (Z.to_nat cnt') locs' =
        map Z.of_nat (programmed (hwlro_ip m) (Z.to_nat (MTK_MAX_LRO_IP_CNT H)))
  | FdirFull locs' =>
      (1 <= Z.to_nat (MTK_MAX_LRO_IP_CNT H))%nat /\
      rule_cnt c <=
        Z.of_nat (length (programmed (hwlro_ip m) (Z.to_nat (MTK_MAX_LRO_IP_CNT H) - 1))) /\
      length locs' = length rule_locs
  | FdirOverrun => False
  end.
Proof.
  intros Hc Hlen.
  apply (fdir_all_loop_spec (hwlro_ip m) (rule_cnt c)
           (Z.to_nat (MTK_MAX_LRO_IP_CNT H)) O 0 rule_locs);
    [reflexivity|exact Hc|lia|reflexivity].
Qed.

(** X17: [mtk_hwlro_get_fdir_all] with a buffer of [rule_cnt] entries
    that is larger than the number of programmed entries returns 0,
    stores the locations of the programmed entries in ascending order at
    the start of the buffer (and nothing outside it), and sets
    [rule_cnt] to their number. *)
Theorem get_fdir_all_lists_rules c rule_locs m :
  let rules := programmed (hwlro_ip m) (Z.to_nat (MTK_MAX_LRO_IP_CNT H)) in
  length rule_locs = Z.to_nat (rule_cnt c) ->
  Z.of_nat (length rules) < rule_cnt c ->
  exists locs',
    mtk_hwlro_get_fdir_all c rule_locs m =
      Some (0, with_rule_cnt (Z.of_nat (length rules)) c, locs') /\
    length locs' = length rule_locs /\
    take (length rules) locs' = map Z.of_nat rules /\
    Forall (fun i => 0 <= i < MTK_MAX_LRO_IP_CNT H /\
                     hwlro_ip m !!! Z.to_nat i <> 0) (take (length rules) locs').
Proof.
  intros rules Hlen Hroom. unfold mtk_hwlro_get_fdir_all.
  pose proof (fdir_all_from_start c rule_locs m ltac:(lia) Hlen) as X.
  destruct (fdir_all_loop _ _ _ _ _ _) as [cnt' locs'|locs'|]; [| |contradiction].
  - destruct X as (_ & Hc & Hl & Ht). fold rules in Hc, Ht. subst cnt'.
    rewrite Nat2Z.id in Ht.
    exists locs'. split; [reflexivity|]. split; [exact Hl|]. split; [exact Ht|].
    rewrite Ht. apply Forall_forall. intros x Hx.
    apply in_map_iff in Hx as (i & <- & Hi).
    apply programmed_lt in Hi as [Hi Hnz]. rewrite Nat2Z.id. split; [lia|exact Hnz].
  - destruct X as (Hn & Hr & _). exfalso.
    pose proof (programmed_mono (hwlro_ip m) (Z.to_nat (MTK_MAX_LRO_IP_CNT H) - 1) 1) as Hm.
    replace (Z.to_nat (MTK_MAX_LRO_IP_CNT H) - 1 + 1)%nat
      with (Z.to_nat (MTK_MAX_LRO_IP_CNT H)) in Hm by lia.
    fold rules in Hm. lia.
Qed.

(** X18: [mtk_hwlro_get_fdir_all] with a buffer of exactly as many
    entries as rules are programmed, which is the number
    [ETHTOOL_GRXCLSRLCNT] reports: the call succeeds and fills the
    buffer with the locations if the last entry of the table is
    programmed, and returns [-EMSGSIZE] with [rule_cnt] unchanged if the
    last entry is empty, an empty table included. *)
Theorem get_fdir_all_exact_fit c rule_locs m :
  1 <= MTK_MAX_LRO_IP_CNT H ->
  rule_cnt c = mtk_hwlro_get_ip_cnt m ->
  length rule_locs = Z.to_nat (rule_cnt c) ->
  let rules := programmed (hwlro_ip m) (Z.to_nat (MTK_MAX_LRO_IP_CNT H)) in
  exists ret c' locs',
    mtk_hwlro_get_fdir_all c rule_locs m = Some (ret, c', locs') /\
    rule_cnt c' = rule_cnt c /\
    if nonzero (hwlro_ip m !!! (Z.to_nat (MTK_MAX_LRO_IP_CNT H) - 1)%nat)
    then ret = 0 /\ locs' = map Z.of_nat rules
    else ret = - EMSGSIZE.
Proof.
  intros Hmax Hcnt Hlen rules. unfold mtk_hwlro_get_fdir_all.
  rewrite get_ip_cnt_programmed in Hcnt. fold rules in Hcnt.
  pose proof (fdir_all_from_start c rule_locs m ltac:(lia) Hlen) as X.
  pose proof (programmed_S (hwlro_ip m) (Z.to_nat (MTK_MAX_LRO_IP_CNT H) - 1)) as HS.
  replace (S (Z.to_nat (MTK_MAX_LRO_IP_CNT H) - 1))
    with (Z.to_nat (MTK_MAX_LRO_IP_CNT H)) in HS by lia.
  fold rules in HS.
  destruct (fdir_all_loop _ _ _ _ _ _) as [cnt' locs'|locs'|]; [| |contradiction].
  - destruct X as (Hor & Hc & Hl & Ht). fold rules in Hc, Ht. subst cnt'.
    eexists _, _, locs'. split; [reflexivity|].
    split; [cbn [rule_cnt with_rule_cnt]; lia|].
    destruct (nonzero (hwlro_ip m !!! _)).
    + split; [reflexivity|]. rewrite <- Ht, Nat2Z.id.
      symmetry. apply firstn_all2. lia.
    + exfalso. rewrite app_nil_r in HS. rewrite <- HS in Hor. lia.
  - destruct X as (_ & Hr & _).
    eexists _, _, locs'. split; [reflexivity|]. split; [reflexivity|].
    destruct (nonzero (hwlro_ip m !!! _)); [|reflexivity].
    exfalso. rewrite HS, length_app in Hcnt. cbn [length] in Hcnt. lia.
Qed.

End WithHeader.

(** *** A reference configuration for the examples

    A little-endian CPU, a table of two addresses per MAC, the kernel's
    numbering of the ethtool commands and a register layout with one
    block of 0x40 bytes per hardware entry. *)

Definition ref_header : header :=
  {| MTK_MAX_LRO_IP_CNT := 2;
     MTK_MAX_RX_RING_NUM := 4;
     MTK_RING_MYIP_VLD := BIT 9;
     MTK_LRO_CTRL_DW2_CFG := fun x => 0x0b2c + x * 0x40;
     MTK_LRO_DIP_DW0_CFG := fun x => 0x0b04 + x * 0x40;
     NETIF_F_LRO := BIT 15;
     TCP_V4_FLOW := 1;
     ETHTOOL_GRXRINGS := 0x2d;
     ETHTOOL_GRXCLSRLCNT := 0x2e;
     ETHTOOL_GRXCLSRULE := 0x2f;
     ETHTOOL_GRXCLSRLALL := 0x30;
     ETHTOOL_SRXCLSRLDEL := 0x31;
     ETHTOOL_SRXCLSRLINS := 0x32;
     big_endian := false |}.

(** The second MAC of a device with LRO, with the given table. *)
Definition gmac1 (ips : list Z) : mtk_mac :=
  {| id := 1; hwlro_ip := ips; hwlro_ip_cnt := Z.of_nat (length (programmed ips 2));
     features := BIT 15; hw_features := BIT 15; regs := fun _ => 0 |}.

(** A request on the rule at [loc], with the destination address [ip]. *)
Definition rule (command loc ip cnt : Z) : ethtool_rxnfc :=
  {| cmd := command; data := 0;
     fs := {| flow_type := 1; location := loc;
              h_ip4dst := ip; m_ip4dst := 0; h_ip4src := 0; m_ip4src := 0;
              h_psrc := 0; m_psrc := 0; h_pdst := 0; m_pdst := 0;
              h_tos := 0; m_tos := 0 |};
     rule_cnt := cnt |}.

(** 192.168.1.10 in network byte order, as a little-endian CPU reads
    it. *)
Definition some_ip : Z := 0x0a01a8c0.

Lemma lro_rule_round_trip_witness :
  exists m' q',
    mtk_hwlro_add_ipaddr ref_header (rule 0x32 1 some_ip 0) (gmac1 [0; 0]) = Some (0, m') /\
    mtk_hwlro_get_fdir_entry ref_header (rule 0x2f 1 0 0) m' = (0, q') /\
    h_ip4dst (fs q') = some_ip /\
    hwlro_ip_cnt m' = 1 /\
    regs m' 0x0bc4 = 0xc0a8010a.
Proof.
  destruct (lro_rule_round_trip ref_header (rule 0x32 1 some_ip 0) (rule 0x2f 1 0 0)
              (gmac1 [0; 0]) eq_refl ltac:(vm_compute; split; reflexivity)
              ltac:(vm_compute; split; discriminate) eq_refl eq_refl)
    as (m' & Ha & (q' & Hg & _ & Hip & _) & _ & Hcnt & Hregs).
  exists m', q'. split; [exact Ha|]. split; [exact Hg|]. split; [exact Hip|].
  assert (Em : m' = match mtk_hwlro_add_ipaddr ref_header (rule 0x32 1 some_ip 0)
                            (gmac1 [0; 0]) with
                    | Some (_, x) => x
                    | None => gmac1 [0; 0]
                    end) by (rewrite Ha; reflexivity).
  split.
  - rewrite Hcnt, Em. vm_compute. reflexivity.
  - destruct Hregs as [Hd _]; [vm_compute; discriminate|]. exact Hd.
Defined.

Lemma set_rxnfc_keeps_count_witness :
  exists ret m',
    mtk_set_rxnfc ref_header (rule 0x32 0 some_ip 0) (gmac1 [0; some_ip]) = Some (ret, m') /\
    ((ret = 0 /\ hwlro_ip_cnt m' = Z.of_nat (length (programmed (hwlro_ip m') 2))) \/
     ((ret = - EOPNOTSUPP \/ ret = - EINVAL) /\ m' = gmac1 [0; some_ip])).
Proof.
  destruct (set_rxnfc_keeps_count ref_header (rule 0x32 0 some_ip 0) (gmac1 [0; some_ip]))
    as (ret & m' & Hs & _ & Hres).
  - vm_compute. lia.
  - vm_compute. discriminate.
  - exists ret, m'. split; [exact Hs|exact Hres].
Defined.

Lemma lro_off_clears_table_witness :
  exists m',
    mtk_set_features ref_header 0 (gmac1 [some_ip; some_ip]) = Some (0, m') /\
    programmed (hwlro_ip m') 2 = [] /\ hwlro_ip_cnt m' = 0.
Proof.
  destruct (lro_off_clears_table ref_header 0 (gmac1 [some_ip; some_ip]) eq_refl)
    as (m' & Hs & Hnil & Hc & _).
  exists m'. split; [exact Hs|]. split; [exact Hnil|exact Hc].
Defined.

Lemma feature_update_keeps_rules_witness :
  exists m',
    mtk_set_features ref_header (mtk_fix_features ref_header 0 (gmac1 [some_ip; 0]))
      (gmac1 [some_ip; 0]) = Some (0, m') /\
    hwlro_ip m' = [some_ip; 0].
Proof.
  destruct (feature_update_keeps_rules ref_header 0 (gmac1 [some_ip; 0]) eq_refl)
    as (m' & Hs & Hips & _).
  - vm_compute. discriminate.
  - exists m'. split; [exact Hs|exact Hips].
Defined.

Lemma get_fdir_all_lists_rules_witness :
  exists locs',
    mtk_hwlro_get_fdir_all ref_header (rule 0x30 0 0 2) [7; 7] (gmac1 [some_ip; 0])
      = Some (0, with_rule_cnt 1 (rule 0x30 0 0 2), locs') /\
    take 1 locs' = [0].
Proof.
  destruct (get_fdir_all_lists_rules ref_header (rule 0x30 0 0 2) [7; 7] (gmac1 [some_ip; 0])
              eq_refl ltac:(vm_compute; reflexivity))
    as (locs' & Hg & _ & Ht & _).
  exists locs'. split; [exact Hg|exact Ht].
Defined.

(** One rule, at location 0, and a buffer for one rule: the call is
    refused. *)
Lemma get_fdir_all_exact_fit_witness :
  exists c' locs',
    mtk_hwlro_get_fdir_all ref_header (rule 0x30 0 0 1) [7] (gmac1 [some_ip; 0])
      = Some (- EMSGSIZE, c', locs').
Proof.
  destruct (get_fdir_all_exact_fit ref_header (rule 0x30 0 0 1) [7] (gmac1 [some_ip; 0])
              ltac:(vm_compute; discriminate) eq_refl eq_refl)
    as (ret & c' & locs' & Hg & _ & Hret).
  vm_compute in Hret. subst ret. exists c', locs'. exact Hg.
Defined.

End Lro.

(** ** Interrupt handlers: [mtk_handle_irq_rx], [mtk_handle_irq_tx],
    [mtk_handle_irq] and the mask helpers [mtk_tx_irq_disable],
    [mtk_rx_irq_disable] *)

Module Irq.

(** The device of the poll routines with the event counters of the
    handlers; [scheduled] are the calls of [__napi_schedule]. *)
Record mtk_eth := {
  napi : Napi.mtk_eth;
  rx_events : Z;
  tx_events : Z;
  scheduled : list Napi.direction
}.

(** What a handler reads: the answers of [napi_schedule_prep] for
    [eth->rx_napi] and [eth->tx_napi], and the two interrupt status
    registers. *)
Record irq_env := {
  rx_prep : bool;
  tx_prep : bool;
  pdma_irq_status : Z;
  tx_irq_status : Z
}.

Definition set_napi (f : Napi.mtk_eth -> Napi.mtk_eth) (s : mtk_eth) : mtk_eth :=
  {| napi := f (napi s); rx_events := rx_events s; tx_events := tx_events s;
     scheduled := scheduled s |}.

(** [__napi_schedule]. *)
Definition napi_schedule (d : Napi.direction) (s : mtk_eth) : mtk_eth :=
  {| napi := napi s; rx_events := rx_events s; tx_events := tx_events s;
     scheduled := scheduled s ++ [d] |}.

(** [mtk_tx_irq_disable(eth, mask)]. *)
Definition mtk_tx_irq_disable (mask : Z) (st : Napi.mtk_eth) : Napi.mtk_eth :=
  let val := Napi.mtk_r32 st (Napi.tx_irq_mask_reg (Napi.reg_map st)) in
  Napi.mtk_w32 (Z.land val (Z.lnot mask)) (Napi.tx_irq_mask_reg (Napi.reg_map st)) st.

(** [mtk_rx_irq_disable(eth, mask)]. *)
Definition mtk_rx_irq_disable (mask : Z) (st : Napi.mtk_eth) : Napi.mtk_eth :=
  let val := Napi.mtk_r32 st (Napi.pdma_irq_mask_reg (Napi.reg_map st)) in
  Napi.mtk_w32 (Z.land val (Z.lnot mask)) (Napi.pdma_irq_mask_reg (Napi.reg_map st)) st.

(** The two mask registers are two registers: every register map but
    [mt7628_reg_map]. *)
Definition separate_masks (st : Napi.mtk_eth) : Prop :=
  Napi.tx_irq_mask_reg (Napi.reg_map st) <> Napi.pdma_irq_mask_reg (Napi.reg_map st).

Section WithHeader.

Variable H : Napi.header.

(** The width of the counters [rx_events] and [tx_events], which the
    header declares. *)
Variable counter_bits : Z.

Definition count (x : Z) : Z := (x + 1) mod 2 ^ counter_bits.

(** [mtk_handle_irq_rx(irq, eth)]. *)
Definition mtk_handle_irq_rx (env : irq_env) (s : mtk_eth) : mtk_eth :=
  let s1 :=
    {| napi := napi s; rx_events := count (rx_events s); tx_events := tx_events s;
       scheduled := scheduled s |} in
  if rx_prep env then
    napi_schedule Napi.RxDir
      (set_napi (fun st => mtk_rx_irq_disable (Napi.rx_irq_done_mask st) st) s1)
  else s1.

(** [mtk_handle_irq_tx(irq, eth)]. *)
Definition mtk_handle_irq_tx (env : irq_env) (s : mtk_eth) : mtk_eth :=
  let s1 :=
    {| napi := napi s; rx_events := rx_events s; tx_events := count (tx_events s);
       scheduled := scheduled s |} in
  if tx_prep env then
    napi_schedule Napi.TxDir
      (set_napi (mtk_tx_irq_disable (Napi.MTK_TX_DONE_INT H)) s1)
  else s1.

(** [mtk_handle_irq(irq, eth)], the handler of the shared line. *)
Definition mtk_handle_irq (env : irq_env) (s : mtk_eth) : mtk_eth :=
  let done_mask := Napi.rx_irq_done_mask (napi s) in
  let s1 :=
    if nonzero (Z.land (Napi.pdma_irq_mask (napi s)) done_mask) then
      if nonzero (Z.land (pdma_irq_status env) done_mask)
      then mtk_handle_irq_rx env s else s
    else s in
  if nonzero (Z.land (Napi.tx_irq_mask (napi s1)) (Napi.MTK_TX_DONE_INT H)) then
    if nonzero (Z.land (tx_irq_status env) (Napi.MTK_TX_DONE_INT H))
    then mtk_handle_irq_tx env s1 else s1
  else s1.

(** [mtk_poll_controller] is left out: it hands [dev], not [eth], to
    [mtk_handle_irq_rx], which reads its argument as a [struct mtk_eth]. *)

(** *** The mask registers *)

Lemma masked_off v m : Z.land (Z.land v (Z.lnot m)) m = 0.
Proof.
  apply Z.bits_inj'. intros n Hn.
  rewrite !Z.land_spec, Z.lnot_spec, Z.bits_0 by exact Hn.
  destruct (Z.testbit v n), (Z.testbit m n); reflexivity.
Qed.

Lemma masked_rest v m : Z.land (Z.land v (Z.lnot m)) (Z.lnot m) = Z.land v (Z.lnot m).
Proof.
  apply Z.bits_inj'. intros n Hn.
  rewrite !Z.land_spec, Z.lnot_spec by exact Hn.
  destruct (Z.testbit v n), (Z.testbit m n); reflexivity.
Qed.

Lemma unmasked_on v m : Z.land (Z.lor v m) m = m.
Proof.
  apply Z.bits_inj'. intros n Hn. rewrite Z.land_spec, Z.lor_spec.
  destruct (Z.testbit v n), (Z.testbit m n); reflexivity.
Qed.

Lemma unmasked_rest v m : Z.land (Z.lor v m) (Z.lnot m) = Z.land v (Z.lnot m).
Proof.
  apply Z.bits_inj'. intros n Hn.
  rewrite !Z.land_spec, Z.lor_spec, Z.lnot_spec by exact Hn.
  destruct (Z.testbit v n), (Z.testbit m n); reflexivity.
Qed.

Lemma mask_then_unmask v m : Z.lor (Z.land v (Z.lnot m)) m = Z.lor v m.
Proof.
  apply Z.bits_inj'. intros n Hn.
  rewrite !Z.lor_spec, Z.land_spec, Z.lnot_spec by exact Hn.
  destruct (Z.testbit v n), (Z.testbit m n); reflexivity.
Qed.

(** *** The handlers *)

Lemma masks_after_write v reg st :
  Napi.reg_map (Napi.mtk_w32 v reg st) = Napi.reg_map st /\
  Napi.rx_irq_done_mask (Napi.mtk_w32 v reg st) = Napi.rx_irq_done_mask st /\
  Napi.eth (Napi.mtk_w32 v reg st) = Napi.eth st /\
  Napi.completed (Napi.mtk_w32 v reg st) = Napi.completed st /\
  forall a, Napi.mtk_r32 (Napi.mtk_w32 v reg st) a = if a =? reg then v else Napi.mtk_r32 st a.
Proof. repeat split; reflexivity. Qed.

Lemma mtk_handle_irq_rx_effect env s :
  separate_masks (napi s) ->
  let s' := mtk_handle_irq_rx env s in
  let done_mask := Napi.rx_irq_done_mask (napi s) in
  rx_events s' = count (rx_events s) /\ tx_events s' = tx_events s /\
  scheduled s' = scheduled s ++ (if rx_prep env then [Napi.RxDir] else []) /\
  Napi.pdma_irq_mask (napi s') =
    (if rx_prep env then Z.land (Napi.pdma_irq_mask (napi s)) (Z.lnot done_mask)
     else Napi.pdma_irq_mask (napi s)) /\
  Napi.tx_irq_mask (napi s') = Napi.tx_irq_mask (napi s) /\
  Napi.rx_irq_done_mask (napi s') = Napi.rx_irq_done_mask (napi s) /\
  Napi.eth (napi s') = Napi.eth (napi s) /\
  Napi.completed (napi s') = Napi.completed (napi s) /\
  Napi.reg_map (napi s') = Napi.reg_map (napi s).
Proof.
  intros Hne. unfold mtk_handle_irq_rx, separate_masks in *.
  destruct (rx_prep env); cbn [napi_schedule set_napi napi rx_events tx_events scheduled];
    rewrite ?app_nil_r; [|repeat split].
  unfold mtk_rx_irq_disable, Napi.pdma_irq_mask, Napi.tx_irq_mask.
  cbn [Napi.reg_map Napi.mtk_w32 Napi.mtk_r32 Napi.irq_regs Napi.rx_irq_done_mask
         Napi.eth Napi.completed].
  rewrite Z.eqb_refl.
  rewrite (proj2 (Z.eqb_neq _ _) Hne). repeat split.
Qed.

Lemma mtk_handle_irq_tx_effect env s :
  separate_masks (napi s) ->
  let s' := mtk_handle_irq_tx env s in
  tx_events s' = count (tx_events s) /\ rx_events s' = rx_events s /\
  scheduled s' = scheduled s ++ (if tx_prep env then [Napi.TxDir] else []) /\
  Napi.tx_irq_mask (napi s') =
    (if tx_prep env
     then Z.land (Napi.tx_irq_mask (napi s)) (Z.lnot (Napi.MTK_TX_DONE_INT H))
     else Napi.tx_irq_mask (napi s)) /\
  Napi.pdma_irq_mask (napi s') = Napi.pdma_irq_mask (napi s) /\
  Napi.rx_irq_done_mask (napi s') = Napi.rx_irq_done_mask (napi s) /\
  Napi.eth (napi s') = Napi.eth (napi s) /\
  Napi.completed (napi s') = Napi.completed (napi s) /\
  Napi.reg_map (napi s') = Napi.reg_map (napi s).
Proof.
  intros Hne. unfold mtk_handle_irq_tx, separate_masks in *.
  destruct (tx_prep env); cbn [napi_schedule set_napi napi rx_events tx_events scheduled];
    rewrite ?app_nil_r; [|repeat split].
  unfold mtk_tx_irq_disable, Napi.pdma_irq_mask, Napi.tx_irq_mask.
  cbn [Napi.reg_map Napi.mtk_w32 Napi.mtk_r32 Napi.irq_regs Napi.rx_irq_done_mask
         Napi.eth Napi.completed].
  rewrite Z.eqb_refl.
  rewrite (proj2 (Z.eqb_neq _ _) (not_eq_sym Hne)). repeat split.
Qed.

(** X19: on a device with separate transmit and receive mask registers,
    the handler of the shared interrupt line runs the handler of a
    source only if the done bits of that source are unmasked and
    pending.  A source that is masked is left alone whatever its status
    register shows: its event counter, its mask register and its NAPI
    context are untouched.  A source the handler schedules has its done
    bits masked afterwards, and no other bit of a mask register
    changes. *)
Theorem shared_irq_dispatch env s :
  separate_masks (napi s) ->
  let s' := mtk_handle_irq env s in
  let done_mask := Napi.rx_irq_done_mask (napi s) in
  let tx_done := Napi.MTK_TX_DONE_INT H in
  let rx_fire :=
    nonzero (Z.land (Napi.pdma_irq_mask (napi s)) done_mask) &&
    nonzero (Z.land (pdma_irq_status env) done_mask) in
  let tx_fire :=
    nonzero (Z.land (Napi.tx_irq_mask (napi s)) tx_done) &&
    nonzero (Z.land (tx_irq_status env) tx_done) in
  rx_events s' = (if rx_fire then count (rx_events s) else rx_events s) /\
  tx_events s' = (if tx_fire then count (tx_events s) else tx_events s) /\
  scheduled s' =
    scheduled s ++ (if rx_fire && rx_prep env then [Napi.RxDir] else [])
                ++ (if tx_fire && tx_prep env then [Napi.TxDir] else []) /\
  Z.land (Napi.pdma_irq_mask (napi s')) done_mask =
    (if rx_fire && rx_prep env then 0 else Z.land (Napi.pdma_irq_mask (napi s)) done_mask) /\
  Z.land (Napi.tx_irq_mask (napi s')) tx_done =
    (if tx_fire && tx_prep env then 0 else Z.land (Napi.tx_irq_mask (napi s)) tx_done) /\
  Z.land (Napi.pdma_irq_mask (napi s')) (Z.lnot done_mask) =
    Z.land (Napi.pdma_irq_mask (napi s)) (Z.lnot done_mask) /\
  Z.land (Napi.tx_irq_mask (napi s')) (Z.lnot tx_done) =
    Z.land (Napi.tx_irq_mask (napi s)) (Z.lnot tx_done).
Proof.
  intros Hne s' done_mask tx_done rx_fire tx_fire.
  unfold s', mtk_handle_irq. fold done_mask tx_done.
  set (s1 := if nonzero (Z.land (Napi.pdma_irq_mask (napi s)) done_mask) then _ else s).
  assert (E1 : rx_events s1 = (if rx_fire then count (rx_events s) else rx_events s) /\
               tx_events s1 = tx_events s /\
               scheduled s1 =
                 scheduled s ++ (if rx_fire && rx_prep env then [Napi.RxDir] else []) /\
               Napi.pdma_irq_mask (napi s1) =
                 (if rx_fire && rx_prep env
                  then Z.land (Napi.pdma_irq_mask (napi s)) (Z.lnot done_mask)
                  else Napi.pdma_irq_mask (napi s)) /\
               Napi.tx_irq_mask (napi s1) = Napi.tx_irq_mask (napi s) /\
               Napi.reg_map (napi s1) = Napi.reg_map (napi s)).
  { unfold s1, rx_fire.
    destruct (nonzero (Z.land (Napi.pdma_irq_mask (napi s)) done_mask)); cbn [andb];
      [|rewrite app_nil_r; repeat split].
    destruct (nonzero (Z.land (pdma_irq_status env) done_mask)); cbn [andb];
      [|rewrite app_nil_r; repeat split].
    destruct (mtk_handle_irq_rx_effect env s Hne) as (A & B & C & D & E & _ & _ & _ & M).
    repeat split; assumption. }
  clearbody s1. destruct E1 as (A1 & B1 & C1 & D1 & T1 & M1).
  assert (Hne1 : separate_masks (napi s1)) by (unfold separate_masks; rewrite M1; exact Hne).
  rewrite T1. fold tx_fire.
  assert (E2 : forall s2,
             s2 = (if nonzero (Z.land (Napi.tx_irq_mask (napi s)) tx_done)
                   then if nonzero (Z.land (tx_irq_status env) tx_done)
                        then mtk_handle_irq_tx env s1 else s1
                   else s1) ->
             tx_events s2 = (if tx_fire then count (tx_events s1) else tx_events s1) /\
             rx_events s2 = rx_events s1 /\
             scheduled s2 =
               scheduled s1 ++ (if tx_fire && tx_prep env then [Napi.TxDir] else []) /\
             Napi.tx_irq_mask (napi s2) =
               (if tx_fire && tx_prep env
                then Z.land (Napi.tx_irq_mask (napi s1)) (Z.lnot tx_done)
                else Napi.tx_irq_mask (napi s1)) /\
             Napi.pdma_irq_mask (napi s2) = Napi.pdma_irq_mask (napi s1)).
  { intros s2 ->. unfold tx_fire.
    destruct (nonzero (Z.land (Napi.tx_irq_mask (napi s)) tx_done)); cbn [andb];
      [|rewrite app_nil_r; repeat split].
    destruct (nonzero (Z.land (tx_irq_status env) tx_done)); cbn [andb];
      [|rewrite app_nil_r; repeat split].
    destruct (mtk_handle_irq_tx_effect env s1 Hne1) as (A & B & C & D & E & _).
    repeat split; assumption. }
  destruct (E2 _ eq_refl) as (A2 & B2 & C2 & D2 & P2).
  rewrite A2, B2, C2, D2, P2, A1, B1, C1, D1, T1, <- app_assoc.
  split; [reflexivity|]. split; [reflexivity|]. split; [reflexivity|].
  split; [destruct (rx_fire && rx_prep env); [apply masked_off|reflexivity]|].
  split; [destruct (tx_fire && tx_prep env); [apply masked_off|reflexivity]|].
  split; [destruct (rx_fire && rx_prep env); [apply masked_rest|reflexivity]|].
  destruct (tx_fire && tx_prep env); [apply masked_rest|reflexivity].
Qed.

Variable HT : Tx.header.
Variable HR : Rx.header.

(** X20: the transmit interrupt and the poll it starts, on a device with
    separate transmit and receive mask registers.  After
    [mtk_handle_irq_tx] has scheduled the NAPI context the done bits are
    masked.  The poll that follows returns; if it returns the whole
    budget the bits stay masked, and if it completes and
    [napi_complete_done] answers true the mask register holds what it
    held before the interrupt with the done bits set. *)
Theorem tx_irq_poll_handshake env tenv budget s :
  separate_masks (napi s) ->
  tx_prep env = true ->
  let tx_done := Napi.MTK_TX_DONE_INT H in
  let s1 := mtk_handle_irq_tx env s in
  Z.land (Napi.tx_irq_mask (napi s1)) tx_done = 0 /\
  scheduled s1 = scheduled s ++ [Napi.TxDir] /\
  exists r,
    Napi.mtk_napi_tx HT H tenv budget (napi s1) = Some r /\
    Napi.pdma_irq_mask r.2 = Napi.pdma_irq_mask (napi s) /\
    if r.1 =? budget
    then Z.land (Napi.tx_irq_mask r.2) tx_done = 0 /\
         Napi.completed r.2 = Napi.completed (napi s)
    else
      Napi.completed r.2 = Napi.completed (napi s) ++ [(Napi.TxDir, r.1)] /\
      if Napi.tx_complete tenv
      then Napi.tx_irq_mask r.2 = Z.lor (Napi.tx_irq_mask (napi s)) tx_done
      else Z.land (Napi.tx_irq_mask r.2) tx_done = 0.
Proof.
  intros Hne Hprep tx_done s1.
  destruct (mtk_handle_irq_tx_effect env s Hne) as (_ & _ & C & D & E & _ & _ & G & M).
  fold s1 in C, D, E, G, M. rewrite Hprep in C, D. fold tx_done in D.
  assert (Hne1 : separate_masks (napi s1)) by (unfold separate_masks; rewrite M; exact Hne).
  split; [rewrite D; apply masked_off|]. split; [exact C|].
  destruct (Napi.mtk_napi_tx_spec HT H tenv budget (napi s1))
    as (n & tx' & r & _ & Hr & _ & Hd).
  exists r. split; [exact Hr|].
  destruct ((n =? budget) || Napi.tx_pending H tenv) eqn:Eagain.
  - destruct (Napi.rescheduled_masks budget (napi s1) r Hd) as (R3 & R4).
    destruct Hd as (R1 & R2 & _).
    split; [congruence|]. rewrite R1, Z.eqb_refl.
    split; [rewrite R3, D; apply masked_off|congruence].
  - destruct Hd as (R1 & Hd).
    destruct (Napi.poll_completed_masks H Napi.TxDir _ (napi s1) r Hne1 Hd) as (R3 & R4).
    destruct Hd as (R2 & _).
    apply orb_false_iff in Eagain as [En _]. rewrite R1, En.
    split; [congruence|]. split; [rewrite R2, G, R1; reflexivity|].
    rewrite R3, D. destruct (Napi.tx_complete tenv).
    + fold tx_done. apply mask_then_unmask.
    + apply masked_off.
Qed.

(** X21: the receive interrupt and the poll it starts, on a device with
    separate transmit and receive mask registers, whose transmit ring
    is well formed and whose receive status register is clear after
    some round of the poll.  After [mtk_handle_irq_rx] has
    scheduled the NAPI context the done bits are masked.  The poll
    returns; if it returns the whole budget the bits stay masked, and if
    it completes and [napi_complete_done] answers true the mask
    register holds what it held before the interrupt with the done bits
    set. *)
Theorem rx_irq_poll_handshake env renv fuel budget s j :
  separate_masks (napi s) ->
  rx_prep env = true ->
  Tx.tx_wf (Rx.tx (Napi.eth (napi s))) -> 0 <= budget ->
  (j < fuel)%nat -> Napi.rx_pending renv (napi s) j = false ->
  let done_mask := Napi.rx_irq_done_mask (napi s) in
  let s1 := mtk_handle_irq_rx env s in
  Z.land (Napi.pdma_irq_mask (napi s1)) done_mask = 0 /\
  scheduled s1 = scheduled s ++ [Napi.RxDir] /\
  exists r,
    Napi.mtk_napi_rx HT HR H fuel renv budget (napi s1) = Some r /\
    0 <= r.1 <= budget /\
    Napi.tx_irq_mask r.2 = Napi.tx_irq_mask (napi s) /\
    if r.1 =? budget
    then Z.land (Napi.pdma_irq_mask r.2) done_mask = 0 /\
         Napi.completed r.2 = Napi.completed (napi s)
    else
      Napi.completed r.2 = Napi.completed (napi s) ++ [(Napi.RxDir, r.1)] /\
      if Napi.rx_complete renv
      then Napi.pdma_irq_mask r.2 = Z.lor (Napi.pdma_irq_mask (napi s)) done_mask
      else Z.land (Napi.pdma_irq_mask r.2) done_mask = 0.
Proof.
  intros Hne Hprep Hwf Hb Hj Hclear done_mask s1.
  destruct (mtk_handle_irq_rx_effect env s Hne) as (_ & _ & C & D & E & F & G & K & M).
  fold s1 in C, D, E, F, G, K, M. rewrite Hprep in C, D. fold done_mask in D, F.
  split; [rewrite D; apply masked_off|]. split; [exact C|].
  unfold Napi.mtk_napi_rx.
  destruct (Napi.mtk_handle_status_irq_frame H (Napi.rx_status2 renv) (napi s1))
    as (A0 & B0 & C0 & D0 & E0).
  cbv zeta in A0, B0, C0, D0, E0.
  set (st0 := Napi.mtk_handle_status_irq H (Napi.rx_status2 renv) (napi s1)) in *.
  clearbody st0.
  assert (Hne0 : Napi.tx_irq_mask_reg (Napi.reg_map st0) <>
                 Napi.pdma_irq_mask_reg (Napi.reg_map st0))
    by (rewrite C0, M; exact Hne).
  assert (T0 : Napi.tx_irq_mask st0 = Napi.tx_irq_mask (napi s1) /\
               Napi.pdma_irq_mask st0 = Napi.pdma_irq_mask (napi s1))
    by (unfold Napi.tx_irq_mask, Napi.pdma_irq_mask, Napi.mtk_r32; rewrite C0, D0;
        split; reflexivity).
  destruct T0 as (T0 & P0).
  assert (Ep : forall k, Napi.rx_pending renv st0 k = Napi.rx_pending renv (napi s) k)
    by (intros k; unfold Napi.rx_pending; rewrite E0, F; reflexivity).
  destruct (Napi.napi_rx_loop_spec HT HR H renv budget fuel O 0 st0) as (r & Hl & _ & Hbd & Hd).
  { rewrite A0, G. exact Hwf. }
  { lia. }
  { exists j. split; [exact Hj|]. rewrite Ep. exact Hclear. }
  exists r. split; [exact Hl|]. split; [exact Hbd|].
  destruct (r.1 =? budget).
  - destruct (Napi.rescheduled_masks budget st0 r Hd) as (R3 & R4).
    destruct Hd as (_ & R2 & _).
    split; [congruence|]. split; [rewrite R4, P0, D; apply masked_off|congruence].
  - destruct Hd as (_ & Hd).
    destruct (Napi.poll_completed_masks H Napi.RxDir _ st0 r Hne0 Hd) as (R3 & R4).
    destruct Hd as (R2 & _).
    split; [congruence|]. split; [rewrite R2, B0, K; reflexivity|].
    rewrite R3, P0, D, E0, F. destruct (Napi.rx_complete renv).
    + apply mask_then_unmask.
    + apply masked_off.
Qed.

End WithHeader.

(** *** The handshake on the NETSYS v3 device *)

(** The device of [Napi.mt7988_napi] with both interrupts enabled and
    nothing counted yet. *)
Definition mt7988_irq (filled : nat) : mtk_eth :=
  {| napi := Napi.mtk_rx_irq_enable (BIT 14)
               (Napi.mtk_tx_irq_enable (BIT 28) (Napi.mt7988_napi filled));
     rx_events := 0; tx_events := 0; scheduled := [] |}.

(** Both sources pending, both NAPI contexts idle. *)
Definition both_pending : irq_env :=
  {| rx_prep := true; tx_prep := true; pdma_irq_status := BIT 14; tx_irq_status := BIT 28 |}.

Lemma shared_irq_dispatch_witness :
  rx_events (mtk_handle_irq Napi.ref_header 32 both_pending (mt7988_irq 3)) = 1 /\
  tx_events (mtk_handle_irq Napi.ref_header 32 both_pending (mt7988_irq 3)) = 1 /\
  scheduled (mtk_handle_irq Napi.ref_header 32 both_pending (mt7988_irq 3)) =
    [Napi.RxDir; Napi.TxDir] /\
  Z.land (Napi.pdma_irq_mask
            (napi (mtk_handle_irq Napi.ref_header 32 both_pending (mt7988_irq 3))))
         (BIT 14) = 0 /\
  Z.land (Napi.tx_irq_mask
            (napi (mtk_handle_irq Napi.ref_header 32 both_pending (mt7988_irq 3))))
         (BIT 28) = 0.
Proof.
  destruct (shared_irq_dispatch Napi.ref_header 32 both_pending (mt7988_irq 3)
              ltac:(vm_compute; lia))
    as (A & B & C & D & E & _).
  split; [exact A|]. split; [exact B|]. split; [exact C|]. split; [exact D|exact E].
Defined.

Lemma tx_irq_poll_handshake_witness :
  Z.land (Napi.tx_irq_mask
            (napi (mtk_handle_irq_tx Napi.ref_header 32 both_pending (mt7988_irq 3))))
         (BIT 28) = 0 /\
  exists r,
    Napi.mtk_napi_tx (Tx.ref_header 256) Napi.ref_header Napi.quiet_tx 64
      (napi (mtk_handle_irq_tx Napi.ref_header 32 both_pending (mt7988_irq 3))) = Some r /\
    Napi.pdma_irq_mask r.2 = BIT 14.
Proof.
  destruct (tx_irq_poll_handshake Napi.ref_header 32 (Tx.ref_header 256) both_pending
              Napi.quiet_tx 64 (mt7988_irq 3) ltac:(vm_compute; lia) eq_refl)
    as (Hm & _ & r & Hr & Hp & _).
  split; [exact Hm|]. exists r. split; [exact Hr|exact Hp].
Defined.

Lemma rx_irq_poll_handshake_witness :
  Z.land (Napi.pdma_irq_mask
            (napi (mtk_handle_irq_rx 32 both_pending (mt7988_irq 3))))
         (BIT 14) = 0 /\
  exists r,
    Napi.mtk_napi_rx (Tx.ref_header 256) Rx.ref_header Napi.ref_header 8 Napi.late_status 64
      (napi (mtk_handle_irq_rx 32 both_pending (mt7988_irq 3))) = Some r /\
    0 <= r.1 <= 64 /\ Napi.tx_irq_mask r.2 = BIT 28.
Proof.
  destruct (rx_irq_poll_handshake Napi.ref_header 32 (Tx.ref_header 256) Rx.ref_header
              both_pending Napi.late_status 8 64 (mt7988_irq 3) 1
              ltac:(vm_compute; lia) eq_refl
              (Rx.mt7988_tx_wf 3 false) ltac:(lia) ltac:(lia) eq_refl)
    as (Hm & _ & r & Hr & Hb & Ht & _).
  split; [exact Hm|]. exists r. split; [exact Hr|]. split; [exact Hb|exact Ht].
Defined.

End Irq.

(** ** Device configuration: [mtk_max_frag_size], [mtk_max_buf_size],
    [mtk_set_mcr_max_rx], [mtk_change_mtu], [mtk_xdp_setup], [mtk_xdp],
    [mtk_set_mac_address], [mtk_select_queue] *)

Module Dev.

(** Constants of [mtk_eth_soc.h] and of the kernel headers the functions
    use.  [NET_SKB_PAD], [NET_IP_ALIGN], [SMP_CACHE_BYTES] and the
    lengths are of type [int]; [sizeof(struct skb_shared_info)] and
    [MTK_PP_MAX_BUF_SIZE], which is [PAGE_SIZE] less a pad, are of type
    [unsigned long], of [BITS_PER_LONG] bits. *)
Record header := {
  MTK_PP_MAX_BUF_SIZE : Z;
  MTK_RX_ETH_HLEN : Z;
  MTK_RX_HLEN : Z;
  MTK_MAX_RX_LENGTH_2K : Z;
  NET_SKB_PAD : Z;
  NET_IP_ALIGN : Z;
  SMP_CACHE_BYTES : Z;
  sizeof_skb_shared_info : Z;
  BITS_PER_LONG : Z;
  MAC_MCR_MAX_RX_MASK : Z;
  MAC_MCR_MAX_RX : Z -> Z;
  MAC_MCR_MAX_RX_1518 : Z;
  MAC_MCR_MAX_RX_1536 : Z;
  MAC_MCR_MAX_RX_1552 : Z;
  MAC_MCR_MAX_RX_2048 : Z;
  MTK_MAC_MCR : Z -> Z;
  MT7628_SDM_MAC_ADRH : Z;
  MT7628_SDM_MAC_ADRL : Z;
  MTK_GDMA_MAC_ADRH : Z -> Z;
  MTK_GDMA_MAC_ADRL : Z -> Z;
  XDP_SETUP_PROG : Z
}.

Definition EINVAL : Z := 22.
Definition EBUSY : Z := 16.
Definition EOPNOTSUPP : Z := 95.

(** A value converted to [int]: the kernel is built with wrapping signed
    arithmetic. *)
Definition s32 (x : Z) : Z := (x + 2 ^ 31) mod 2 ^ 32 - 2 ^ 31.

(** What the functions ask of the rest of the driver and of the kernel,
    with the [id] of the MAC of the net device they ask it for.  The
    calls are recorded; what [mtk_stop] and [mtk_open] do to the device
    is not part of this model. *)
Inductive call :=
| mtk_stop (dev : Z)
| mtk_open (dev : Z)
| bpf_prog_put (p : Z).

(** [struct net_device] with the [id] of its MAC: what is private to one
    net device of the SoC.  [mtu] is an [unsigned int]. *)
Record net_device := {
  id : Z;                        (* mac->id *)
  mtu : Z;
  dev_addr : list Z;
  num_tx_queues : Z;
  uses_dsa : bool;               (* netdev_uses_dsa(dev) *)
  running : bool                 (* netif_running(dev) *)
}.

(** [struct mtk_eth], which every net device of the SoC reaches through
    [mac->hw]: the program, the LRO flag, the state and the registers
    are shared.  [prog] is [eth->prog], [None] for [NULL]. *)
Record mtk_eth := {
  prog : option Z;
  hwlro : bool;
  caps_mt7628 : bool;
  resetting : bool;              (* MTK_RESETTING *)
  regs : Z -> Z;
  calls : list call
}.

Definition mtk_r32 (eth : mtk_eth) (reg : Z) : Z := regs eth reg.

Definition mtk_w32 (val reg : Z) (eth : mtk_eth) : mtk_eth :=
  {| prog := prog eth; hwlro := hwlro eth; caps_mt7628 := caps_mt7628 eth;
     resetting := resetting eth;
     regs := fun r => if r =? reg then val else regs eth r; calls := calls eth |}.

Definition with_prog (p : option Z) (eth : mtk_eth) : mtk_eth :=
  {| prog := p; hwlro := hwlro eth; caps_mt7628 := caps_mt7628 eth;
     resetting := resetting eth; regs := regs eth; calls := calls eth |}.

Definition add_call (c : call) (eth : mtk_eth) : mtk_eth :=
  {| prog := prog eth; hwlro := hwlro eth; caps_mt7628 := caps_mt7628 eth;
     resetting := resetting eth; regs := regs eth; calls := calls eth ++ [c] |}.

Definition with_mtu (v : Z) (d : net_device) : net_device :=
  {| id := id d; mtu := v; dev_addr := dev_addr d; num_tx_queues := num_tx_queues d;
     uses_dsa := uses_dsa d; running := running d |}.

Definition with_dev_addr (a : list Z) (d : net_device) : net_device :=
  {| id := id d; mtu := mtu d; dev_addr := a; num_tx_queues := num_tx_queues d;
     uses_dsa := uses_dsa d; running := running d |}.

Section WithHeader.

Variable H : header.

(** A value converted to [unsigned long]. *)
Definition ulong (x : Z) : Z := x mod 2 ^ BITS_PER_LONG H.

(** [SKB_DATA_ALIGN(x)], that is [ALIGN(x, SMP_CACHE_BYTES)], which is
    computed in the type of [x]: for an [int] and for an
    [unsigned long]. *)
Definition SKB_DATA_ALIGN_int (x : Z) : Z :=
  Z.land (s32 (x + (SMP_CACHE_BYTES H - 1))) (Z.lnot (SMP_CACHE_BYTES H - 1)).

Definition SKB_DATA_ALIGN_ulong (x : Z) : Z :=
  Z.land (ulong (x + (SMP_CACHE_BYTES H - 1))) (Z.lnot (SMP_CACHE_BYTES H - 1)).

(** [mtk_max_frag_size(mtu)].  The sum of the two aligned sizes is an
    [unsigned long] and is returned as an [int]. *)
Definition mtk_max_frag_size (mtu : Z) : Z :=
  let mtu :=
    if s32 (mtu + MTK_RX_ETH_HLEN H) <? MTK_MAX_RX_LENGTH_2K H
    then s32 (MTK_MAX_RX_LENGTH_2K H - MTK_RX_ETH_HLEN H) else mtu in
  s32 (ulong (ulong (SKB_DATA_ALIGN_int (s32 (MTK_RX_HLEN H + mtu))) +
              SKB_DATA_ALIGN_ulong (sizeof_skb_shared_info H))).

(** [mtk_max_buf_size(frag_size)]: the size, and whether the [WARN_ON]
    fires. *)
Definition mtk_max_buf_size (frag_size : Z) : Z * bool :=
  let buf_size :=
    s32 (ulong (ulong (s32 (s32 (frag_size - NET_SKB_PAD H) - NET_IP_ALIGN H)) -
                SKB_DATA_ALIGN_ulong (sizeof_skb_shared_info H))) in
  (buf_size, buf_size <? MTK_MAX_RX_LENGTH_2K H).

(** [mtk_set_mcr_max_rx(mac, val)], for the MAC of [d]; [val] is a
    [u32]. *)
Definition mtk_set_mcr_max_rx (val : Z) (d : net_device) (eth : mtk_eth) : mtk_eth :=
  if caps_mt7628 eth then eth
  else
    let mcr_cur := mtk_r32 eth (MTK_MAC_MCR H (id d)) in
    let mcr_new := Z.land mcr_cur (Z.lnot (MAC_MCR_MAX_RX_MASK H)) in
    let mcr_new :=
      if val <=? 1518 then Z.lor mcr_new (MAC_MCR_MAX_RX H (MAC_MCR_MAX_RX_1518 H))
      else if val <=? 1536 then Z.lor mcr_new (MAC_MCR_MAX_RX H (MAC_MCR_MAX_RX_1536 H))
      else if val <=? 1552 then Z.lor mcr_new (MAC_MCR_MAX_RX H (MAC_MCR_MAX_RX_1552 H))
      else Z.lor mcr_new (MAC_MCR_MAX_RX H (MAC_MCR_MAX_RX_2048 H)) in
    if negb (mcr_new =? mcr_cur) then mtk_w32 mcr_new (MTK_MAC_MCR H (id d)) eth else eth.

(** [mtk_change_mtu(dev, new_mtu)]: the return value, the net device and
    the shared device.  [length] is an [int]; it is compared with
    [MTK_PP_MAX_BUF_SIZE] as an [unsigned long], and it becomes the
    [u32] argument of [mtk_set_mcr_max_rx].  [new_mtu] is stored in the
    [unsigned int] field [dev->mtu]. *)
Definition mtk_change_mtu (new_mtu : Z) (d : net_device) (eth : mtk_eth)
    : Z * net_device * mtk_eth :=
  let length := s32 (new_mtu + MTK_RX_ETH_HLEN H) in
  if bool_decide (prog eth <> None) && (MTK_PP_MAX_BUF_SIZE H <? ulong length)
  then (- EINVAL, d, eth)
  else (0, with_mtu (u32 new_mtu) d, mtk_set_mcr_max_rx (u32 length) d eth).

(** [mtk_xdp_setup(dev, prog, extack)]; [open_ret] is what [mtk_open]
    returns if it is called.  The net device is only read. *)
Definition mtk_xdp_setup (open_ret : Z) (new_prog : option Z) (d : net_device)
    (eth : mtk_eth) : Z * mtk_eth :=
  if hwlro eth then (- EOPNOTSUPP, eth)
  else if MTK_PP_MAX_BUF_SIZE H <? ulong (mtu d) then (- EOPNOTSUPP, eth)
  else
    let need_update :=
      negb (eqb (bool_decide (prog eth <> None)) (bool_decide (new_prog <> None))) in
    let eth1 := if running d && need_update then add_call (mtk_stop (id d)) eth else eth in
    let old_prog := prog eth1 in
    let eth2 := with_prog new_prog eth1 in
    let eth3 :=
      match old_prog with
      | Some p => add_call (bpf_prog_put p) eth2
      | None => eth2
      end in
    if running d && need_update then (open_ret, add_call (mtk_open (id d)) eth3)
    else (0, eth3).

(** [mtk_xdp(dev, xdp)]. *)
Definition mtk_xdp (open_ret : Z) (command : Z) (new_prog : option Z) (d : net_device)
    (eth : mtk_eth) : Z * mtk_eth :=
  if command =? XDP_SETUP_PROG H then mtk_xdp_setup open_ret new_prog d eth
  else (- EINVAL, eth).

(** [mtk_set_mac_address(dev, p)]: the return value, the net device and
    the shared device.  [eth_mac_addr] returns [mac_addr_ret] and on
    success has copied the address [p] to [dev->dev_addr].  The bytes of
    the address are unsigned, the kernel being built with
    [-funsigned-char]. *)
Definition mtk_set_mac_address (mac_addr_ret : Z) (p : list Z) (d : net_device)
    (eth : mtk_eth) : Z * net_device * mtk_eth :=
  let d1 := if mac_addr_ret =? 0 then with_dev_addr p d else d in
  let macaddr := dev_addr d1 in
  if nonzero mac_addr_ret then (mac_addr_ret, d1, eth)
  else if resetting eth then (- EBUSY, d1, eth)
  else
    let hi := u32 (Z.lor (Z.shiftl (macaddr !!! 0%nat) 8) (macaddr !!! 1%nat)) in
    let lo :=
      u32 (Z.lor (Z.lor (Z.lor (Z.shiftl (macaddr !!! 2%nat) 24)
                               (Z.shiftl (macaddr !!! 3%nat) 16))
                        (Z.shiftl (macaddr !!! 4%nat) 8))
                 (macaddr !!! 5%nat)) in
    if caps_mt7628 eth then
      (0, d1, mtk_w32 lo (MT7628_SDM_MAC_ADRL H) (mtk_w32 hi (MT7628_SDM_MAC_ADRH H) eth))
    else
      (0, d1, mtk_w32 lo (MTK_GDMA_MAC_ADRL H (id d1))
                (mtk_w32 hi (MTK_GDMA_MAC_ADRH H (id d1)) eth)).

(** [mtk_select_queue(dev, skb, sb_dev)], with [queue_mapping] what
    [skb_get_queue_mapping] returns; the result is cut to 16 bits. *)
Definition mtk_select_queue (queue_mapping : Z) (d : net_device) : Z :=
  let queue := if uses_dsa d then u32 (queue_mapping + 3) else u32 (id d) in
  let queue := if num_tx_queues d <=? queue then 0 else queue in
  queue mod 2 ^ 16.
(** *** Receive buffer sizes *)

Lemma s32_small x : - 2 ^ 31 <= x < 2 ^ 31 -> s32 x = x.
Proof. intros Hx. unfold s32. rewrite Z.mod_small by lia. lia. Qed.

Lemma ulong_small x : 32 <= BITS_PER_LONG H -> 0 <= x < 2 ^ 32 -> ulong x = x.
Proof.
  intros HL Hx. unfold ulong. apply Z.mod_small.
  pose proof (Z.pow_le_mono_r 2 32 (BITS_PER_LONG H) ltac:(lia) HL). lia.
Qed.

(** A negative [int] is a large [unsigned long]. *)
Lemma ulong_negative x :
  32 <= BITS_PER_LONG H -> - 2 ^ 31 <= x < 0 -> 2 ^ 31 <= ulong x.
Proof.
  intros HL Hx. unfold ulong.
  pose proof (Z.pow_le_mono_r 2 32 (BITS_PER_LONG H) ltac:(lia) HL) as Hp.
  replace x with (x + 2 ^ BITS_PER_LONG H + (-1) * 2 ^ BITS_PER_LONG H) by lia.
  rewrite Z.mod_add by lia. rewrite Z.mod_small by lia. lia.
Qed.

Lemma align_bounds k x :
  0 <= k ->
  x <= Z.land (x + (2 ^ k - 1)) (Z.lnot (2 ^ k - 1)) <= x + (2 ^ k - 1).
Proof.
  intros Hk. replace (2 ^ k - 1) with (Z.ones k) by (rewrite Z.ones_equiv; lia).
  rewrite <- Z.ldiff_land, Z.ldiff_ones_r by exact Hk.
  rewrite Z.shiftl_mul_pow2, Z.shiftr_div_pow2 by exact Hk.
  rewrite Z.ones_equiv.
  assert (Hp : 0 < 2 ^ k) by (apply Z.pow_pos_nonneg; lia).
  pose proof (Z.div_mod (x + Z.pred (2 ^ k)) (2 ^ k) ltac:(lia)) as Hd.
  pose proof (Z.mod_pos_bound (x + Z.pred (2 ^ k)) (2 ^ k) Hp) as Hm.
  lia.
Qed.

(** X22: a receive buffer sized by [mtk_max_frag_size] and
    [mtk_max_buf_size] holds a frame of the MTU asked for and never
    less than [MTK_MAX_RX_LENGTH_2K] bytes, so the [WARN_ON] of
    [mtk_max_buf_size] does not fire.  This is for an MTU that is not
    negative and small enough for the sums not to leave the range of
    [int] (an MTU close to [INT_MAX] wraps and gets a buffer smaller
    than the frame), for a header in which [MTK_RX_HLEN] is
    [NET_SKB_PAD + MTK_RX_ETH_HLEN + NET_IP_ALIGN] and whose sizes are
    not negative, a cache line size that is a power of two and an
    [unsigned long] of at least 32 bits. *)
Theorem rx_buffer_holds_frame k mtu :
  0 <= k -> SMP_CACHE_BYTES H = 2 ^ k ->
  MTK_RX_HLEN H = NET_SKB_PAD H + MTK_RX_ETH_HLEN H + NET_IP_ALIGN H ->
  32 <= BITS_PER_LONG H ->
  0 <= NET_SKB_PAD H -> 0 <= NET_IP_ALIGN H -> 0 <= MTK_RX_ETH_HLEN H ->
  0 <= sizeof_skb_shared_info H -> 0 <= MTK_MAX_RX_LENGTH_2K H ->
  0 <= mtu ->
  mtu + MTK_RX_HLEN H + sizeof_skb_shared_info H + 2 * 2 ^ k <= 2 ^ 31 ->
  MTK_MAX_RX_LENGTH_2K H + MTK_RX_HLEN H + sizeof_skb_shared_info H + 2 * 2 ^ k <= 2 ^ 31 ->
  let r := mtk_max_buf_size (mtk_max_frag_size mtu) in
  r.2 = false /\ MTK_MAX_RX_LENGTH_2K H <= r.1 /\ mtu + MTK_RX_ETH_HLEN H <= r.1.
Proof.
  intros Hk Hc Hh HL Hp Ha He Hs H2 Hmtu Hb1 Hb2 r.
  assert (Hpk : 0 < 2 ^ k) by (apply Z.pow_pos_nonneg; lia).
  unfold r, mtk_max_buf_size, mtk_max_frag_size. cbn [fst snd].
  rewrite (s32_small (mtu + MTK_RX_ETH_HLEN H)) by lia.
  rewrite (s32_small (MTK_MAX_RX_LENGTH_2K H - MTK_RX_ETH_HLEN H)) by lia.
  set (m := if mtu + MTK_RX_ETH_HLEN H <? MTK_MAX_RX_LENGTH_2K H
            then MTK_MAX_RX_LENGTH_2K H - MTK_RX_ETH_HLEN H else mtu).
  assert (Hm : MTK_MAX_RX_LENGTH_2K H <= m + MTK_RX_ETH_HLEN H /\
               mtu + MTK_RX_ETH_HLEN H <= m + MTK_RX_ETH_HLEN H /\
               (m = MTK_MAX_RX_LENGTH_2K H - MTK_RX_ETH_HLEN H \/ m = mtu)).
  { unfold m. destruct (Z.ltb_spec (mtu + MTK_RX_ETH_HLEN H) (MTK_MAX_RX_LENGTH_2K H)); lia. }
  clearbody m. destruct Hm as (Hm1 & Hm2 & Hm3).
  unfold SKB_DATA_ALIGN_int, SKB_DATA_ALIGN_ulong. rewrite Hc.
  rewrite (s32_small (MTK_RX_HLEN H + m)) by lia.
  rewrite (s32_small (MTK_RX_HLEN H + m + (2 ^ k - 1))) by lia.
  rewrite (ulong_small (sizeof_skb_shared_info H + (2 ^ k - 1))) by lia.
  pose proof (align_bounds k (MTK_RX_HLEN H + m) Hk) as HA.
  pose proof (align_bounds k (sizeof_skb_shared_info H) Hk) as HB.
  set (A := Z.land (MTK_RX_HLEN H + m + (2 ^ k - 1)) (Z.lnot (2 ^ k - 1))) in *.
  set (B := Z.land (sizeof_skb_shared_info H + (2 ^ k - 1)) (Z.lnot (2 ^ k - 1))) in *.
  clearbody A B.
  rewrite (ulong_small A) by lia.
  rewrite (ulong_small (A + B)) by lia.
  rewrite (s32_small (A + B)) by lia.
  rewrite (s32_small (A + B - NET_SKB_PAD H)) by lia.
  rewrite (s32_small (A + B - NET_SKB_PAD H - NET_IP_ALIGN H)) by lia.
  rewrite (ulong_small (A + B - NET_SKB_PAD H - NET_IP_ALIGN H)) by lia.
  rewrite (ulong_small (A + B - NET_SKB_PAD H - NET_IP_ALIGN H - B)) by lia.
  rewrite (s32_small (A + B - NET_SKB_PAD H - NET_IP_ALIGN H - B)) by lia.
  split; [apply Z.ltb_ge; lia|]. split; lia.
Qed.

(** *** The MTU and the XDP program *)

(** The configuration of a SoC with the net devices [devs]: a program
    is attached only without hardware LRO and with the MTU of every net
    device no larger than the page-pool buffer. *)
Definition cfg_ok (eth : mtk_eth) (devs : list net_device) : Prop :=
  (prog eth <> None -> Forall (fun d => mtu d <= MTK_PP_MAX_BUF_SIZE H) devs) /\
  (hwlro eth = true -> prog eth = None).

(** The calls of [bpf_prog_put] on program [p]. *)
Definition puts (p : Z) (cs : list call) : nat :=
  length (List.filter (fun c => match c with bpf_prog_put q => q =? p | _ => false end) cs).

Lemma set_mcr_max_rx_soft val d eth :
  let eth' := mtk_set_mcr_max_rx val d eth in
  prog eth' = prog eth /\ hwlro eth' = hwlro eth /\ calls eth' = calls eth /\
  resetting eth' = resetting eth /\ caps_mt7628 eth' = caps_mt7628 eth.
Proof.
  unfold mtk_set_mcr_max_rx. destruct (caps_mt7628 eth) eqn:E; [repeat split; exact E|].
  destruct (negb _); repeat split; exact E.
Qed.

(** X23: [mtk_change_mtu] and [mtk_xdp] on one net device [d] of a SoC
    with the net devices [devs], for a new MTU the network core lets
    through (not negative).  A refused call ([-EINVAL] for an MTU too
    large for the attached program or for an unknown command,
    [-EOPNOTSUPP] with hardware LRO or with an MTU of [d] too large for
    XDP) changes nothing.  An accepted [mtk_change_mtu] sets the MTU of
    [d] and leaves the program alone, and it keeps the configuration
    consistent on every net device.  An accepted [mtk_xdp] installs the
    new program for the SoC, even when [mtk_open] fails afterwards, and
    releases the old one exactly once; it has checked the MTU of [d]
    only, so it keeps the configuration consistent when a program was
    attached before, when it removes the program, or on a SoC with one
    net device. *)
Theorem mtu_and_program_stay_consistent new_mtu open_ret command new_prog i d devs eth :
  0 <= MTK_RX_ETH_HLEN H < 2 ^ 31 -> 0 <= MTK_PP_MAX_BUF_SIZE H < 2 ^ 31 ->
  32 <= BITS_PER_LONG H ->
  devs !! i = Some d -> 0 <= mtu d < 2 ^ 32 -> 0 <= new_mtu < 2 ^ 31 ->
  cfg_ok eth devs ->
  (let r := mtk_change_mtu new_mtu d eth in
   cfg_ok r.2 (<[i := r.1.2]> devs) /\
   ((r.1.1 = - EINVAL /\ r.1.2 = d /\ r.2 = eth) \/
    (r.1.1 = 0 /\ r.1.2 = with_mtu new_mtu d /\
     prog r.2 = prog eth /\ hwlro r.2 = hwlro eth /\ calls r.2 = calls eth))) /\
  (let r := mtk_xdp open_ret command new_prog d eth in
   (((r.1 = - EINVAL \/ r.1 = - EOPNOTSUPP) /\ r.2 = eth) \/
    (command = XDP_SETUP_PROG H /\ hwlro eth = false /\
     mtu d <= MTK_PP_MAX_BUF_SIZE H /\
     prog r.2 = new_prog /\ hwlro r.2 = hwlro eth /\
     (r.1 = 0 \/ r.1 = open_ret) /\
     exists cs, calls r.2 = calls eth ++ cs /\
       forall p, puts p cs = if bool_decide (prog eth = Some p) then 1%nat else 0%nat)) /\
   (prog eth <> None \/ new_prog = None \/ devs = [d] -> cfg_ok r.2 devs)).
Proof.
  intros Hh Hmax HL Hi Hd Hnew [Hm Hl]. split.
  - unfold mtk_change_mtu.
    assert (Hu : u32 new_mtu = new_mtu) by (unfold u32; apply Z.mod_small; lia).
    rewrite Hu.
    set (len := s32 (new_mtu + MTK_RX_ETH_HLEN H)).
    destruct (set_mcr_max_rx_soft (u32 len) d eth) as (P & L & C & _).
    assert (Hfit : (MTK_PP_MAX_BUF_SIZE H <? ulong len) = false ->
                   new_mtu <= MTK_PP_MAX_BUF_SIZE H).
    { intros Hf. apply Z.ltb_ge in Hf. unfold len in Hf.
      destruct (Z.lt_ge_cases (new_mtu + MTK_RX_ETH_HLEN H) (2 ^ 31)) as [Hlt|Hge].
      - rewrite s32_small in Hf by lia. rewrite ulong_small in Hf by lia. lia.
      - assert (Hs : s32 (new_mtu + MTK_RX_ETH_HLEN H) =
                     new_mtu + MTK_RX_ETH_HLEN H - 2 ^ 32).
        { unfold s32.
          replace (new_mtu + MTK_RX_ETH_HLEN H + 2 ^ 31)
            with (new_mtu + MTK_RX_ETH_HLEN H - 2 ^ 31 + 1 * 2 ^ 32) by lia.
          rewrite Z.mod_add by lia. rewrite Z.mod_small by lia. lia. }
        rewrite Hs in Hf.
        pose proof (ulong_negative (new_mtu + MTK_RX_ETH_HLEN H - 2 ^ 32) HL ltac:(lia)).
        lia. }
    destruct (bool_decide (prog eth <> None)) eqn:Ep; cbn [andb].
    + destruct (MTK_PP_MAX_BUF_SIZE H <? ulong len) eqn:Eb.
      * cbn [fst snd]. split.
        { split; [|exact Hl]. intros Hp. rewrite list_insert_id by exact Hi. apply Hm, Hp. }
        left. repeat split; reflexivity.
      * cbn [fst snd]. specialize (Hfit eq_refl). split.
        { split; [|rewrite P, L; exact Hl]. rewrite P. intros Hp.
          apply Forall_insert; [apply Hm, Hp|]. cbn [mtu with_mtu]. exact Hfit. }
        right. repeat split; assumption.
    + apply bool_decide_eq_false_1 in Ep. cbn [fst snd]. split.
      { split; [|rewrite P, L; exact Hl]. rewrite P. intros Hp. contradiction. }
      right. repeat split; assumption.
  - unfold mtk_xdp. destruct (Z.eqb_spec command (XDP_SETUP_PROG H)) as [Hc|Hc].
    2: { cbn [fst snd]. split; [left; split; [left|]; reflexivity|].
         intros _. split; assumption. }
    unfold mtk_xdp_setup. destruct (hwlro eth) eqn:El.
    { cbn [fst snd]. split; [left; split; [right|]; reflexivity|].
      intros _. split; [exact Hm|rewrite El; exact Hl]. }
    rewrite (ulong_small (mtu d)) by (exact HL || exact Hd).
    destruct (Z.ltb_spec (MTK_PP_MAX_BUF_SIZE H) (mtu d)) as [Hbig|Hfit].
    { cbn [fst snd]. split; [left; split; [right|]; reflexivity|].
      intros _. split; [exact Hm|rewrite El; exact Hl]. }
    set (restart := running d && _).
    assert (Hp : forall p, puts p (match prog eth with Some q => [bpf_prog_put q] | None => [] end)
                           = if bool_decide (prog eth = Some p) then 1%nat else 0%nat).
    { intros p. destruct (prog eth) as [q|]; [|reflexivity].
      unfold puts. cbn [List.filter]. destruct (Z.eqb_spec q p) as [->|Hne].
      - rewrite bool_decide_eq_true_2 by reflexivity. reflexivity.
      - rewrite bool_decide_eq_false_2 by congruence. reflexivity. }
    assert (Hsplit : forall p a b,
               puts p (a ++ match prog eth with Some q => [bpf_prog_put q] | None => [] end ++ b)
               = (puts p a + (if bool_decide (prog eth = Some p) then 1 else 0) + puts p b)%nat).
    { intros p a b. rewrite <- Hp. unfold puts.
      rewrite !List.filter_app, !length_app. lia. }
    assert (Hall : prog eth <> None \/ new_prog = None \/ devs = [d] ->
                   new_prog <> None ->
                   Forall (fun d0 => mtu d0 <= MTK_PP_MAX_BUF_SIZE H) devs).
    { intros [Ho|[Hn|Hone]] Hnp.
      - apply Hm, Ho.
      - contradiction.
      - rewrite Hone. constructor; [exact Hfit|constructor]. }
    destruct restart; cbv zeta; cbn [prog add_call with_prog];
      destruct (prog eth) as [q|] eqn:Eq;
      cbn [fst snd prog hwlro regs calls add_call with_prog].
    all: split;
      [right; split; [exact Hc|]; split; [reflexivity|]; split; [exact Hfit|];
       split; [reflexivity|]; split; [exact El|];
       split; [first [left; reflexivity|right; reflexivity]|]
      |intros Hcase; split; cbn [prog hwlro add_call with_prog];
       [intros Hnp; apply (Hall Hcase Hnp)|rewrite El; discriminate]].
    + exists ([mtk_stop (id d)] ++ [bpf_prog_put q] ++ [mtk_open (id d)]).
      split; [rewrite <- !app_assoc; reflexivity|].
      intros p. rewrite (Hsplit p [mtk_stop (id d)] [mtk_open (id d)]). cbn. lia.
    + exists ([mtk_stop (id d)] ++ [] ++ [mtk_open (id d)]).
      split; [rewrite <- !app_assoc; reflexivity|].
      intros p. rewrite (Hsplit p [mtk_stop (id d)] [mtk_open (id d)]). cbn. lia.
    + exists ([] ++ [bpf_prog_put q] ++ []).
      split; [reflexivity|].
      intros p. rewrite (Hsplit p [] []). cbn. lia.
    + exists []. split; [rewrite app_nil_r; reflexivity|].
      intros p. rewrite bool_decide_eq_false_2 by discriminate. reflexivity.
Qed.

(** *** The receive length field of the MAC control register *)

(** The bucket [mtk_set_mcr_max_rx] selects for a frame length. *)
Definition max_rx_bucket (val : Z) : Z :=
  if val <=? 1518 then MAC_MCR_MAX_RX_1518 H
  else if val <=? 1536 then MAC_MCR_MAX_RX_1536 H
  else if val <=? 1552 then MAC_MCR_MAX_RX_1552 H
  else MAC_MCR_MAX_RX_2048 H.

Lemma field_replace v m f :
  Z.land f (Z.lnot m) = 0 ->
  Z.land (Z.lor (Z.land v (Z.lnot m)) f) m = f /\
  Z.land (Z.lor (Z.land v (Z.lnot m)) f) (Z.lnot m) = Z.land v (Z.lnot m).
Proof.
  intros Hf.
  assert (Hb : forall n, 0 <= n -> Z.testbit f n && negb (Z.testbit m n) = false).
  { intros n Hn. rewrite <- Z.lnot_spec, <- Z.land_spec, Hf by exact Hn. apply Z.bits_0. }
  split; apply Z.bits_inj'; intros n Hn; specialize (Hb n Hn);
    rewrite ?Z.land_spec, ?Z.lor_spec, ?Z.land_spec, ?Z.lnot_spec by exact Hn;
    destruct (Z.testbit v n), (Z.testbit m n), (Z.testbit f n); try reflexivity;
    discriminate.
Qed.

Lemma set_mcr_max_rx_reg val d eth :
  caps_mt7628 eth = false ->
  regs (mtk_set_mcr_max_rx val d eth) (MTK_MAC_MCR H (id d)) =
    Z.lor (Z.land (regs eth (MTK_MAC_MCR H (id d))) (Z.lnot (MAC_MCR_MAX_RX_MASK H)))
          (MAC_MCR_MAX_RX H (max_rx_bucket val)) /\
  forall r, r <> MTK_MAC_MCR H (id d) -> regs (mtk_set_mcr_max_rx val d eth) r = regs eth r.
Proof.
  intros Hc. unfold mtk_set_mcr_max_rx, max_rx_bucket, mtk_r32. rewrite Hc.
  set (new := if val <=? 1518 then _ else _).
  assert (Hnew : new = Z.lor (Z.land (regs eth (MTK_MAC_MCR H (id d)))
                                (Z.lnot (MAC_MCR_MAX_RX_MASK H)))
                             (MAC_MCR_MAX_RX H
                                (if val <=? 1518 then MAC_MCR_MAX_RX_1518 H
                                 else if val <=? 1536 then MAC_MCR_MAX_RX_1536 H
                                 else if val <=? 1552 then MAC_MCR_MAX_RX_1552 H
                                 else MAC_MCR_MAX_RX_2048 H))).
  { unfold new. destruct (val <=? 1518); [reflexivity|].
    destruct (val <=? 1536); [reflexivity|]. destruct (val <=? 1552); reflexivity. }
  rewrite <- Hnew. clearbody new.
  destruct (Z.eqb_spec new (regs eth (MTK_MAC_MCR H (id d)))) as [He|He]; cbn [negb].
  - split; [symmetry; exact He|reflexivity].
  - unfold mtk_w32. cbn [regs]. rewrite Z.eqb_refl. split; [reflexivity|].
    intros r Hr. replace (r =? MTK_MAC_MCR H (id d)) with false
      by (symmetry; apply Z.eqb_neq; exact Hr). reflexivity.
Qed.

(** X24: [mtk_set_mcr_max_rx] touches nothing but the receive length
    field of the control register of its MAC: afterwards the field holds
    the bucket for the frame length (1518, 1536, 1552 or 2048 bytes),
    the other bits of the register and all other registers are as
    before, and a second call with the same length changes nothing.  On
    MT7628 the call does nothing.  This is for a header whose
    [MAC_MCR_MAX_RX] puts its argument inside [MAC_MCR_MAX_RX_MASK]. *)
Theorem set_mcr_max_rx_field_only val d eth :
  (forall x, Z.land (MAC_MCR_MAX_RX H x) (Z.lnot (MAC_MCR_MAX_RX_MASK H)) = 0) ->
  let mcr := MTK_MAC_MCR H (id d) in
  let eth' := mtk_set_mcr_max_rx val d eth in
  (if caps_mt7628 eth then eth' = eth
   else
     Z.land (regs eth' mcr) (MAC_MCR_MAX_RX_MASK H) = MAC_MCR_MAX_RX H (max_rx_bucket val) /\
     Z.land (regs eth' mcr) (Z.lnot (MAC_MCR_MAX_RX_MASK H)) =
       Z.land (regs eth mcr) (Z.lnot (MAC_MCR_MAX_RX_MASK H)) /\
     forall r, r <> mcr -> regs eth' r = regs eth r) /\
  prog eth' = prog eth /\ hwlro eth' = hwlro eth /\ calls eth' = calls eth /\
  resetting eth' = resetting eth /\
  mtk_set_mcr_max_rx val d eth' = eth'.
Proof.
  intros Hin mcr eth'.
  destruct (set_mcr_max_rx_soft val d eth) as (S1 & S2 & S3 & S4 & Hc').
  fold eth' in S1, S2, S3, S4, Hc'.
  destruct (caps_mt7628 eth) eqn:Hc.
  - assert (E : eth' = eth) by (unfold eth', mtk_set_mcr_max_rx; rewrite Hc; reflexivity).
    split; [exact E|]. repeat (split; [assumption|]).
    rewrite E. unfold mtk_set_mcr_max_rx. rewrite Hc. reflexivity.
  - destruct (set_mcr_max_rx_reg val d eth Hc) as [Hr Ho]. fold mcr eth' in Hr, Ho.
    destruct (field_replace (regs eth mcr) (MAC_MCR_MAX_RX_MASK H)
                (MAC_MCR_MAX_RX H (max_rx_bucket val)) (Hin _)) as [F1 F2].
    split; [rewrite Hr; split; [exact F1|split; [exact F2|exact Ho]]|].
    repeat (split; [assumption|]).
    unfold mtk_set_mcr_max_rx at 1. rewrite Hc'. unfold mtk_r32.
    fold mcr. fold (max_rx_bucket val).
    set (new := if val <=? 1518 then _ else _).
    assert (Hnew : new = regs eth' mcr).
    { assert (Hn : new = Z.lor (Z.land (regs eth' mcr) (Z.lnot (MAC_MCR_MAX_RX_MASK H)))
                               (MAC_MCR_MAX_RX H (max_rx_bucket val))).
      { unfold new, max_rx_bucket. destruct (val <=? 1518); [reflexivity|].
        destruct (val <=? 1536); [reflexivity|]. destruct (val <=? 1552); reflexivity. }
      rewrite Hn, Hr, F2. reflexivity. }
    rewrite Hnew, Z.eqb_refl. reflexivity.
Qed.

(** *** The station address *)

Lemma lor_shift_add x y k :
  0 <= k -> 0 <= y < 2 ^ k -> Z.lor (Z.shiftl x k) y = x * 2 ^ k + y.
Proof.
  intros Hk Hy. rewrite Z.shiftl_mul_pow2 by exact Hk.
  symmetry. apply Z.add_nocarry_lor.
  apply Z.bits_inj'. intros n Hn. rewrite Z.land_spec, Z.bits_0.
  destruct (Z.lt_ge_cases n k) as [Hlt|Hge].
  - rewrite Z.mul_pow2_bits_low by lia. reflexivity.
  - replace (Z.testbit y n) with false; [apply andb_false_r|].
    symmetry. destruct (Z.eq_dec y 0) as [->|Hne]; [apply Z.bits_0|].
    apply Z.bits_above_log2; [lia|].
    assert (Z.log2 y < k) by (apply Z.log2_lt_pow2; lia). lia.
Qed.

(** The two register words for an address of six bytes. *)
Lemma mac_words m0 m1 m2 m3 m4 m5 :
  0 <= m0 < 256 -> 0 <= m1 < 256 -> 0 <= m2 < 256 ->
  0 <= m3 < 256 -> 0 <= m4 < 256 -> 0 <= m5 < 256 ->
  u32 (Z.lor (Z.shiftl m0 8) m1) = m0 * 2 ^ 8 + m1 /\
  u32 (Z.lor (Z.lor (Z.lor (Z.shiftl m2 24) (Z.shiftl m3 16)) (Z.shiftl m4 8)) m5) =
    m2 * 2 ^ 24 + m3 * 2 ^ 16 + m4 * 2 ^ 8 + m5.
Proof.
  intros H0 H1 H2 H3 H4 H5. unfold u32. split.
  - rewrite lor_shift_add by lia. apply Z.mod_small. lia.
  - rewrite <- !Z.lor_assoc.
    rewrite (lor_shift_add m4 m5 8) by lia.
    rewrite (lor_shift_add m3 _ 16) by lia.
    rewrite (lor_shift_add m2 _ 24) by lia.
    rewrite Z.mod_small by lia. lia.
Qed.

(** X25: [mtk_set_mac_address] for an address of six bytes.  If
    [eth_mac_addr] refuses the address, its error is returned and
    nothing changes.  During a reset the call returns [-EBUSY] with the
    address already stored in the net device and no register written.
    Otherwise the two address registers of the MAC (of the device, on
    MT7628) hold the address, most significant byte first, two bytes in
    the high and four in the low register, and no other register
    changes. *)
Theorem set_mac_address_registers mac_addr_ret m0 m1 m2 m3 m4 m5 d eth :
  0 <= m0 < 256 -> 0 <= m1 < 256 -> 0 <= m2 < 256 ->
  0 <= m3 < 256 -> 0 <= m4 < 256 -> 0 <= m5 < 256 ->
  let p := [m0; m1; m2; m3; m4; m5] in
  let adrh := if caps_mt7628 eth then MT7628_SDM_MAC_ADRH H else MTK_GDMA_MAC_ADRH H (id d) in
  let adrl := if caps_mt7628 eth then MT7628_SDM_MAC_ADRL H else MTK_GDMA_MAC_ADRL H (id d) in
  adrh <> adrl ->
  let r := mtk_set_mac_address mac_addr_ret p d eth in
  if nonzero mac_addr_ret then r = (mac_addr_ret, d, eth)
  else
    r.1.2 = with_dev_addr p d /\
    if resetting eth then r.1.1 = - EBUSY /\ r.2 = eth
    else
      r.1.1 = 0 /\
      regs r.2 adrh = m0 * 2 ^ 8 + m1 /\
      regs r.2 adrl = m2 * 2 ^ 24 + m3 * 2 ^ 16 + m4 * 2 ^ 8 + m5 /\
      (forall x, x <> adrh -> x <> adrl -> regs r.2 x = regs eth x) /\
      prog r.2 = prog eth /\ hwlro r.2 = hwlro eth /\ calls r.2 = calls eth.
Proof.
  intros H0 H1 H2 H3 H4 H5 p adrh adrl Hne r.
  unfold r, mtk_set_mac_address, nonzero.
  destruct (Z.eqb_spec mac_addr_ret 0) as [Hz|Hz]; cbn [negb]; [|reflexivity].
  cbn [dev_addr with_dev_addr id].
  destruct (resetting eth); [cbn [fst snd]; repeat split|].
  destruct (mac_words m0 m1 m2 m3 m4 m5 H0 H1 H2 H3 H4 H5) as [Whi Wlo].
  unfold p. cbn [lookup_total list_lookup_total].
  rewrite Whi, Wlo.
  assert (Hw : forall a b,
             a <> b ->
             let e2 := mtk_w32 (m2 * 2 ^ 24 + m3 * 2 ^ 16 + m4 * 2 ^ 8 + m5) b
                         (mtk_w32 (m0 * 2 ^ 8 + m1) a eth) in
             regs e2 a = m0 * 2 ^ 8 + m1 /\
             regs e2 b = m2 * 2 ^ 24 + m3 * 2 ^ 16 + m4 * 2 ^ 8 + m5 /\
             (forall x, x <> a -> x <> b -> regs e2 x = regs eth x) /\
             prog e2 = prog eth /\ hwlro e2 = hwlro eth /\ calls e2 = calls eth).
  { intros a b Hab e2. unfold e2, mtk_w32. cbn [regs prog hwlro calls].
    rewrite !Z.eqb_refl.
    replace (a =? b) with false by (symmetry; apply Z.eqb_neq; exact Hab).
    split; [reflexivity|]. split; [reflexivity|]. split; [|repeat split].
    intros x Ha Hb.
    replace (x =? b) with false by (symmetry; apply Z.eqb_neq; exact Hb).
    replace (x =? a) with false by (symmetry; apply Z.eqb_neq; exact Ha).
    reflexivity. }
  unfold adrh, adrl in *. destruct (caps_mt7628 eth); cbn [fst snd];
    (split; [reflexivity|split; [reflexivity|exact (Hw _ _ Hne)]]).
Qed.

(** *** The transmit queue *)

(** X26: [mtk_select_queue] never names a queue the device does not
    have: on a device with at most 65536 transmit queues it returns a
    queue number below [num_tx_queues], which is 0 or else the MAC's id
    or, on a DSA port, the queue mapping of the packet plus three. *)
Theorem select_queue_in_range queue_mapping d :
  0 <= queue_mapping < 2 ^ 16 -> 0 <= id d < 2 ^ 32 ->
  0 < num_tx_queues d <= 2 ^ 16 ->
  let q := mtk_select_queue queue_mapping d in
  0 <= q < num_tx_queues d /\
  (q = 0 \/ q = if uses_dsa d then queue_mapping + 3 else id d).
Proof.
  intros Hm Hid Hn q. unfold q, mtk_select_queue, u32.
  rewrite (Z.mod_small (queue_mapping + 3)) by lia.
  rewrite (Z.mod_small (id d)) by lia.
  set (queue := if uses_dsa d then queue_mapping + 3 else id d).
  assert (Hq : 0 <= queue) by (unfold queue; destruct (uses_dsa d); lia).
  clearbody queue.
  destruct (Z.leb_spec (num_tx_queues d) queue) as [Hge|Hlt].
  - rewrite Z.mod_small by lia. split; [lia|left; reflexivity].
  - rewrite Z.mod_small by lia. split; [lia|right; reflexivity].
Qed.
End WithHeader.

(** *** A reference configuration for the examples

    Values for a 32-bit ARM system with pages of 4096 bytes and cache
    lines of 64 bytes. *)

Definition ref_header : header :=
  {| MTK_PP_MAX_BUF_SIZE := 3520;
     MTK_RX_ETH_HLEN := 22;
     MTK_RX_HLEN := 88;
     MTK_MAX_RX_LENGTH_2K := 2048;
     NET_SKB_PAD := 64;
     NET_IP_ALIGN := 2;
     SMP_CACHE_BYTES := 64;
     sizeof_skb_shared_info := 320;
     BITS_PER_LONG := 32;
     MAC_MCR_MAX_RX_MASK := GENMASK 25 24;
     MAC_MCR_MAX_RX := fun x => Z.land (GENMASK 25 24) (Z.shiftl x 24);
     MAC_MCR_MAX_RX_1518 := 0;
     MAC_MCR_MAX_RX_1536 := 1;
     MAC_MCR_MAX_RX_1552 := 2;
     MAC_MCR_MAX_RX_2048 := 3;
     MTK_MAC_MCR := fun x => 0x10100 + x * 0x100;
     MT7628_SDM_MAC_ADRH := 0x0c10;
     MT7628_SDM_MAC_ADRL := 0x0c0c;
     MTK_GDMA_MAC_ADRH := fun x => 0x50c + x * 0x1000;
     MTK_GDMA_MAC_ADRL := fun x => 0x508 + x * 0x1000;
     XDP_SETUP_PROG := 0 |}.

(** The first MAC of the SoC, with the standard MTU. *)
Definition gmac0 : net_device :=
  {| id := 0; mtu := 1500; dev_addr := [0; 0; 0; 0; 0; 0]; num_tx_queues := 16;
     uses_dsa := false; running := true |}.

(** The second MAC of the SoC, with the standard MTU. *)
Definition gmac1 : net_device :=
  {| id := 1; mtu := 1500; dev_addr := [0; 0; 0; 0; 0; 0]; num_tx_queues := 16;
     uses_dsa := false; running := true |}.

(** A SoC with no program attached and a control register of the second
    MAC that asks for 2048-byte frames. *)
Definition soc : mtk_eth :=
  {| prog := None; hwlro := false; caps_mt7628 := false; resetting := false;
     regs := fun r => if r =? 0x10200 then 0x0300e30b else 0; calls := [] |}.

Lemma ref_max_rx_inside x :
  Z.land (MAC_MCR_MAX_RX ref_header x) (Z.lnot (MAC_MCR_MAX_RX_MASK ref_header)) = 0.
Proof.
  cbn [MAC_MCR_MAX_RX MAC_MCR_MAX_RX_MASK ref_header].
  apply Z.bits_inj'. intros n Hn.
  rewrite !Z.land_spec, Z.lnot_spec, Z.bits_0 by exact Hn.
  destruct (Z.testbit (GENMASK 25 24) n); [apply andb_false_r|reflexivity].
Qed.

(** An MTU of [INT_MAX] wraps in [mtk_max_frag_size]: the buffer is the
    one of a 2048-byte frame. *)
Example max_frag_size_wraps :
  mtk_max_frag_size ref_header (2 ^ 31 - 1) = 2496 /\
  mtk_max_buf_size ref_header 2496 = (2110, false).
Proof. vm_compute. split; reflexivity. Qed.

(** With a program attached, an MTU that makes the frame length wrap to
    a negative [int] is refused, the length being compared as an
    [unsigned long]; without a program it is stored. *)
Example change_mtu_wrapped_length :
  mtk_change_mtu ref_header (2 ^ 31 - 1) gmac1 (with_prog (Some 7) soc)
    = (- EINVAL, gmac1, with_prog (Some 7) soc) /\
  (mtk_change_mtu ref_header (2 ^ 31 - 1) gmac1 soc).1
    = (0, with_mtu (2 ^ 31 - 1) gmac1).
Proof. vm_compute. split; reflexivity. Qed.

(** [mtk_xdp_setup] checks the MTU of the net device it is called on
    only: with a jumbo MTU on the second MAC, a program is attached
    through the first one. *)
Example xdp_setup_checks_own_port :
  let devs := [gmac0; with_mtu 9000 gmac1] in
  let r := mtk_xdp ref_header 0 0 (Some 7) gmac0 soc in
  cfg_ok ref_header soc devs /\ r.1 = 0 /\ prog r.2 = Some 7 /\
  ~ cfg_ok ref_header r.2 devs.
Proof.
  cbv zeta. split; [split; [intros Hp; exfalso; apply Hp; reflexivity|discriminate]|].
  split; [reflexivity|]. split; [reflexivity|].
  intros [Hm _]. specialize (Hm ltac:(vm_compute; discriminate)).
  apply Forall_cons_1 in Hm as [_ Hm]. apply Forall_cons_1 in Hm as [Hm _].
  vm_compute in Hm. apply Hm. reflexivity.
Qed.

Lemma rx_buffer_holds_frame_witness :
  (mtk_max_buf_size ref_header (mtk_max_frag_size ref_header 1500)).2 = false /\
  2048 <= (mtk_max_buf_size ref_header (mtk_max_frag_size ref_header 1500)).1 /\
  1500 + 22 <= (mtk_max_buf_size ref_header (mtk_max_frag_size ref_header 1500)).1.
Proof.
  apply (rx_buffer_holds_frame ref_header 6 1500);
    first [reflexivity | vm_compute; discriminate | lia].
Defined.

Lemma mtu_and_program_stay_consistent_witness :
  cfg_ok ref_header (mtk_change_mtu ref_header 9000 gmac1 soc).2
    (<[1%nat := (mtk_change_mtu ref_header 9000 gmac1 soc).1.2]> [gmac0; gmac1]) /\
  (prog soc <> None \/ Some 7 = None \/ [gmac1] = [gmac1] ->
   cfg_ok ref_header (mtk_xdp ref_header 0 0 (Some 7) gmac1 soc).2 [gmac1]).
Proof.
  split.
  - destruct (mtu_and_program_stay_consistent ref_header 9000 0 0 (Some 7) 1 gmac1
                [gmac0; gmac1] soc) as [[Hm _] _].
    + vm_compute. split; [discriminate|reflexivity].
    + vm_compute. split; [discriminate|reflexivity].
    + vm_compute. discriminate.
    + reflexivity.
    + vm_compute. split; [discriminate|reflexivity].
    + vm_compute. split; [discriminate|reflexivity].
    + split; [intros Hp; exfalso; apply Hp; reflexivity|discriminate].
    + exact Hm.
  - destruct (mtu_and_program_stay_consistent ref_header 9000 0 0 (Some 7) 0 gmac1
                [gmac1] soc) as [_ [_ Hx]].
    + vm_compute. split; [discriminate|reflexivity].
    + vm_compute. split; [discriminate|reflexivity].
    + vm_compute. discriminate.
    + reflexivity.
    + vm_compute. split; [discriminate|reflexivity].
    + vm_compute. split; [discriminate|reflexivity].
    + split; [intros Hp; exfalso; apply Hp; reflexivity|discriminate].
    + exact Hx.
Defined.

Lemma set_mcr_max_rx_field_only_witness :
  Z.land (regs (mtk_set_mcr_max_rx ref_header 1522 gmac1 soc) 0x10200) (GENMASK 25 24)
    = Z.shiftl 1 24 /\
  Z.land (regs (mtk_set_mcr_max_rx ref_header 1522 gmac1 soc) 0x10200) (Z.lnot (GENMASK 25 24))
    = 0x0000e30b.
Proof.
  destruct (set_mcr_max_rx_field_only ref_header 1522 gmac1 soc ref_max_rx_inside)
    as [(Hf & Hr & _) _].
  split; [exact Hf|exact Hr].
Defined.

Lemma set_mac_address_registers_witness :
  regs (mtk_set_mac_address ref_header 0 [0x02; 0x11; 0x22; 0x33; 0x44; 0x55] gmac1 soc).2 0x150c
    = 0x0211 /\
  regs (mtk_set_mac_address ref_header 0 [0x02; 0x11; 0x22; 0x33; 0x44; 0x55] gmac1 soc).2 0x1508
    = 0x22334455.
Proof.
  destruct (set_mac_address_registers ref_header 0 0x02 0x11 0x22 0x33 0x44 0x55 gmac1 soc
              ltac:(lia) ltac:(lia) ltac:(lia) ltac:(lia) ltac:(lia) ltac:(lia)
              ltac:(vm_compute; discriminate))
    as (_ & _ & Hh & Hl & _).
  split; [exact Hh|exact Hl].
Defined.

Lemma select_queue_in_range_witness :
  0 <= mtk_select_queue 5 gmac1 < 16.
Proof.
  destruct (select_queue_in_range 5 gmac1 ltac:(lia) ltac:(vm_compute; split; discriminate || reflexivity)
              ltac:(vm_compute; split; discriminate || reflexivity))
    as [Hb _].
  exact Hb.
Defined.

End Dev.
